(** * Medlabsklad warehouse server: ledger, sessions and role gate

    A shallow embedding of [src/server.py]: session resolution
    ([_get_current_auth], [_require_auth], [_require_role], logout), every
    branch of [_route_api], [fetch_state] and the data behind the printable
    receipt.  The SQLite store is a record of tables, each table a list of
    rows in insertion order.  A request handler is a function from the store
    to an outcome: either a response together with the store to commit, or
    a raised exception (the [db_conn] context manager then rolls the
    transaction back).

    Conventions of the embedding:
    - SQL [INTEGER] columns and Python [int] values are [Z]; an integer
      of the payload is held against the 64-bit range where the source
      binds it to a statement ([OverflowError]), and the sum that
      [POST /api/receipts] stores follows SQLite past that range
      ([sqlite_add]); the other statements subtract quantities that the
      stock on record bounds, or give back stored quantities, and are
      written with the arithmetic of [Z], which is SQLite's as long as the
      rows are 64-bit integers and the results stay in the range;
    - SQL [REAL] columns and Python [float] values live in the carrier of
      [PyBuiltins], together with the few operations the handlers apply to
      them ([x > 0], [float * int]), [str.strip] and [str.lower];
    - timestamps ([now_utc], [created_at], [expires_at]) are [Z], with one
      clock reading per request;
    - the values drawn from [make_id] and [uuid4] are inputs of a request
      ([Env]); a primary-key clash raises [IntegrityError], as in SQLite;
    - a request carries its payload after the [str(..)], [float(..)] and
      [int(float(..))] conversions; the trimming and clamping that follow
      them in the source are part of the handlers here. *)

From Stdlib Require Import ZArith List String Bool Lia Floats.
From Stdlib Require Import Ascii DecimalString Sorted Permutation.
Import ListNotations.
Local Open Scope Z_scope.
Local Open Scope string_scope.

Set Implicit Arguments.

(** ** Python builtins used by the handlers *)

Class PyBuiltins := {
  pyfloat : Type;
  (** [0] as a float *)
  float_zero : pyfloat;
  (** [x > 0] *)
  float_gt0 : pyfloat -> bool;
  (** [x * n] for a float [x] and an int [n] *)
  float_mul_int : pyfloat -> Z -> pyfloat;
  (** [s.strip()] *)
  str_strip : string -> string;
  (** [s.lower()] *)
  str_lower : string -> string;
  float_gt0_zero : float_gt0 float_zero = false
}.

(** ** HTTP statuses and roles *)

Inductive HTTPStatus :=
| OK | CREATED | BAD_REQUEST | UNAUTHORIZED | FORBIDDEN | NOT_FOUND
| INTERNAL_SERVER_ERROR.

(** The [role] column: [CHECK(role IN ('owner','manager','viewer'))]. *)
Inductive Role := owner | manager | viewer.

Definition role_eqb (a b : Role) : bool :=
  match a, b with
  | owner, owner | manager, manager | viewer, viewer => true
  | _, _ => false
  end.

Definition role_of_string (s : string) : option Role :=
  if String.eqb s "owner" then Some owner
  else if String.eqb s "manager" then Some manager
  else if String.eqb s "viewer" then Some viewer
  else None.

(** Exceptions a handler can raise once its payload is converted. *)
Inductive Exn := IntegrityError | TypeError | OverflowError.

(** ** SQLite integers *)

(** The range of an SQLite [INTEGER].  Binding a Python [int] outside of it
    to a statement raises [OverflowError]. *)
Definition fits_int64 (z : Z) : bool := (- 2 ^ 63 <=? z)%Z && (z <? 2 ^ 63)%Z.

(** The double nearest to an integer, ties going to the even mantissa of
    53 bits: the conversion of an [INTEGER] to [REAL], and the rounding of
    a sum of doubles (for values below [2 ^ 1024], where doubles end). *)
Definition to_real (z : Z) : Z :=
  let m := Z.abs z in
  let e := (Z.log2 m - 52)%Z in
  if (e <=? 0)%Z then z
  else
    let q := Z.shiftr m e in
    let r := (m - Z.shiftl q e)%Z in
    let half := Z.shiftl 1 (e - 1) in
    let q' := if (half <? r)%Z || ((r =? half)%Z && Z.odd q)
              then (q + 1)%Z else q in
    (Z.sgn z * Z.shiftl q' e)%Z.

(** [a + b] for a column value [a] and a bound [INTEGER] [b], stored in a
    column of [INTEGER] affinity: the sum of two [INTEGER]s when it is in
    range; otherwise SQLite adds the two as doubles, and the column keeps
    the [REAL] (a value outside the 64-bit range stands for that [REAL]). *)
Definition sqlite_add (a b : Z) : Z :=
  if fits_int64 a && fits_int64 (a + b) then (a + b)%Z
  else to_real (to_real a + to_real b).

(** ** Generic table operations *)

(** [ORDER BY key DESC], rows with equal keys kept in table order. *)
Fixpoint insert_desc (A : Type) (key : A -> Z) (x : A) (l : list A) : list A :=
  match l with
  | [] => [x]
  | y :: l' => if (key y <=? key x)%Z then x :: l else y :: insert_desc key x l'
  end.

Definition order_by_desc (A : Type) (key : A -> Z) (l : list A) : list A :=
  fold_right (insert_desc key) [] l.

(** [UPDATE t SET .. WHERE cond]. *)
Definition update_where (A : Type) (cond : A -> bool) (f : A -> A) (t : list A) : list A :=
  map (fun x => if cond x then f x else x) t.

(** [DELETE FROM t WHERE cond]. *)
Definition delete_where (A : Type) (cond : A -> bool) (t : list A) : list A :=
  filter (fun x => negb (cond x)) t.

(** [cursor.rowcount] of an [UPDATE] or [DELETE] with condition [cond]. *)
Definition rowcount (A : Type) (cond : A -> bool) (t : list A) : nat :=
  List.length (filter cond t).

Section Server.

Context {B : PyBuiltins}.

(** [max(0, x)] on a float: [x] when [x > 0], else [0]. *)
Definition max0 (x : pyfloat) : pyfloat :=
  if float_gt0 x then x else float_zero.

(** ** Rows of the schema created by [init_db] *)

Record User := {
  u_id : string; u_name : string; u_email : string }.

Record Organization := {
  o_id : string; o_name : string; o_join_code : option string }.

Record Membership := {
  m_user_id : string; m_org_id : string; m_role : Role }.

Record Session := {
  s_token : string; s_user_id : string; s_org_id : string; s_expires_at : Z }.

Record Product := {
  p_id : string; p_org_id : string; p_name : string; p_sku : string;
  p_unit : string; p_price : pyfloat; p_stock : Z; p_purchase_price : pyfloat;
  p_created_at : Z }.

Record Receipt := {
  r_id : string; r_org_id : string; r_product_id : string; r_quantity : Z;
  r_cost : pyfloat; r_created_at : Z }.

Record Shipment := {
  sh_id : string; sh_org_id : string; sh_created_at : Z }.

(** [org_shipment_items]; the autoincremented [id] is the position in the
    table, so [ORDER BY id ASC] is table order. *)
Record ShipmentItem := {
  i_shipment_id : string; i_org_id : string; i_product_id : string;
  i_quantity : Z; i_price : pyfloat; i_amount : pyfloat }.

Record State := {
  users : list User;
  organizations : list Organization;
  memberships : list Membership;
  sessions : list Session;
  org_products : list Product;
  org_receipts : list Receipt;
  org_shipments : list Shipment;
  org_shipment_items : list ShipmentItem }.

Definition with_sessions (s : State) (t : list Session) : State :=
  {| users := users s; organizations := organizations s;
     memberships := memberships s; sessions := t;
     org_products := org_products s; org_receipts := org_receipts s;
     org_shipments := org_shipments s;
     org_shipment_items := org_shipment_items s |}.

Definition with_memberships (s : State) (t : list Membership) : State :=
  {| users := users s; organizations := organizations s;
     memberships := t; sessions := sessions s;
     org_products := org_products s; org_receipts := org_receipts s;
     org_shipments := org_shipments s;
     org_shipment_items := org_shipment_items s |}.

(** The four ledger tables replaced at once. *)
Definition with_ledger (s : State) (ps : list Product) (rs : list Receipt)
  (hs : list Shipment) (its : list ShipmentItem) : State :=
  {| users := users s; organizations := organizations s;
     memberships := memberships s; sessions := sessions s;
     org_products := ps; org_receipts := rs;
     org_shipments := hs; org_shipment_items := its |}.

Definition with_products (s : State) (ps : list Product) : State :=
  with_ledger s ps (org_receipts s) (org_shipments s) (org_shipment_items s).

Definition with_receipts (s : State) (rs : list Receipt) : State :=
  with_ledger s (org_products s) rs (org_shipments s) (org_shipment_items s).

Definition set_stock (p : Product) (n : Z) : Product :=
  {| p_id := p_id p; p_org_id := p_org_id p; p_name := p_name p;
     p_sku := p_sku p; p_unit := p_unit p; p_price := p_price p;
     p_stock := n; p_purchase_price := p_purchase_price p;
     p_created_at := p_created_at p |}.

Definition set_purchase_price (p : Product) (c : pyfloat) : Product :=
  {| p_id := p_id p; p_org_id := p_org_id p; p_name := p_name p;
     p_sku := p_sku p; p_unit := p_unit p; p_price := p_price p;
     p_stock := p_stock p; p_purchase_price := c;
     p_created_at := p_created_at p |}.

Definition set_price (p : Product) (c : pyfloat) : Product :=
  {| p_id := p_id p; p_org_id := p_org_id p; p_name := p_name p;
     p_sku := p_sku p; p_unit := p_unit p; p_price := c;
     p_stock := p_stock p; p_purchase_price := p_purchase_price p;
     p_created_at := p_created_at p |}.

Definition set_name (p : Product) (n : string) : Product :=
  {| p_id := p_id p; p_org_id := p_org_id p; p_name := n;
     p_sku := p_sku p; p_unit := p_unit p; p_price := p_price p;
     p_stock := p_stock p; p_purchase_price := p_purchase_price p;
     p_created_at := p_created_at p |}.

Definition set_role (m : Membership) (r : Role) : Membership :=
  {| m_user_id := m_user_id m; m_org_id := m_org_id m; m_role := r |}.

(** ** Responses *)

Record Me := {
  me_name : string; me_email : string; me_orgName : string;
  me_orgJoinCode : string; me_role : Role }.

Record ProductView := {
  pv_id : string; pv_name : string; pv_sku : string; pv_unit : string;
  pv_price : pyfloat; pv_stock : Z; pv_purchasePrice : pyfloat }.

Record ReceiptView := {
  rv_id : string; rv_productId : string; rv_quantity : Z; rv_cost : pyfloat;
  rv_createdAt : Z }.

Record ItemView := {
  iv_productId : string; iv_quantity : Z; iv_price : pyfloat;
  iv_amount : pyfloat }.

Record ShipmentView := {
  sv_id : string; sv_createdAt : Z; sv_items : list ItemView }.

Record StateView := {
  st_products : list ProductView;
  st_receipts : list ReceiptView;
  st_shipments : list ShipmentView }.

(** One table row of the printable receipt: the product name (absent when
    the [LEFT JOIN] finds no product), quantity, price and amount. *)
Record PrintRow := {
  pr_product_name : option string; pr_quantity : Z; pr_price : pyfloat;
  pr_amount : pyfloat }.

(** What the printable receipt of a shipment is rendered from. *)
Record PrintDoc := {
  pd_org_name : string; pd_doc_no : string; pd_created : Z;
  pd_rows : list PrintRow }.

Inductive Body :=
| BError (msg : string)
| BInternal (e : Exn)
| BState (v : StateView)
| BStateMe (v : StateView) (me : Me)
| BPrint (doc : PrintDoc)
| BOk.

Record Response := { status : HTTPStatus; body : Body }.

Definition error (st : HTTPStatus) (msg : string) : Response :=
  {| status := st; body := BError msg |}.

(** ** [row_to_product] and [fetch_state] *)

Definition row_to_product (r : Product) : ProductView :=
  {| pv_id := p_id r; pv_name := p_name r; pv_sku := p_sku r;
     pv_unit := p_unit r; pv_price := p_price r; pv_stock := p_stock r;
     pv_purchasePrice := p_purchase_price r |}.

Definition receipt_view (r : Receipt) : ReceiptView :=
  {| rv_id := r_id r; rv_productId := r_product_id r;
     rv_quantity := r_quantity r; rv_cost := r_cost r;
     rv_createdAt := r_created_at r |}.

Definition item_view (i : ShipmentItem) : ItemView :=
  {| iv_productId := i_product_id i; iv_quantity := i_quantity i;
     iv_price := i_price i; iv_amount := i_amount i |}.

Definition shipment_view (its : list ShipmentItem) (sh : Shipment) : ShipmentView :=
  {| sv_id := sh_id sh; sv_createdAt := sh_created_at sh;
     sv_items :=
       map item_view
         (filter (fun i => String.eqb (i_shipment_id i) (sh_id sh)) its) |}.

Definition fetch_state (s : State) (org_id : string) : StateView :=
  {| st_products :=
       map row_to_product
         (order_by_desc p_created_at
            (filter (fun p => String.eqb (p_org_id p) org_id) (org_products s)));
     st_receipts :=
       map receipt_view
         (order_by_desc r_created_at
            (filter (fun r => String.eqb (r_org_id r) org_id) (org_receipts s)));
     st_shipments :=
       map (shipment_view (org_shipment_items s))
         (order_by_desc sh_created_at
            (filter (fun h => String.eqb (sh_org_id h) org_id) (org_shipments s))) |}.

(** [render_shipment_print_html], up to the HTML text: the shipment row is
    looked up under the organization, its items are joined with the product
    names; the numbering and the total are computed from these rows. *)
Definition render_shipment_print_html (s : State) (org_id org_name shipment_id : string)
  : option PrintDoc :=
  match find (fun h => String.eqb (sh_id h) shipment_id
                       && String.eqb (sh_org_id h) org_id) (org_shipments s) with
  | None => None
  | Some shipment =>
    Some {| pd_org_name := org_name; pd_doc_no := sh_id shipment;
            pd_created := sh_created_at shipment;
            pd_rows :=
              map (fun i =>
                     {| pr_product_name :=
                          option_map p_name
                            (find (fun p => String.eqb (p_id p) (i_product_id i))
                               (org_products s));
                        pr_quantity := i_quantity i; pr_price := i_price i;
                        pr_amount := i_amount i |})
                (filter (fun i => String.eqb (i_shipment_id i) shipment_id
                                  && String.eqb (i_org_id i) org_id)
                   (org_shipment_items s)) |}
  end.

(** ** Sessions: [_get_current_auth], [_require_auth], [_require_role] *)

Record Auth := {
  a_token : string; a_userId : string; a_orgId : string; a_name : string;
  a_email : string; a_orgName : string; a_orgJoinCode : string;
  a_role : Role }.

(** The row of the four-table join for [token], if there is one. *)
Definition session_row (token : string) (s : State)
  : option (Session * User * Organization * Membership) :=
  match find (fun x => String.eqb (s_token x) token) (sessions s) with
  | None => None
  | Some se =>
    match find (fun u => String.eqb (u_id u) (s_user_id se)) (users s) with
    | None => None
    | Some u =>
      match find (fun o => String.eqb (o_id o) (s_org_id se)) (organizations s) with
      | None => None
      | Some o =>
        match find (fun m => String.eqb (m_user_id m) (s_user_id se)
                             && String.eqb (m_org_id m) (s_org_id se))
                   (memberships s) with
        | None => None
        | Some m => Some (se, u, o, m)
        end
      end
    end
  end.

Definition delete_session (token : string) (s : State) : State :=
  with_sessions s
    (delete_where (fun x => String.eqb (s_token x) token) (sessions s)).

Definition _get_current_auth (now : Z) (cookie : option string) (s : State)
  : option Auth * State :=
  match cookie with
  | None => (None, s)
  | Some token =>
    if String.eqb token "" then (None, s)
    else
      match session_row token s with
      | None => (None, s)
      | Some (se, u, o, m) =>
        if (s_expires_at se <=? now)%Z then (None, delete_session token s)
        else
          (Some {| a_token := s_token se; a_userId := s_user_id se;
                   a_orgId := s_org_id se; a_name := u_name u;
                   a_email := u_email u; a_orgName := o_name o;
                   a_orgJoinCode :=
                     match o_join_code o with Some c => c | None => "" end;
                   a_role := m_role m |}, s)
      end
  end.

Definition _require_auth (now : Z) (cookie : option string) (s : State)
  : (Response + Auth) * State :=
  match _get_current_auth now cookie s with
  | (None, s') => (inl (error UNAUTHORIZED "Требуется авторизация"), s')
  | (Some auth, s') => (inr auth, s')
  end.

Definition _require_role (auth : Auth) (allowed : list Role) : bool :=
  existsb (role_eqb (a_role auth)) allowed.

(** [POST /api/auth/logout] from [_route_auth]. *)
Definition logout (now : Z) (cookie : option string) (s : State)
  : Response * State :=
  match _get_current_auth now cookie s with
  | (Some auth, s') => ({| status := OK; body := BOk |}, delete_session (a_token auth) s')
  | (None, s') => ({| status := OK; body := BOk |}, s')
  end.

(** ** Requests

    The clock and the generated identifiers of one request. *)
Record Env := {
  now : Z;
  gen_product_id : string;   (* make_id("p") *)
  gen_receipt_id : string;   (* make_id("r") *)
  gen_shipment_id : string;  (* make_id("s") *)
  gen_sku : string           (* f"AUTO-{uuid.uuid4().hex[:4].upper()}" *) }.

(** One element of the [items] list of [POST /api/shipments]. *)
Record ItemPayload := {
  ip_productId : string; ip_quantity : Z; ip_price : option pyfloat }.

(** One element of [prepared]. *)
Record Line := {
  l_productId : string; l_qty : Z; l_price : option pyfloat }.

Inductive Request :=
| GetState
| PostMembershipRole (email role : string)
| PostProduct (name sku unit : string) (price : pyfloat) (stock : Z)
    (purchasePrice : pyfloat)
| PatchProductPrice (product_id : string) (price : pyfloat)
| PatchProduct (product_id : string) (name : string) (price : pyfloat)
| DeleteProduct (product_id : string)
| PostReceipt (productId : string) (quantity : Z) (cost : pyfloat)
| DeleteReceipt (receipt_id : string)
| PostShipment (items : list ItemPayload)
| DeleteShipment (shipment_id : string).

(** What running a handler body inside [with db_conn() as conn] gives. *)
Inductive Outcome :=
| Return (r : Response) (s : State)
| Raise (e : Exn).

(** ** Statements on the ledger tables *)

Definition product_hit (product_id org_id : string) (p : Product) : bool :=
  String.eqb (p_id p) product_id && String.eqb (p_org_id p) org_id.

Definition receipt_hit (receipt_id org_id : string) (r : Receipt) : bool :=
  String.eqb (r_id r) receipt_id && String.eqb (r_org_id r) org_id.

Definition shipment_hit (shipment_id org_id : string) (h : Shipment) : bool :=
  String.eqb (sh_id h) shipment_id && String.eqb (sh_org_id h) org_id.

(** [SELECT .. FROM org_products WHERE id = ? AND org_id = ?], [fetchone]. *)
Definition select_product (product_id org_id : string) (s : State) : option Product :=
  find (product_hit product_id org_id) (org_products s).

(** [INSERT INTO org_products]: [id] is the primary key. *)
Definition insert_product (p : Product) (s : State) : option State :=
  if existsb (fun q => String.eqb (p_id q) (p_id p)) (org_products s) then None
  else Some (with_products s (org_products s ++ [p])).

(** [INSERT INTO org_receipts]: [id] is the primary key. *)
Definition insert_receipt (r : Receipt) (s : State) : option State :=
  if existsb (fun q => String.eqb (r_id q) (r_id r)) (org_receipts s) then None
  else Some (with_receipts s (org_receipts s ++ [r])).

(** [INSERT INTO org_shipments]: [id] is the primary key. *)
Definition insert_shipment (h : Shipment) (s : State) : option State :=
  if existsb (fun q => String.eqb (sh_id q) (sh_id h)) (org_shipments s) then None
  else Some (with_ledger s (org_products s) (org_receipts s)
               (org_shipments s ++ [h]) (org_shipment_items s)).

(** [INSERT INTO org_shipment_items]: the key is autoincremented. *)
Definition insert_item (i : ShipmentItem) (s : State) : State :=
  with_ledger s (org_products s) (org_receipts s) (org_shipments s)
    (org_shipment_items s ++ [i]).

(** [DELETE FROM org_products WHERE cond], with the [ON DELETE CASCADE] of
    the receipts and shipment items that reference a deleted product. *)
Definition delete_products (cond : Product -> bool) (s : State) : State :=
  let gone id := existsb (fun p => cond p && String.eqb (p_id p) id) (org_products s) in
  with_ledger s
    (delete_where cond (org_products s))
    (delete_where (fun r => gone (r_product_id r)) (org_receipts s))
    (org_shipments s)
    (delete_where (fun i => gone (i_product_id i)) (org_shipment_items s)).

(** [DELETE FROM org_shipments WHERE cond], with the [ON DELETE CASCADE] of
    the items of a deleted shipment. *)
Definition delete_shipments (cond : Shipment -> bool) (s : State) : State :=
  let gone id := existsb (fun h => cond h && String.eqb (sh_id h) id) (org_shipments s) in
  with_ledger s
    (org_products s)
    (org_receipts s)
    (delete_where cond (org_shipments s))
    (delete_where (fun i => gone (i_shipment_id i)) (org_shipment_items s)).

(** The shipments of [org_id] that the [LEFT JOIN .. GROUP BY s.id HAVING
    COUNT(i.id)=0] subquery selects: those with no item.  The outer
    [DELETE .. WHERE id IN (..)] goes by the primary key, so it deletes
    these rows. *)
Definition empty_shipment (org_id : string) (s : State) (h : Shipment) : bool :=
  String.eqb (sh_org_id h) org_id
  && negb (existsb (fun i => String.eqb (i_shipment_id i) (sh_id h))
             (org_shipment_items s)).

(** [UPDATE org_products SET stock = f(stock) WHERE id = ? AND org_id = ?]. *)
Definition update_stock (product_id org_id : string) (f : Z -> Z) (s : State) : State :=
  with_products s
    (update_where (product_hit product_id org_id)
       (fun p => set_stock p (f (p_stock p))) (org_products s)).

Definition state_response (st : HTTPStatus) (s : State) (org_id : string) : Response :=
  {| status := st; body := BState (fetch_state s org_id) |}.

(** ** The branches of [_route_api] *)

Definition get_state (auth : Auth) (s : State) : Outcome :=
  Return {| status := OK;
            body := BStateMe (fetch_state s (a_orgId auth))
                      {| me_name := a_name auth; me_email := a_email auth;
                         me_orgName := a_orgName auth;
                         me_orgJoinCode := a_orgJoinCode auth;
                         me_role := a_role auth |} |} s.

Definition post_memberships_role (auth : Auth) (email role : string) (s : State)
  : Outcome :=
  if negb (_require_role auth [owner]) then
    Return (error FORBIDDEN "Только владелец может менять роли") s
  else
    let email := str_lower (str_strip email) in
    let role := str_strip role in
    match role_of_string role with
    | None => Return (error BAD_REQUEST "Укажите корректные email и role") s
    | Some new_role =>
      if String.eqb email "" then
        Return (error BAD_REQUEST "Укажите корректные email и role") s
      else
        match find (fun u => String.eqb (u_email u) email) (users s) with
        | None => Return (error NOT_FOUND "Пользователь не найден") s
        | Some user =>
          let hit m := String.eqb (m_user_id m) (u_id user)
                       && String.eqb (m_org_id m) (a_orgId auth) in
          match find hit (memberships s) with
          | None =>
            Return (error NOT_FOUND "Пользователь не состоит в вашей организации") s
          | Some _ =>
            Return {| status := OK; body := BOk |}
              (with_memberships s
                 (update_where hit (fun m => set_role m new_role) (memberships s)))
          end
        end
    end.

(** [POST /api/products].  The [INSERT] into [org_products] binds the
    clamped [stock]: outside the 64-bit range the binding raises
    [OverflowError] before the statement runs. *)
Definition post_products (env : Env) (auth : Auth) (name sku unit : string)
  (price : pyfloat) (stock : Z) (purchasePrice : pyfloat) (s : State) : Outcome :=
  if negb (_require_role auth [owner; manager]) then
    Return (error FORBIDDEN "Недостаточно прав") s
  else
    let org_id := a_orgId auth in
    let product_id := gen_product_id env in
    let name := str_strip name in
    if String.eqb name "" then
      Return (error BAD_REQUEST "Название обязательно") s
    else
      let sku := if String.eqb (str_strip sku) "" then gen_sku env else str_strip sku in
      let unit := if String.eqb (str_strip unit) "" then "шт" else str_strip unit in
      let price := max0 price in
      let stock := Z.max 0 stock in
      let purchase := max0 purchasePrice in
      if negb (fits_int64 stock) then Raise OverflowError
      else
        match insert_product
                {| p_id := product_id; p_org_id := org_id; p_name := name;
                   p_sku := sku; p_unit := unit; p_price := price;
                   p_stock := stock; p_purchase_price := purchase;
                   p_created_at := now env |} s with
        | None => Raise IntegrityError
        | Some s1 =>
          if (0 <? stock)%Z then
            match insert_receipt
                    {| r_id := gen_receipt_id env; r_org_id := org_id;
                       r_product_id := product_id; r_quantity := stock;
                       r_cost := purchase; r_created_at := now env |} s1 with
            | None => Raise IntegrityError
            | Some s2 => Return (state_response CREATED s2 org_id) s2
            end
          else Return (state_response CREATED s1 org_id) s1
        end.

Definition patch_product_price (auth : Auth) (product_id : string)
  (price : pyfloat) (s : State) : Outcome :=
  if negb (_require_role auth [owner; manager]) then
    Return (error FORBIDDEN "Недостаточно прав") s
  else
    let org_id := a_orgId auth in
    let price := max0 price in
    if Nat.eqb (rowcount (product_hit product_id org_id) (org_products s)) 0 then
      Return (error NOT_FOUND "Товар не найден") s
    else
      let s1 := with_products s
                  (update_where (product_hit product_id org_id)
                     (fun p => set_price p price) (org_products s)) in
      Return (state_response OK s1 org_id) s1.

Definition patch_product (auth : Auth) (product_id : string) (name : string)
  (price : pyfloat) (s : State) : Outcome :=
  if negb (_require_role auth [owner; manager]) then
    Return (error FORBIDDEN "Недостаточно прав") s
  else
    let org_id := a_orgId auth in
    let name := str_strip name in
    let price := max0 price in
    if String.eqb name "" then
      Return (error BAD_REQUEST "Название товара обязательно") s
    else if Nat.eqb (rowcount (product_hit product_id org_id) (org_products s)) 0 then
      Return (error NOT_FOUND "Товар не найден") s
    else
      let s1 := with_products s
                  (update_where (product_hit product_id org_id)
                     (fun p => set_price (set_name p name) price) (org_products s)) in
      Return (state_response OK s1 org_id) s1.

Definition delete_product (auth : Auth) (product_id : string) (s : State)
  : Outcome :=
  if negb (_require_role auth [owner; manager]) then
    Return (error FORBIDDEN "Недостаточно прав") s
  else
    let org_id := a_orgId auth in
    if Nat.eqb (rowcount (product_hit product_id org_id) (org_products s)) 0 then
      Return (error NOT_FOUND "Товар не найден") s
    else
      let s1 := delete_products (product_hit product_id org_id) s in
      let s2 := delete_shipments (empty_shipment org_id s1) s1 in
      Return (state_response OK s2 org_id) s2.

(** [POST /api/receipts].  The [UPDATE] binds [quantity]
    ([OverflowError] outside the 64-bit range) and stores
    [stock + quantity] as SQLite computes it. *)
Definition post_receipts (env : Env) (auth : Auth) (productId : string)
  (quantity : Z) (cost : pyfloat) (s : State) : Outcome :=
  if negb (_require_role auth [owner; manager]) then
    Return (error FORBIDDEN "Недостаточно прав") s
  else
    let org_id := a_orgId auth in
    let product_id := str_strip productId in
    let cost := max0 cost in
    if String.eqb product_id "" || (quantity <=? 0)%Z then
      Return (error BAD_REQUEST "Неверные данные приемки") s
    else
      match select_product product_id org_id s with
      | None => Return (error NOT_FOUND "Товар не найден") s
      | Some _ =>
        if negb (fits_int64 quantity) then Raise OverflowError
        else
          let s1 := with_products s
                      (update_where (product_hit product_id org_id)
                         (fun p =>
                            set_purchase_price
                              (set_stock p (sqlite_add (p_stock p) quantity))
                              (if float_gt0 cost then cost else p_purchase_price p))
                         (org_products s)) in
          match insert_receipt
                  {| r_id := gen_receipt_id env; r_org_id := org_id;
                     r_product_id := product_id; r_quantity := quantity;
                     r_cost := cost; r_created_at := now env |} s1 with
          | None => Raise IntegrityError
          | Some s2 => Return (state_response CREATED s2 org_id) s2
          end
      end.

Definition delete_receipt (auth : Auth) (receipt_id : string) (s : State)
  : Outcome :=
  if negb (_require_role auth [owner; manager]) then
    Return (error FORBIDDEN "Недостаточно прав") s
  else
    let org_id := a_orgId auth in
    match find (receipt_hit receipt_id org_id) (org_receipts s) with
    | None => Return (error NOT_FOUND "Приемка не найдена") s
    | Some receipt =>
      let q := r_quantity receipt in
      let s1 := with_products s
                  (update_where (product_hit (r_product_id receipt) org_id)
                     (fun p =>
                        set_stock p
                          (if (p_stock p - q <? 0)%Z then 0 else p_stock p - q))
                     (org_products s)) in
      let s2 := with_receipts s1
                  (delete_where (receipt_hit receipt_id org_id) (org_receipts s1)) in
      Return (state_response OK s2 org_id) s2
    end.

(** The first loop of [POST /api/shipments]: every item is trimmed and
    checked; [None] stands for the 400 answer on the first bad item. *)
Fixpoint prepare (items : list ItemPayload) : option (list Line) :=
  match items with
  | [] => Some []
  | item :: rest =>
    let product_id := str_strip (ip_productId item) in
    let qty := ip_quantity item in
    let custom_price := option_map max0 (ip_price item) in
    if String.eqb product_id "" || (qty <=? 0)%Z then None
    else
      match prepare rest with
      | None => None
      | Some prepared =>
        Some ({| l_productId := product_id; l_qty := qty;
                 l_price := custom_price |} :: prepared)
      end
  end.

(** The second loop: each line is looked up and compared with the stock
    on record; the answer of the first line that fails, if any. *)
Fixpoint check_lines (org_id : string) (prepared : list Line) (s : State)
  : option Response :=
  match prepared with
  | [] => None
  | line :: rest =>
    match select_product (l_productId line) org_id s with
    | None => Some (error NOT_FOUND "Товар не найден")
    | Some product =>
      if (p_stock product <? l_qty line)%Z then
        Some (error BAD_REQUEST "Недостаточно товара на складе")
      else check_lines org_id rest s
    end
  end.

(** The third loop: price, amount, stock decrement and item insertion for
    each line in turn.  [None] is the [TypeError] of [product["price"]] on a
    product that is not there. *)
Fixpoint commit_lines (shipment_id org_id : string) (prepared : list Line)
  (s : State) : option State :=
  match prepared with
  | [] => Some s
  | line :: rest =>
    let product_id := l_productId line in
    let qty := l_qty line in
    let product := select_product product_id org_id s in
    match match l_price line with
          | Some custom => Some custom
          | None => option_map p_price product
          end with
    | None => None
    | Some price =>
      let amount := float_mul_int price qty in
      let s1 := update_stock product_id org_id (fun stock => stock - qty) s in
      let s2 := insert_item
                  {| i_shipment_id := shipment_id; i_org_id := org_id;
                     i_product_id := product_id; i_quantity := qty;
                     i_price := price; i_amount := amount |} s1 in
      commit_lines shipment_id org_id rest s2
    end
  end.

Definition post_shipments (env : Env) (auth : Auth) (items : list ItemPayload)
  (s : State) : Outcome :=
  if negb (_require_role auth [owner; manager]) then
    Return (error FORBIDDEN "Недостаточно прав") s
  else
    let org_id := a_orgId auth in
    if Nat.eqb (List.length items) 0 then
      Return (error BAD_REQUEST "Добавьте хотя бы одну позицию") s
    else
      match prepare items with
      | None => Return (error BAD_REQUEST "Некорректная позиция отгрузки") s
      | Some prepared =>
        match check_lines org_id prepared s with
        | Some failure => Return failure s
        | None =>
          let shipment_id := gen_shipment_id env in
          match insert_shipment
                  {| sh_id := shipment_id; sh_org_id := org_id;
                     sh_created_at := now env |} s with
          | None => Raise IntegrityError
          | Some s1 =>
            match commit_lines shipment_id org_id prepared s1 with
            | None => Raise TypeError
            | Some s2 => Return (state_response CREATED s2 org_id) s2
            end
          end
        end
      end.

(** The stock restoration loop of [DELETE /api/shipments/<id>]. *)
Definition restore_items (org_id : string) (items : list ShipmentItem) (s : State)
  : State :=
  fold_left
    (fun st item =>
       update_stock (i_product_id item) org_id
         (fun stock => stock + i_quantity item) st)
    items s.

Definition delete_shipment (auth : Auth) (shipment_id : string) (s : State)
  : Outcome :=
  if negb (_require_role auth [owner; manager]) then
    Return (error FORBIDDEN "Недостаточно прав") s
  else
    let org_id := a_orgId auth in
    match find (shipment_hit shipment_id org_id) (org_shipments s) with
    | None => Return (error NOT_FOUND "Отгрузка не найдена") s
    | Some _ =>
      let items :=
        filter (fun i => String.eqb (i_shipment_id i) shipment_id
                         && String.eqb (i_org_id i) org_id)
          (org_shipment_items s) in
      let s1 := restore_items org_id items s in
      let s2 := delete_shipments (shipment_hit shipment_id org_id) s1 in
      Return (state_response OK s2 org_id) s2
    end.

(** ** [_route_api] *)

Definition dispatch (env : Env) (auth : Auth) (req : Request) (s : State)
  : Outcome :=
  match req with
  | GetState => get_state auth s
  | PostMembershipRole email role => post_memberships_role auth email role s
  | PostProduct name sku unit price stock purchase =>
    post_products env auth name sku unit price stock purchase s
  | PatchProductPrice product_id price => patch_product_price auth product_id price s
  | PatchProduct product_id name price => patch_product auth product_id name price s
  | DeleteProduct product_id => delete_product auth product_id s
  | PostReceipt productId quantity cost => post_receipts env auth productId quantity cost s
  | DeleteReceipt receipt_id => delete_receipt auth receipt_id s
  | PostShipment items => post_shipments env auth items s
  | DeleteShipment shipment_id => delete_shipment auth shipment_id s
  end.

(** A request under [/api/] other than [/api/auth/]: the session is
    resolved, then the matching branch runs.  Leaving the [with] block by
    [return] commits; an exception rolls back to the store the request
    started from and is answered with status 500. *)
Definition _route_api (env : Env) (cookie : option string) (req : Request)
  (s : State) : Response * State :=
  match _require_auth (now env) cookie s with
  | (inl unauthorized, s1) => (unauthorized, s1)
  | (inr auth, s1) =>
    match dispatch env auth req s1 with
    | Return r s2 => (r, s2)
    | Raise e => ({| status := INTERNAL_SERVER_ERROR; body := BInternal e |}, s)
    end
  end.

(** The [/print/shipment/<id>] branch of [do_GET]. *)
Definition print_shipment (t : Z) (cookie : option string) (shipment_id : string)
  (s : State) : Response * State :=
  match _require_auth t cookie s with
  | (inl unauthorized, s1) => (unauthorized, s1)
  | (inr auth, s1) =>
    match render_shipment_print_html s1 (a_orgId auth) (a_orgName auth)
            shipment_id with
    | None => (error NOT_FOUND "Отгрузка не найдена", s1)
    | Some doc => ({| status := OK; body := BPrint doc |}, s1)
    end
  end.

(** A run of requests, each with its own environment and cookie. *)
Fixpoint run (reqs : list (Env * option string * Request)) (s : State) : State :=
  match reqs with
  | [] => s
  | (env, cookie, req) :: rest => run rest (snd (_route_api env cookie req s))
  end.

(** ** The shipment loops in closed form

    Used to state what [POST /api/shipments] commits; the lemmas on
    [commit_lines] and [restore_items] relate them to the loops. *)

(** The test the second loop applies to one line. *)
Definition line_passes (org_id : string) (s : State) (line : Line) : bool :=
  match select_product (l_productId line) org_id s with
  | None => false
  | Some product => negb (p_stock product <? l_qty line)%Z
  end.

(** The price the third loop uses for a line. *)
Definition line_price (org_id : string) (s : State) (line : Line) : option pyfloat :=
  match l_price line with
  | Some custom => Some custom
  | None => option_map p_price (select_product (l_productId line) org_id s)
  end.

(** The item row the third loop inserts for a line. *)
Definition line_item (shipment_id org_id : string) (s : State) (line : Line)
  : ShipmentItem :=
  let price := match line_price org_id s line with
               | Some price => price
               | None => float_zero
               end in
  {| i_shipment_id := shipment_id; i_org_id := org_id;
     i_product_id := l_productId line; i_quantity := l_qty line;
     i_price := price; i_amount := float_mul_int price (l_qty line) |}.

(** The line prepared from one item of the payload. *)
Definition line_of_item (item : ItemPayload) : Line :=
  {| l_productId := str_strip (ip_productId item); l_qty := ip_quantity item;
     l_price := option_map max0 (ip_price item) |}.

(** A run of [UPDATE org_products SET stock = stock + d WHERE id = ? AND
    org_id = ?], one per pair (product id, d). *)
Definition apply_deltas (org_id : string) (ds : list (string * Z))
  (ps : list Product) : list Product :=
  fold_left
    (fun ps d =>
       update_where (product_hit (fst d) org_id)
         (fun p => set_stock p (p_stock p + snd d)) ps)
    ds ps.

(** The sum of the [d] of the pairs that hit product [p]. *)
Definition delta_for (org_id : string) (ds : list (string * Z)) (p : Product) : Z :=
  fold_right
    (fun d acc => (if product_hit (fst d) org_id p then snd d else 0) + acc)%Z
    0%Z ds.

(** ** Integrity of the store

    What the schema and the handlers maintain between the ledger tables.
    A primary key [id] gives [unique_org]: rows with one id carry one
    organization.  A foreign key, together with the [org_id] filter of
    every lookup that precedes an insertion, gives [refers]: the row that a
    child names exists and is scoped to the child's organization. *)

Definition unique_org (A : Type) (id org : A -> string) (t : list A) : bool :=
  forallb
    (fun x =>
       forallb (fun y => implb (String.eqb (id x) (id y))
                           (String.eqb (org x) (org y))) t) t.

Definition refers (P C : Type) (id org : P -> string) (key corg : C -> string)
  (parents : list P) (children : list C) : bool :=
  forallb
    (fun c =>
       existsb (fun p => String.eqb (id p) (key c) && String.eqb (org p) (corg c))
         parents) children.

Definition store_ok (s : State) : bool :=
  unique_org p_id p_org_id (org_products s)
  && unique_org r_id r_org_id (org_receipts s)
  && unique_org sh_id sh_org_id (org_shipments s)
  && refers p_id p_org_id r_product_id r_org_id (org_products s) (org_receipts s)
  && refers p_id p_org_id i_product_id i_org_id (org_products s)
       (org_shipment_items s)
  && refers sh_id sh_org_id i_shipment_id i_org_id (org_shipments s)
       (org_shipment_items s).

(** ** The ledger seen per organization *)

(** The ledger rows scoped to [org_id]. *)
Definition ledger_of (org_id : string) (s : State)
  : list Product * list Receipt * list Shipment * list ShipmentItem :=
  (filter (fun p => String.eqb (p_org_id p) org_id) (org_products s),
   filter (fun r => String.eqb (r_org_id r) org_id) (org_receipts s),
   filter (fun h => String.eqb (sh_org_id h) org_id) (org_shipments s),
   filter (fun i => String.eqb (i_org_id i) org_id) (org_shipment_items s)).

(** The store with the ledger rows scoped to [org_id] taken out. *)
Definition without_org (org_id : string) (s : State) : State :=
  with_ledger s
    (filter (fun p => negb (String.eqb (p_org_id p) org_id)) (org_products s))
    (filter (fun r => negb (String.eqb (r_org_id r) org_id)) (org_receipts s))
    (filter (fun h => negb (String.eqb (sh_org_id h) org_id)) (org_shipments s))
    (filter (fun i => negb (String.eqb (i_org_id i) org_id)) (org_shipment_items s)).

(** An outcome with the ledger rows of [org_id] taken out of its store. *)
Definition purged (org_id : string) (o : Outcome) : Outcome :=
  match o with
  | Return r s' => Return r (without_org org_id s')
  | Raise e => Raise e
  end.

(** The identifiers generated for a request clash with no row of [org_id]. *)
Definition ids_avoid (org_id : string) (env : Env) (s : State) : bool :=
  negb (existsb (fun p => String.eqb (p_id p) (gen_product_id env)
                          && String.eqb (p_org_id p) org_id) (org_products s))
  && negb (existsb (fun r => String.eqb (r_id r) (gen_receipt_id env)
                             && String.eqb (r_org_id r) org_id) (org_receipts s))
  && negb (existsb (fun h => String.eqb (sh_id h) (gen_shipment_id env)
                             && String.eqb (sh_org_id h) org_id) (org_shipments s)).

End Server.

(** ** The builtins on IEEE doubles and byte strings

    Used to run the handlers on concrete stores.  [float * int] converts
    the integer with rounding to nearest even; [strip] and [lower] act on
    the ASCII range. *)

Definition float_of_Z (z : Z) : float :=
  SF2Prim (binary_normalize prec emax z 0 false).

Definition is_space (c : Ascii.ascii) : bool :=
  let n := Ascii.nat_of_ascii c in
  (Nat.leb 9 n && Nat.leb n 13) || (Nat.leb 28 n && Nat.leb n 32).

Fixpoint lstrip (s : string) : string :=
  match s with
  | EmptyString => EmptyString
  | String c s' => if is_space c then lstrip s' else s
  end.

Fixpoint rstrip (s : string) : string :=
  match s with
  | EmptyString => EmptyString
  | String c s' =>
    match rstrip s' with
    | EmptyString => if is_space c then EmptyString else String c EmptyString
    | r => String c r
    end
  end.

Definition strip (s : string) : string := rstrip (lstrip s).

Definition lower_ascii (c : Ascii.ascii) : Ascii.ascii :=
  let n := Ascii.nat_of_ascii c in
  if Nat.leb 65 n && Nat.leb n 90 then Ascii.ascii_of_nat (n + 32) else c.

Fixpoint lower (s : string) : string :=
  match s with
  | EmptyString => EmptyString
  | String c s' => String (lower_ascii c) (lower s')
  end.

Definition ieee : PyBuiltins :=
  {| pyfloat := float;
     float_zero := 0%float;
     float_gt0 := fun x => PrimFloat.ltb 0%float x;
     float_mul_int := fun x n => PrimFloat.mul x (float_of_Z n);
     str_strip := strip;
     str_lower := lower;
     float_gt0_zero := eq_refl |}.

(** ** A sample store

    Two organizations.  [org_a] has an owner, a manager and a viewer, and
    one more user whose membership row is gone; [org_b] has an owner. *)
Module Sample.

(** Identifiers as [make_id] and [secrets.token_urlsafe] produce them. *)
Definition org_a : string := "org_5c1d9e02ab".
Definition org_b : string := "org_e07b63f4d1".
Definition u_admin : string := "u_0a4c8e1b3d".
Definition u_mgr : string := "u_6f2d9b7e10".
Definition u_view : string := "u_c3a51e88f4".
Definition u_left : string := "u_91b0d7c2e5".
Definition u_b : string := "u_48e6f0a9b7".
Definition p_1 : string := "p_3f9a1c07de".
Definition p_2 : string := "p_b21e44a0c9".
Definition p_9 : string := "p_77d0e5f312".
Definition p_10 : string := "p_e8c2a6d401".
Definition p_new : string := "p_05b7f3e9a2".
Definition r_1 : string := "r_9d3e7a1c40".
Definition r_9 : string := "r_2c8f0b6e15".
Definition r_new : string := "r_f1a4d7c093".
Definition s_9 : string := "s_6e0c3b9f28".
Definition s_new : string := "s_a7d25e41bc".
Definition tok_owner : string := "Jq3xW8mZ0bTn5KpR2sVYc7dLhF_a1GuE4oN9iXyC6wA".
Definition tok_mgr : string := "u7Hk2PzQ9eRb4TnM0sXv_LdW3cYJ6fA1gO8iVqB5mKE".
Definition tok_view : string := "Zp0Nf6Xc1Ld8Qw3Ra5Ue9Gy2Hk7Bm4Js_Ti-VoCzSxA".
Definition tok_old : string := "b4Tz9Yq1Wc6Ks0Lm3Nf8Rj5Xv2Ah7Dg-Pe_UoIiEuOQ".
Definition tok_left : string := "M1xC8vB5nZ2lK9jH6gF3dS0aP7oI4uY-tR_eWqLmNkU".
Definition tok_left_old : string := "r6Ew0Qy3Tu9Io2Pa5Sd8Fg1Hj4Kl7Zx-Cv_BnMqWeRs".
Definition tok_b : string := "G5hJ2kL9zX6cV3bN0mQ7wE4rT1yU8iO-pA_sDfGhJkM".

Definition user (id name : string) : @User :=
  {| u_id := id; u_name := name; u_email := (name ++ "@local")%string |}.

Definition session (token user_id org_id : string) (expires_at : Z) : Session :=
  {| s_token := token; s_user_id := user_id; s_org_id := org_id;
     s_expires_at := expires_at |}.

Definition product (id org_id name : string) (price : float) (stock : Z)
  (purchase : float) : @Product ieee :=
  @Build_Product ieee id org_id name "00044" "шт" price stock purchase 1.

Definition receipt (id org_id product_id : string) (quantity : Z) (cost : float)
  : @Receipt ieee :=
  @Build_Receipt ieee id org_id product_id quantity cost 2.

Definition item (shipment_id org_id product_id : string) (quantity : Z)
  (price amount : float) : @ShipmentItem ieee :=
  @Build_ShipmentItem ieee shipment_id org_id product_id quantity price amount.

Definition store : @State ieee :=
  {| users := [user u_admin "admin"; user u_mgr "maria"; user u_view "victor";
               user u_left "leo"; user u_b "boris"];
     organizations :=
       [{| o_id := org_a; o_name := "A"; o_join_code := Some "A1B2C3" |};
        {| o_id := org_b; o_name := "B"; o_join_code := None |}];
     memberships :=
       [{| m_user_id := u_admin; m_org_id := org_a; m_role := owner |};
        {| m_user_id := u_mgr; m_org_id := org_a; m_role := manager |};
        {| m_user_id := u_view; m_org_id := org_a; m_role := viewer |};
        {| m_user_id := u_b; m_org_id := org_b; m_role := owner |}];
     sessions :=
       [session tok_owner u_admin org_a 1000;
        session tok_mgr u_mgr org_a 1000;
        session tok_view u_view org_a 1000;
        session tok_old u_mgr org_a 50;
        session tok_left u_left org_a 1000;
        session tok_left_old u_left org_a 50;
        session tok_b u_b org_b 1000];
     org_products :=
       [product p_1 org_a "Roller" 65000 5 50;
        product p_2 org_a "Serum" 2000 35 1200;
        product p_9 org_b "Needle" 600 190 300];
     org_receipts :=
       [receipt r_1 org_a p_2 20 1500; receipt r_9 org_b p_9 190 300];
     org_shipments :=
       [{| sh_id := s_9; sh_org_id := org_b; sh_created_at := 3 |}];
     org_shipment_items :=
       [item s_9 org_b p_9 10 600 6000] |}.

Definition env : Env :=
  {| now := 100; gen_product_id := p_new; gen_receipt_id := r_new;
     gen_shipment_id := s_new; gen_sku := "AUTO-1A2B" |}.

(** What the sessions of [org_a] resolve to. *)
Definition auth_of (token user_id name : string) (role : Role) : Auth :=
  {| a_token := token; a_userId := user_id; a_orgId := org_a; a_name := name;
     a_email := (name ++ "@local")%string; a_orgName := "A";
     a_orgJoinCode := "A1B2C3"; a_role := role |}.

Definition owner_auth : Auth := auth_of tok_owner u_admin "admin" owner.
Definition manager_auth : Auth := auth_of tok_mgr u_mgr "maria" manager.
Definition viewer_auth : Auth := auth_of tok_view u_view "victor" viewer.


(** [store] with other rows for [org_b]: one product restocked, one more
    product, no receipt and no shipment. *)
Definition store_b_changed : @State ieee :=
  with_ledger store
    [product p_1 org_a "Roller" 65000 5 50;
     product p_9 org_b "Needle" 600 7 300;
     product p_2 org_a "Serum" 2000 35 1200;
     product p_10 org_b "Gauze" 40 1000 25]
    [receipt r_1 org_a p_2 20 1500]
    []
    [].

(** An item of a shipment payload with no custom price. *)
Definition order (product_id : string) (quantity : Z) : @ItemPayload ieee :=
  @Build_ItemPayload ieee product_id quantity None.

End Sample.

(** * Further invariants of the ledger

    Predicates on the store that the handlers are shown to keep. *)

Section Invariants.

Context {B : PyBuiltins}.

(** No string occurs twice in [l]. *)
Fixpoint distinct (l : list string) : bool :=
  match l with
  | [] => true
  | x :: rest => negb (existsb (String.eqb x) rest) && distinct rest
  end.

(** [id TEXT PRIMARY KEY] of [org_products]. *)
Definition products_keyed (s : State) : bool :=
  distinct (map p_id (org_products s)).

(** No product is short, and every shipment item moved a positive
    quantity. *)
Definition stocks_ok (s : State) : bool :=
  forallb (fun p => (0 <=? p_stock p)%Z) (org_products s)
  && forallb (fun i => (0 <? i_quantity i)%Z) (org_shipment_items s).

(** The product ids that the items of a [POST /api/shipments] payload name,
    trimmed as the first loop trims them. *)
Definition named_products (req : Request) : list string :=
  match req with
  | PostShipment items => map (fun item => str_strip (ip_productId item)) items
  | _ => []
  end.

(** Every shipment has at least one item. *)
Definition no_empty_shipment (s : State) : bool :=
  forallb
    (fun h => existsb (fun i => String.eqb (i_shipment_id i) (sh_id h))
                (org_shipment_items s))
    (org_shipments s).

End Invariants.

(** ** Stock accounting *)

Section Accounting.

Context {B : PyBuiltins}.

(** [id TEXT PRIMARY KEY] of [org_receipts]. *)
Definition receipts_keyed (s : State) : bool :=
  distinct (map r_id (org_receipts s)).

(** The sum of [w] over the rows of a table. *)
Definition total (A : Type) (w : A -> Z) (t : list A) : Z :=
  fold_right (fun x acc => (w x + acc)%Z) 0%Z t.

(** The quantity of the receipts on record that name product [p]. *)
Definition received (s : State) (p : Product) : Z :=
  total (fun r => if String.eqb (r_product_id r) (p_id p)
                     && String.eqb (r_org_id r) (p_org_id p)
                  then r_quantity r else 0%Z)
    (org_receipts s).

(** The quantity of the shipment items on record that name product [p]. *)
Definition shipped (s : State) (p : Product) : Z :=
  total (fun i => if String.eqb (i_product_id i) (p_id p)
                     && String.eqb (i_org_id i) (p_org_id p)
                  then i_quantity i else 0%Z)
    (org_shipment_items s).

(** What the receipts and shipments on record account for, less the stock
    on record. *)
Definition gap (s : State) (p : Product) : Z :=
  (received s p - shipped s p - p_stock p)%Z.

(** Every stock is at least what the records account for. *)
Definition accounted (s : State) : bool :=
  forallb (fun p => (gap s p <=? 0)%Z) (org_products s).

(** Every stock is exactly what the records account for. *)
Definition balanced (s : State) : bool :=
  forallb (fun p => (gap s p =? 0)%Z) (org_products s).

(** A request other than [DELETE /api/receipts/<id>]. *)
Definition keeps_receipts (req : Request) : bool :=
  match req with
  | DeleteReceipt _ => false
  | _ => true
  end.

(** The integers of the ledger are 64-bit integers, as SQLite holds them
    in [INTEGER] columns, and the quantities of the shipment items are
    above zero, as [POST /api/shipments] inserts them. *)
Definition int64_ledger (s : State) : bool :=
  forallb (fun p => fits_int64 (p_stock p)) (org_products s)
  && forallb (fun r => fits_int64 (r_quantity r)) (org_receipts s)
  && forallb (fun i => (0 <? i_quantity i)%Z && fits_int64 (i_quantity i))
       (org_shipment_items s).

(** The sum that [POST /api/receipts] makes SQLite compute stays in the
    64-bit range: the stock of the product named, plus the quantity. *)
Definition sum_fits (req : Request) (s : State) : bool :=
  match req with
  | PostReceipt productId quantity _ =>
    forallb
      (fun p => implb (String.eqb (p_id p) (str_strip productId))
                  (fits_int64 (p_stock p + quantity)))
      (org_products s)
  | _ => true
  end.

(** A run that stays within 64-bit integers: [int64_ledger] on every store
    of the run, the last one included, and [sum_fits] at every request, on
    the store the request finds. *)
Fixpoint sums_fit (reqs : list (Env * option string * Request)) (s : State) : bool :=
  match reqs with
  | [] => int64_ledger s
  | (env, cookie, req) :: rest =>
    int64_ledger s && sum_fits req s
    && sums_fit rest (snd (_route_api env cookie req s))
  end.

End Accounting.

(** * Cookies, passwords and the [/api/auth/] routes

    The rest of the session layer of [src/server.py]: [parse_cookie],
    [hash_password], [verify_password], [_make_session_cookie],
    [_clear_session_cookie], [_create_session] and [_route_auth].  The
    clock counts seconds, the resolution at which the [datetime(..)] of the
    [ORDER BY] clauses compares. *)

(** ** Python string methods *)

(** [s.split(sep)] for a separator of one character. *)
Fixpoint str_split (sep : Ascii.ascii) (s : string) : list string :=
  match s with
  | EmptyString => [EmptyString]
  | String c s' =>
    if Ascii.eqb c sep then EmptyString :: str_split sep s'
    else match str_split sep s' with
         | [] => [String c EmptyString]
         | part :: parts => String c part :: parts
         end
  end.

(** [sep in s] for a separator of one character. *)
Fixpoint str_contains (sep : Ascii.ascii) (s : string) : bool :=
  match s with
  | EmptyString => false
  | String c s' => Ascii.eqb c sep || str_contains sep s'
  end.

(** [s.split(sep, 1)]: [s] alone when [sep] is not in it, else what stands
    before and after the first [sep]. *)
Fixpoint str_split1 (sep : Ascii.ascii) (s : string) : list string :=
  match s with
  | EmptyString => [EmptyString]
  | String c s' =>
    if Ascii.eqb c sep then [EmptyString; s']
    else match str_split1 sep s' with
         | [] => [String c EmptyString]
         | part :: parts => String c part :: parts
         end
  end.

(** [s.isascii()]. *)
Fixpoint is_ascii (s : string) : bool :=
  match s with
  | EmptyString => true
  | String c s' => Nat.ltb (Ascii.nat_of_ascii c) 128 && is_ascii s'
  end.

(** [str(n)] for an int. *)
Definition str_of_int (n : Z) : string := NilZero.string_of_int (Z.to_int n).

(** A [dict] with string keys and values, in insertion order. *)
Definition dict : Type := list (string * string).

(** [d[key] = val]. *)
Fixpoint dict_set (d : dict) (key val : string) : dict :=
  match d with
  | [] => [(key, val)]
  | (k, v) :: rest =>
    if String.eqb k key then (k, val) :: rest else (k, v) :: dict_set rest key val
  end.

(** [d.get(key)]. *)
Definition dict_get (d : dict) (key : string) : option string :=
  option_map snd (find (fun kv => String.eqb (fst kv) key) d).

(** [ORDER BY key ASC], rows with equal keys kept in table order. *)
Fixpoint insert_asc (A : Type) (key : A -> Z) (x : A) (l : list A) : list A :=
  match l with
  | [] => [x]
  | y :: l' => if (key x <=? key y)%Z then x :: l else y :: insert_asc key x l'
  end.

Definition order_by_asc (A : Type) (key : A -> Z) (l : list A) : list A :=
  fold_right (insert_asc key) [] l.

Definition SESSION_COOKIE : string := "warehouse_session".

Definition SESSION_TTL_DAYS : Z := 14.

(** [timedelta(days=d)] on the clock. *)
Definition timedelta_days (d : Z) : Z := d * 24 * 3600.

Section Cookies.

Context {B : PyBuiltins}.

(** One turn of the loop of [parse_cookie].  [None] is the [ValueError] of
    unpacking [chunk.split("=", 1)] into [key, val]. *)
Definition parse_cookie_part (cookies : option dict) (part : string) : option dict :=
  match cookies with
  | None => None
  | Some cookies =>
    let chunk := str_strip part in
    if negb (str_contains "=" chunk) then Some cookies
    else
      match str_split1 "=" chunk with
      | [key; val] => Some (dict_set cookies key val)
      | _ => None
      end
  end.

Definition parse_cookie (header_value : option string) : option dict :=
  match header_value with
  | None => Some []
  | Some header =>
    if String.eqb header "" then Some []
    else fold_left parse_cookie_part (str_split ";" header) (Some [])
  end.

(** What one part of the header contributes to the cookies: the key and
    value on either side of the first ["="] of the trimmed part, or
    nothing.  Used to state what [parse_cookie] returns. *)
Definition cookie_pair (part : string) : list (string * string) :=
  match str_split1 "=" (str_strip part) with
  | [key; val] => [(key, val)]
  | _ => []
  end.

(** [parse_cookie(self.headers.get("Cookie")).get(SESSION_COOKIE)], the
    first two statements of [_get_current_auth]: the token that the
    [cookie] argument of [_get_current_auth] stands for. *)
Definition session_token (header_value : option string) : option (option string) :=
  option_map (fun cookies => dict_get cookies SESSION_COOKIE)
    (parse_cookie header_value).

Definition _make_session_cookie (token : string) : string :=
  let max_age := (SESSION_TTL_DAYS * 24 * 3600)%Z in
  SESSION_COOKIE ++ "=" ++ token
  ++ "; Path=/; HttpOnly; SameSite=Lax; Max-Age=" ++ str_of_int max_age.

Definition _clear_session_cookie : string :=
  SESSION_COOKIE ++ "=; Path=/; HttpOnly; SameSite=Lax; Max-Age=0".

End Cookies.

(** ** Passwords *)

Section Passwords.

(** [hashlib.pbkdf2_hmac("sha256", password.encode("utf-8"),
    salt.encode("utf-8"), 120000).hex()], as a function of the password and
    the salt. *)
Variable pbkdf2_hmac_hex : string -> string -> string.

(** [hash_password(password, salt)]; without a salt the source draws one
    with [secrets.token_hex(16)]. *)
Definition hash_password (password salt : string) : string :=
  salt ++ "$" ++ pbkdf2_hmac_hex password salt.

(** [hmac.compare_digest] on two [str]: a [TypeError] unless both are
    ASCII. *)
Definition compare_digest (a b : string) : Exn + bool :=
  if is_ascii a && is_ascii b then inr (String.eqb a b) else inl TypeError.

(** [verify_password]: the [ValueError] of unpacking a [stored] value with
    no ["$"] is caught and gives [False]. *)
Definition verify_password (password stored : string) : Exn + bool :=
  match str_split1 "$" stored with
  | [salt; digest_hex] => compare_digest (pbkdf2_hmac_hex password salt) digest_hex
  | _ => inr false
  end.

End Passwords.

(** ** [_create_session] and [_route_auth] *)

Section Accounts.

Context {B : PyBuiltins}.

Variable pbkdf2_hmac_hex : string -> string -> string.

(** The columns that the rows of [User] and [Membership] leave out, and
    that no handler writes: [users.password_hash] by [users.id], and
    [memberships.created_at] by [(user_id, org_id)], which is [UNIQUE]. *)
Variable password_hash : string -> string.
Variable membership_created_at : string -> string -> Z.

(** [INSERT INTO sessions]: [token] is the primary key, [user_id] and
    [org_id] are foreign keys.  [token] is the value drawn from
    [secrets.token_urlsafe(32)]; [None] is the [IntegrityError]. *)
Definition _create_session (now : Z) (token user_id org_id : string) (s : State)
  : option (string * State) :=
  if existsb (fun x => String.eqb (s_token x) token) (sessions s)
     || negb (existsb (fun u => String.eqb (u_id u) user_id) (users s))
     || negb (existsb (fun o => String.eqb (o_id o) org_id) (organizations s))
  then None
  else
    Some (token,
          with_sessions s
            (sessions s ++
             [{| s_token := token; s_user_id := user_id; s_org_id := org_id;
                 s_expires_at := (now + timedelta_days SESSION_TTL_DAYS)%Z |}])).

Inductive AuthBody :=
| ABError (msg : string)
| ABInternal (e : Exn)
| ABOk
| ABOkMe (me : Me)
| ABMe (me : Me).

Record AuthResponse := {
  ar_status : HTTPStatus; ar_body : AuthBody; ar_set_cookie : option string }.

Definition auth_error (st : HTTPStatus) (msg : string) : AuthResponse :=
  {| ar_status := st; ar_body := ABError msg; ar_set_cookie := None |}.

Inductive AuthRequest :=
| Register
| Login (username password : string)
| Logout
| GetMe.

Inductive AuthOutcome :=
| AReturn (r : AuthResponse) (s : State)
| ARaise (e : Exn).

(** [FROM memberships m JOIN organizations o ON o.id = m.org_id WHERE
    m.user_id = ?]; [organizations.id] is the primary key. *)
Definition memberships_of (user_id : string) (s : State)
  : list (Membership * Organization) :=
  flat_map
    (fun m =>
       if String.eqb (m_user_id m) user_id then
         match find (fun o => String.eqb (o_id o) (m_org_id m)) (organizations s) with
         | Some o => [(m, o)]
         | None => []
         end
       else [])
    (memberships s).

(** [POST /api/auth/login]. *)
Definition login (now : Z) (token username password : string) (s : State)
  : AuthOutcome :=
  let username := str_strip username in
  let denied := auth_error UNAUTHORIZED "Неверное имя пользователя или пароль" in
  match find (fun u => String.eqb (u_name u) username) (users s) with
  | None => AReturn denied s
  | Some user =>
    match verify_password pbkdf2_hmac_hex password (password_hash (u_id user)) with
    | inl e => ARaise e
    | inr false => AReturn denied s
    | inr true =>
      match hd_error
              (order_by_asc
                 (fun mo => membership_created_at (m_user_id (fst mo))
                              (m_org_id (fst mo)))
                 (memberships_of (u_id user) s)) with
      | None => AReturn (auth_error FORBIDDEN "У пользователя нет организации") s
      | Some (membership, org) =>
        match _create_session now token (u_id user) (m_org_id membership) s with
        | None => ARaise IntegrityError
        | Some (token, s1) =>
          AReturn
            {| ar_status := OK;
               ar_body :=
                 ABOkMe
                   {| me_name := u_name user; me_email := u_email user;
                      me_orgName := o_name org;
                      me_orgJoinCode :=
                        match o_join_code org with Some c => c | None => "" end;
                      me_role := m_role membership |};
               ar_set_cookie := Some (_make_session_cookie token) |} s1
        end
      end
    end
  end.

(** [_route_auth]: [now] is the clock, [token] the value that
    [secrets.token_urlsafe] returns if it is called, [cookie] the session
    token of the request. *)
Definition _route_auth (now : Z) (token : string) (cookie : option string)
  (req : AuthRequest) (s : State) : AuthOutcome :=
  match req with
  | Register =>
    AReturn
      (auth_error BAD_REQUEST
         "Регистрация отключена. Используйте аккаунт администратора.") s
  | Login username password => login now token username password s
  | Logout =>
    AReturn {| ar_status := OK; ar_body := ABOk;
               ar_set_cookie := Some _clear_session_cookie |}
      (snd (logout now cookie s))
  | GetMe =>
    match _get_current_auth now cookie s with
    | (None, s') => AReturn (auth_error UNAUTHORIZED "Не авторизован") s'
    | (Some auth, s') =>
      AReturn
        {| ar_status := OK;
           ar_body :=
             ABMe {| me_name := a_name auth; me_email := a_email auth;
                     me_orgName := a_orgName auth;
                     me_orgJoinCode := a_orgJoinCode auth;
                     me_role := a_role auth |};
           ar_set_cookie := None |} s'
    end
  end.

(** A request under [/api/auth/], as [_route_api] serves it: an exception
    raised in [_route_auth] rolls the transaction back and is answered with
    status 500. *)
Definition auth_request (now : Z) (token : string) (cookie : option string)
  (req : AuthRequest) (s : State) : AuthResponse * State :=
  match _route_auth now token cookie req s with
  | AReturn r s' => (r, s')
  | ARaise e =>
    ({| ar_status := INTERNAL_SERVER_ERROR; ar_body := ABInternal e;
        ar_set_cookie := None |}, s)
  end.

(** [id TEXT PRIMARY KEY] of [users]. *)
Definition users_keyed (s : State) : bool := distinct (map u_id (users s)).

(** [UNIQUE(user_id, org_id)] of [memberships]. *)
Fixpoint unique_pairs (l : list (string * string)) : bool :=
  match l with
  | [] => true
  | x :: rest =>
    negb (existsb (fun y => String.eqb (fst x) (fst y) && String.eqb (snd x) (snd y))
            rest)
    && unique_pairs rest
  end.

Definition memberships_keyed (s : State) : bool :=
  unique_pairs (map (fun m => (m_user_id m, m_org_id m)) (memberships s)).

End Accounts.

(** ** The routes of [_route_api] *)

(** [s.startswith(prefix)]. *)
Fixpoint str_startswith (s prefix : string) {struct prefix} : bool :=
  match prefix with
  | EmptyString => true
  | String a prefix' =>
    match s with
    | EmptyString => false
    | String b s' => Ascii.eqb b a && str_startswith s' prefix'
    end
  end.

(** [s.endswith(suffix)]. *)
Fixpoint str_endswith (s suffix : string) : bool :=
  String.eqb s suffix
  || match s with
     | EmptyString => false
     | String _ s' => str_endswith s' suffix
     end.

(** The branch of [_route_auth] or [_route_api] that a request reaches,
    with the identifier that the branch reads from the path;
    [RouteNotFound] stands for [return False]. *)
Inductive Route :=
| RouteRegister | RouteLogin | RouteLogout | RouteMe
| RouteState
| RouteMembershipRole
| RouteCreateProduct
| RoutePrice (product_id : string)
| RouteProduct (product_id : string)
| RouteDeleteProduct (product_id : string)
| RouteCreateReceipt
| RouteDeleteReceipt (receipt_id : string)
| RouteCreateShipment
| RouteDeleteShipment (shipment_id : string)
| RouteNotFound.

(** [path.split("/")[3]]; [None] is the [IndexError]. *)
Definition path_segment (path : string) : option string :=
  nth_error (str_split "/" path) 3.

(** The chain of tests on [self.command] and [path] in [_route_auth] and
    [_route_api], in the order of the source. *)
Definition api_route (command path : string) : option Route :=
  if str_startswith path "/api/auth/" then
    if String.eqb command "POST" && String.eqb path "/api/auth/register"
    then Some RouteRegister
    else if String.eqb command "POST" && String.eqb path "/api/auth/login"
    then Some RouteLogin
    else if String.eqb command "POST" && String.eqb path "/api/auth/logout"
    then Some RouteLogout
    else if String.eqb command "GET" && String.eqb path "/api/auth/me"
    then Some RouteMe
    else Some RouteNotFound
  else if String.eqb command "GET" && String.eqb path "/api/state"
  then Some RouteState
  else if String.eqb command "POST" && String.eqb path "/api/memberships/role"
  then Some RouteMembershipRole
  else if String.eqb command "POST" && String.eqb path "/api/products"
  then Some RouteCreateProduct
  else if String.eqb command "PATCH" && str_startswith path "/api/products/"
          && str_endswith path "/price"
  then option_map RoutePrice (path_segment path)
  else if String.eqb command "PATCH" && str_startswith path "/api/products/"
          && negb (str_endswith path "/price")
  then option_map RouteProduct (path_segment path)
  else if String.eqb command "DELETE" && str_startswith path "/api/products/"
  then option_map RouteDeleteProduct (path_segment path)
  else if String.eqb command "POST" && String.eqb path "/api/receipts"
  then Some RouteCreateReceipt
  else if String.eqb command "DELETE" && str_startswith path "/api/receipts/"
  then option_map RouteDeleteReceipt (path_segment path)
  else if String.eqb command "POST" && String.eqb path "/api/shipments"
  then Some RouteCreateShipment
  else if String.eqb command "DELETE" && str_startswith path "/api/shipments/"
  then option_map RouteDeleteShipment (path_segment path)
  else Some RouteNotFound.

(** ** Join codes: [generate_unique_join_code] and the migration in [init_db] *)

(** Whether an organization carries the join code [code]. *)
Definition has_join_code (code : string) (o : Organization) : bool :=
  match o_join_code o with
  | Some c => String.eqb c code
  | None => false
  end.

(** [generate_unique_join_code].  [tape] holds the values that the calls of
    [make_join_code] return, in their order; the result is the code
    returned and what is left of the tape, and [None] when the tape ends
    before the loop returns. *)
Fixpoint generate_unique_join_code (tape : list string) (orgs : list Organization)
  : option (string * list string) :=
  match tape with
  | [] => None
  | code :: rest =>
    if existsb (has_join_code code) orgs
    then generate_unique_join_code rest orgs
    else Some (code, rest)
  end.

(** [UPDATE organizations SET join_code = ? WHERE id = ?] under
    [join_code TEXT UNIQUE]: [None] is the [IntegrityError] raised when
    another row holds the code. *)
Definition set_join_code (code id : string) (orgs : list Organization)
  : option (list Organization) :=
  if existsb (fun o => negb (String.eqb (o_id o) id) && has_join_code code o) orgs
  then None
  else
    Some (update_where (fun o => String.eqb (o_id o) id)
            (fun o => {| o_id := o_id o; o_name := o_name o;
                         o_join_code := Some code |})
            orgs).

(** How the migration of join codes ends. *)
Inductive Migration :=
| Migrated (orgs : list Organization) (tape : list string)
| TapeEnded
| Violated.

(** The loop over [orgs_without_code] in [init_db]. *)
Fixpoint migrate_join_codes (ids : list string) (tape : list string)
  (orgs : list Organization) : Migration :=
  match ids with
  | [] => Migrated orgs tape
  | id :: rest =>
    match generate_unique_join_code tape orgs with
    | None => TapeEnded
    | Some (code, tape') =>
      match set_join_code code id orgs with
      | None => Violated
      | Some orgs' => migrate_join_codes rest tape' orgs'
      end
    end
  end.

(** [SELECT id FROM organizations WHERE join_code IS NULL OR join_code = ''].  *)
Definition orgs_without_code (orgs : list Organization) : list string :=
  map o_id
    (filter (fun o => match o_join_code o with
                      | None => true
                      | Some c => String.eqb c ""
                      end) orgs).

(** The join-code migration of [init_db]. *)
Definition init_db_join_codes (tape : list string) (orgs : list Organization)
  : Migration :=
  migrate_join_codes (orgs_without_code orgs) tape orgs.

(** The join codes on record. *)
Definition join_codes (orgs : list Organization) : list string :=
  flat_map (fun o => match o_join_code o with Some c => [c] | None => [] end) orgs.

(** ** Accounts of the sample store *)
Module SampleAccounts.

Definition hex_digit (n : nat) : ascii :=
  nth n ["0"; "1"; "2"; "3"; "4"; "5"; "6"; "7"; "8"; "9";
         "a"; "b"; "c"; "d"; "e"; "f"]%char "0"%char.

(** [bytes.hex()]. *)
Fixpoint hex (s : string) : string :=
  match s with
  | EmptyString => EmptyString
  | String c s' =>
    String (hex_digit (Nat.div (nat_of_ascii c) 16))
      (String (hex_digit (Nat.modulo (nat_of_ascii c) 16)) (hex s'))
  end.

(** PBKDF2 is not computed on the sample store: the digest there is the
    hexadecimal text of the salt followed by the password. *)
Definition digest (password salt : string) : string := hex (salt ++ password).

Definition salt_admin : string := "3b1f0c9a7d2e4f6081a5c3e7b9d0f214".
Definition salt_mgr : string := "c07e5a13f9b24d68a1e0d3f57b9c2e46".

(** The [password_hash] column. *)
Definition password_hash (user_id : string) : string :=
  if String.eqb user_id Sample.u_admin then hash_password digest "admin123" salt_admin
  else if String.eqb user_id Sample.u_mgr then hash_password digest "s3cret" salt_mgr
  else "".

(** The [created_at] column of [memberships]: the memberships of [org_b]
    are older than those of [org_a]. *)
Definition joined (user_id org_id : string) : Z :=
  if String.eqb org_id Sample.org_b then 5 else 10.

(** The sample store with one more membership: the manager of [org_a] is
    also a viewer of [org_b]. *)
Definition store : @State ieee :=
  with_memberships Sample.store
    (memberships Sample.store ++
     [{| m_user_id := Sample.u_mgr; m_org_id := Sample.org_b; m_role := viewer |}]).

Definition tok_new : string := "Xk9Qm2Vt7Lc4Rb1Nz8Hd5Wf0Js3Gy6Pa-Ue_IoTiEwCq".

(** What the session of the owner of [org_b] resolves to. *)
Definition b_auth : Auth :=
  {| a_token := Sample.tok_b; a_userId := Sample.u_b; a_orgId := Sample.org_b;
     a_name := "boris"; a_email := "boris@local"; a_orgName := "B";
     a_orgJoinCode := ""; a_role := owner |}.

End SampleAccounts.

(** * Properties *)

Section Proofs.

Context {B : PyBuiltins}.

Ltac break_match :=
  match goal with
  | |- context [match ?c with _ => _ end] => destruct c eqn:?
  end.

Ltac break_match_hyp :=
  match goal with
  | H : context [match ?c with _ => _ end] |- _ => destruct c eqn:?
  end.

(** ** Session resolution *)

Lemma get_current_auth_some (t : Z) (cookie : option string) (s s' : State) (auth : Auth) :
  _get_current_auth t cookie s = (Some auth, s') ->
  s' = s /\
  exists token se u o m,
    cookie = Some token /\ session_row token s = Some (se, u, o, m) /\
    (t < s_expires_at se)%Z /\
    a_token auth = s_token se /\ a_orgId auth = s_org_id se /\
    a_role auth = m_role m.
Proof.
  unfold _get_current_auth.
  destruct cookie as [token|]; [|discriminate].
  destruct (String.eqb token ""); [discriminate|].
  destruct (session_row token s) as [[[[se u] o] m]|] eqn:Hrow; [|discriminate].
  destruct (s_expires_at se <=? t)%Z eqn:Hexp; [discriminate|].
  intros H; inversion H; subst; clear H.
  split; [reflexivity|].
  exists token, se, u, o, m; simpl.
  apply Z.leb_gt in Hexp.
  repeat split; auto.
Qed.

Lemma get_current_auth_fst_some (t : Z) (cookie : option string) (s : State) (auth : Auth) :
  fst (_get_current_auth t cookie s) = Some auth ->
  _get_current_auth t cookie s = (Some auth, s).
Proof.
  destruct (_get_current_auth t cookie s) as [a s'] eqn:H; simpl.
  intros ->. apply get_current_auth_some in H. destruct H as [-> _]. reflexivity.
Qed.

Lemma session_row_find (token : string) (s : State) se u o m :
  session_row token s = Some (se, u, o, m) ->
  find (fun x => String.eqb (s_token x) token) (sessions s) = Some se.
Proof.
  unfold session_row.
  destruct (find _ (sessions s)) as [se'|]; [|discriminate].
  repeat (break_match; try discriminate).
  intros H; inversion H; subst; reflexivity.
Qed.

(** What an unresolved session looks like: no usable cookie, no row in the
    join, or a joined row that has expired (and is then deleted). *)
Lemma get_current_auth_none (t : Z) (cookie : option string) (s s' : State) :
  _get_current_auth t cookie s = (None, s') ->
  (s' = s /\
   (cookie = None \/ cookie = Some "" \/
    exists token, cookie = Some token /\ session_row token s = None)) \/
  (exists token se u o m,
     cookie = Some token /\ session_row token s = Some (se, u, o, m) /\
     (s_expires_at se <= t)%Z /\ s' = delete_session token s).
Proof.
  unfold _get_current_auth.
  destruct cookie as [token|].
  - destruct (String.eqb token "") eqn:He.
    + apply String.eqb_eq in He; subst. intros H; inversion H; auto.
    + destruct (session_row token s) as [[[[se u] o] m]|] eqn:Hrow.
      * destruct (s_expires_at se <=? t)%Z eqn:Hexp; [|discriminate].
        intros H; inversion H; subst. right.
        exists token, se, u, o, m. apply Z.leb_le in Hexp. auto.
      * intros H; inversion H; subst. left. split; eauto.
  - intros H; inversion H; auto.
Qed.

Lemma route_api_unauthorized (env : Env) (cookie : option string) (req : Request) (s : State) :
  fst (_get_current_auth (now env) cookie s) = None ->
  _route_api env cookie req s
  = (error UNAUTHORIZED "Требуется авторизация",
     snd (_get_current_auth (now env) cookie s)).
Proof.
  unfold _route_api, _require_auth.
  destruct (_get_current_auth (now env) cookie s) as [[a|] s1]; simpl;
    [discriminate | reflexivity].
Qed.

Lemma route_api_authorized (env : Env) (cookie : option string) (req : Request)
  (s : State) (auth : Auth) :
  fst (_get_current_auth (now env) cookie s) = Some auth ->
  _route_api env cookie req s
  = match dispatch env auth req s with
    | Return r s2 => (r, s2)
    | Raise e => ({| status := INTERNAL_SERVER_ERROR; body := BInternal e |}, s)
    end.
Proof.
  intros H. apply get_current_auth_fst_some in H.
  unfold _route_api, _require_auth. rewrite H. reflexivity.
Qed.

Lemma check_lines_status (org_id : string) (prepared : list Line) (s : State) (r : Response) :
  check_lines org_id prepared s = Some r ->
  r = error NOT_FOUND "Товар не найден" \/
  r = error BAD_REQUEST "Недостаточно товара на складе".
Proof.
  induction prepared as [|line rest IH]; simpl; [discriminate|].
  destruct (select_product (l_productId line) org_id s) as [p|].
  - destruct (p_stock p <? l_qty line)%Z.
    + intros H; inversion H; auto.
    + exact IH.
  - intros H; inversion H; auto.
Qed.

(** An owner is never answered with 403 by a branch of [_route_api]. *)
Lemma dispatch_owner_not_forbidden (env : Env) (auth : Auth) (req : Request)
  (s s' : State) (r : Response) :
  a_role auth = owner ->
  dispatch env auth req s = Return r s' ->
  status r <> FORBIDDEN.
Proof.
  intros Hrole.
  destruct req; simpl;
    unfold get_state, post_memberships_role, post_products, patch_product_price,
      patch_product, delete_product, post_receipts, delete_receipt,
      post_shipments, delete_shipment, _require_role;
    rewrite ?Hrole; simpl; intros H;
    repeat (break_match_hyp; simpl in *; try discriminate);
    inversion H; subst; simpl; try discriminate.
  match goal with
  | H : check_lines _ _ _ = Some _ |- _ =>
    apply check_lines_status in H; destruct H; subst; discriminate
  end.
Qed.

(** ** Handlers leave the session table alone *)

Lemma commit_lines_sessions (shipment_id org_id : string) (prepared : list Line)
  (s s' : State) :
  commit_lines shipment_id org_id prepared s = Some s' ->
  sessions s' = sessions s.
Proof.
  revert s. induction prepared as [|line rest IH]; simpl; intros s H.
  - inversion H; reflexivity.
  - break_match_hyp; [|discriminate].
    apply IH in H. rewrite H. reflexivity.
Qed.

Lemma restore_items_sessions (org_id : string) (items : list ShipmentItem) (s : State) :
  sessions (restore_items org_id items s) = sessions s.
Proof.
  unfold restore_items. revert s.
  induction items as [|i rest IH]; simpl; intros s; [reflexivity|].
  rewrite IH. reflexivity.
Qed.

Lemma dispatch_sessions (env : Env) (auth : Auth) (req : Request)
  (s s' : State) (r : Response) :
  dispatch env auth req s = Return r s' ->
  sessions s' = sessions s.
Proof.
  destruct req; simpl;
    unfold get_state, post_memberships_role, post_products, patch_product_price,
      patch_product, delete_product, post_receipts, delete_receipt,
      post_shipments, delete_shipment, insert_product, insert_receipt,
      insert_shipment;
    intros H;
    repeat (break_match_hyp; simpl in *; try discriminate);
    repeat match goal with
           | E : Some _ = Some _ |- _ => inversion E; subst; clear E
           end;
    inversion H; subst; simpl; try reflexivity.
  - match goal with
    | E : commit_lines _ _ _ _ = Some _ |- _ =>
      apply commit_lines_sessions in E; rewrite E; reflexivity
    end.
  - apply restore_items_sessions.
Qed.

(** Every request either keeps the session table or removes the rows of the
    one token whose joined row was found expired. *)
Lemma route_api_sessions (env : Env) (cookie : option string) (req : Request) (s : State) :
  sessions (snd (_route_api env cookie req s)) = sessions s \/
  exists token se u o m,
    cookie = Some token /\ session_row token s = Some (se, u, o, m) /\
    (s_expires_at se <= now env)%Z /\
    sessions (snd (_route_api env cookie req s))
    = delete_where (fun x => String.eqb (s_token x) token) (sessions s).
Proof.
  destruct (_get_current_auth (now env) cookie s) as [[auth|] s1] eqn:Hauth.
  - left. rewrite (route_api_authorized env cookie req s (auth := auth))
      by (rewrite Hauth; reflexivity).
    destruct (dispatch env auth req s) as [r s2|e] eqn:Hd; simpl; [|reflexivity].
    eapply dispatch_sessions; eauto.
  - rewrite route_api_unauthorized by (rewrite Hauth; reflexivity).
    rewrite Hauth; simpl.
    apply get_current_auth_none in Hauth.
    destruct Hauth as [[-> _]|(token & se & u & o & m & Hc & Hrow & Hexp & ->)].
    + left; reflexivity.
    + right. exists token, se, u, o, m. auto.
Qed.

Lemma find_delete_where_none (A : Type) (f g : A -> bool) (l : list A) :
  find f l = None -> find f (delete_where g l) = None.
Proof.
  unfold delete_where.
  induction l as [|x l IH]; simpl; [reflexivity|].
  destruct (f x) eqn:Hf; [discriminate|].
  intros H. destruct (g x); simpl; [|rewrite Hf]; auto.
Qed.

Lemma find_delete_where_self (A : Type) (f : A -> bool) (l : list A) :
  find f (delete_where f l) = None.
Proof.
  unfold delete_where.
  induction l as [|x l IH]; simpl; [reflexivity|].
  destruct (f x) eqn:Hf; simpl; [|rewrite Hf]; auto.
Qed.

(** A token with no session row does not resolve, whatever the clock. *)
Lemma absent_token_unresolved (t : Z) (token : string) (s : State) :
  find (fun x => String.eqb (s_token x) token) (sessions s) = None ->
  _get_current_auth t (Some token) s = (None, s).
Proof.
  intros H. unfold _get_current_auth, session_row. rewrite H.
  destruct (String.eqb token ""); reflexivity.
Qed.

(** No run of API requests brings back a token that has no session row. *)
Lemma absent_token_stays_absent (token : string)
  (reqs : list (Env * option string * Request)) (s : State) :
  find (fun x => String.eqb (s_token x) token) (sessions s) = None ->
  find (fun x => String.eqb (s_token x) token) (sessions (run reqs s)) = None.
Proof.
  revert s. induction reqs as [|[[env cookie] req] rest IH]; simpl; intros s H.
  - exact H.
  - apply IH.
    destruct (route_api_sessions env cookie req s)
      as [->|(tok & se & u & o & m & _ & _ & _ & ->)]; auto.
    apply find_delete_where_none; exact H.
Qed.

(** ** Role gate *)

(** C7.  With a resolved session: a viewer who posts a product, a shipment
    or a role change is answered 403 and the store is unchanged; a manager
    who posts a role change is answered 403 and the store is unchanged; an
    owner is never answered 403.  A request whose cookie is missing, whose
    token has no session row, or whose session has expired is answered 401,
    which is a different status. *)
Theorem role_enforcement (env : Env) (cookie : option string) (s : State) (auth : Auth) :
  fst (_get_current_auth (now env) cookie s) = Some auth ->
  (a_role auth = viewer ->
   (forall name sku unit price stock purchase,
      _route_api env cookie (PostProduct name sku unit price stock purchase) s
      = (error FORBIDDEN "Недостаточно прав", s)) /\
   (forall items,
      _route_api env cookie (PostShipment items) s
      = (error FORBIDDEN "Недостаточно прав", s)) /\
   (forall email role,
      _route_api env cookie (PostMembershipRole email role) s
      = (error FORBIDDEN "Только владелец может менять роли", s))) /\
  (a_role auth = manager ->
   forall email role,
     _route_api env cookie (PostMembershipRole email role) s
     = (error FORBIDDEN "Только владелец может менять роли", s)) /\
  (a_role auth = owner ->
   forall req, status (fst (_route_api env cookie req s)) <> FORBIDDEN) /\
  (forall cookie' s' req,
     cookie' = None \/
     (exists token,
        cookie' = Some token /\
        find (fun x => String.eqb (s_token x) token) (sessions s') = None) \/
     (exists token se,
        cookie' = Some token /\
        find (fun x => String.eqb (s_token x) token) (sessions s') = Some se /\
        (s_expires_at se <= now env)%Z) ->
     fst (_route_api env cookie' req s') = error UNAUTHORIZED "Требуется авторизация" /\
     status (fst (_route_api env cookie' req s')) <> FORBIDDEN).
Proof.
  intros Hauth.
  pose proof (route_api_authorized env cookie) as Hroute.
  split; [|split; [|split]].
  - intros Hrole. repeat split; intros;
      rewrite (Hroute _ _ _ Hauth); simpl;
      unfold post_products, post_shipments, post_memberships_role, _require_role;
      rewrite Hrole; reflexivity.
  - intros Hrole email role.
    rewrite (Hroute _ _ _ Hauth); simpl.
    unfold post_memberships_role, _require_role. rewrite Hrole. reflexivity.
  - intros Hrole req.
    rewrite (Hroute _ _ _ Hauth).
    destruct (dispatch env auth req s) as [r s2|e] eqn:Hd; simpl.
    + eapply dispatch_owner_not_forbidden; eauto.
    + discriminate.
  - intros cookie' s' req H.
    assert (Hnone : fst (_get_current_auth (now env) cookie' s') = None).
    { destruct H as [->|[(token & -> & Hf)|(token & se & -> & Hf & Hexp)]].
      - reflexivity.
      - rewrite absent_token_unresolved by exact Hf. reflexivity.
      - unfold _get_current_auth.
        destruct (String.eqb token ""); [reflexivity|].
        destruct (session_row token s') as [[[[se' u] o] m]|] eqn:Hrow; [|reflexivity].
        apply session_row_find in Hrow. rewrite Hf in Hrow. inversion Hrow; subst.
        apply Z.leb_le in Hexp. rewrite Hexp. reflexivity. }
    rewrite route_api_unauthorized by exact Hnone.
    split; [reflexivity|discriminate].
Qed.

(** ** Session expiry and membership loss *)

(** C8, as amended.  Resolving a stored token whose session has expired
    reports no session.  If the token is non-empty and its session joins
    with a user, an organization and a membership, the session rows of the
    token are deleted, and from then on the token resolves to nothing at any
    clock value and after any run of API requests.  If the join finds no row
    the store is left as it is; also then the token resolves to nothing at
    every later clock value. *)
Theorem expired_session_resolution (t : Z) (token : string) (s : State) (se : Session) :
  find (fun x => String.eqb (s_token x) token) (sessions s) = Some se ->
  (s_expires_at se <= t)%Z ->
  let s' := snd (_get_current_auth t (Some token) s) in
  fst (_get_current_auth t (Some token) s) = None /\
  (token <> "" -> session_row token s <> None ->
   s' = delete_session token s /\
   find (fun x => String.eqb (s_token x) token) (sessions s') = None /\
   forall reqs t',
     _get_current_auth t' (Some token) (run reqs s') = (None, run reqs s')) /\
  (session_row token s = None -> s' = s) /\
  (forall t', (t <= t')%Z -> fst (_get_current_auth t' (Some token) s') = None).
Proof.
  intros Hfind Hexp s'.
  assert (Hnone : fst (_get_current_auth t (Some token) s) = None).
  { unfold _get_current_auth.
    destruct (String.eqb token ""); [reflexivity|].
    destruct (session_row token s) as [[[[se' u] o] m]|] eqn:Hrow; [|reflexivity].
    apply session_row_find in Hrow. rewrite Hfind in Hrow. inversion Hrow; subst.
    apply Z.leb_le in Hexp. rewrite Hexp. reflexivity. }
  split; [exact Hnone|].
  split; [|split].
  - intros Htok Hrow.
    assert (Hs' : s' = delete_session token s).
    { subst s'. unfold _get_current_auth.
      apply String.eqb_neq in Htok. rewrite Htok.
      destruct (session_row token s) as [[[[se' u] o] m]|] eqn:Hrow'; [|congruence].
      apply session_row_find in Hrow'. rewrite Hfind in Hrow'. inversion Hrow'; subst.
      apply Z.leb_le in Hexp. rewrite Hexp. reflexivity. }
    assert (Hgone : find (fun x => String.eqb (s_token x) token) (sessions s') = None).
    { rewrite Hs'. simpl. apply find_delete_where_self. }
    repeat split; auto.
    intros reqs t'. apply absent_token_unresolved.
    apply absent_token_stays_absent. exact Hgone.
  - intros Hrow. subst s'. unfold _get_current_auth. rewrite Hrow.
    destruct (String.eqb token ""); reflexivity.
  - intros t' Hle.
    destruct (_get_current_auth t (Some token) s) as [a s1] eqn:Hres.
    simpl in Hnone; subst a. subst s'; cbn [snd].
    apply get_current_auth_none in Hres.
    destruct Hres as [[-> _]|(tok & se' & u & o & m & Hc & Hrow & _ & ->)].
    + unfold _get_current_auth.
      destruct (String.eqb token ""); [reflexivity|].
      destruct (session_row token s) as [[[[se' u] o] m]|] eqn:Hrow; [|reflexivity].
      apply session_row_find in Hrow. rewrite Hfind in Hrow. inversion Hrow; subst.
      assert (Hexp' : (s_expires_at se' <=? t')%Z = true) by (apply Z.leb_le; lia).
      rewrite Hexp'. reflexivity.
    + inversion Hc; subst tok.
      rewrite absent_token_unresolved; [reflexivity|].
      simpl. apply find_delete_where_self.
Qed.

(** C10.  A stored, unexpired session whose user has no membership row in
    the session's organization does not resolve: [_get_current_auth] gives
    nothing and keeps the store, every API request is answered 401 (not
    403) with the store unchanged, and logout keeps the store too.  In
    general the session table changes under session resolution only when a
    joined row, membership included, is found expired, and under logout only
    then or when the session resolves. *)
Theorem membership_loss_unauthenticated (env : Env) (token : string) (s : State)
  (se : Session) :
  find (fun x => String.eqb (s_token x) token) (sessions s) = Some se ->
  (now env < s_expires_at se)%Z ->
  find (fun m => String.eqb (m_user_id m) (s_user_id se)
                 && String.eqb (m_org_id m) (s_org_id se)) (memberships s) = None ->
  _get_current_auth (now env) (Some token) s = (None, s) /\
  (forall req,
     _route_api env (Some token) req s
     = (error UNAUTHORIZED "Требуется авторизация", s) /\
     status (fst (_route_api env (Some token) req s)) <> FORBIDDEN) /\
  snd (logout (now env) (Some token) s) = s /\
  (forall t cookie s0,
     snd (_get_current_auth t cookie s0) = s0 \/
     exists tok se0 u o m,
       cookie = Some tok /\ session_row tok s0 = Some (se0, u, o, m) /\
       (s_expires_at se0 <= t)%Z /\
       snd (_get_current_auth t cookie s0) = delete_session tok s0) /\
  (forall t cookie s0,
     snd (logout t cookie s0) = s0 \/
     exists tok se0 u o m,
       cookie = Some tok /\ session_row tok s0 = Some (se0, u, o, m) /\
       snd (logout t cookie s0) = delete_session tok s0).
Proof.
  intros Hfind Hlive Hmem.
  assert (Hrow : session_row token s = None).
  { unfold session_row. rewrite Hfind, Hmem.
    repeat (break_match; try reflexivity). }
  assert (Hres : _get_current_auth (now env) (Some token) s = (None, s)).
  { unfold _get_current_auth. rewrite Hrow.
    destruct (String.eqb token ""); reflexivity. }
  split; [exact Hres|].
  split; [|split; [|split]].
  - intros req.
    rewrite route_api_unauthorized by (rewrite Hres; reflexivity).
    rewrite Hres. split; [reflexivity|discriminate].
  - unfold logout. rewrite Hres. reflexivity.
  - intros t cookie s0.
    destruct (_get_current_auth t cookie s0) as [[a|] s1] eqn:H0; simpl.
    + apply get_current_auth_some in H0. left. tauto.
    + apply get_current_auth_none in H0.
      destruct H0 as [[-> _]|(tok & se0 & u & o & m & Hc & Hr & He & ->)];
        [left; reflexivity|].
      right. exists tok, se0, u, o, m. auto.
  - intros t cookie s0. unfold logout.
    destruct (_get_current_auth t cookie s0) as [[a|] s1] eqn:H0; simpl.
    + apply get_current_auth_some in H0.
      destruct H0 as (-> & tok & se0 & u & o & m & Hc & Hr & _ & Htok & _).
      right. exists tok, se0, u, o, m. repeat split; auto.
      rewrite Htok. apply session_row_find in Hr.
      apply find_some in Hr. destruct Hr as [_ Hr].
      apply String.eqb_eq in Hr. rewrite Hr. reflexivity.
    + apply get_current_auth_none in H0.
      destruct H0 as [[-> _]|(tok & se0 & u & o & m & Hc & Hr & He & ->)];
        [left; reflexivity|].
      right. exists tok, se0, u, o, m. auto.
Qed.

(** ** Receipts *)

Lemma find_update_where (A : Type) (hit : A -> bool) (f : A -> A) (l : list A) :
  (forall x, hit (f x) = hit x) ->
  find hit (update_where hit f l) = option_map f (find hit l).
Proof.
  intros Hf. unfold update_where.
  induction l as [|x l IH]; simpl; [reflexivity|].
  destruct (hit x) eqn:Hx.
  - rewrite Hf, Hx. reflexivity.
  - rewrite Hx. exact IH.
Qed.

Lemma role_not_viewer (auth : Auth) :
  a_role auth <> viewer -> _require_role auth [owner; manager] = true.
Proof.
  unfold _require_role. destruct (a_role auth); simpl; congruence.
Qed.

(** [max(0, cost) > 0] exactly when [cost > 0]. *)
Lemma float_gt0_max0 (x : pyfloat) : float_gt0 (max0 x) = float_gt0 x.
Proof.
  unfold max0. destruct (float_gt0 x) eqn:Hx; [exact Hx|apply float_gt0_zero].
Qed.

(** ** 64-bit integers *)

Lemma fits_int64_spec (z : Z) :
  fits_int64 z = true <-> (- 2 ^ 63 <= z < 2 ^ 63)%Z.
Proof.
  unfold fits_int64. rewrite andb_true_iff, Z.leb_le, Z.ltb_lt. tauto.
Qed.

Lemma fits_int64_above (z : Z) :
  (0 <= z)%Z -> fits_int64 z = false <-> (2 ^ 63 <= z)%Z.
Proof.
  intros Hz. unfold fits_int64.
  rewrite andb_false_iff, Z.leb_gt, Z.ltb_ge. lia.
Qed.

(** In the 64-bit range SQLite's sum is the sum. *)
Lemma sqlite_add_exact (a b : Z) :
  fits_int64 a = true -> fits_int64 (a + b) = true -> sqlite_add a b = (a + b)%Z.
Proof.
  intros Ha Hab. unfold sqlite_add. rewrite Ha, Hab. reflexivity.
Qed.

Lemma to_real_nonneg (z : Z) : (0 <= z)%Z -> (0 <= to_real z)%Z.
Proof.
  intros Hz. unfold to_real.
  destruct (Z.log2 (Z.abs z) - 52 <=? 0)%Z eqn:He; [exact Hz|].
  apply Z.leb_gt in He.
  apply Z.mul_nonneg_nonneg; [apply Z.sgn_nonneg; exact Hz|].
  apply Z.shiftl_nonneg.
  assert (Hq : (0 <= Z.shiftr (Z.abs z) (Z.log2 (Z.abs z) - 52))%Z)
    by (apply Z.shiftr_nonneg; lia).
  destruct (_ || _); lia.
Qed.

Lemma sqlite_add_nonneg (a b : Z) :
  (0 <= a)%Z -> (0 <= b)%Z -> (0 <= sqlite_add a b)%Z.
Proof.
  intros Ha Hb. unfold sqlite_add.
  destruct (_ && _); [lia|].
  apply to_real_nonneg.
  pose proof (to_real_nonneg Ha). pose proof (to_real_nonneg Hb). lia.
Qed.

(** C5, as amended.  For a manager or owner, a non-blank product id that
    resolves in the caller's organization, a quantity above zero and a
    fresh receipt id, [POST /api/receipts]:
    - with a quantity of [2 ^ 63] or more answers 500 ([OverflowError]) and
      keeps the store;
    - with a quantity below [2 ^ 63] answers 201 and commits exactly this:
      one receipt row is appended, carrying the quantity and the cost
      (zero when the cost is not above zero); the purchase price of the
      product becomes the cost when the cost is above zero and stays as it
      was otherwise; the stock of the product becomes SQLite's sum, which
      is the stock plus the quantity when the stock is a 64-bit integer and
      the sum stays below [2 ^ 63]. *)
Theorem create_receipt_effect (env : Env) (cookie : option string) (s : State)
  (auth : Auth) (productId : string) (quantity : Z) (cost : pyfloat)
  (product : Product) :
  fst (_get_current_auth (now env) cookie s) = Some auth ->
  a_role auth <> viewer ->
  str_strip productId <> "" ->
  (0 < quantity)%Z ->
  select_product (str_strip productId) (a_orgId auth) s = Some product ->
  existsb (fun q => String.eqb (r_id q) (gen_receipt_id env)) (org_receipts s) = false ->
  let org_id := a_orgId auth in
  let product_id := str_strip productId in
  let request := PostReceipt productId quantity cost in
  let credited p :=
    set_purchase_price (set_stock p (sqlite_add (p_stock p) quantity))
      (if float_gt0 cost then cost else p_purchase_price p) in
  let s' :=
    with_ledger s
      (update_where (product_hit product_id org_id) credited (org_products s))
      (org_receipts s ++
       [{| r_id := gen_receipt_id env; r_org_id := org_id;
           r_product_id := product_id; r_quantity := quantity;
           r_cost := if float_gt0 cost then cost else float_zero;
           r_created_at := now env |}])
      (org_shipments s) (org_shipment_items s) in
  ((2 ^ 63 <= quantity)%Z ->
   _route_api env cookie request s
   = ({| status := INTERNAL_SERVER_ERROR; body := BInternal OverflowError |}, s)) /\
  ((quantity < 2 ^ 63)%Z ->
   _route_api env cookie request s = (state_response CREATED s' org_id, s') /\
   select_product product_id org_id s' = Some (credited product) /\
   (fits_int64 (p_stock product) = true ->
    (p_stock product + quantity < 2 ^ 63)%Z ->
    p_stock (credited product) = (p_stock product + quantity)%Z) /\
   (float_gt0 cost = true -> p_purchase_price (credited product) = cost) /\
   (float_gt0 cost = false ->
    p_purchase_price (credited product) = p_purchase_price product)).
Proof.
  intros Hauth Hrole Hid Hqty Hsel Hfresh org_id product_id request credited s'.
  assert (Hroute : _route_api env cookie request s
                   = match post_receipts env auth productId quantity cost s with
                     | Return r s2 => (r, s2)
                     | Raise e => ({| status := INTERNAL_SERVER_ERROR;
                                      body := BInternal e |}, s)
                     end).
  { exact (route_api_authorized env cookie request s Hauth). }
  rewrite Hroute. unfold post_receipts. rewrite (role_not_viewer _ Hrole); simpl.
  apply String.eqb_neq in Hid. rewrite Hid; simpl.
  assert (Hq : (quantity <=? 0)%Z = false) by (apply Z.leb_gt; exact Hqty).
  rewrite Hq, Hsel.
  split.
  - intros Hbig.
    assert (Hfit : fits_int64 quantity = false)
      by (apply fits_int64_above; lia).
    rewrite Hfit. reflexivity.
  - intros Hsmall.
    assert (Hfit : fits_int64 quantity = true)
      by (apply fits_int64_spec; lia).
    rewrite Hfit; simpl.
    split; [|split; [|split; [|split]]].
    + unfold insert_receipt; simpl. rewrite Hfresh.
      rewrite float_gt0_max0.
      replace (update_where _ _ (org_products s))
        with (update_where (product_hit product_id org_id) credited (org_products s)).
      * unfold max0. reflexivity.
      * unfold update_where, credited. apply map_ext. intros p.
        unfold max0. destruct (float_gt0 cost); reflexivity.
    + unfold select_product, s'; simpl.
      rewrite find_update_where by reflexivity.
      unfold select_product in Hsel. fold product_id org_id in Hsel.
      rewrite Hsel. reflexivity.
    + intros Hstock Hsum. unfold credited; simpl.
      apply sqlite_add_exact; [exact Hstock|].
      apply fits_int64_spec in Hstock. apply fits_int64_spec. lia.
    + intros Hc. unfold credited; simpl. rewrite Hc. reflexivity.
    + intros Hc. unfold credited; simpl. rewrite Hc. reflexivity.
Qed.


(** ** Reading [store_ok] *)

Lemma unique_org_spec (A : Type) (id org : A -> string) (t : list A) :
  unique_org id org t = true <->
  (forall x y, In x t -> In y t -> id x = id y -> org x = org y).
Proof.
  unfold unique_org. rewrite forallb_forall. split.
  - intros H x y Hx Hy Hid.
    specialize (H x Hx). rewrite forallb_forall in H. specialize (H y Hy).
    apply String.eqb_eq in Hid. rewrite Hid in H. simpl in H.
    apply String.eqb_eq. exact H.
  - intros H x Hx. apply forallb_forall. intros y Hy.
    destruct (String.eqb (id x) (id y)) eqn:Hid; [|reflexivity].
    simpl. apply String.eqb_eq. apply String.eqb_eq in Hid. auto.
Qed.

Lemma refers_spec (P C : Type) (id org : P -> string) (key corg : C -> string)
  (parents : list P) (children : list C) :
  refers id org key corg parents children = true <->
  (forall c, In c children ->
   exists p, In p parents /\ id p = key c /\ org p = corg c).
Proof.
  unfold refers. rewrite forallb_forall. split.
  - intros H c Hc. specialize (H c Hc).
    apply existsb_exists in H. destruct H as (p & Hp & Hm).
    apply andb_true_iff in Hm. destruct Hm as [H1 H2].
    apply String.eqb_eq in H1. apply String.eqb_eq in H2. eauto.
  - intros H c Hc. destruct (H c Hc) as (p & Hp & H1 & H2).
    apply existsb_exists. exists p. split; [exact Hp|].
    rewrite H1, H2, !String.eqb_refl. reflexivity.
Qed.

Lemma store_ok_parts (s : State) :
  store_ok s = true <->
  unique_org p_id p_org_id (org_products s) = true /\
  unique_org r_id r_org_id (org_receipts s) = true /\
  unique_org sh_id sh_org_id (org_shipments s) = true /\
  refers p_id p_org_id r_product_id r_org_id (org_products s) (org_receipts s) = true /\
  refers p_id p_org_id i_product_id i_org_id (org_products s)
    (org_shipment_items s) = true /\
  refers sh_id sh_org_id i_shipment_id i_org_id (org_shipments s)
    (org_shipment_items s) = true.
Proof.
  unfold store_ok. rewrite !andb_true_iff. tauto.
Qed.

Lemma existsb_false_In (A : Type) (f : A -> bool) (l : list A) (x : A) :
  existsb f l = false -> In x l -> f x = false.
Proof.
  intros H Hx. destruct (f x) eqn:Hf; [|reflexivity].
  assert (existsb f l = true) by (apply existsb_exists; eauto). congruence.
Qed.

Lemma existsb_none (A : Type) (f : A -> bool) (l : list A) :
  (forall x, In x l -> f x = false) -> existsb f l = false.
Proof.
  induction l as [|x l IH]; simpl; intros H; [reflexivity|].
  rewrite (H x) by auto. apply IH. intros y Hy. apply H. auto.
Qed.

Lemma filter_none (A : Type) (f : A -> bool) (l : list A) :
  (forall x, In x l -> f x = false) -> filter f l = [].
Proof.
  induction l as [|x l IH]; simpl; intros H; [reflexivity|].
  rewrite (H x) by auto. apply IH. intros y Hy. apply H. auto.
Qed.

Lemma filter_all (A : Type) (f : A -> bool) (l : list A) :
  (forall x, In x l -> f x = true) -> filter f l = l.
Proof.
  induction l as [|x l IH]; simpl; intros H; [reflexivity|].
  rewrite (H x) by auto. f_equal. apply IH. intros y Hy. apply H. auto.
Qed.

Lemma find_none_In (A : Type) (f : A -> bool) (l : list A) :
  (forall x, In x l -> f x = false) -> find f l = None.
Proof.
  induction l as [|x l IH]; simpl; intros H; [reflexivity|].
  rewrite (H x) by auto. apply IH. intros y Hy. apply H. auto.
Qed.

Lemma find_app_fresh (A : Type) (f : A -> bool) (l : list A) (x : A) :
  (forall y, In y l -> f y = false) -> f x = true -> find f (l ++ [x]) = Some x.
Proof.
  induction l as [|y l IH]; simpl; intros Hl Hx.
  - rewrite Hx. reflexivity.
  - rewrite (Hl y) by auto. apply IH; auto.
Qed.

(** ** Products *)

(** C9, as amended.  For a manager or owner, [POST /api/products] with a
    name that is blank after trimming answers 400 and keeps the store.
    With a non-blank name, a clamped stock of [2 ^ 63] or more answers 500
    ([OverflowError]) and keeps the store.  With a clamped stock below
    [2 ^ 63] and a fresh product id: when the clamped stock is above zero
    and the receipt id is fresh, the product row and one receipt row are
    committed together, the receipt carrying the clamped stock as quantity
    and the clamped purchase price (the purchase price when it is above
    zero, else zero) as cost, and in a store that satisfies [store_ok] it
    is the one receipt of the product; when the receipt id is taken nothing
    is committed; when the clamped stock is zero only the product row is
    committed. *)
Theorem create_product_effect (env : Env) (cookie : option string) (s : State)
  (auth : Auth) (name sku unit : string) (price : pyfloat) (stock : Z)
  (purchasePrice : pyfloat) :
  fst (_get_current_auth (now env) cookie s) = Some auth ->
  a_role auth <> viewer ->
  let org_id := a_orgId auth in
  let product_id := gen_product_id env in
  let initial := Z.max 0 stock in
  let clamped (x : pyfloat) := if float_gt0 x then x else float_zero in
  let request := PostProduct name sku unit price stock purchasePrice in
  let new_product :=
    {| p_id := product_id; p_org_id := org_id; p_name := str_strip name;
       p_sku := if String.eqb (str_strip sku) "" then gen_sku env else str_strip sku;
       p_unit := if String.eqb (str_strip unit) "" then "шт" else str_strip unit;
       p_price := clamped price; p_stock := initial;
       p_purchase_price := clamped purchasePrice; p_created_at := now env |} in
  let new_receipt :=
    {| r_id := gen_receipt_id env; r_org_id := org_id; r_product_id := product_id;
       r_quantity := initial; r_cost := clamped purchasePrice;
       r_created_at := now env |} in
  (str_strip name = "" ->
   _route_api env cookie request s = (error BAD_REQUEST "Название обязательно", s)) /\
  (str_strip name <> "" ->
   ((2 ^ 63 <= initial)%Z ->
    _route_api env cookie request s
    = ({| status := INTERNAL_SERVER_ERROR; body := BInternal OverflowError |}, s)) /\
   ((initial < 2 ^ 63)%Z ->
    existsb (fun q => String.eqb (p_id q) product_id) (org_products s) = false ->
    (0 < initial ->
     existsb (fun q => String.eqb (r_id q) (gen_receipt_id env)) (org_receipts s) = false ->
     let s' :=
       with_ledger s (org_products s ++ [new_product])
         (org_receipts s ++ [new_receipt]) (org_shipments s)
         (org_shipment_items s) in
     _route_api env cookie request s = (state_response CREATED s' org_id, s') /\
     select_product product_id org_id s' = Some new_product /\
     p_stock new_product = initial /\
     r_quantity new_receipt = initial /\
     (float_gt0 purchasePrice = true -> r_cost new_receipt = purchasePrice) /\
     (float_gt0 purchasePrice = false -> r_cost new_receipt = float_zero) /\
     (store_ok s = true ->
      filter (fun r => String.eqb (r_product_id r) product_id) (org_receipts s')
      = [new_receipt])) /\
    (0 < initial ->
     existsb (fun q => String.eqb (r_id q) (gen_receipt_id env)) (org_receipts s) = true ->
     _route_api env cookie request s
     = ({| status := INTERNAL_SERVER_ERROR; body := BInternal IntegrityError |}, s)) /\
    (initial = 0 ->
     let s' :=
       with_ledger s (org_products s ++ [new_product]) (org_receipts s)
         (org_shipments s) (org_shipment_items s) in
     _route_api env cookie request s = (state_response CREATED s' org_id, s') /\
     select_product product_id org_id s' = Some new_product /\
     p_stock new_product = 0))).
Proof.
  intros Hauth Hrole org_id product_id initial clamped request new_product
    new_receipt.
  assert (Hsel : existsb (fun q => String.eqb (p_id q) product_id) (org_products s) = false ->
                 find (product_hit product_id org_id) (org_products s ++ [new_product])
                 = Some new_product).
  { intros Hfresh. apply find_app_fresh.
    - intros y Hy. unfold product_hit.
      rewrite (existsb_false_In _ _ y Hfresh Hy). reflexivity.
    - unfold product_hit; simpl. rewrite !String.eqb_refl. reflexivity. }
  assert (Hroute : _route_api env cookie request s
                   = match post_products env auth name sku unit price stock
                             purchasePrice s with
                     | Return r s2 => (r, s2)
                     | Raise e => ({| status := INTERNAL_SERVER_ERROR;
                                      body := BInternal e |}, s)
                     end).
  { exact (route_api_authorized env cookie request s Hauth). }
  rewrite Hroute. unfold post_products. rewrite (role_not_viewer _ Hrole); simpl.
  fold product_id org_id initial. unfold max0. fold (clamped price).
  fold (clamped purchasePrice).
  split.
  - intros Hblank. rewrite Hblank. reflexivity.
  - intros Hname. apply String.eqb_neq in Hname. rewrite Hname.
    split.
    + intros Hbig.
      assert (Hfit : fits_int64 initial = false)
        by (apply fits_int64_above; lia).
      rewrite Hfit. reflexivity.
    + intros Hsmall Hfresh.
      assert (Hfit : fits_int64 initial = true)
        by (apply fits_int64_spec; lia).
      rewrite Hfit; simpl.
      unfold insert_product; simpl. fold product_id. rewrite Hfresh.
      split; [|split].
      * intros Hpos Hrfresh.
        apply Z.ltb_lt in Hpos. rewrite Hpos.
        unfold insert_receipt; simpl. rewrite Hrfresh.
        split; [reflexivity|].
        split; [unfold select_product; simpl; auto|].
        split; [reflexivity|]. split; [reflexivity|].
        split; [intros Hc; unfold clamped; rewrite Hc; reflexivity|].
        split; [intros Hc; unfold clamped; rewrite Hc; reflexivity|].
        intros Hok.
        rewrite filter_app; simpl. rewrite String.eqb_refl.
        rewrite filter_none; [reflexivity|].
        intros r Hr.
        apply store_ok_parts in Hok. destruct Hok as (_ & _ & _ & Hfk & _).
        rewrite refers_spec in Hfk. destruct (Hfk r Hr) as (p & Hp & Hid & _).
        pose proof (existsb_false_In _ _ p Hfresh Hp) as Hne. simpl in Hne.
        rewrite Hid in Hne. exact Hne.
      * intros Hpos Htaken.
        apply Z.ltb_lt in Hpos. rewrite Hpos.
        unfold insert_receipt; simpl. rewrite Htaken. reflexivity.
      * intros Hzero.
        assert (Hz : (0 <? initial)%Z = false) by (apply Z.ltb_ge; lia).
        rewrite Hz.
        split; [reflexivity|].
        split; [unfold select_product; simpl; auto|exact Hzero].
Qed.

(** ** Shipments: the three loops *)

Lemma prepare_some (items : list ItemPayload) (prepared : list Line) :
  prepare items = Some prepared ->
  prepared = map line_of_item items /\
  forall item, In item items ->
    str_strip (ip_productId item) <> "" /\ (0 < ip_quantity item)%Z.
Proof.
  revert prepared. induction items as [|item rest IH]; simpl; intros prepared H.
  - inversion H. split; [reflexivity|]. intros item [].
  - destruct (String.eqb (str_strip (ip_productId item)) "") eqn:Hid; [discriminate|].
    destruct (ip_quantity item <=? 0)%Z eqn:Hq; [discriminate|]. simpl in H.
    destruct (prepare rest) as [ls|]; [|discriminate].
    inversion H; subst; clear H.
    destruct (IH ls eq_refl) as [-> Hall].
    split; [reflexivity|].
    intros it [<-|Hin]; [|auto].
    apply String.eqb_neq in Hid. apply Z.leb_gt in Hq. auto.
Qed.





Lemma line_passes_selected (org_id : string) (s : State) (line : Line) :
  line_passes org_id s line = true ->
  exists p, select_product (l_productId line) org_id s = Some p /\
            (l_qty line <= p_stock p)%Z.
Proof.
  unfold line_passes.
  destruct (select_product (l_productId line) org_id s) as [p|]; [|discriminate].
  intros H. exists p. split; [reflexivity|].
  apply negb_true_iff, Z.ltb_ge in H. exact H.
Qed.

Lemma delta_for_set_stock (org_id : string) (ds : list (string * Z)) (p : Product) (n : Z) :
  delta_for org_id ds (set_stock p n) = delta_for org_id ds p.
Proof.
  induction ds as [|d ds IH]; simpl; [reflexivity|]. rewrite IH. reflexivity.
Qed.

Lemma set_stock_same (p : Product) (n : Z) : n = p_stock p -> set_stock p n = p.
Proof.
  intros ->. destruct p; reflexivity.
Qed.

Lemma apply_deltas_closed (org_id : string) (ds : list (string * Z)) (ps : list Product) :
  apply_deltas org_id ds ps
  = map (fun p => set_stock p (p_stock p + delta_for org_id ds p)) ps.
Proof.
  unfold apply_deltas. revert ps.
  induction ds as [|d ds IH]; simpl; intros ps.
  - rewrite <- (map_id ps) at 1. apply map_ext. intros p.
    symmetry. apply set_stock_same. lia.
  - rewrite IH. unfold update_where. rewrite map_map. apply map_ext. intros p.
    destruct (product_hit (fst d) org_id p).
    + rewrite delta_for_set_stock. unfold set_stock; simpl. f_equal. lia.
    + reflexivity.
Qed.


Lemma delta_for_opp (org_id : string) (A : Type) (pid : A -> string) (qty : A -> Z)
  (l : list A) (p : Product) :
  delta_for org_id (map (fun x => (pid x, - qty x)%Z) l) p
  = (- delta_for org_id (map (fun x => (pid x, qty x)) l) p)%Z.
Proof.
  induction l as [|x l IH]; simpl; [reflexivity|]. rewrite IH.
  destruct (product_hit (pid x) org_id p); lia.
Qed.

Lemma find_update_where_any (A : Type) (hit sel : A -> bool) (f : A -> A) (l : list A) :
  (forall x, sel (f x) = sel x) ->
  find sel (update_where hit f l)
  = option_map (fun x => if hit x then f x else x) (find sel l).
Proof.
  intros Hf. unfold update_where.
  induction l as [|x l IH]; simpl; [reflexivity|].
  destruct (hit x) eqn:Hx.
  - rewrite Hf. destruct (sel x); simpl; [rewrite Hx; reflexivity|exact IH].
  - destruct (sel x); simpl; [rewrite Hx; reflexivity|exact IH].
Qed.

Lemma select_product_update_stock (product_id pid org_id : string) (f : Z -> Z) (s : State) :
  select_product pid org_id (update_stock product_id org_id f s)
  = option_map
      (fun p => if product_hit product_id org_id p
                then set_stock p (f (p_stock p)) else p)
      (select_product pid org_id s).
Proof.
  unfold select_product, update_stock; simpl.
  apply find_update_where_any. reflexivity.
Qed.

Lemma line_price_update (org_id product_id : string) (f : Z -> Z) (i : ShipmentItem)
  (s : State) (line : Line) :
  line_price org_id (insert_item i (update_stock product_id org_id f s)) line
  = line_price org_id s line.
Proof.
  unfold line_price. destruct (l_price line); [reflexivity|].
  change (select_product (l_productId line) org_id
            (insert_item i (update_stock product_id org_id f s)))
    with (select_product (l_productId line) org_id
            (update_stock product_id org_id f s)).
  rewrite select_product_update_stock.
  destruct (select_product (l_productId line) org_id s) as [p|]; simpl; [|reflexivity].
  destruct (product_hit product_id org_id p); reflexivity.
Qed.

(** The third loop, for lines that all name a product of the organization. *)
Lemma commit_lines_closed (shipment_id org_id : string) (prepared : list Line) (s : State) :
  (forall line, In line prepared ->
     select_product (l_productId line) org_id s <> None) ->
  commit_lines shipment_id org_id prepared s
  = Some (with_ledger s
            (apply_deltas org_id
               (map (fun l => (l_productId l, - l_qty l)%Z) prepared)
               (org_products s))
            (org_receipts s) (org_shipments s)
            (org_shipment_items s ++ map (line_item shipment_id org_id s) prepared)).
Proof.
  revert s. induction prepared as [|line rest IH]; intros s Hall.
  - simpl. rewrite app_nil_r. destruct s; reflexivity.
  - cbn [commit_lines].
    assert (Hprice : exists price, line_price org_id s line = Some price).
    { unfold line_price. destruct (l_price line); [eauto|].
      destruct (select_product (l_productId line) org_id s) eqn:Hs; simpl; [eauto|].
      exfalso. apply (Hall line); simpl; auto. }
    destruct Hprice as [price Hprice].
    unfold line_price in Hprice. rewrite Hprice.
    rewrite IH.
    + f_equal. unfold with_ledger; simpl. f_equal.
      rewrite <- app_assoc. simpl. f_equal. f_equal.
      * unfold line_item, line_price. rewrite Hprice. reflexivity.
      * apply map_ext. intros l. unfold line_item.
        rewrite line_price_update. reflexivity.
    + intros l Hl.
      change (select_product (l_productId l) org_id
                (insert_item
                   {| i_shipment_id := shipment_id; i_org_id := org_id;
                      i_product_id := l_productId line; i_quantity := l_qty line;
                      i_price := price;
                      i_amount := float_mul_int price (l_qty line) |}
                   (update_stock (l_productId line) org_id
                      (fun stock => (stock - l_qty line)%Z) s)))
        with (select_product (l_productId l) org_id
                (update_stock (l_productId line) org_id
                   (fun stock => (stock - l_qty line)%Z) s)).
      rewrite select_product_update_stock.
      destruct (select_product (l_productId l) org_id s) eqn:Hs; simpl;
        [discriminate|].
      exfalso. apply (Hall l); simpl; auto.
Qed.

Lemma restore_items_closed (org_id : string) (items : list ShipmentItem) (s : State) :
  restore_items org_id items s
  = with_products s
      (apply_deltas org_id (map (fun i => (i_product_id i, i_quantity i)) items)
         (org_products s)).
Proof.
  unfold restore_items, apply_deltas. revert s.
  induction items as [|i rest IH]; simpl; intros s.
  - destruct s; reflexivity.
  - rewrite IH. reflexivity.
Qed.

Lemma check_lines_fail (org_id : string) (prepared : list Line) (s : State) :
  forallb (line_passes org_id s) prepared = false ->
  exists failure, check_lines org_id prepared s = Some failure.
Proof.
  induction prepared as [|line rest IH]; simpl; [discriminate|].
  unfold line_passes at 1.
  destruct (select_product (l_productId line) org_id s) as [p|]; [|eauto].
  destruct (p_stock p <? l_qty line)%Z; simpl; eauto.
Qed.

Lemma delta_for_cons (org_id : string) (d : string * Z) (ds : list (string * Z)) (p : Product) :
  delta_for org_id (d :: ds) p
  = ((if product_hit (fst d) org_id p then snd d else 0) + delta_for org_id ds p)%Z.
Proof. reflexivity. Qed.

Lemma delta_for_nonneg (org_id : string) (ds : list (string * Z)) (p : Product) :
  (forall d, In d ds -> (0 <= snd d)%Z) -> (0 <= delta_for org_id ds p)%Z.
Proof.
  induction ds as [|d ds IH]; intros Hd; [simpl; unfold delta_for; simpl; lia|].
  rewrite delta_for_cons.
  assert (0 <= snd d)%Z by (apply Hd; left; reflexivity).
  assert (0 <= delta_for org_id ds p)%Z by (apply IH; intros; apply Hd; right; auto).
  destruct (product_hit (fst d) org_id p); lia.
Qed.


Lemma find_map_same (A : Type) (sel : A -> bool) (g : A -> A) (l : list A) :
  (forall x, sel (g x) = sel x) ->
  find sel (map g l) = option_map g (find sel l).
Proof.
  intros H. induction l as [|x l IH]; simpl; [reflexivity|].
  rewrite H. destruct (sel x); [reflexivity|exact IH].
Qed.


Lemma check_lines_none_passes (org_id : string) (prepared : list Line) (s : State) :
  check_lines org_id prepared s = None ->
  forallb (line_passes org_id s) prepared = true.
Proof.
  intros H. destruct (forallb (line_passes org_id s) prepared) eqn:Hp; [reflexivity|].
  apply check_lines_fail in Hp. destruct Hp as [failure Hf]. congruence.
Qed.

(** What a 201 answer of [POST /api/shipments] says about the request and
    the committed store. *)
Lemma post_shipments_created (env : Env) (auth : Auth) (items : list ItemPayload)
  (s s1 : State) (r : Response) :
  post_shipments env auth items s = Return r s1 ->
  status r = CREATED ->
  let org_id := a_orgId auth in
  let shipment_id := gen_shipment_id env in
  let prepared := map line_of_item items in
  a_role auth <> viewer /\
  forallb (line_passes org_id s) prepared = true /\
  existsb (fun q => String.eqb (sh_id q) shipment_id) (org_shipments s) = false /\
  s1 = with_ledger s
         (apply_deltas org_id (map (fun l => (l_productId l, - l_qty l)%Z) prepared)
            (org_products s))
         (org_receipts s)
         (org_shipments s ++
          [{| sh_id := shipment_id; sh_org_id := org_id; sh_created_at := now env |}])
         (org_shipment_items s ++ map (line_item shipment_id org_id s) prepared).
Proof.
  intros H Hst org_id shipment_id prepared.
  unfold post_shipments in H. fold org_id shipment_id in H.
  destruct (_require_role auth [owner; manager]) eqn:Hrole; simpl in H;
    [|inversion H; subst; discriminate].
  destruct (Nat.eqb (List.length items) 0); [inversion H; subst; discriminate|].
  destruct (prepare items) as [ls|] eqn:Hprep; [|inversion H; subst; discriminate].
  apply prepare_some in Hprep. destruct Hprep as [-> _]. fold prepared in H.
  destruct (check_lines org_id prepared s) as [failure|] eqn:Hcheck.
  { inversion H; subst. apply check_lines_status in Hcheck.
    destruct Hcheck; subst; discriminate. }
  apply check_lines_none_passes in Hcheck.
  unfold insert_shipment in H; simpl in H.
  destruct (existsb (fun q => String.eqb (sh_id q) shipment_id) (org_shipments s))
    eqn:Hfresh; [discriminate|].
  rewrite commit_lines_closed in H.
  - inversion H; subst. repeat split; auto.
    intros Hv. unfold _require_role in Hrole. rewrite Hv in Hrole. discriminate.
  - intros line Hl. rewrite forallb_forall in Hcheck.
    destruct (line_passes_selected _ _ _ (Hcheck line Hl)) as (p & Hp & _).
    change (select_product (l_productId line) org_id s <> None). congruence.
Qed.

Lemma with_ledger_same (s : State) :
  with_ledger s (org_products s) (org_receipts s) (org_shipments s)
    (org_shipment_items s) = s.
Proof.
  destruct s; reflexivity.
Qed.



(** ** Table operations under a filter *)

Section Tables.

Variable A : Type.
Variables keep cond : A -> bool.

Lemma find_filter_keep (t : list A) :
  (forall x, In x t -> cond x = true -> keep x = true) ->
  find cond (filter keep t) = find cond t.
Proof.
  induction t as [|x t IH]; simpl; intros H; [reflexivity|].
  destruct (cond x) eqn:Hc.
  - rewrite (H x) by auto. simpl. rewrite Hc. reflexivity.
  - destruct (keep x); simpl; [rewrite Hc|]; apply IH; intros y Hy; apply H; auto.
Qed.

Lemma filter_filter_keep (t : list A) :
  (forall x, In x t -> cond x = true -> keep x = true) ->
  filter cond (filter keep t) = filter cond t.
Proof.
  induction t as [|x t IH]; simpl; intros H; [reflexivity|].
  destruct (cond x) eqn:Hc.
  - rewrite (H x) by auto. simpl. rewrite Hc. f_equal.
    apply IH; intros y Hy; apply H; auto.
  - destruct (keep x); simpl; [rewrite Hc|]; apply IH; intros y Hy; apply H; auto.
Qed.

Lemma existsb_filter_keep (t : list A) :
  (forall x, In x t -> cond x = true -> keep x = true) ->
  existsb cond (filter keep t) = existsb cond t.
Proof.
  induction t as [|x t IH]; simpl; intros H; [reflexivity|].
  destruct (cond x) eqn:Hc.
  - rewrite (H x) by auto. simpl. rewrite Hc. reflexivity.
  - destruct (keep x); simpl; [rewrite Hc|]; apply IH; intros y Hy; apply H; auto.
Qed.

Lemma filter_map_keep (g : A -> A) (t : list A) :
  (forall x, keep (g x) = keep x) ->
  filter keep (map g t) = map g (filter keep t).
Proof.
  intros Hg. induction t as [|x t IH]; simpl; [reflexivity|].
  rewrite Hg. destruct (keep x); simpl; rewrite IH; reflexivity.
Qed.

Lemma filter_update_keep (f : A -> A) (t : list A) :
  (forall x, keep (f x) = keep x) ->
  filter keep (update_where cond f t) = update_where cond f (filter keep t).
Proof.
  intros Hf. unfold update_where. apply filter_map_keep.
  intros x. destruct (cond x); auto.
Qed.

Lemma filter_update_untouched (f : A -> A) (t : list A) :
  (forall x, keep (f x) = keep x) ->
  (forall x, In x t -> cond x = true -> keep x = false) ->
  filter keep (update_where cond f t) = filter keep t.
Proof.
  intros Hf. unfold update_where.
  induction t as [|x t IH]; simpl; intros H; [reflexivity|].
  destruct (cond x) eqn:Hc.
  - rewrite Hf, (H x) by auto. apply IH; intros y Hy; apply H; auto.
  - destruct (keep x); [f_equal|]; apply IH; intros y Hy; apply H; auto.
Qed.

Lemma filter_delete_keep (t : list A) :
  filter keep (delete_where cond t) = delete_where cond (filter keep t).
Proof.
  unfold delete_where.
  induction t as [|x t IH]; simpl; [reflexivity|].
  destruct (cond x) eqn:Hc; destruct (keep x) eqn:Hk; simpl;
    rewrite ?Hc, ?Hk; simpl; rewrite ?IH; reflexivity.
Qed.

Lemma filter_delete_untouched (t : list A) :
  (forall x, In x t -> cond x = true -> keep x = false) ->
  filter keep (delete_where cond t) = filter keep t.
Proof.
  unfold delete_where.
  induction t as [|x t IH]; simpl; intros H; [reflexivity|].
  destruct (cond x) eqn:Hc; simpl.
  - rewrite (H x) by auto. apply IH; intros y Hy; apply H; auto.
  - destruct (keep x); [f_equal|]; apply IH; intros y Hy; apply H; auto.
Qed.

End Tables.

Lemma filter_ext_in_bool (A : Type) (f g : A -> bool) (t : list A) :
  (forall x, In x t -> f x = g x) -> filter f t = filter g t.
Proof.
  induction t as [|x t IH]; simpl; intros H; [reflexivity|].
  rewrite (H x) by auto. destruct (g x); [f_equal|]; apply IH; intros y Hy; apply H; auto.
Qed.

Lemma existsb_ext_in (A : Type) (f g : A -> bool) (t : list A) :
  (forall x, In x t -> f x = g x) -> existsb f t = existsb g t.
Proof.
  induction t as [|x t IH]; simpl; intros H; [reflexivity|].
  rewrite (H x) by auto. f_equal. apply IH; intros y Hy; apply H; auto.
Qed.

Lemma in_insert_desc (A : Type) (key : A -> Z) (x y : A) (t : list A) :
  In y (insert_desc key x t) <-> x = y \/ In y t.
Proof.
  induction t as [|z t IH]; simpl; [tauto|].
  destruct (key z <=? key x)%Z; simpl; [tauto|]. rewrite IH. tauto.
Qed.

Lemma in_order_by_desc (A : Type) (key : A -> Z) (y : A) (t : list A) :
  In y (order_by_desc key t) <-> In y t.
Proof.
  unfold order_by_desc.
  induction t as [|x t IH]; simpl; [tauto|].
  rewrite in_insert_desc, IH. tauto.
Qed.



(** ** [store_ok] is kept by the table operations *)

Section Keys.

Variables P C : Type.
Variables (id org : P -> string) (key corg : C -> string).

Lemma unique_org_map (g : P -> P) (t : list P) :
  (forall x, id (g x) = id x) -> (forall x, org (g x) = org x) ->
  unique_org id org t = true -> unique_org id org (map g t) = true.
Proof.
  intros Hid Horg. rewrite !unique_org_spec. intros H x y Hx Hy.
  apply in_map_iff in Hx. destruct Hx as (x0 & <- & Hx).
  apply in_map_iff in Hy. destruct Hy as (y0 & <- & Hy).
  rewrite !Hid, !Horg. auto.
Qed.

Lemma unique_org_filter (f : P -> bool) (t : list P) :
  unique_org id org t = true -> unique_org id org (filter f t) = true.
Proof.
  rewrite !unique_org_spec. intros H x y Hx Hy.
  apply filter_In in Hx. apply filter_In in Hy. apply H; tauto.
Qed.

Lemma unique_org_app (x : P) (t : list P) :
  unique_org id org t = true ->
  existsb (fun y => String.eqb (id y) (id x)) t = false ->
  unique_org id org (t ++ [x]) = true.
Proof.
  rewrite !unique_org_spec. intros H Hfresh a b Ha Hb Hab.
  apply in_app_iff in Ha. apply in_app_iff in Hb. simpl in Ha, Hb.
  destruct Ha as [Ha|[<-|[]]]; destruct Hb as [Hb|[<-|[]]]; auto.
  - pose proof (existsb_false_In _ _ a Hfresh Ha) as Hne. simpl in Hne.
    apply String.eqb_neq in Hne. contradiction.
  - pose proof (existsb_false_In _ _ b Hfresh Hb) as Hne. simpl in Hne.
    apply String.eqb_neq in Hne. symmetry in Hab. contradiction.
Qed.

Lemma refers_map_parents (g : P -> P) (ps : list P) (cs : list C) :
  (forall x, id (g x) = id x) -> (forall x, org (g x) = org x) ->
  refers id org key corg ps cs = true ->
  refers id org key corg (map g ps) cs = true.
Proof.
  intros Hid Horg. rewrite !refers_spec. intros H c Hc.
  destruct (H c Hc) as (p & Hp & H1 & H2).
  exists (g p). rewrite Hid, Horg. split; [apply in_map; exact Hp|auto].
Qed.

Lemma refers_filter_children (f : C -> bool) (ps : list P) (cs : list C) :
  refers id org key corg ps cs = true ->
  refers id org key corg ps (filter f cs) = true.
Proof.
  rewrite !refers_spec. intros H c Hc. apply filter_In in Hc. apply H. tauto.
Qed.

Lemma refers_app_parents (p : P) (ps : list P) (cs : list C) :
  refers id org key corg ps cs = true ->
  refers id org key corg (ps ++ [p]) cs = true.
Proof.
  rewrite !refers_spec. intros H c Hc.
  destruct (H c Hc) as (q & Hq & H1 & H2).
  exists q. split; [apply in_app_iff; auto|auto].
Qed.

Lemma refers_app_children (ps : list P) (cs cs' : list C) :
  refers id org key corg ps cs = true ->
  refers id org key corg ps cs' = true ->
  refers id org key corg ps (cs ++ cs') = true.
Proof.
  unfold refers. intros H H'. rewrite forallb_app, H, H'. reflexivity.
Qed.

(** Deleting parents together with the children that name them. *)
Lemma refers_cascade (cond : P -> bool) (ps : list P) (cs : list C) :
  refers id org key corg ps cs = true ->
  refers id org key corg (delete_where cond ps)
    (delete_where
       (fun c => existsb (fun p => cond p && String.eqb (id p) (key c)) ps) cs)
  = true.
Proof.
  rewrite !refers_spec. unfold delete_where. intros H c Hc.
  apply filter_In in Hc. destruct Hc as [Hc Hkept].
  destruct (H c Hc) as (p & Hp & H1 & H2).
  exists p. split; [|auto].
  apply filter_In. split; [exact Hp|].
  apply negb_true_iff in Hkept.
  pose proof (existsb_false_In _ _ p Hkept Hp) as Hp'. simpl in Hp'.
  rewrite H1, String.eqb_refl, andb_true_r in Hp'. rewrite Hp'. reflexivity.
Qed.

(** A row that names none of the children's keys may come or go. *)
Lemma refers_one (p : P) (c : C) (ps : list P) :
  In p ps -> id p = key c -> org p = corg c ->
  refers id org key corg ps [c] = true.
Proof.
  intros Hp H1 H2. apply refers_spec. intros c' [<-|[]]. eauto.
Qed.

End Keys.

Lemma store_ok_ledger (s : State) (ps : list Product) (rs : list Receipt)
  (hs : list Shipment) (its : list ShipmentItem) :
  unique_org p_id p_org_id ps = true ->
  unique_org r_id r_org_id rs = true ->
  unique_org sh_id sh_org_id hs = true ->
  refers p_id p_org_id r_product_id r_org_id ps rs = true ->
  refers p_id p_org_id i_product_id i_org_id ps its = true ->
  refers sh_id sh_org_id i_shipment_id i_org_id hs its = true ->
  store_ok (with_ledger s ps rs hs its) = true.
Proof.
  intros. apply store_ok_parts. simpl. auto 10.
Qed.

Lemma select_product_in (product_id org_id : string) (s : State) (p : Product) :
  select_product product_id org_id s = Some p ->
  In p (org_products s) /\ p_id p = product_id /\ p_org_id p = org_id.
Proof.
  unfold select_product. intros H. apply find_some in H. destruct H as [Hin Hhit].
  unfold product_hit in Hhit. apply andb_true_iff in Hhit. destruct Hhit as [H1 H2].
  apply String.eqb_eq in H1. apply String.eqb_eq in H2. auto.
Qed.

Lemma store_ok_map_products (g : Product -> Product) (s : State) :
  (forall p, p_id (g p) = p_id p) -> (forall p, p_org_id (g p) = p_org_id p) ->
  store_ok s = true ->
  store_ok (with_products s (map g (org_products s))) = true.
Proof.
  intros Hid Horg Hok. apply store_ok_parts in Hok.
  destruct Hok as (U1 & U2 & U3 & R1 & R2 & R3).
  apply store_ok_ledger; auto using unique_org_map, refers_map_parents.
Qed.

Lemma store_ok_update_products (cond : Product -> bool) (f : Product -> Product)
  (s : State) :
  (forall p, p_id (f p) = p_id p) -> (forall p, p_org_id (f p) = p_org_id p) ->
  store_ok s = true ->
  store_ok (with_products s (update_where cond f (org_products s))) = true.
Proof.
  intros Hid Horg. unfold update_where. apply store_ok_map_products.
  - intros p. destruct (cond p); auto.
  - intros p. destruct (cond p); auto.
Qed.

Lemma store_ok_insert_product (p : Product) (s s' : State) :
  insert_product p s = Some s' -> store_ok s = true -> store_ok s' = true.
Proof.
  unfold insert_product.
  destruct (existsb _ (org_products s)) eqn:Hfresh; [discriminate|].
  intros H Hok. inversion H; subst; clear H.
  apply store_ok_parts in Hok. destruct Hok as (U1 & U2 & U3 & R1 & R2 & R3).
  apply store_ok_ledger; auto using unique_org_app, refers_app_parents.
Qed.

Lemma store_ok_insert_receipt (r : Receipt) (s s' : State) :
  insert_receipt r s = Some s' ->
  (exists p, In p (org_products s) /\ p_id p = r_product_id r /\
             p_org_id p = r_org_id r) ->
  store_ok s = true -> store_ok s' = true.
Proof.
  unfold insert_receipt.
  destruct (existsb _ (org_receipts s)) eqn:Hfresh; [discriminate|].
  intros H (p & Hp & H1 & H2) Hok. inversion H; subst; clear H.
  apply store_ok_parts in Hok. destruct Hok as (U1 & U2 & U3 & R1 & R2 & R3).
  apply store_ok_ledger; auto using unique_org_app.
  apply refers_app_children; [exact R1|]. eapply refers_one; eauto.
Qed.

Lemma store_ok_insert_shipment (h : Shipment) (s s' : State) :
  insert_shipment h s = Some s' -> store_ok s = true -> store_ok s' = true.
Proof.
  unfold insert_shipment.
  destruct (existsb _ (org_shipments s)) eqn:Hfresh; [discriminate|].
  intros H Hok. inversion H; subst; clear H.
  apply store_ok_parts in Hok. destruct Hok as (U1 & U2 & U3 & R1 & R2 & R3).
  apply store_ok_ledger; auto using unique_org_app, refers_app_parents.
Qed.

Lemma store_ok_delete_receipts (cond : Receipt -> bool) (s : State) :
  store_ok s = true ->
  store_ok (with_receipts s (delete_where cond (org_receipts s))) = true.
Proof.
  intros Hok. apply store_ok_parts in Hok.
  destruct Hok as (U1 & U2 & U3 & R1 & R2 & R3).
  apply store_ok_ledger; auto.
  - apply unique_org_filter; exact U2.
  - apply refers_filter_children; exact R1.
Qed.

Lemma store_ok_delete_products (cond : Product -> bool) (s : State) :
  store_ok s = true -> store_ok (delete_products cond s) = true.
Proof.
  intros Hok. apply store_ok_parts in Hok.
  destruct Hok as (U1 & U2 & U3 & R1 & R2 & R3).
  unfold delete_products. apply store_ok_ledger; auto.
  - apply unique_org_filter; exact U1.
  - apply unique_org_filter; exact U2.
  - apply refers_cascade; exact R1.
  - apply refers_cascade; exact R2.
  - apply refers_filter_children; exact R3.
Qed.

Lemma store_ok_delete_shipments (cond : Shipment -> bool) (s : State) :
  store_ok s = true -> store_ok (delete_shipments cond s) = true.
Proof.
  intros Hok. apply store_ok_parts in Hok.
  destruct Hok as (U1 & U2 & U3 & R1 & R2 & R3).
  unfold delete_shipments. apply store_ok_ledger; auto.
  - apply unique_org_filter; exact U3.
  - apply refers_filter_children; exact R2.
  - apply refers_cascade; exact R3.
Qed.

Lemma store_ok_apply_deltas (org_id : string) (ds : list (string * Z)) (s : State) :
  store_ok s = true ->
  store_ok (with_products s (apply_deltas org_id ds (org_products s))) = true.
Proof.
  rewrite apply_deltas_closed. apply store_ok_map_products; reflexivity.
Qed.

(** What the third loop commits keeps the store consistent: each new item
    names a product found under the caller's organization and the header
    inserted just before. *)
Lemma store_ok_commit (shipment_id org_id : string) (t : Z) (prepared : list Line)
  (s : State) :
  store_ok s = true ->
  existsb (fun q => String.eqb (sh_id q) shipment_id) (org_shipments s) = false ->
  (forall line, In line prepared ->
     select_product (l_productId line) org_id s <> None) ->
  store_ok
    (with_ledger s
       (apply_deltas org_id (map (fun l => (l_productId l, - l_qty l)%Z) prepared)
          (org_products s))
       (org_receipts s)
       (org_shipments s ++
        [{| sh_id := shipment_id; sh_org_id := org_id; sh_created_at := t |}])
       (org_shipment_items s ++ map (line_item shipment_id org_id s) prepared))
  = true.
Proof.
  intros Hok Hfresh Hsel. apply store_ok_parts in Hok.
  destruct Hok as (U1 & U2 & U3 & R1 & R2 & R3).
  rewrite apply_deltas_closed.
  apply store_ok_ledger; auto.
  - apply unique_org_map; auto.
  - apply unique_org_app; auto.
  - apply refers_map_parents; auto.
  - apply refers_app_children.
    + apply refers_map_parents; auto.
    + apply refers_map_parents; auto.
      apply refers_spec. intros i Hi.
      apply in_map_iff in Hi. destruct Hi as (line & <- & Hl).
      destruct (select_product (l_productId line) org_id s) as [p|] eqn:Hp;
        [|exfalso; apply (Hsel line Hl); exact Hp].
      apply select_product_in in Hp. exists p. simpl. tauto.
  - apply refers_app_children.
    + apply refers_app_parents; exact R3.
    + apply refers_spec. intros i Hi.
      apply in_map_iff in Hi. destruct Hi as (line & <- & Hl).
      eexists. split; [apply in_app_iff; right; left; reflexivity|].
      simpl. auto.
Qed.

(** ** [store_ok] is an invariant of the API *)

Lemma post_shipments_cases (env : Env) (auth : Auth) (items : list ItemPayload)
  (s s' : State) (r : Response) :
  post_shipments env auth items s = Return r s' ->
  s' = s \/ status r = CREATED.
Proof.
  unfold post_shipments. intros H.
  repeat (break_match_hyp; try discriminate);
    inversion H; subst; auto.
Qed.

Lemma passes_selected (org_id : string) (prepared : list Line) (s : State) :
  forallb (line_passes org_id s) prepared = true ->
  forall line, In line prepared ->
    select_product (l_productId line) org_id s <> None.
Proof.
  intros Hpass line Hl. rewrite forallb_forall in Hpass.
  destruct (line_passes_selected _ _ _ (Hpass line Hl)) as (p & Hp & _).
  congruence.
Qed.

Lemma dispatch_store_ok (env : Env) (auth : Auth) (req : Request)
  (s s' : State) (r : Response) :
  dispatch env auth req s = Return r s' ->
  store_ok s = true -> store_ok s' = true.
Proof.
  destruct req; simpl; intros H Hok.
  - (* GET /api/state *)
    unfold get_state in H. inversion H; subst; exact Hok.
  - (* POST /api/memberships/role *)
    unfold post_memberships_role in H.
    repeat (break_match_hyp; try discriminate); inversion H; subst; exact Hok.
  - (* POST /api/products *)
    unfold post_products in H.
    destruct (negb (_require_role auth [owner; manager]));
      [inversion H; subst; exact Hok|].
    destruct (String.eqb (str_strip name) ""); [inversion H; subst; exact Hok|].
    destruct (negb (fits_int64 (Z.max 0 stock))); [discriminate|].
    match type of H with
    | context [insert_product ?p s] =>
      destruct (insert_product p s) as [s1|] eqn:Hp; [|discriminate];
      pose proof (store_ok_insert_product _ _ Hp Hok) as Hok1;
      assert (Hin : In p (org_products s1))
        by (unfold insert_product in Hp;
            destruct (existsb _ (org_products s)); [discriminate|];
            inversion Hp; subst; simpl; apply in_app_iff; right; left; reflexivity)
    end.
    destruct (0 <? Z.max 0 stock)%Z.
    + match type of H with
      | context [insert_receipt ?r s1] =>
        destruct (insert_receipt r s1) as [s2|] eqn:Hr; [|discriminate]
      end.
      inversion H; subst.
      eapply store_ok_insert_receipt; [exact Hr| |exact Hok1].
      eexists. split; [exact Hin|]. simpl. auto.
    + inversion H; subst. exact Hok1.
  - (* PATCH /api/products/<id>/price *)
    unfold patch_product_price in H.
    repeat (break_match_hyp; try discriminate); inversion H; subst; try exact Hok.
    apply store_ok_update_products; auto.
  - (* PATCH /api/products/<id> *)
    unfold patch_product in H.
    repeat (break_match_hyp; try discriminate); inversion H; subst; try exact Hok.
    apply store_ok_update_products; auto.
  - (* DELETE /api/products/<id> *)
    unfold delete_product in H.
    repeat (break_match_hyp; try discriminate); inversion H; subst; try exact Hok.
    apply store_ok_delete_shipments, store_ok_delete_products, Hok.
  - (* POST /api/receipts *)
    unfold post_receipts in H.
    destruct (negb (_require_role auth [owner; manager]));
      [inversion H; subst; exact Hok|].
    destruct (String.eqb (str_strip productId) "" || (quantity <=? 0)%Z);
      [inversion H; subst; exact Hok|].
    destruct (select_product (str_strip productId) (a_orgId auth) s) as [p|] eqn:Hsel;
      [|inversion H; subst; exact Hok].
    destruct (negb (fits_int64 quantity)); [discriminate|].
    match type of H with
    | context [insert_receipt ?r ?s1] =>
      destruct (insert_receipt r s1) as [s2|] eqn:Hr; [|discriminate]
    end.
    inversion H; subst.
    eapply store_ok_insert_receipt;
      [exact Hr| |apply store_ok_update_products; auto].
    apply select_product_in in Hsel. destruct Hsel as (Hin & Hid & Horg).
    unfold update_where; simpl.
    eexists. split; [apply (in_map _ _ _ Hin)|].
    simpl. destruct (product_hit _ _ p); simpl; auto.
  - (* DELETE /api/receipts/<id> *)
    unfold delete_receipt in H.
    repeat (break_match_hyp; try discriminate); inversion H; subst; try exact Hok.
    apply (store_ok_delete_receipts
             (receipt_hit receipt_id (a_orgId auth))
             (with_products s
                (update_where (product_hit (r_product_id r0) (a_orgId auth))
                   (fun p => set_stock p
                               (if (p_stock p - r_quantity r0 <? 0)%Z then 0%Z
                                else (p_stock p - r_quantity r0)%Z))
                   (org_products s)))).
    apply store_ok_update_products; auto.
  - (* POST /api/shipments *)
    destruct (post_shipments_cases _ _ _ _ H) as [->|Hst]; [exact Hok|].
    destruct (post_shipments_created _ _ _ _ H Hst) as (_ & Hpass & Hfresh & ->).
    apply store_ok_commit; auto. apply passes_selected; exact Hpass.
  - (* DELETE /api/shipments/<id> *)
    unfold delete_shipment in H.
    repeat (break_match_hyp; try discriminate); inversion H; subst; try exact Hok.
    apply store_ok_delete_shipments. rewrite restore_items_closed.
    apply store_ok_apply_deltas; exact Hok.
Qed.

(** A store with an empty ledger satisfies [store_ok]. *)
Lemma empty_ledger_ok (s : State) : store_ok (with_ledger s [] [] [] []) = true.
Proof. reflexivity. Qed.

Lemma get_current_auth_store_ok (t : Z) (cookie : option string) (s : State) :
  store_ok (snd (_get_current_auth t cookie s)) = store_ok s.
Proof.
  unfold _get_current_auth.
  repeat (break_match; try reflexivity).
Qed.

(** Every request keeps [store_ok]. *)
Lemma route_api_store_ok (env : Env) (cookie : option string) (req : Request) (s : State) :
  store_ok s = true -> store_ok (snd (_route_api env cookie req s)) = true.
Proof.
  intros Hok.
  destruct (_get_current_auth (now env) cookie s) as [[auth|] s1] eqn:Hauth.
  - rewrite (route_api_authorized env cookie req s (auth := auth))
      by (rewrite Hauth; reflexivity).
    destruct (dispatch env auth req s) as [r s2|e] eqn:Hd; simpl; [|exact Hok].
    eapply dispatch_store_ok; eauto.
  - rewrite route_api_unauthorized by (rewrite Hauth; reflexivity). simpl.
    rewrite get_current_auth_store_ok. exact Hok.
Qed.

Lemma run_store_ok (reqs : list (Env * option string * Request)) (s : State) :
  store_ok s = true -> store_ok (run reqs s) = true.
Proof.
  revert s. induction reqs as [|[[env cookie] req] rest IH]; simpl; intros s Hok.
  - exact Hok.
  - apply IH, route_api_store_ok, Hok.
Qed.

(** Every store reached from an empty ledger by API requests satisfies
    [store_ok]. *)
Lemma reachable_store_ok (reqs : list (Env * option string * Request)) (s : State) :
  store_ok (run reqs (with_ledger s [] [] [] [])) = true.
Proof.
  apply run_store_ok, empty_ledger_ok.
Qed.

(** ** Rows and the rows they name share an organization *)

Lemma item_shipment_org (s : State) (h : Shipment) (i : ShipmentItem) :
  store_ok s = true ->
  In h (org_shipments s) -> In i (org_shipment_items s) ->
  i_shipment_id i = sh_id h -> i_org_id i = sh_org_id h.
Proof.
  intros Hok Hh Hi Hid. apply store_ok_parts in Hok.
  destruct Hok as (_ & _ & U3 & _ & _ & R3).
  rewrite refers_spec in R3. rewrite unique_org_spec in U3.
  destruct (R3 i Hi) as (h' & Hh' & H1 & H2).
  rewrite <- H2. apply U3; auto. congruence.
Qed.

Lemma item_product_org (s : State) (p : Product) (i : ShipmentItem) :
  store_ok s = true ->
  In p (org_products s) -> In i (org_shipment_items s) ->
  i_product_id i = p_id p -> i_org_id i = p_org_id p.
Proof.
  intros Hok Hp Hi Hid. apply store_ok_parts in Hok.
  destruct Hok as (U1 & _ & _ & _ & R2 & _).
  rewrite refers_spec in R2. rewrite unique_org_spec in U1.
  destruct (R2 i Hi) as (p' & Hp' & H1 & H2).
  rewrite <- H2. apply U1; auto. congruence.
Qed.

Lemma receipt_product_org (s : State) (p : Product) (r : Receipt) :
  store_ok s = true ->
  In p (org_products s) -> In r (org_receipts s) ->
  r_product_id r = p_id p -> r_org_id r = p_org_id p.
Proof.
  intros Hok Hp Hr Hid. apply store_ok_parts in Hok.
  destruct Hok as (U1 & _ & _ & R1 & _ & _).
  rewrite refers_spec in R1. rewrite unique_org_spec in U1.
  destruct (R1 r Hr) as (p' & Hp' & H1 & H2).
  rewrite <- H2. apply U1; auto. congruence.
Qed.

(** ** Requests of one organization and the rows of another *)

Section Isolation.

(** [other] is the organization whose rows are looked at from outside;
    [org_id] is the organization of the caller. *)
Variables other org_id : string.
Hypothesis Hother : org_id <> other.

Lemma scoped_kept (a : string) :
  String.eqb a org_id = true -> negb (String.eqb a other) = true.
Proof.
  intros H. apply String.eqb_eq in H. subst a.
  apply negb_true_iff, String.eqb_neq. exact Hother.
Qed.

Lemma scoped_not_other (a : string) :
  String.eqb a org_id = true -> String.eqb a other = false.
Proof.
  intros H. apply negb_true_iff. apply scoped_kept. exact H.
Qed.

Lemma product_hit_kept (product_id : string) (p : Product) :
  product_hit product_id org_id p = true ->
  negb (String.eqb (p_org_id p) other) = true.
Proof.
  unfold product_hit. intros H. apply andb_true_iff in H. apply scoped_kept. tauto.
Qed.

Lemma receipt_hit_kept (receipt_id : string) (r : Receipt) :
  receipt_hit receipt_id org_id r = true ->
  negb (String.eqb (r_org_id r) other) = true.
Proof.
  unfold receipt_hit. intros H. apply andb_true_iff in H. apply scoped_kept. tauto.
Qed.

Lemma shipment_hit_kept (shipment_id : string) (h : Shipment) :
  shipment_hit shipment_id org_id h = true ->
  negb (String.eqb (sh_org_id h) other) = true.
Proof.
  unfold shipment_hit. intros H. apply andb_true_iff in H. apply scoped_kept. tauto.
Qed.

Lemma select_product_without_org (product_id : string) (s : State) :
  select_product product_id org_id (without_org other s)
  = select_product product_id org_id s.
Proof.
  unfold select_product; simpl. apply find_filter_keep.
  intros p _. apply product_hit_kept.
Qed.

(** The snapshot of the caller's organization does not see the rows of
    the other one. *)
Lemma fetch_state_without_org (s : State) :
  store_ok s = true ->
  fetch_state (without_org other s) org_id = fetch_state s org_id.
Proof.
  intros Hok. unfold fetch_state; simpl.
  rewrite !filter_filter_keep by (intros x _; apply scoped_kept).
  f_equal. apply map_ext_in. intros h Hh.
  rewrite in_order_by_desc, filter_In in Hh. destruct Hh as [Hh Horg].
  unfold shipment_view. f_equal. f_equal.
  apply filter_filter_keep. intros i Hi Hid.
  apply String.eqb_eq in Hid.
  rewrite (item_shipment_org s h i Hok Hh Hi Hid).
  apply scoped_kept. exact Horg.
Qed.

Lemma return_without_org (st : HTTPStatus) (x s' : State) :
  x = without_org other s' -> store_ok s' = true ->
  Return (state_response st x org_id) x
  = Return (state_response st s' org_id) (without_org other s').
Proof.
  intros -> Hok. unfold state_response.
  rewrite fetch_state_without_org by exact Hok. reflexivity.
Qed.

End Isolation.

(** ** The branches of [_route_api] commute with [without_org] *)

Section Branches.

Variable other : string.
Variable auth : Auth.
Hypothesis Hother : a_orgId auth <> other.

Lemma rowcount_without_org (product_id : string) (s : State) :
  rowcount (product_hit product_id (a_orgId auth)) (org_products (without_org other s))
  = rowcount (product_hit product_id (a_orgId auth)) (org_products s).
Proof.
  unfold rowcount; simpl. f_equal. apply filter_filter_keep.
  intros p _. apply product_hit_kept. exact Hother.
Qed.

Lemma update_products_without_org (product_id : string) (f : Product -> Product)
  (s : State) :
  (forall p, p_org_id (f p) = p_org_id p) ->
  with_products (without_org other s)
    (update_where (product_hit product_id (a_orgId auth)) f
       (org_products (without_org other s)))
  = without_org other
      (with_products s
         (update_where (product_hit product_id (a_orgId auth)) f (org_products s))).
Proof.
  intros Hf. unfold without_org, with_products, with_ledger; simpl. f_equal.
  symmetry. apply filter_update_keep. intros p. rewrite Hf. reflexivity.
Qed.

Lemma get_state_without_org (s : State) :
  store_ok s = true ->
  get_state auth (without_org other s) = purged other (get_state auth s).
Proof.
  intros Hok. unfold get_state; simpl.
  rewrite fetch_state_without_org by assumption. reflexivity.
Qed.

Lemma post_memberships_role_without_org (email role : string) (s : State) :
  post_memberships_role auth email role (without_org other s)
  = purged other (post_memberships_role auth email role s).
Proof.
  unfold post_memberships_role; simpl.
  repeat (break_match; try reflexivity).
Qed.

Lemma patch_product_price_without_org (product_id : string) (price : pyfloat)
  (s : State) :
  store_ok s = true ->
  patch_product_price auth product_id price (without_org other s)
  = purged other (patch_product_price auth product_id price s).
Proof.
  intros Hok. unfold patch_product_price.
  destruct (negb (_require_role auth [owner; manager])); [reflexivity|].
  rewrite rowcount_without_org.
  destruct (Nat.eqb _ 0); [reflexivity|]. simpl.
  apply return_without_org; [exact Hother| |].
  - apply update_products_without_org. reflexivity.
  - apply store_ok_update_products; auto.
Qed.

Lemma patch_product_without_org (product_id name : string) (price : pyfloat)
  (s : State) :
  store_ok s = true ->
  patch_product auth product_id name price (without_org other s)
  = purged other (patch_product auth product_id name price s).
Proof.
  intros Hok. unfold patch_product.
  destruct (negb (_require_role auth [owner; manager])); [reflexivity|].
  destruct (String.eqb (str_strip name) ""); [reflexivity|].
  rewrite rowcount_without_org.
  destruct (Nat.eqb _ 0); [reflexivity|]. simpl.
  apply return_without_org; [exact Hother| |].
  - apply update_products_without_org. reflexivity.
  - apply store_ok_update_products; auto.
Qed.

Lemma ids_avoid_parts (env : Env) (s : State) :
  ids_avoid other env s = true ->
  existsb (fun p => String.eqb (p_id p) (gen_product_id env)
                    && String.eqb (p_org_id p) other) (org_products s) = false /\
  existsb (fun r => String.eqb (r_id r) (gen_receipt_id env)
                    && String.eqb (r_org_id r) other) (org_receipts s) = false /\
  existsb (fun h => String.eqb (sh_id h) (gen_shipment_id env)
                    && String.eqb (sh_org_id h) other) (org_shipments s) = false.
Proof.
  unfold ids_avoid. rewrite !andb_true_iff, !negb_true_iff. tauto.
Qed.

(** A primary-key test that no row of [other] can fail sees the same
    clashes with and without the rows of [other]. *)
Lemma key_taken_without_org (A : Type) (id org : A -> string) (new : string)
  (t : list A) :
  existsb (fun x => String.eqb (id x) new && String.eqb (org x) other) t = false ->
  existsb (fun x => String.eqb (id x) new)
    (filter (fun x => negb (String.eqb (org x) other)) t)
  = existsb (fun x => String.eqb (id x) new) t.
Proof.
  intros H. apply existsb_filter_keep. intros x Hx Hid.
  pose proof (existsb_false_In _ _ x H Hx) as Hne. simpl in Hne.
  rewrite Hid in Hne. simpl in Hne. rewrite Hne. reflexivity.
Qed.

Lemma insert_product_without_org (p : Product) (s : State) :
  p_org_id p = a_orgId auth ->
  existsb (fun q => String.eqb (p_id q) (p_id p) && String.eqb (p_org_id q) other)
    (org_products s) = false ->
  insert_product p (without_org other s)
  = option_map (without_org other) (insert_product p s).
Proof.
  intros Horg Hfree. unfold insert_product; simpl.
  rewrite (key_taken_without_org p_id p_org_id) by exact Hfree.
  destruct (existsb (fun q => String.eqb (p_id q) (p_id p)) (org_products s));
    [reflexivity|]. simpl. f_equal.
  unfold without_org, with_products, with_ledger; simpl. f_equal.
  rewrite filter_app; simpl. rewrite Horg.
  apply String.eqb_neq in Hother. rewrite Hother. reflexivity.
Qed.

Lemma insert_receipt_without_org (r : Receipt) (s : State) :
  r_org_id r = a_orgId auth ->
  existsb (fun q => String.eqb (r_id q) (r_id r) && String.eqb (r_org_id q) other)
    (org_receipts s) = false ->
  insert_receipt r (without_org other s)
  = option_map (without_org other) (insert_receipt r s).
Proof.
  intros Horg Hfree. unfold insert_receipt; simpl.
  rewrite (key_taken_without_org r_id r_org_id) by exact Hfree.
  destruct (existsb (fun q => String.eqb (r_id q) (r_id r)) (org_receipts s));
    [reflexivity|]. simpl. f_equal.
  unfold without_org, with_receipts, with_ledger; simpl. f_equal.
  rewrite filter_app; simpl. rewrite Horg.
  apply String.eqb_neq in Hother. rewrite Hother. reflexivity.
Qed.

Lemma insert_shipment_without_org (h : Shipment) (s : State) :
  sh_org_id h = a_orgId auth ->
  existsb (fun q => String.eqb (sh_id q) (sh_id h) && String.eqb (sh_org_id q) other)
    (org_shipments s) = false ->
  insert_shipment h (without_org other s)
  = option_map (without_org other) (insert_shipment h s).
Proof.
  intros Horg Hfree. unfold insert_shipment; simpl.
  rewrite (key_taken_without_org sh_id sh_org_id) by exact Hfree.
  destruct (existsb (fun q => String.eqb (sh_id q) (sh_id h)) (org_shipments s));
    [reflexivity|]. simpl. f_equal.
  unfold without_org, with_ledger; simpl. f_equal.
  rewrite filter_app; simpl. rewrite Horg.
  apply String.eqb_neq in Hother. rewrite Hother. reflexivity.
Qed.

Lemma insert_item_without_org (i : ShipmentItem) (s : State) :
  i_org_id i = a_orgId auth ->
  insert_item i (without_org other s) = without_org other (insert_item i s).
Proof.
  intros Horg. unfold insert_item, without_org, with_ledger; simpl. f_equal.
  rewrite filter_app; simpl. rewrite Horg.
  apply String.eqb_neq in Hother. rewrite Hother. reflexivity.
Qed.

Lemma update_stock_without_org (product_id : string) (f : Z -> Z) (s : State) :
  update_stock product_id (a_orgId auth) f (without_org other s)
  = without_org other (update_stock product_id (a_orgId auth) f s).
Proof.
  unfold update_stock. apply update_products_without_org. reflexivity.
Qed.

Lemma delete_products_without_org (product_id : string) (s : State) :
  delete_products (product_hit product_id (a_orgId auth)) (without_org other s)
  = without_org other (delete_products (product_hit product_id (a_orgId auth)) s).
Proof.
  assert (Hgone : forall id,
            existsb (fun p => product_hit product_id (a_orgId auth) p
                              && String.eqb (p_id p) id)
              (org_products (without_org other s))
            = existsb (fun p => product_hit product_id (a_orgId auth) p
                                && String.eqb (p_id p) id) (org_products s)).
  { intros id. simpl. apply existsb_filter_keep. intros p _ Hp.
    apply andb_true_iff in Hp. destruct Hp as [Hp _].
    eapply product_hit_kept; eauto. }
  unfold delete_products, without_org, with_ledger; simpl. f_equal.
  - symmetry. apply filter_delete_keep.
  - rewrite filter_delete_keep. unfold delete_where. apply filter_ext.
    intros r. f_equal. apply Hgone.
  - rewrite filter_delete_keep. unfold delete_where. apply filter_ext.
    intros i. f_equal. apply Hgone.
Qed.

Lemma delete_shipments_without_org (cond cond' : Shipment -> bool) (s : State) :
  (forall h, In h (org_shipments s) -> cond' h = cond h) ->
  (forall h, cond h = true -> String.eqb (sh_org_id h) (a_orgId auth) = true) ->
  delete_shipments cond' (without_org other s)
  = without_org other (delete_shipments cond s).
Proof.
  intros Hsame Hscope.
  assert (Hkept : forall h, cond h = true -> negb (String.eqb (sh_org_id h) other) = true).
  { intros h Hh. eapply scoped_kept; eauto. }
  assert (Hgone : forall id,
            existsb (fun h => cond' h && String.eqb (sh_id h) id)
              (org_shipments (without_org other s))
            = existsb (fun h => cond h && String.eqb (sh_id h) id) (org_shipments s)).
  { intros id. simpl.
    rewrite (existsb_ext_in
               (fun h => cond' h && String.eqb (sh_id h) id)
               (fun h => cond h && String.eqb (sh_id h) id)).
    - apply existsb_filter_keep. intros h _ Hh.
      apply andb_true_iff in Hh. apply Hkept. tauto.
    - intros h Hh. apply filter_In in Hh. rewrite Hsame by tauto. reflexivity. }
  unfold delete_shipments, without_org, with_ledger; simpl. f_equal.
  - rewrite filter_delete_keep. unfold delete_where. apply filter_ext_in_bool.
    intros h Hh. apply filter_In in Hh. rewrite Hsame by tauto. reflexivity.
  - rewrite filter_delete_keep. unfold delete_where. apply filter_ext.
    intros i. f_equal. apply Hgone.
Qed.

Lemma post_products_without_org (env : Env) (name sku unit : string)
  (price : pyfloat) (stock : Z) (purchasePrice : pyfloat) (s : State) :
  store_ok s = true -> ids_avoid other env s = true ->
  post_products env auth name sku unit price stock purchasePrice (without_org other s)
  = purged other (post_products env auth name sku unit price stock purchasePrice s).
Proof.
  intros Hok Hids.
  assert (Hinv : forall r s',
            post_products env auth name sku unit price stock purchasePrice s
            = Return r s' -> store_ok s' = true).
  { intros r s' H.
    exact (dispatch_store_ok env auth
             (PostProduct name sku unit price stock purchasePrice) s H Hok). }
  destruct (ids_avoid_parts _ _ Hids) as (Hp & Hr & _).
  unfold post_products in *.
  destruct (negb (_require_role auth [owner; manager])); [reflexivity|].
  destruct (String.eqb (str_strip name) ""); [reflexivity|].
  destruct (negb (fits_int64 (Z.max 0 stock))); [reflexivity|].
  rewrite insert_product_without_org by (simpl; auto).
  match goal with
  | |- context [insert_product ?p s] =>
    destruct (insert_product p s) as [s1|] eqn:Hins; simpl; [|reflexivity]
  end.
  assert (Hrs : org_receipts s1 = org_receipts s).
  { unfold insert_product in Hins.
    destruct (existsb _ (org_products s)); [discriminate|].
    inversion Hins; reflexivity. }
  destruct (0 <? Z.max 0 stock)%Z.
  - rewrite insert_receipt_without_org by (simpl; rewrite ?Hrs; auto).
    match goal with
    | |- context [insert_receipt ?r s1] =>
      destruct (insert_receipt r s1) as [s2|] eqn:Hins2; simpl; [|reflexivity]
    end.
    apply return_without_org; eauto.
  - apply return_without_org; eauto.
Qed.

Lemma post_receipts_without_org (env : Env) (productId : string) (quantity : Z)
  (cost : pyfloat) (s : State) :
  store_ok s = true -> ids_avoid other env s = true ->
  post_receipts env auth productId quantity cost (without_org other s)
  = purged other (post_receipts env auth productId quantity cost s).
Proof.
  intros Hok Hids.
  assert (Hinv : forall r s',
            post_receipts env auth productId quantity cost s = Return r s' ->
            store_ok s' = true).
  { intros r s' H.
    exact (dispatch_store_ok env auth (PostReceipt productId quantity cost) s H Hok). }
  destruct (ids_avoid_parts _ _ Hids) as (_ & Hr & _).
  unfold post_receipts in *.
  destruct (negb (_require_role auth [owner; manager])); [reflexivity|].
  destruct (String.eqb (str_strip productId) "" || (quantity <=? 0)%Z);
    [reflexivity|].
  rewrite select_product_without_org by exact Hother.
  destruct (select_product (str_strip productId) (a_orgId auth) s); [|reflexivity].
  destruct (negb (fits_int64 quantity)); [reflexivity|].
  rewrite update_products_without_org by reflexivity.
  rewrite insert_receipt_without_org by (simpl; auto).
  match goal with
  | |- context [insert_receipt ?r ?s1] =>
    destruct (insert_receipt r s1) as [s2|] eqn:Hins2; simpl; [|reflexivity]
  end.
  apply return_without_org; eauto.
Qed.

Lemma delete_receipt_without_org (receipt_id : string) (s : State) :
  store_ok s = true ->
  delete_receipt auth receipt_id (without_org other s)
  = purged other (delete_receipt auth receipt_id s).
Proof.
  intros Hok.
  assert (Hinv : forall r s',
            delete_receipt auth receipt_id s = Return r s' -> store_ok s' = true).
  { intros r s' H.
    exact (dispatch_store_ok
             {| now := 0; gen_product_id := ""; gen_receipt_id := "";
                gen_shipment_id := ""; gen_sku := "" |}
             auth (DeleteReceipt receipt_id) s H Hok). }
  unfold delete_receipt in *.
  destruct (negb (_require_role auth [owner; manager])); [reflexivity|].
  replace (find (receipt_hit receipt_id (a_orgId auth))
             (org_receipts (without_org other s)))
    with (find (receipt_hit receipt_id (a_orgId auth)) (org_receipts s)).
  - destruct (find (receipt_hit receipt_id (a_orgId auth)) (org_receipts s))
      as [receipt|]; [|reflexivity].
    rewrite update_products_without_org by reflexivity. simpl.
    apply return_without_org; eauto.
    unfold without_org, with_receipts, with_products, with_ledger; simpl. f_equal.
    symmetry. apply filter_delete_keep.
  - simpl. symmetry. apply find_filter_keep. intros r _.
    apply receipt_hit_kept. exact Hother.
Qed.

Lemma delete_product_without_org (product_id : string) (s : State) :
  store_ok s = true ->
  delete_product auth product_id (without_org other s)
  = purged other (delete_product auth product_id s).
Proof.
  intros Hok.
  assert (Hinv : forall r s',
            delete_product auth product_id s = Return r s' -> store_ok s' = true).
  { intros r s' H.
    exact (dispatch_store_ok
             {| now := 0; gen_product_id := ""; gen_receipt_id := "";
                gen_shipment_id := ""; gen_sku := "" |}
             auth (DeleteProduct product_id) s H Hok). }
  unfold delete_product in *.
  destruct (negb (_require_role auth [owner; manager])); [reflexivity|].
  rewrite rowcount_without_org.
  destruct (Nat.eqb _ 0); [reflexivity|].
  rewrite delete_products_without_org.
  set (s1 := delete_products (product_hit product_id (a_orgId auth)) s) in *.
  assert (Hok1 : store_ok s1 = true) by (apply store_ok_delete_products; exact Hok).
  apply return_without_org; eauto.
  apply delete_shipments_without_org.
  - intros h Hh. unfold empty_shipment.
    destruct (String.eqb (sh_org_id h) (a_orgId auth)) eqn:Horg; [|reflexivity].
    simpl. f_equal. apply existsb_filter_keep. intros i Hi Hid.
    apply String.eqb_eq in Hid.
    rewrite (item_shipment_org s1 h i Hok1 Hh Hi Hid).
    eapply scoped_kept; eauto.
  - intros h Hh. unfold empty_shipment in Hh.
    apply andb_true_iff in Hh. tauto.
Qed.

Lemma check_lines_without_org (prepared : list Line) (s : State) :
  check_lines (a_orgId auth) prepared (without_org other s)
  = check_lines (a_orgId auth) prepared s.
Proof.
  induction prepared as [|line rest IH]; simpl; [reflexivity|].
  rewrite select_product_without_org by exact Hother. rewrite IH. reflexivity.
Qed.

Lemma commit_lines_without_org (shipment_id : string) (prepared : list Line)
  (s : State) :
  commit_lines shipment_id (a_orgId auth) prepared (without_org other s)
  = option_map (without_org other)
      (commit_lines shipment_id (a_orgId auth) prepared s).
Proof.
  revert s. induction prepared as [|line rest IH]; intros s; [reflexivity|].
  cbn [commit_lines].
  rewrite select_product_without_org by exact Hother.
  destruct (match l_price line with
            | Some custom => Some custom
            | None => option_map p_price
                        (select_product (l_productId line) (a_orgId auth) s)
            end) as [price|]; [|reflexivity].
  rewrite update_stock_without_org, insert_item_without_org by reflexivity.
  apply IH.
Qed.

Lemma restore_items_without_org (items : list ShipmentItem) (s : State) :
  restore_items (a_orgId auth) items (without_org other s)
  = without_org other (restore_items (a_orgId auth) items s).
Proof.
  unfold restore_items. revert s.
  induction items as [|i rest IH]; intros s; [reflexivity|].
  simpl. rewrite update_stock_without_org. apply IH.
Qed.

Lemma post_shipments_without_org (env : Env) (items : list ItemPayload) (s : State) :
  store_ok s = true -> ids_avoid other env s = true ->
  post_shipments env auth items (without_org other s)
  = purged other (post_shipments env auth items s).
Proof.
  intros Hok Hids.
  assert (Hinv : forall r s',
            post_shipments env auth items s = Return r s' -> store_ok s' = true).
  { intros r s' H.
    exact (dispatch_store_ok env auth (PostShipment items) s H Hok). }
  destruct (ids_avoid_parts _ _ Hids) as (_ & _ & Hh).
  unfold post_shipments in *.
  destruct (negb (_require_role auth [owner; manager])); [reflexivity|].
  destruct (Nat.eqb (List.length items) 0); [reflexivity|].
  destruct (prepare items) as [prepared|]; [|reflexivity].
  rewrite check_lines_without_org.
  destruct (check_lines (a_orgId auth) prepared s); [reflexivity|].
  rewrite insert_shipment_without_org by (simpl; auto).
  match goal with
  | |- context [insert_shipment ?h s] =>
    destruct (insert_shipment h s) as [s1|] eqn:Hins; simpl; [|reflexivity]
  end.
  rewrite commit_lines_without_org.
  destruct (commit_lines (gen_shipment_id env) (a_orgId auth) prepared s1)
    as [s2|] eqn:Hcommit; simpl; [|reflexivity].
  apply return_without_org; eauto.
Qed.

Lemma delete_shipment_without_org (shipment_id : string) (s : State) :
  store_ok s = true ->
  delete_shipment auth shipment_id (without_org other s)
  = purged other (delete_shipment auth shipment_id s).
Proof.
  intros Hok.
  assert (Hinv : forall r s',
            delete_shipment auth shipment_id s = Return r s' -> store_ok s' = true).
  { intros r s' H.
    exact (dispatch_store_ok
             {| now := 0; gen_product_id := ""; gen_receipt_id := "";
                gen_shipment_id := ""; gen_sku := "" |}
             auth (DeleteShipment shipment_id) s H Hok). }
  unfold delete_shipment in *.
  destruct (negb (_require_role auth [owner; manager])); [reflexivity|].
  replace (find (shipment_hit shipment_id (a_orgId auth))
             (org_shipments (without_org other s)))
    with (find (shipment_hit shipment_id (a_orgId auth)) (org_shipments s)).
  - destruct (find (shipment_hit shipment_id (a_orgId auth)) (org_shipments s));
      [|reflexivity].
    replace (filter (fun i => String.eqb (i_shipment_id i) shipment_id
                              && String.eqb (i_org_id i) (a_orgId auth))
               (org_shipment_items (without_org other s)))
      with (filter (fun i => String.eqb (i_shipment_id i) shipment_id
                             && String.eqb (i_org_id i) (a_orgId auth))
              (org_shipment_items s)).
    + rewrite restore_items_without_org.
      apply return_without_org; eauto.
      apply delete_shipments_without_org; [reflexivity|].
      intros h Hh. unfold shipment_hit in Hh. apply andb_true_iff in Hh. tauto.
    + simpl. symmetry. apply filter_filter_keep. intros i _ Hi.
      apply andb_true_iff in Hi. eapply scoped_kept; [exact Hother|tauto].
  - simpl. symmetry. apply find_filter_keep. intros h _.
    apply shipment_hit_kept. exact Hother.
Qed.

(** Every branch of [_route_api], run for a caller of another
    organization, does on the store without the rows of [other] what it
    does on the full store. *)
Lemma dispatch_without_org (env : Env) (req : Request) (s : State) :
  store_ok s = true -> ids_avoid other env s = true ->
  dispatch env auth req (without_org other s)
  = purged other (dispatch env auth req s).
Proof.
  intros Hok Hids. destruct req; simpl.
  - apply get_state_without_org; auto.
  - apply post_memberships_role_without_org.
  - apply post_products_without_org; auto.
  - apply patch_product_price_without_org; auto.
  - apply patch_product_without_org; auto.
  - apply delete_product_without_org; auto.
  - apply post_receipts_without_org; auto.
  - apply delete_receipt_without_org; auto.
  - apply post_shipments_without_org; auto.
  - apply delete_shipment_without_org; auto.
Qed.

(** *** The rows of [other] stay as they are *)

Lemma ledger_of_update_products (product_id : string) (f : Product -> Product)
  (s : State) :
  (forall p, p_org_id (f p) = p_org_id p) ->
  ledger_of other
    (with_products s
       (update_where (product_hit product_id (a_orgId auth)) f (org_products s)))
  = ledger_of other s.
Proof.
  intros Hf. unfold ledger_of; simpl. f_equal. f_equal. f_equal.
  apply filter_update_untouched.
  - intros p. rewrite Hf. reflexivity.
  - intros p _ Hp. unfold product_hit in Hp. apply andb_true_iff in Hp.
    eapply scoped_not_other; [exact Hother|tauto].
Qed.

Lemma ledger_of_update_stock (product_id : string) (f : Z -> Z) (s : State) :
  ledger_of other (update_stock product_id (a_orgId auth) f s) = ledger_of other s.
Proof.
  unfold update_stock. apply ledger_of_update_products. reflexivity.
Qed.

Lemma filter_other_app (A : Type) (org : A -> string) (x : A) (t : list A) :
  org x = a_orgId auth ->
  filter (fun y => String.eqb (org y) other) (t ++ [x])
  = filter (fun y => String.eqb (org y) other) t.
Proof.
  intros Horg. rewrite filter_app; simpl. rewrite Horg.
  apply String.eqb_neq in Hother. rewrite Hother. apply app_nil_r.
Qed.

Lemma ledger_of_insert_product (p : Product) (s s' : State) :
  p_org_id p = a_orgId auth -> insert_product p s = Some s' ->
  ledger_of other s' = ledger_of other s.
Proof.
  unfold insert_product. intros Horg H.
  destruct (existsb _ (org_products s)); [discriminate|]. inversion H; subst.
  unfold ledger_of; simpl. rewrite filter_other_app by exact Horg. reflexivity.
Qed.

Lemma ledger_of_insert_receipt (r : Receipt) (s s' : State) :
  r_org_id r = a_orgId auth -> insert_receipt r s = Some s' ->
  ledger_of other s' = ledger_of other s.
Proof.
  unfold insert_receipt. intros Horg H.
  destruct (existsb _ (org_receipts s)); [discriminate|]. inversion H; subst.
  unfold ledger_of; simpl. rewrite filter_other_app by exact Horg. reflexivity.
Qed.

Lemma ledger_of_insert_shipment (h : Shipment) (s s' : State) :
  sh_org_id h = a_orgId auth -> insert_shipment h s = Some s' ->
  ledger_of other s' = ledger_of other s.
Proof.
  unfold insert_shipment. intros Horg H.
  destruct (existsb _ (org_shipments s)); [discriminate|]. inversion H; subst.
  unfold ledger_of; simpl. rewrite filter_other_app by exact Horg. reflexivity.
Qed.

Lemma ledger_of_insert_item (i : ShipmentItem) (s : State) :
  i_org_id i = a_orgId auth ->
  ledger_of other (insert_item i s) = ledger_of other s.
Proof.
  intros Horg. unfold ledger_of; simpl.
  rewrite filter_other_app by exact Horg. reflexivity.
Qed.

Lemma ledger_of_delete_receipts (receipt_id : string) (s : State) :
  ledger_of other
    (with_receipts s
       (delete_where (receipt_hit receipt_id (a_orgId auth)) (org_receipts s)))
  = ledger_of other s.
Proof.
  unfold ledger_of; simpl. f_equal. f_equal. f_equal.
  apply filter_delete_untouched. intros r _ Hr.
  unfold receipt_hit in Hr. apply andb_true_iff in Hr.
  eapply scoped_not_other; [exact Hother|tauto].
Qed.

Lemma ledger_of_delete_products (product_id : string) (s : State) :
  store_ok s = true ->
  ledger_of other (delete_products (product_hit product_id (a_orgId auth)) s)
  = ledger_of other s.
Proof.
  intros Hok.
  assert (Hhit : forall p, product_hit product_id (a_orgId auth) p = true ->
                 String.eqb (p_org_id p) other = false).
  { intros p Hp. unfold product_hit in Hp. apply andb_true_iff in Hp.
    eapply scoped_not_other; [exact Hother|tauto]. }
  unfold ledger_of, delete_products; simpl.
  rewrite !filter_delete_untouched; [reflexivity| | |].
  - intros i Hi Hgone.
    apply existsb_exists in Hgone. destruct Hgone as (p & Hp & Hm).
    apply andb_true_iff in Hm. destruct Hm as [Hm Hid].
    apply String.eqb_eq in Hid.
    rewrite (item_product_org s p i Hok Hp Hi (eq_sym Hid)). auto.
  - intros r Hr Hgone.
    apply existsb_exists in Hgone. destruct Hgone as (p & Hp & Hm).
    apply andb_true_iff in Hm. destruct Hm as [Hm Hid].
    apply String.eqb_eq in Hid.
    rewrite (receipt_product_org s p r Hok Hp Hr (eq_sym Hid)). auto.
  - intros p _. apply Hhit.
Qed.

Lemma ledger_of_delete_shipments (cond : Shipment -> bool) (s : State) :
  store_ok s = true ->
  (forall h, cond h = true -> String.eqb (sh_org_id h) (a_orgId auth) = true) ->
  ledger_of other (delete_shipments cond s) = ledger_of other s.
Proof.
  intros Hok Hscope.
  unfold ledger_of, delete_shipments; simpl.
  rewrite !filter_delete_untouched; [reflexivity| |].
  - intros i Hi Hgone.
    apply existsb_exists in Hgone. destruct Hgone as (h & Hh & Hm).
    apply andb_true_iff in Hm. destruct Hm as [Hm Hid].
    apply String.eqb_eq in Hid.
    rewrite (item_shipment_org s h i Hok Hh Hi (eq_sym Hid)).
    eapply scoped_not_other; eauto.
  - intros h _ Hh. eapply scoped_not_other; eauto.
Qed.

Lemma ledger_of_commit_lines (shipment_id : string) (prepared : list Line)
  (s s' : State) :
  commit_lines shipment_id (a_orgId auth) prepared s = Some s' ->
  ledger_of other s' = ledger_of other s.
Proof.
  revert s. induction prepared as [|line rest IH]; simpl; intros s H.
  - inversion H; reflexivity.
  - break_match_hyp; [|discriminate].
    apply IH in H. rewrite H.
    rewrite ledger_of_insert_item by reflexivity.
    apply ledger_of_update_stock.
Qed.

Lemma ledger_of_restore_items (items : list ShipmentItem) (s : State) :
  ledger_of other (restore_items (a_orgId auth) items s) = ledger_of other s.
Proof.
  unfold restore_items. revert s.
  induction items as [|i rest IH]; simpl; intros s; [reflexivity|].
  rewrite IH. apply ledger_of_update_stock.
Qed.

Lemma dispatch_ledger_of (env : Env) (req : Request) (s s' : State) (r : Response) :
  store_ok s = true ->
  dispatch env auth req s = Return r s' ->
  ledger_of other s' = ledger_of other s.
Proof.
  intros Hok. destruct req; simpl; intros H.
  - (* GET /api/state *)
    unfold get_state in H. inversion H; reflexivity.
  - (* POST /api/memberships/role *)
    unfold post_memberships_role in H.
    repeat (break_match_hyp; try discriminate); inversion H; reflexivity.
  - (* POST /api/products *)
    unfold post_products in H.
    destruct (negb (_require_role auth [owner; manager]));
      [inversion H; reflexivity|].
    destruct (String.eqb (str_strip name) ""); [inversion H; reflexivity|].
    destruct (negb (fits_int64 (Z.max 0 stock))); [discriminate|].
    match type of H with
    | context [insert_product ?p s] =>
      destruct (insert_product p s) as [s1|] eqn:Hp; [|discriminate];
      apply ledger_of_insert_product in Hp; [|reflexivity]
    end.
    destruct (0 <? Z.max 0 stock)%Z.
    + match type of H with
      | context [insert_receipt ?r s1] =>
        destruct (insert_receipt r s1) as [s2|] eqn:Hr; [|discriminate];
        apply ledger_of_insert_receipt in Hr; [|reflexivity]
      end.
      inversion H; subst. congruence.
    + inversion H; subst. exact Hp.
  - (* PATCH /api/products/<id>/price *)
    unfold patch_product_price in H.
    destruct (negb (_require_role auth [owner; manager]));
      [inversion H; reflexivity|].
    destruct (Nat.eqb _ 0); inversion H; subst; [reflexivity|].
    apply ledger_of_update_products. reflexivity.
  - (* PATCH /api/products/<id> *)
    unfold patch_product in H.
    destruct (negb (_require_role auth [owner; manager]));
      [inversion H; reflexivity|].
    destruct (String.eqb (str_strip name) ""); [inversion H; reflexivity|].
    destruct (Nat.eqb _ 0); inversion H; subst; [reflexivity|].
    apply ledger_of_update_products. reflexivity.
  - (* DELETE /api/products/<id> *)
    unfold delete_product in H.
    destruct (negb (_require_role auth [owner; manager]));
      [inversion H; reflexivity|].
    destruct (Nat.eqb _ 0); inversion H; subst; [reflexivity|].
    rewrite ledger_of_delete_shipments.
    + apply ledger_of_delete_products. exact Hok.
    + apply store_ok_delete_products. exact Hok.
    + intros h Hh. unfold empty_shipment in Hh. apply andb_true_iff in Hh. tauto.
  - (* POST /api/receipts *)
    unfold post_receipts in H.
    destruct (negb (_require_role auth [owner; manager]));
      [inversion H; reflexivity|].
    destruct (String.eqb (str_strip productId) "" || (quantity <=? 0)%Z);
      [inversion H; reflexivity|].
    destruct (select_product (str_strip productId) (a_orgId auth) s);
      [|inversion H; reflexivity].
    destruct (negb (fits_int64 quantity)); [discriminate|].
    match type of H with
    | context [insert_receipt ?r ?s1] =>
      destruct (insert_receipt r s1) as [s2|] eqn:Hr; [|discriminate];
      apply ledger_of_insert_receipt in Hr; [|reflexivity]
    end.
    inversion H; subst. rewrite Hr.
    apply ledger_of_update_products. reflexivity.
  - (* DELETE /api/receipts/<id> *)
    unfold delete_receipt in H.
    destruct (negb (_require_role auth [owner; manager]));
      [inversion H; reflexivity|].
    destruct (find (receipt_hit receipt_id (a_orgId auth)) (org_receipts s))
      as [receipt|]; inversion H; subst; [|reflexivity].
    match goal with
    | |- ledger_of other (with_receipts ?s1 _) = _ =>
      transitivity (ledger_of other s1);
        [exact (ledger_of_delete_receipts receipt_id s1)|]
    end.
    apply ledger_of_update_products. reflexivity.
  - (* POST /api/shipments *)
    unfold post_shipments in H.
    destruct (negb (_require_role auth [owner; manager]));
      [inversion H; reflexivity|].
    destruct (Nat.eqb (List.length items) 0); [inversion H; reflexivity|].
    destruct (prepare items) as [prepared|]; [|inversion H; reflexivity].
    destruct (check_lines (a_orgId auth) prepared s); [inversion H; reflexivity|].
    match type of H with
    | context [insert_shipment ?h s] =>
      destruct (insert_shipment h s) as [s1|] eqn:Hh; [|discriminate];
      apply ledger_of_insert_shipment in Hh; [|reflexivity]
    end.
    destruct (commit_lines (gen_shipment_id env) (a_orgId auth) prepared s1)
      as [s2|] eqn:Hc; [|discriminate].
    apply ledger_of_commit_lines in Hc. inversion H; subst. congruence.
  - (* DELETE /api/shipments/<id> *)
    unfold delete_shipment in H.
    destruct (negb (_require_role auth [owner; manager]));
      [inversion H; reflexivity|].
    destruct (find (shipment_hit shipment_id (a_orgId auth)) (org_shipments s));
      inversion H; subst; [|reflexivity].
    rewrite ledger_of_delete_shipments.
    + apply ledger_of_restore_items.
    + rewrite restore_items_closed. apply store_ok_apply_deltas. exact Hok.
    + intros h Hh. unfold shipment_hit in Hh. apply andb_true_iff in Hh. tauto.
Qed.

End Branches.

(** ** Tenant isolation *)

Lemma get_current_auth_without_org (other : string) (t : Z) (cookie : option string)
  (s : State) :
  _get_current_auth t cookie (without_org other s)
  = (fst (_get_current_auth t cookie s),
     without_org other (snd (_get_current_auth t cookie s))).
Proof.
  unfold _get_current_auth.
  destruct cookie as [token|]; [|reflexivity].
  destruct (String.eqb token ""); [reflexivity|].
  change (session_row token (without_org other s)) with (session_row token s).
  destruct (session_row token s) as [[[[se u] o] m]|]; [|reflexivity].
  destruct (s_expires_at se <=? t)%Z; reflexivity.
Qed.

Lemma get_current_auth_ledger_of (other : string) (t : Z) (cookie : option string)
  (s : State) :
  ledger_of other (snd (_get_current_auth t cookie s)) = ledger_of other s.
Proof.
  unfold _get_current_auth.
  repeat (break_match; try reflexivity).
Qed.

Lemma get_current_auth_ids_avoid (other : string) (env : Env) (t : Z)
  (cookie : option string) (s : State) :
  ids_avoid other env (snd (_get_current_auth t cookie s)) = ids_avoid other env s.
Proof.
  unfold _get_current_auth.
  repeat (break_match; try reflexivity).
Qed.

(** A request of a caller who is not bound to [other] does on the store
    without the rows of [other] what it does on the full store, and leaves
    the rows of [other] as they are. *)
Lemma route_api_without_org (other : string) (env : Env) (cookie : option string)
  (req : Request) (s : State) :
  (forall auth, fst (_get_current_auth (now env) cookie s) = Some auth ->
                a_orgId auth <> other) ->
  store_ok s = true -> ids_avoid other env s = true ->
  _route_api env cookie req (without_org other s)
  = (fst (_route_api env cookie req s),
     without_org other (snd (_route_api env cookie req s))) /\
  ledger_of other (snd (_route_api env cookie req s)) = ledger_of other s.
Proof.
  intros Hscope Hok Hids.
  destruct (_get_current_auth (now env) cookie s) as [[auth|] s1] eqn:Hauth.
  - assert (Hs : fst (_get_current_auth (now env) cookie s) = Some auth)
      by (rewrite Hauth; reflexivity).
    pose proof (Hscope auth eq_refl) as Hother.
    assert (Hp : fst (_get_current_auth (now env) cookie (without_org other s))
                 = Some auth)
      by (rewrite get_current_auth_without_org; exact Hs).
    rewrite (route_api_authorized _ _ _ _ Hp), (route_api_authorized _ _ _ _ Hs).
    rewrite (@dispatch_without_org other auth Hother env req s) by assumption.
    destruct (dispatch env auth req s) as [r s'|e] eqn:Hd; simpl.
    + split; [reflexivity|]. eapply dispatch_ledger_of; eauto.
    + split; reflexivity.
  - assert (Hs : fst (_get_current_auth (now env) cookie s) = None)
      by (rewrite Hauth; reflexivity).
    assert (Hp : fst (_get_current_auth (now env) cookie (without_org other s))
                 = None)
      by (rewrite get_current_auth_without_org; exact Hs).
    rewrite (route_api_unauthorized _ _ _ _ Hp), (route_api_unauthorized _ _ _ _ Hs).
    rewrite get_current_auth_without_org. simpl.
    split; [reflexivity|]. apply get_current_auth_ledger_of.
Qed.

Lemma render_without_org (other org_id org_name shipment_id : string) (s : State) :
  store_ok s = true -> org_id <> other ->
  render_shipment_print_html (without_org other s) org_id org_name shipment_id
  = render_shipment_print_html s org_id org_name shipment_id.
Proof.
  intros Hok Hother. unfold render_shipment_print_html; simpl.
  rewrite find_filter_keep
    by (intros h _ Hh; apply andb_true_iff in Hh;
        eapply scoped_kept; [exact Hother|tauto]).
  destruct (find _ (org_shipments s)) as [shipment|]; [|reflexivity].
  rewrite filter_filter_keep
    by (intros i _ Hi; apply andb_true_iff in Hi;
        eapply scoped_kept; [exact Hother|tauto]).
  f_equal. f_equal. apply map_ext_in. intros i Hi.
  apply filter_In in Hi. destruct Hi as [Hi Hm].
  apply andb_true_iff in Hm. destruct Hm as [_ Horg].
  f_equal. f_equal. apply find_filter_keep. intros p Hp Hid.
  apply String.eqb_eq in Hid.
  rewrite <- (item_product_org s p i Hok Hp Hi (eq_sym Hid)).
  eapply scoped_kept; eauto.
Qed.

Lemma print_shipment_without_org (other : string) (t : Z) (cookie : option string)
  (shipment_id : string) (s : State) :
  (forall auth, fst (_get_current_auth t cookie s) = Some auth ->
                a_orgId auth <> other) ->
  store_ok s = true ->
  print_shipment t cookie shipment_id (without_org other s)
  = (fst (print_shipment t cookie shipment_id s),
     without_org other (snd (print_shipment t cookie shipment_id s))) /\
  ledger_of other (snd (print_shipment t cookie shipment_id s)) = ledger_of other s.
Proof.
  intros Hscope Hok. unfold print_shipment, _require_auth.
  rewrite get_current_auth_without_org.
  pose proof (get_current_auth_ledger_of other t cookie s) as Hledger.
  destruct (_get_current_auth t cookie s) as [[auth|] s1] eqn:Hauth; simpl in *.
  - apply get_current_auth_some in Hauth. destruct Hauth as [-> _].
    rewrite render_without_org by auto.
    destruct (render_shipment_print_html s (a_orgId auth) (a_orgName auth)
                shipment_id); simpl; auto.
  - auto.
Qed.

(** Rows of another organization are not hit by a lookup under the
    caller's organization. *)
Lemma foreign_product_unseen (other org_id : string) (s : State) (p : Product) :
  store_ok s = true -> org_id <> other ->
  In p (org_products s) -> p_org_id p = other ->
  forall q, In q (org_products s) -> product_hit (p_id p) org_id q = false.
Proof.
  intros Hok Hne Hp Horg q Hq. apply store_ok_parts in Hok.
  destruct Hok as (U1 & _). rewrite unique_org_spec in U1.
  unfold product_hit.
  destruct (String.eqb (p_id q) (p_id p)) eqn:Hid; [|reflexivity]. simpl.
  apply String.eqb_eq in Hid. apply String.eqb_neq.
  rewrite (U1 q p Hq Hp Hid), Horg. congruence.
Qed.

Lemma foreign_receipt_unseen (other org_id : string) (s : State) (r : Receipt) :
  store_ok s = true -> org_id <> other ->
  In r (org_receipts s) -> r_org_id r = other ->
  forall q, In q (org_receipts s) -> receipt_hit (r_id r) org_id q = false.
Proof.
  intros Hok Hne Hr Horg q Hq. apply store_ok_parts in Hok.
  destruct Hok as (_ & U2 & _). rewrite unique_org_spec in U2.
  unfold receipt_hit.
  destruct (String.eqb (r_id q) (r_id r)) eqn:Hid; [|reflexivity]. simpl.
  apply String.eqb_eq in Hid. apply String.eqb_neq.
  rewrite (U2 q r Hq Hr Hid), Horg. congruence.
Qed.

Lemma foreign_shipment_unseen (other org_id : string) (s : State) (h : Shipment) :
  store_ok s = true -> org_id <> other ->
  In h (org_shipments s) -> sh_org_id h = other ->
  forall q, In q (org_shipments s) -> shipment_hit (sh_id h) org_id q = false.
Proof.
  intros Hok Hne Hh Horg q Hq. apply store_ok_parts in Hok.
  destruct Hok as (_ & _ & U3 & _). rewrite unique_org_spec in U3.
  unfold shipment_hit.
  destruct (String.eqb (sh_id q) (sh_id h)) eqn:Hid; [|reflexivity]. simpl.
  apply String.eqb_eq in Hid. apply String.eqb_neq.
  rewrite (U3 q h Hq Hh Hid), Horg. congruence.
Qed.

(** C3.  Let the caller's session, if it resolves, be bound to an
    organization different from [other], let [s] and [t] be two stores that
    satisfy [store_ok] and differ at most in the ledger rows of [other], and
    let the identifiers generated for the request clash with no row of
    [other].  Then the request is answered the same on [s] and on [t], the
    two committed stores again differ at most in the rows of [other], and
    the rows of [other] are left as they were in both; the answer and the
    effect are those on the store with the rows of [other] taken out.
    Naming a product, a receipt or a shipment of [other] in a request of a
    manager or owner is answered 404 — not 500, and no row is shown — and
    the store is unchanged. *)
Theorem tenant_isolation (other : string) (env : Env) (cookie : option string)
  (req : Request) (s t : State) :
  (forall auth, fst (_get_current_auth (now env) cookie s) = Some auth ->
                a_orgId auth <> other) ->
  store_ok s = true -> store_ok t = true ->
  ids_avoid other env s = true -> ids_avoid other env t = true ->
  without_org other s = without_org other t ->
  (fst (_route_api env cookie req s) = fst (_route_api env cookie req t) /\
   without_org other (snd (_route_api env cookie req s))
   = without_org other (snd (_route_api env cookie req t)) /\
   ledger_of other (snd (_route_api env cookie req s)) = ledger_of other s /\
   ledger_of other (snd (_route_api env cookie req t)) = ledger_of other t /\
   _route_api env cookie req (without_org other s)
   = (fst (_route_api env cookie req s),
      without_org other (snd (_route_api env cookie req s))) /\
   forall shipment_id,
     fst (print_shipment (now env) cookie shipment_id s)
     = fst (print_shipment (now env) cookie shipment_id t) /\
     ledger_of other (snd (print_shipment (now env) cookie shipment_id s))
     = ledger_of other s) /\
  (forall auth,
     fst (_get_current_auth (now env) cookie s) = Some auth ->
     (forall h, In h (org_shipments s) -> sh_org_id h = other ->
        print_shipment (now env) cookie (sh_id h) s
        = (error NOT_FOUND "Отгрузка не найдена", s)) /\
     (a_role auth <> viewer ->
     (forall p, In p (org_products s) -> p_org_id p = other ->
        (forall price,
           _route_api env cookie (PatchProductPrice (p_id p) price) s
           = (error NOT_FOUND "Товар не найден", s)) /\
        (forall name price, str_strip name <> "" ->
           _route_api env cookie (PatchProduct (p_id p) name price) s
           = (error NOT_FOUND "Товар не найден", s)) /\
        _route_api env cookie (DeleteProduct (p_id p)) s
        = (error NOT_FOUND "Товар не найден", s) /\
        (forall productId quantity cost,
           str_strip productId = p_id p -> p_id p <> "" -> (0 < quantity)%Z ->
           _route_api env cookie (PostReceipt productId quantity cost) s
           = (error NOT_FOUND "Товар не найден", s)) /\
        (forall item,
           str_strip (ip_productId item) = p_id p -> p_id p <> "" ->
           (0 < ip_quantity item)%Z ->
           _route_api env cookie (PostShipment [item]) s
           = (error NOT_FOUND "Товар не найден", s))) /\
     (forall r, In r (org_receipts s) -> r_org_id r = other ->
        _route_api env cookie (DeleteReceipt (r_id r)) s
        = (error NOT_FOUND "Приемка не найдена", s)) /\
     (forall h, In h (org_shipments s) -> sh_org_id h = other ->
        _route_api env cookie (DeleteShipment (sh_id h)) s
        = (error NOT_FOUND "Отгрузка не найдена", s)))).
Proof.
  intros Hscope Hoks Hokt Hids Hidt Heq.
  split.
  - assert (Hscope_t : forall auth,
              fst (_get_current_auth (now env) cookie t) = Some auth ->
              a_orgId auth <> other).
    { intros auth Ht. apply Hscope.
      pose proof (get_current_auth_without_org other (now env) cookie s) as Es.
      pose proof (get_current_auth_without_org other (now env) cookie t) as Et.
      rewrite Heq in Es. rewrite Es in Et.
      inversion Et as [[Hfst Hsnd]]. rewrite Hfst. exact Ht. }
    destruct (@route_api_without_org other env cookie req s Hscope Hoks Hids)
      as [Es Ls].
    destruct (@route_api_without_org other env cookie req t Hscope_t Hokt Hidt)
      as [Et Lt].
    pose proof Es as Es'. rewrite Heq, Et in Es'.
    pose proof (f_equal fst Es') as Hfst. pose proof (f_equal snd Es') as Hsnd.
    simpl in Hfst, Hsnd.
    repeat split; auto.
    + destruct (@print_shipment_without_org other (now env) cookie shipment_id s
                  Hscope Hoks) as [Ps _].
      destruct (@print_shipment_without_org other (now env) cookie shipment_id t
                  Hscope_t Hokt) as [Pt _].
      rewrite Heq, Pt in Ps. exact (eq_sym (f_equal fst Ps)).
    + apply (@print_shipment_without_org other (now env) cookie shipment_id s
               Hscope Hoks).
  - intros auth Hauth.
    pose proof (Hscope auth Hauth) as Hother.
    split.
    { intros h Hh Horg.
      pose proof (@foreign_shipment_unseen other (a_orgId auth) s h Hoks Hother Hh Horg)
        as Hunseen.
      unfold print_shipment, _require_auth.
      rewrite (get_current_auth_fst_some _ _ _ Hauth).
      unfold render_shipment_print_html.
      rewrite find_none_In by exact Hunseen. reflexivity. }
    intros Hrole.
    pose proof (role_not_viewer _ Hrole) as Hallowed.
    split; [|split].
    + intros p Hp Horg.
      pose proof (@foreign_product_unseen other (a_orgId auth) s p Hoks Hother Hp Horg)
        as Hunseen.
      assert (Hcount : rowcount (product_hit (p_id p) (a_orgId auth)) (org_products s)
                       = 0%nat).
      { unfold rowcount. rewrite filter_none by exact Hunseen. reflexivity. }
      assert (Hsel : select_product (p_id p) (a_orgId auth) s = None).
      { unfold select_product. apply find_none_In. exact Hunseen. }
      split; [|split; [|split; [|split]]].
      * intros price.
        rewrite (route_api_authorized _ _ _ _ Hauth); simpl.
        unfold patch_product_price. rewrite Hallowed, Hcount. reflexivity.
      * intros name price Hname. apply String.eqb_neq in Hname.
        rewrite (route_api_authorized _ _ _ _ Hauth); simpl.
        unfold patch_product. rewrite Hallowed, Hname, Hcount. reflexivity.
      * rewrite (route_api_authorized _ _ _ _ Hauth); simpl.
        unfold delete_product. rewrite Hallowed, Hcount. reflexivity.
      * intros productId quantity cost Hid Hne Hq.
        rewrite (route_api_authorized _ _ _ _ Hauth); simpl.
        unfold post_receipts. rewrite Hallowed, Hid, Hsel.
        apply String.eqb_neq in Hne. rewrite Hne.
        assert (Hq' : (quantity <=? 0)%Z = false) by (apply Z.leb_gt; exact Hq).
        rewrite Hq'. reflexivity.
      * intros item Hid Hne Hq.
        rewrite (route_api_authorized _ _ _ _ Hauth); simpl.
        unfold post_shipments. rewrite Hallowed; simpl.
        rewrite Hid. apply String.eqb_neq in Hne. rewrite Hne.
        assert (Hq' : (ip_quantity item <=? 0)%Z = false)
          by (apply Z.leb_gt; exact Hq).
        rewrite Hq'. simpl. rewrite Hsel. reflexivity.
    + intros r Hr Horg.
      pose proof (@foreign_receipt_unseen other (a_orgId auth) s r Hoks Hother Hr Horg)
        as Hunseen.
      rewrite (route_api_authorized _ _ _ _ Hauth); simpl.
      unfold delete_receipt. rewrite Hallowed; simpl.
      rewrite find_none_In by exact Hunseen. reflexivity.
    + intros h Hh Horg.
      pose proof (@foreign_shipment_unseen other (a_orgId auth) s h Hoks Hother Hh Horg)
        as Hunseen.
      rewrite (route_api_authorized _ _ _ _ Hauth); simpl.
      unfold delete_shipment. rewrite Hallowed; simpl.
      rewrite find_none_In by exact Hunseen. reflexivity.
Qed.

End Proofs.

(** * The properties on the sample store *)

Lemma sample_store_ok : store_ok Sample.store = true.
Proof. vm_compute. reflexivity. Qed.

Lemma sample_manager_resolves :
  fst (_get_current_auth (now Sample.env) (Some Sample.tok_mgr) Sample.store)
  = Some Sample.manager_auth.
Proof. vm_compute. reflexivity. Qed.

(** C1 fails on the code.  The manager of [org_a] ships product [p_1],
    stock 5, in two lines of 4: each line passes the stock check on its
    own, the answer is 201, and the committed stock is -3. *)
Lemma duplicate_lines_oversell :
  let request :=
    PostShipment [Sample.order Sample.p_1 4; Sample.order Sample.p_1 4] in
  let after :=
    @_route_api ieee Sample.env (Some Sample.tok_mgr) request Sample.store in
  Forall (fun p => (0 <= p_stock p)%Z) (org_products Sample.store) /\
  option_map p_stock (select_product Sample.p_1 Sample.org_a Sample.store)
  = Some 5%Z /\
  status (fst after) = CREATED /\
  option_map p_stock (select_product Sample.p_1 Sample.org_a (snd after))
  = Some (-3)%Z.
Proof.
  cbv zeta. split; [|vm_compute; auto].
  repeat constructor; vm_compute; discriminate.
Qed.


(** C3 on the sample store: a receipt posted by the manager of [org_a] is
    answered the same whatever the rows of [org_b] are and leaves them
    alone; deleting a product of [org_b] is answered 404. *)
Lemma tenant_isolation_witness :
  let request := @PostReceipt ieee Sample.p_1 3 10%float in
  fst (@_route_api ieee Sample.env (Some Sample.tok_mgr) request Sample.store)
  = fst (@_route_api ieee Sample.env (Some Sample.tok_mgr) request
           Sample.store_b_changed) /\
  ledger_of Sample.org_b
    (snd (@_route_api ieee Sample.env (Some Sample.tok_mgr) request
            Sample.store))
  = ledger_of Sample.org_b Sample.store /\
  @_route_api ieee Sample.env (Some Sample.tok_mgr)
    (DeleteProduct Sample.p_9) Sample.store
  = (error NOT_FOUND "Товар не найден", Sample.store).
Proof.
  assert (Hscope : forall auth,
            fst (_get_current_auth (now Sample.env) (Some Sample.tok_mgr)
                   Sample.store) = Some auth ->
            a_orgId auth <> Sample.org_b).
  { intros auth H. rewrite sample_manager_resolves in H.
    inversion H; subst. discriminate. }
  assert (Hok : store_ok Sample.store_b_changed = true)
    by (vm_compute; reflexivity).
  assert (Hrole : a_role Sample.manager_auth <> viewer) by discriminate.
  destruct (@tenant_isolation ieee Sample.org_b Sample.env
              (Some Sample.tok_mgr) (@PostReceipt ieee Sample.p_1 3 10%float)
              Sample.store Sample.store_b_changed Hscope sample_store_ok Hok
              eq_refl eq_refl eq_refl)
    as [(Hsame & _ & Hkept & _) Hfound].
  cbv zeta. split; [exact Hsame|]. split; [exact Hkept|].
  destruct (Hfound Sample.manager_auth sample_manager_resolves) as [_ Hnamed].
  destruct (Hnamed Hrole) as (Hproducts & _).
  destruct (Hproducts
              (Sample.product Sample.p_9 Sample.org_b "Needle" 600 190 300))
    as (_ & _ & Hdelete & _).
  - simpl. auto.
  - reflexivity.
  - exact Hdelete.
Defined.


(** C5 as first stated fails.  On the sample store the manager of [org_a]
    posts a receipt for [p_1], stock 5.  A quantity of [2 ^ 63] is answered
    500 and nothing is stored; a quantity of [2 ^ 63 - 1] is answered 201,
    and the stock stored is the double [2 ^ 63], not [5 + (2 ^ 63 - 1)]. *)
Lemma create_receipt_past_int64 :
  ~ (forall (env : Env) (cookie : option string) (s : @State ieee) (auth : Auth)
       (productId : string) (quantity : Z) (cost : @pyfloat ieee)
       (product : @Product ieee),
       fst (_get_current_auth (now env) cookie s) = Some auth ->
       a_role auth <> viewer ->
       @str_strip ieee productId <> "" ->
       (0 < quantity)%Z ->
       select_product (@str_strip ieee productId) (a_orgId auth) s = Some product ->
       existsb (fun q => String.eqb (r_id q) (gen_receipt_id env)) (org_receipts s)
       = false ->
       let after := @_route_api ieee env cookie (PostReceipt productId quantity cost) s in
       status (fst after) = CREATED /\
       option_map p_stock
         (select_product (@str_strip ieee productId) (a_orgId auth) (snd after))
       = Some (p_stock product + quantity)%Z) /\
  ~ (forall (env : Env) (cookie : option string) (s : @State ieee) (auth : Auth)
       (productId : string) (quantity : Z) (cost : @pyfloat ieee)
       (product : @Product ieee),
       fst (_get_current_auth (now env) cookie s) = Some auth ->
       a_role auth <> viewer ->
       @str_strip ieee productId <> "" ->
       (0 < quantity < 2 ^ 63)%Z ->
       select_product (@str_strip ieee productId) (a_orgId auth) s = Some product ->
       existsb (fun q => String.eqb (r_id q) (gen_receipt_id env)) (org_receipts s)
       = false ->
       let after := @_route_api ieee env cookie (PostReceipt productId quantity cost) s in
       status (fst after) = CREATED /\
       option_map p_stock
         (select_product (@str_strip ieee productId) (a_orgId auth) (snd after))
       = Some (p_stock product + quantity)%Z).
Proof.
  assert (Hrole : a_role Sample.manager_auth <> viewer) by discriminate.
  assert (Hid : @str_strip ieee Sample.p_1 <> "") by (vm_compute; discriminate).
  split; intros H.
  - specialize (H Sample.env (Some Sample.tok_mgr) Sample.store
                  Sample.manager_auth Sample.p_1 (2 ^ 63)%Z 0%float
                  (Sample.product Sample.p_1 Sample.org_a "Roller" 65000 5 50)
                  sample_manager_resolves Hrole Hid eq_refl eq_refl eq_refl).
    destruct H as [H _]. vm_compute in H. discriminate H.
  - assert (Hq : (0 < 2 ^ 63 - 1 < 2 ^ 63)%Z) by (split; reflexivity).
    specialize (H Sample.env (Some Sample.tok_mgr) Sample.store
                  Sample.manager_auth Sample.p_1 (2 ^ 63 - 1)%Z 0%float
                  (Sample.product Sample.p_1 Sample.org_a "Roller" 65000 5 50)
                  sample_manager_resolves Hrole Hid Hq eq_refl eq_refl).
    destruct H as [_ H]. vm_compute in H. discriminate H.
Qed.

(** C5 as amended, on the sample store: seven units of [p_1] received at
    cost 0 bring the stock from 5 to 12 and leave the purchase price at
    50; a receipt of [2 ^ 63] units is answered 500 with the store kept;
    a receipt of [2 ^ 63 - 1] units is answered 201 and leaves the double
    [2 ^ 63] as stock. *)
Lemma create_receipt_effect_witness :
  let post quantity :=
    @_route_api ieee Sample.env (Some Sample.tok_mgr)
      (@PostReceipt ieee (" " ++ Sample.p_1 ++ " ")%string quantity 0%float)
      Sample.store in
  (status (fst (post 7%Z)) = CREATED /\
   select_product Sample.p_1 Sample.org_a (snd (post 7%Z))
   = Some (Sample.product Sample.p_1 Sample.org_a "Roller" 65000 12 50)) /\
  post (2 ^ 63)%Z
  = ({| status := INTERNAL_SERVER_ERROR; body := BInternal OverflowError |},
     Sample.store) /\
  (status (fst (post (2 ^ 63 - 1)%Z)) = CREATED /\
   option_map p_stock
     (select_product Sample.p_1 Sample.org_a (snd (post (2 ^ 63 - 1)%Z)))
   = Some (2 ^ 63)%Z).
Proof.
  assert (Hrole : a_role Sample.manager_auth <> viewer) by discriminate.
  assert (Hid : @str_strip ieee (" " ++ Sample.p_1 ++ " ")%string <> "")
    by (vm_compute; discriminate).
  assert (Hall : forall quantity, (0 < quantity)%Z -> _) by
    exact (fun quantity Hqty =>
             @create_receipt_effect ieee Sample.env (Some Sample.tok_mgr)
               Sample.store Sample.manager_auth
               (" " ++ Sample.p_1 ++ " ")%string quantity 0%float
               (Sample.product Sample.p_1 Sample.org_a "Roller" 65000 5 50)
               sample_manager_resolves Hrole Hid Hqty eq_refl eq_refl).
  cbv zeta in Hall |- *.
  split; [|split].
  - destruct (Hall 7%Z eq_refl) as [_ H].
    destruct H as (Hroute & Hsel & _); [reflexivity|].
    rewrite Hroute. split; [reflexivity|exact Hsel].
  - destruct (Hall (2 ^ 63)%Z eq_refl) as [H _].
    apply H. discriminate.
  - destruct (Hall (2 ^ 63 - 1)%Z eq_refl) as [_ H].
    destruct H as (Hroute & Hsel & _); [reflexivity|].
    rewrite Hroute. split; [reflexivity|].
    exact (f_equal (option_map p_stock) Hsel).
Defined.


(** C7 on the sample store: the viewer's shipment is answered 403. *)
Lemma role_enforcement_witness :
  @_route_api ieee Sample.env (Some Sample.tok_view) (PostShipment [])
    Sample.store
  = (error FORBIDDEN "Недостаточно прав", Sample.store).
Proof.
  assert (H : fst (_get_current_auth (now Sample.env) (Some Sample.tok_view)
                     Sample.store) = Some Sample.viewer_auth)
    by (vm_compute; reflexivity).
  destruct (@role_enforcement ieee Sample.env (Some Sample.tok_view)
              Sample.store Sample.viewer_auth H) as [Hv _].
  apply Hv. reflexivity.
Defined.

(** C8 as first stated fails: the session of [tok_left_old] is stored and
    expired, its user has no membership row, and resolving it leaves the
    session row where it is. *)
Lemma expired_session_without_membership_kept :
  ~ (forall (t : Z) (token : string) (s : @State ieee) (se : Session),
       find (fun x => String.eqb (s_token x) token) (sessions s) = Some se ->
       (s_expires_at se <= t)%Z ->
       fst (_get_current_auth t (Some token) s) = None /\
       find (fun x => String.eqb (s_token x) token)
         (sessions (snd (_get_current_auth t (Some token) s))) = None).
Proof.
  intros H.
  specialize (H 100%Z Sample.tok_left_old Sample.store
                (Sample.session Sample.tok_left_old Sample.u_left Sample.org_a 50)
                eq_refl).
  destruct H as [_ H]; [vm_compute; discriminate|].
  vm_compute in H. discriminate H.
Qed.

(** C8 as amended, on the sample store: the expired session of [tok_old]
    joins with its membership, does not resolve, and is deleted. *)
Lemma expired_session_resolution_witness :
  fst (_get_current_auth 100 (Some Sample.tok_old) Sample.store) = None /\
  find (fun x => String.eqb (s_token x) Sample.tok_old)
    (sessions (snd (_get_current_auth 100 (Some Sample.tok_old) Sample.store)))
  = None.
Proof.
  assert (Hfind : find (fun x => String.eqb (s_token x) Sample.tok_old)
                    (sessions Sample.store)
                  = Some (Sample.session Sample.tok_old Sample.u_mgr
                            Sample.org_a 50))
    by reflexivity.
  assert (Hexp : (s_expires_at
                    (Sample.session Sample.tok_old Sample.u_mgr Sample.org_a 50)
                  <= 100)%Z)
    by (simpl; lia).
  destruct (@expired_session_resolution ieee 100 Sample.tok_old Sample.store _
              Hfind Hexp) as (Hnone & Hdel & _).
  split; [exact Hnone|].
  apply Hdel; vm_compute; discriminate.
Defined.

(** C9 as first stated fails.  On the sample store the manager of [org_a]
    creates a product with an initial stock of [2 ^ 63], a name and fresh
    ids: the answer is 500 and no product is created. *)
Lemma create_product_past_int64 :
  ~ (forall (env : Env) (cookie : option string) (s : @State ieee) (auth : Auth)
       (name sku unit : string) (price : @pyfloat ieee) (stock : Z)
       (purchasePrice : @pyfloat ieee),
       fst (_get_current_auth (now env) cookie s) = Some auth ->
       a_role auth <> viewer ->
       @str_strip ieee name <> "" ->
       existsb (fun q => String.eqb (p_id q) (gen_product_id env)) (org_products s)
       = false ->
       existsb (fun q => String.eqb (r_id q) (gen_receipt_id env)) (org_receipts s)
       = false ->
       (0 < Z.max 0 stock)%Z ->
       let after :=
         @_route_api ieee env cookie
           (PostProduct name sku unit price stock purchasePrice) s in
       status (fst after) = CREATED /\
       option_map p_stock
         (select_product (gen_product_id env) (a_orgId auth) (snd after))
       = Some (Z.max 0 stock)).
Proof.
  assert (Hrole : a_role Sample.manager_auth <> viewer) by discriminate.
  assert (Hname : @str_strip ieee " Gel " <> "") by (vm_compute; discriminate).
  intros H.
  specialize (H Sample.env (Some Sample.tok_mgr) Sample.store
                Sample.manager_auth " Gel " "" "" 250%float (2 ^ 63)%Z 100%float
                sample_manager_resolves Hrole Hname eq_refl eq_refl eq_refl).
  destruct H as [H _]. vm_compute in H. discriminate H.
Qed.

(** C9 as amended, on the sample store: a product created with stock 10
    and purchase price 100 has stock 10 and exactly one receipt, of
    quantity 10 and cost 100; with a purchase price of -3 the receipt and
    the product carry 0; with a stock of [2 ^ 63] the answer is 500 and the
    store is kept. *)
Lemma create_product_effect_witness :
  let post stock purchase :=
    @_route_api ieee Sample.env (Some Sample.tok_mgr)
      (@PostProduct ieee " Gel " "" "" 250%float stock purchase) Sample.store in
  (status (fst (post 10%Z 100%float)) = CREATED /\
   option_map p_stock
     (select_product Sample.p_new Sample.org_a (snd (post 10%Z 100%float)))
   = Some 10%Z /\
   filter (fun r => String.eqb (r_product_id r) Sample.p_new)
     (org_receipts (snd (post 10%Z 100%float)))
   = [@Build_Receipt ieee Sample.r_new Sample.org_a Sample.p_new 10 100%float
        100]) /\
  (option_map p_purchase_price
     (select_product Sample.p_new Sample.org_a (snd (post 10%Z (-3)%float)))
   = Some 0%float /\
   filter (fun r => String.eqb (r_product_id r) Sample.p_new)
     (org_receipts (snd (post 10%Z (-3)%float)))
   = [@Build_Receipt ieee Sample.r_new Sample.org_a Sample.p_new 10 0%float
        100]) /\
  post (2 ^ 63)%Z 100%float
  = ({| status := INTERNAL_SERVER_ERROR; body := BInternal OverflowError |},
     Sample.store).
Proof.
  assert (Hrole : a_role Sample.manager_auth <> viewer) by discriminate.
  assert (Hname : @str_strip ieee " Gel " <> "") by (vm_compute; discriminate).
  assert (Hall : forall stock purchase, _) by
    exact (fun stock purchase =>
             proj2 (@create_product_effect ieee Sample.env (Some Sample.tok_mgr)
                      Sample.store Sample.manager_auth " Gel " "" "" 250%float
                      stock purchase sample_manager_resolves Hrole) Hname).
  cbv zeta in Hall |- *.
  split; [|split].
  - destruct (Hall 10%Z 100%float) as [_ H].
    destruct H as [H _]; [reflexivity|reflexivity|].
    destruct H as (Hroute & Hsel & _ & _ & _ & _ & Hone); [reflexivity|reflexivity|].
    rewrite Hroute. split; [reflexivity|]. split.
    + vm_compute. reflexivity.
    + exact (Hone sample_store_ok).
  - destruct (Hall 10%Z (-3)%float) as [_ H].
    destruct H as [H _]; [reflexivity|reflexivity|].
    destruct H as (Hroute & Hsel & _ & _ & _ & _ & Hone); [reflexivity|reflexivity|].
    rewrite Hroute. split.
    + exact (f_equal (option_map p_purchase_price) Hsel).
    + exact (Hone sample_store_ok).
  - destruct (Hall (2 ^ 63)%Z 100%float) as [H _].
    apply H. discriminate.
Defined.

(** C10 on the sample store: the live session of [tok_left], whose user
    has no membership row, is answered 401 and stays in the store. *)
Lemma membership_loss_unauthenticated_witness :
  @_route_api ieee Sample.env (Some Sample.tok_left) GetState Sample.store
  = (error UNAUTHORIZED "Требуется авторизация", Sample.store).
Proof.
  assert (Hfind : find (fun x => String.eqb (s_token x) Sample.tok_left)
                    (sessions Sample.store)
                  = Some (Sample.session Sample.tok_left Sample.u_left
                            Sample.org_a 1000))
    by reflexivity.
  assert (Hlive : (now Sample.env
                   < s_expires_at
                       (Sample.session Sample.tok_left Sample.u_left
                          Sample.org_a 1000))%Z)
    by (simpl; lia).
  destruct (@membership_loss_unauthenticated ieee Sample.env Sample.tok_left
              Sample.store _ Hfind Hlive eq_refl) as (_ & Hreq & _).
  apply Hreq.
Defined.

(** * Further properties of the handlers *)

Section Ledger.

Context {B : PyBuiltins}.

Ltac case_match_hyp :=
  match goal with
  | H : context [match ?c with _ => _ end] |- _ => destruct c eqn:?
  end.

Ltac invert_some :=
  repeat match goal with
         | E : Some _ = Some _ |- _ => inversion E; subst; clear E
         end.

(** ** Keys and stocks *)

Lemma distinct_map_inj (A : Type) (f : A -> string) (l : list A) (a b : A) :
  distinct (map f l) = true -> In a l -> In b l -> f a = f b -> a = b.
Proof.
  induction l as [|x l IH]; simpl; intros Hd Ha Hb E; [contradiction|].
  apply andb_prop in Hd. destruct Hd as [Hx Hd]. apply negb_true_iff in Hx.
  assert (Hno : forall y, In y l -> f x <> f y).
  { intros y Hy Exy.
    assert (Hf : String.eqb (f x) (f y) = false)
      by (apply (existsb_false_In _ _ (f y) Hx), in_map, Hy).
    rewrite Exy, String.eqb_refl in Hf. discriminate. }
  destruct Ha as [<-|Ha], Hb as [<-|Hb]; auto.
  - exfalso. exact (Hno b Hb E).
  - exfalso. exact (Hno a Ha (eq_sym E)).
Qed.

Lemma distinct_map_filter (A : Type) (f : A -> string) (g : A -> bool) (l : list A) :
  distinct (map f l) = true -> distinct (map f (filter g l)) = true.
Proof.
  induction l as [|x l IH]; simpl; intros Hd; [reflexivity|].
  apply andb_prop in Hd. destruct Hd as [Hx Hd]. apply negb_true_iff in Hx.
  destruct (g x); simpl; [|exact (IH Hd)].
  rewrite (IH Hd), andb_true_r. apply negb_true_iff.
  apply existsb_none. intros y Hy. apply in_map_iff in Hy.
  destruct Hy as (z & <- & Hz). apply filter_In in Hz.
  apply (existsb_false_In _ _ (f z) Hx), in_map, Hz.
Qed.

Lemma distinct_map_app (A : Type) (f : A -> string) (l : list A) (x : A) :
  distinct (map f l) = true ->
  existsb (fun q => String.eqb (f q) (f x)) l = false ->
  distinct (map f (l ++ [x])) = true.
Proof.
  induction l as [|y l IH]; simpl; intros Hd Hx; [reflexivity|].
  apply andb_prop in Hd. destruct Hd as [Hy Hd].
  apply orb_false_elim in Hx. destruct Hx as [Hyx Hx].
  rewrite (IH Hd Hx), andb_true_r. apply negb_true_iff.
  rewrite map_app, existsb_app. apply negb_true_iff in Hy. rewrite Hy. simpl.
  rewrite Hyx. reflexivity.
Qed.

Lemma map_id_update (cond : Product -> bool) (f : Product -> Product) (ps : list Product) :
  (forall p, p_id (f p) = p_id p) ->
  map p_id (update_where cond f ps) = map p_id ps.
Proof.
  intros Hf. unfold update_where. rewrite map_map. apply map_ext.
  intros p. destruct (cond p); auto.
Qed.

Lemma stocks_ok_spec (s : State) :
  stocks_ok s = true <->
  (forall p, In p (org_products s) -> (0 <= p_stock p)%Z) /\
  (forall i, In i (org_shipment_items s) -> (0 < i_quantity i)%Z).
Proof.
  unfold stocks_ok. rewrite andb_true_iff, !forallb_forall. split.
  - intros [Hp Hi]. split.
    + intros p Hin. apply Z.leb_le, Hp, Hin.
    + intros i Hin. apply Z.ltb_lt, Hi, Hin.
  - intros [Hp Hi]. split.
    + intros p Hin. apply Z.leb_le, Hp, Hin.
    + intros i Hin. apply Z.ltb_lt, Hi, Hin.
Qed.

Lemma delta_for_miss (org_id : string) (ds : list (string * Z)) (p : Product) :
  (forall d, In d ds -> product_hit (fst d) org_id p = false) ->
  delta_for org_id ds p = 0%Z.
Proof.
  induction ds as [|d ds IH]; intros Hd; [reflexivity|].
  rewrite delta_for_cons, (Hd d (or_introl eq_refl)), IH; [reflexivity|].
  intros; apply Hd; right; auto.
Qed.

(** With a primary key on products and no product named twice, the
    quantities that the lines take from one product are within the stock
    that the second loop compared them with. *)
Lemma delta_for_within_stock (org_id : string) (s : State) (prepared : list Line)
  (p : Product) :
  products_keyed s = true ->
  distinct (map l_productId prepared) = true ->
  forallb (line_passes org_id s) prepared = true ->
  In p (org_products s) -> (0 <= p_stock p)%Z ->
  (delta_for org_id (map (fun l => (l_productId l, l_qty l)) prepared) p
   <= p_stock p)%Z.
Proof.
  intros Hkey Hd Hpass Hin Hp.
  induction prepared as [|line rest IH]; [simpl; unfold delta_for; simpl; lia|].
  simpl in Hd, Hpass. apply andb_prop in Hd. destruct Hd as [Hfirst Hd].
  apply andb_prop in Hpass. destruct Hpass as [Hline Hpass].
  simpl map. rewrite delta_for_cons. simpl fst. simpl snd.
  destruct (product_hit (l_productId line) org_id p) eqn:Hhit.
  - rewrite delta_for_miss.
    + apply line_passes_selected in Hline. destruct Hline as (q & Hq & Hle).
      apply select_product_in in Hq. destruct Hq as (Hq & Hid & _).
      unfold product_hit in Hhit. apply andb_prop in Hhit. destruct Hhit as [Hhit _].
      apply String.eqb_eq in Hhit.
      assert (q = p)
        by (apply (distinct_map_inj p_id (org_products s)); auto; congruence).
      subst q. lia.
    + intros d Hd'. apply in_map_iff in Hd'. destruct Hd' as (l & <- & Hl). simpl.
      unfold product_hit in *. apply andb_prop in Hhit. destruct Hhit as [Hhit _].
      apply String.eqb_eq in Hhit.
      apply negb_true_iff in Hfirst.
      pose proof (existsb_false_In _ _ (l_productId l) Hfirst (in_map _ _ _ Hl)) as Hne.
      destruct (String.eqb (p_id p) (l_productId l)) eqn:E; [|reflexivity].
      apply String.eqb_eq in E. rewrite <- E, <- Hhit, String.eqb_refl in Hne.
      discriminate.
  - specialize (IH Hd Hpass). lia.
Qed.

Lemma post_shipments_positive (env : Env) (auth : Auth) (items : list ItemPayload)
  (s s1 : State) (r : Response) :
  post_shipments env auth items s = Return r s1 ->
  status r = CREATED ->
  forall item, In item items -> (0 < ip_quantity item)%Z.
Proof.
  intros H Hst. unfold post_shipments in H.
  destruct (negb (_require_role auth [owner; manager]));
    [inversion H; subst; discriminate|].
  destruct (Nat.eqb (List.length items) 0); [inversion H; subst; discriminate|].
  destruct (prepare items) as [ls|] eqn:Hprep; [|inversion H; subst; discriminate].
  apply prepare_some in Hprep. destruct Hprep as [_ Hall].
  intros item Hin. apply (Hall item Hin).
Qed.

Lemma dispatch_keyed (env : Env) (auth : Auth) (req : Request)
  (s s' : State) (r : Response) :
  dispatch env auth req s = Return r s' ->
  products_keyed s = true -> products_keyed s' = true.
Proof.
  unfold products_keyed.
  destruct req; simpl; intros H Hkey.
  - unfold get_state in H. inversion H; subst; exact Hkey.
  - unfold post_memberships_role in H.
    repeat (case_match_hyp; try discriminate); inversion H; subst; exact Hkey.
  - unfold post_products, insert_product, insert_receipt in H.
    repeat (case_match_hyp; try discriminate); invert_some;
      inversion H; subst; simpl; try exact Hkey;
      apply distinct_map_app; auto.
  - unfold patch_product_price in H.
    repeat (case_match_hyp; try discriminate); inversion H; subst; try exact Hkey.
    simpl. rewrite map_id_update; auto.
  - unfold patch_product in H.
    repeat (case_match_hyp; try discriminate); inversion H; subst; try exact Hkey.
    simpl. rewrite map_id_update; auto.
  - unfold delete_product in H.
    repeat (case_match_hyp; try discriminate); inversion H; subst; try exact Hkey.
    simpl. apply distinct_map_filter, Hkey.
  - unfold post_receipts, insert_receipt in H.
    repeat (case_match_hyp; try discriminate); invert_some;
      inversion H; subst; try exact Hkey;
      simpl; rewrite map_id_update; auto.
  - unfold delete_receipt in H.
    repeat (case_match_hyp; try discriminate); inversion H; subst; try exact Hkey.
    simpl. rewrite map_id_update; auto.
  - destruct (post_shipments_cases _ _ _ _ H) as [->|Hst]; [exact Hkey|].
    destruct (post_shipments_created _ _ _ _ H Hst) as (_ & _ & _ & ->).
    simpl. rewrite apply_deltas_closed, map_map. exact Hkey.
  - unfold delete_shipment in H.
    repeat (case_match_hyp; try discriminate); inversion H; subst; try exact Hkey.
    rewrite restore_items_closed. simpl.
    rewrite apply_deltas_closed, map_map. exact Hkey.
Qed.

Lemma dispatch_stocks (env : Env) (auth : Auth) (req : Request)
  (s s' : State) (r : Response) :
  dispatch env auth req s = Return r s' ->
  distinct (named_products req) = true ->
  products_keyed s = true -> stocks_ok s = true -> stocks_ok s' = true.
Proof.
  intros H Hd Hkey Hok. apply stocks_ok_spec in Hok. destruct Hok as [Hp Hi].
  apply stocks_ok_spec.
  destruct req; simpl in H.
  - unfold get_state in H. inversion H; subst; auto.
  - unfold post_memberships_role in H.
    repeat (case_match_hyp; try discriminate); inversion H; subst; auto.
  - unfold post_products, insert_product, insert_receipt in H.
    repeat (case_match_hyp; try discriminate); invert_some;
      inversion H; subst; simpl; auto;
      (split; [|exact Hi]); intros p Hin; apply in_app_iff in Hin;
      (destruct Hin as [Hin|[<-|[]]]; [exact (Hp p Hin)|simpl; lia]).
  - unfold patch_product_price in H.
    repeat (case_match_hyp; try discriminate); inversion H; subst; auto.
    simpl. split; [|exact Hi]. intros p Hin. apply in_map_iff in Hin.
    destruct Hin as (q & <- & Hq). destruct (product_hit _ _ q); simpl; auto.
  - unfold patch_product in H.
    repeat (case_match_hyp; try discriminate); inversion H; subst; auto.
    simpl. split; [|exact Hi]. intros p Hin. apply in_map_iff in Hin.
    destruct Hin as (q & <- & Hq). destruct (product_hit _ _ q); simpl; auto.
  - unfold delete_product in H.
    repeat (case_match_hyp; try discriminate); inversion H; subst; auto.
    simpl. split.
    + intros p Hin. apply filter_In in Hin. apply Hp, Hin.
    + intros i Hin. apply filter_In in Hin. destruct Hin as [Hin _].
      apply filter_In in Hin. apply Hi, Hin.
  - unfold post_receipts, insert_receipt in H.
    repeat (case_match_hyp; try discriminate); invert_some;
      inversion H; subst; auto;
      (simpl; split; [|exact Hi]); intros p' Hin; apply in_map_iff in Hin;
      destruct Hin as (q & <- & Hq);
      match goal with
      | E : (_ || (quantity <=? 0)%Z) = false |- _ =>
        apply orb_false_elim in E; destruct E as [_ E]; apply Z.leb_gt in E
      end;
      specialize (Hp q Hq); destruct (product_hit _ _ q); simpl;
      first [lia|apply sqlite_add_nonneg; lia].
  - unfold delete_receipt in H.
    repeat (case_match_hyp; try discriminate); inversion H; subst; auto.
    simpl. split; [|exact Hi]. intros p Hin. apply in_map_iff in Hin.
    destruct Hin as (q & <- & Hq). specialize (Hp q Hq).
    destruct (product_hit _ _ q); simpl; auto.
    destruct (p_stock q - r_quantity _ <? 0)%Z eqn:E; [lia|].
    apply Z.ltb_ge in E. exact E.
  - destruct (post_shipments_cases _ _ _ _ H) as [->|Hst]; [auto|].
    pose proof (post_shipments_positive _ _ _ _ H Hst) as Hpos.
    destruct (post_shipments_created _ _ _ _ H Hst) as (_ & Hpass & _ & ->).
    simpl. split.
    + intros p Hin. rewrite apply_deltas_closed in Hin. apply in_map_iff in Hin.
      destruct Hin as (q & <- & Hq). simpl.
      rewrite (delta_for_opp (a_orgId auth) l_productId l_qty).
      assert (delta_for (a_orgId auth)
                (map (fun l => (l_productId l, l_qty l)) (map line_of_item items)) q
              <= p_stock q)%Z; [|lia].
      apply (delta_for_within_stock (a_orgId auth) s); auto.
      simpl in Hd. rewrite map_map. exact Hd.
    + intros i Hin. apply in_app_iff in Hin. destruct Hin as [Hin|Hin]; [auto|].
      rewrite map_map in Hin. apply in_map_iff in Hin.
      destruct Hin as (item & <- & Hitem). simpl. apply Hpos, Hitem.
  - unfold delete_shipment in H.
    repeat (case_match_hyp; try discriminate); inversion H; subst; auto.
    rewrite restore_items_closed. simpl. split.
    + intros p Hin. rewrite apply_deltas_closed in Hin. apply in_map_iff in Hin.
      destruct Hin as (q & <- & Hq). simpl. specialize (Hp q Hq).
      assert (0 <= delta_for (a_orgId auth)
                     (map (fun i => (i_product_id i, i_quantity i))
                        (filter (fun i => String.eqb (i_shipment_id i) shipment_id
                                          && String.eqb (i_org_id i) (a_orgId auth))
                           (org_shipment_items s))) q)%Z; [|lia].
      apply delta_for_nonneg. intros d Hin. apply in_map_iff in Hin.
      destruct Hin as (i & <- & Hi'). apply filter_In in Hi'. simpl.
      apply Z.lt_le_incl, Hi, Hi'.
    + intros i Hin. apply filter_In in Hin. apply Hi, Hin.
Qed.

Lemma get_current_auth_ledger (t : Z) (cookie : option string) (s : State) :
  org_products (snd (_get_current_auth t cookie s)) = org_products s /\
  org_receipts (snd (_get_current_auth t cookie s)) = org_receipts s /\
  org_shipments (snd (_get_current_auth t cookie s)) = org_shipments s /\
  org_shipment_items (snd (_get_current_auth t cookie s)) = org_shipment_items s /\
  users (snd (_get_current_auth t cookie s)) = users s /\
  organizations (snd (_get_current_auth t cookie s)) = organizations s /\
  memberships (snd (_get_current_auth t cookie s)) = memberships s.
Proof.
  unfold _get_current_auth.
  destruct cookie as [token|]; [|simpl; tauto].
  destruct (String.eqb token ""); [simpl; tauto|].
  destruct (session_row token s) as [[[[se u] o] m]|]; [|simpl; tauto].
  destruct (s_expires_at se <=? t)%Z; simpl; tauto.
Qed.

(** What a request does, in terms of [dispatch]: nothing but a possible
    session deletion, or the committed store of the matching branch. *)
Lemma route_api_cases (env : Env) (cookie : option string) (req : Request) (s : State) :
  (fst (_get_current_auth (now env) cookie s) = None /\
   _route_api env cookie req s
   = (error UNAUTHORIZED "Требуется авторизация",
      snd (_get_current_auth (now env) cookie s))) \/
  (exists auth,
     fst (_get_current_auth (now env) cookie s) = Some auth /\
     ((exists e, dispatch env auth req s = Raise e /\
                 _route_api env cookie req s
                 = ({| status := INTERNAL_SERVER_ERROR; body := BInternal e |}, s)) \/
      (exists r s', dispatch env auth req s = Return r s' /\
                    _route_api env cookie req s = (r, s')))).
Proof.
  destruct (fst (_get_current_auth (now env) cookie s)) as [auth|] eqn:Hauth.
  - right. exists auth. split; [reflexivity|].
    rewrite (route_api_authorized env cookie req s Hauth).
    destruct (dispatch env auth req s) as [r s'|e]; eauto.
  - left. split; [reflexivity|]. apply route_api_unauthorized, Hauth.
Qed.

Lemma route_api_stocks (env : Env) (cookie : option string) (req : Request) (s : State) :
  distinct (named_products req) = true ->
  products_keyed s = true /\ stocks_ok s = true ->
  products_keyed (snd (_route_api env cookie req s)) = true /\
  stocks_ok (snd (_route_api env cookie req s)) = true.
Proof.
  intros Hd [Hkey Hok].
  destruct (route_api_cases env cookie req s)
    as [[_ ->]|(auth & _ & [(e & _ & ->)|(r & s' & Hdis & ->)])]; simpl; auto.
  - destruct (get_current_auth_ledger (now env) cookie s) as (Ep & _ & _ & Ei & _).
    unfold products_keyed, stocks_ok. rewrite Ep, Ei. auto.
  - split.
    + exact (dispatch_keyed _ _ _ _ Hdis Hkey).
    + exact (dispatch_stocks _ _ _ _ Hdis Hd Hkey Hok).
Qed.

(** X1.  Stock never goes negative.  On a store where product ids are
    unique, no stock is negative and every shipment item has a positive
    quantity, any run of requests in which no shipment payload names a
    product twice (after trimming) leaves a store with the same three
    properties; in particular every product's stock is still [>= 0]. *)
Theorem stock_never_negative (reqs : list (Env * option string * Request)) (s : State) :
  products_keyed s = true ->
  stocks_ok s = true ->
  Forall (fun x => distinct (named_products (snd x)) = true) reqs ->
  products_keyed (run reqs s) = true /\
  stocks_ok (run reqs s) = true /\
  forall p, In p (org_products (run reqs s)) -> (0 <= p_stock p)%Z.
Proof.
  intros Hkey Hok Hall.
  assert (Hinv : products_keyed (run reqs s) = true /\ stocks_ok (run reqs s) = true).
  { revert s Hkey Hok. induction Hall as [|[[env cookie] req] rest Hd _ IH];
      intros s Hkey Hok; simpl; [auto|].
    destruct (route_api_stocks env cookie req s Hd (conj Hkey Hok)) as [Hkey' Hok'].
    apply IH; assumption. }
  destruct Hinv as [Hkey' Hok']. repeat split; auto.
  apply stocks_ok_spec in Hok'. apply Hok'.
Qed.

(** ** Failed requests, the role gate and the account tables *)

Lemma dispatch_failure_unchanged (env : Env) (auth : Auth) (req : Request)
  (s s' : State) (r : Response) :
  dispatch env auth req s = Return r s' ->
  status r <> OK -> status r <> CREATED -> s' = s.
Proof.
  destruct req; simpl; intros H Hok Hcreated;
    try (destruct (post_shipments_cases _ _ _ _ H); [assumption|contradiction]);
    unfold get_state, post_memberships_role, post_products, patch_product_price,
      patch_product, delete_product, post_receipts, delete_receipt,
      delete_shipment in H;
    repeat (case_match_hyp; try discriminate);
    inversion H; subst; simpl in *; try reflexivity; contradiction.
Qed.

(** X2.  A request that is not answered with 200 or 201 changes nothing:
    the store it leaves is the one it found, except that a 401 answer may
    go with the deletion of the session row the cookie names. *)
Theorem failed_request_keeps_store (env : Env) (cookie : option string)
  (req : Request) (s : State) :
  status (fst (_route_api env cookie req s)) <> OK ->
  status (fst (_route_api env cookie req s)) <> CREATED ->
  snd (_route_api env cookie req s) = s \/
  exists token,
    cookie = Some token /\
    fst (_route_api env cookie req s) = error UNAUTHORIZED "Требуется авторизация" /\
    snd (_route_api env cookie req s) = delete_session token s.
Proof.
  intros Hok Hcreated.
  destruct (route_api_cases env cookie req s)
    as [[Hnone E]|(auth & _ & [(e & _ & E)|(r & s' & Hdis & E)])];
    rewrite E in *; simpl in *.
  - destruct (_get_current_auth (now env) cookie s) as [a s1] eqn:Hget.
    simpl in Hnone. subst a. simpl.
    destruct (get_current_auth_none _ _ _ Hget)
      as [[-> _]|(token & se & u & o & m & -> & _ & _ & ->)]; [left; reflexivity|].
    right. exists token. auto.
  - left; reflexivity.
  - left. exact (dispatch_failure_unchanged _ _ _ _ Hdis Hok Hcreated).
Qed.

Lemma dispatch_permitted (env : Env) (auth : Auth) (req : Request)
  (s s' : State) (r : Response) :
  a_role auth <> viewer ->
  (forall email role, req <> PostMembershipRole email role) ->
  dispatch env auth req s = Return r s' ->
  status r <> FORBIDDEN.
Proof.
  intros Hrole Hreq. apply role_not_viewer in Hrole.
  destruct req; simpl;
    try (exfalso; exact (Hreq _ _ eq_refl));
    unfold get_state, post_memberships_role, post_products, patch_product_price,
      patch_product, delete_product, post_receipts, delete_receipt,
      post_shipments, delete_shipment;
    rewrite ?Hrole; simpl; intros H;
    repeat (case_match_hyp; simpl in *; try discriminate);
    inversion H; subst; simpl; try discriminate.
  match goal with
  | H : check_lines _ _ _ = Some _ |- _ =>
    apply check_lines_status in H; destruct H; subst; discriminate
  end.
Qed.

(** X3.  The role gate, for a session that resolves: a request is answered
    403 exactly when a viewer asks for anything but the state, or a manager
    asks for a role change; and whatever a viewer asks for, the store stays
    as it is. *)
Theorem role_gate_matrix (env : Env) (cookie : option string) (req : Request)
  (s : State) (auth : Auth) :
  fst (_get_current_auth (now env) cookie s) = Some auth ->
  (status (fst (_route_api env cookie req s)) = FORBIDDEN <->
   (a_role auth = viewer /\ req <> GetState) \/
   (a_role auth = manager /\ exists email role, req = PostMembershipRole email role)) /\
  (a_role auth = viewer -> snd (_route_api env cookie req s) = s).
Proof.
  intros Hauth. rewrite (route_api_authorized env cookie req s Hauth).
  assert (Hdenied :
    (a_role auth = viewer /\ req <> GetState) \/
    (a_role auth = manager /\ exists email role, req = PostMembershipRole email role) ->
    exists msg, dispatch env auth req s = Return (error FORBIDDEN msg) s).
  { intros [[Hrole Hreq]|[Hrole (email & role & ->)]].
    - destruct req; simpl; try contradiction;
        unfold post_memberships_role, post_products, patch_product_price,
          patch_product, delete_product, post_receipts, delete_receipt,
          post_shipments, delete_shipment, _require_role;
        rewrite Hrole; simpl; eauto.
    - simpl. unfold post_memberships_role, _require_role. rewrite Hrole. simpl. eauto. }
  split; [split|].
  - intros Hst.
    destruct (a_role auth) eqn:Hrole.
    + exfalso. destruct (dispatch env auth req s) as [r s'|e] eqn:Hdis;
        [|discriminate].
      exact (dispatch_owner_not_forbidden _ _ _ _ Hrole Hdis Hst).
    + right. split; [reflexivity|].
      destruct req; try (eexists; eexists; reflexivity); exfalso;
        (destruct (dispatch env auth _ s) as [r s'|e] eqn:Hdis; [|discriminate]);
        (eapply dispatch_permitted in Hdis;
         [exact (Hdis Hst)|rewrite Hrole; discriminate|intros; discriminate]).
    + left. split; [reflexivity|]. intros ->. simpl in Hst. discriminate.
  - intros Hd. destruct (Hdenied Hd) as (msg & ->). reflexivity.
  - intros Hrole.
    destruct req; [reflexivity|..];
      (destruct Hdenied as (msg & ->);
       [left; split; [exact Hrole|discriminate]|reflexivity]).
Qed.

Lemma dispatch_accounts (env : Env) (auth : Auth) (req : Request)
  (s s' : State) (r : Response) :
  dispatch env auth req s = Return r s' ->
  users s' = users s /\ organizations s' = organizations s /\
  map (fun m => (m_user_id m, m_org_id m)) (memberships s')
  = map (fun m => (m_user_id m, m_org_id m)) (memberships s) /\
  ((forall email role, req <> PostMembershipRole email role) ->
   memberships s' = memberships s).
Proof.
  destruct req; simpl; intros H.
  - unfold get_state in H. inversion H; subst; auto.
  - unfold post_memberships_role in H.
    repeat (case_match_hyp; try discriminate); inversion H; subst; auto.
    simpl. repeat split; auto.
    + unfold update_where. rewrite map_map. apply map_ext.
      intros x. destruct (_ && _); reflexivity.
    + intros Hreq. exfalso. exact (Hreq _ _ eq_refl).
  - unfold post_products, insert_product, insert_receipt in H.
    repeat (case_match_hyp; try discriminate); invert_some;
      inversion H; subst; simpl; auto.
  - unfold patch_product_price in H.
    repeat (case_match_hyp; try discriminate); inversion H; subst; simpl; auto.
  - unfold patch_product in H.
    repeat (case_match_hyp; try discriminate); inversion H; subst; simpl; auto.
  - unfold delete_product in H.
    repeat (case_match_hyp; try discriminate); inversion H; subst; simpl; auto.
  - unfold post_receipts, insert_receipt in H.
    repeat (case_match_hyp; try discriminate); invert_some;
      inversion H; subst; simpl; auto.
  - unfold delete_receipt in H.
    repeat (case_match_hyp; try discriminate); inversion H; subst; simpl; auto.
  - destruct (post_shipments_cases _ _ _ _ H) as [->|Hst]; [auto|].
    destruct (post_shipments_created _ _ _ _ H Hst) as (_ & _ & _ & ->).
    simpl. auto.
  - unfold delete_shipment in H.
    repeat (case_match_hyp; try discriminate); inversion H; subst; simpl; auto.
    rewrite restore_items_closed. simpl. auto.
Qed.

Lemma route_api_accounts (env : Env) (cookie : option string) (req : Request)
  (s : State) :
  users (snd (_route_api env cookie req s)) = users s /\
  organizations (snd (_route_api env cookie req s)) = organizations s /\
  map (fun m => (m_user_id m, m_org_id m))
    (memberships (snd (_route_api env cookie req s)))
  = map (fun m => (m_user_id m, m_org_id m)) (memberships s) /\
  ((forall email role, req <> PostMembershipRole email role) ->
   memberships (snd (_route_api env cookie req s)) = memberships s) /\
  (forall x, In x (sessions (snd (_route_api env cookie req s))) ->
             In x (sessions s)).
Proof.
  assert (Hsessions :
    forall x, In x (sessions (snd (_route_api env cookie req s))) -> In x (sessions s)).
  { intros x. destruct (route_api_sessions env cookie req s)
      as [->|(token & se & u & o & m & _ & _ & _ & ->)]; [auto|].
    unfold delete_where. intros Hin. apply filter_In in Hin. apply Hin. }
  destruct (route_api_cases env cookie req s)
    as [[_ E]|(auth & _ & [(e & _ & E)|(r & s' & Hdis & E)])];
    rewrite E in *; simpl in *.
  - destruct (get_current_auth_ledger (now env) cookie s)
      as (_ & _ & _ & _ & Eu & Eo & Em).
    rewrite Eu, Eo, Em. auto.
  - auto 6.
  - destruct (dispatch_accounts _ _ _ _ Hdis) as (Eu & Eo & Ek & Em). auto 6.
Qed.

(** X4.  The account tables under [_route_api]: no request adds, removes
    or rewrites a user or an organization; none adds or removes a
    membership, and only a role change rewrites one; none creates a
    session. *)
Theorem api_keeps_accounts (env : Env) (cookie : option string) (req : Request)
  (s : State) :
  users (snd (_route_api env cookie req s)) = users s /\
  organizations (snd (_route_api env cookie req s)) = organizations s /\
  map (fun m => (m_user_id m, m_org_id m))
    (memberships (snd (_route_api env cookie req s)))
  = map (fun m => (m_user_id m, m_org_id m)) (memberships s) /\
  ((forall email role, req <> PostMembershipRole email role) ->
   memberships (snd (_route_api env cookie req s)) = memberships s) /\
  (forall x, In x (sessions (snd (_route_api env cookie req s))) ->
             In x (sessions s)).
Proof. exact (route_api_accounts env cookie req s). Qed.

(** ** Editing and deleting products *)

Lemma rowcount_zero (A : Type) (cond : A -> bool) (t : list A) :
  Nat.eqb (rowcount cond t) 0 = true <-> find cond t = None.
Proof.
  unfold rowcount. induction t as [|x t IH]; simpl; [tauto|].
  destruct (cond x); simpl; [split; discriminate|exact IH].
Qed.

Lemma rowcount_found (A : Type) (cond : A -> bool) (t : list A) (x : A) :
  find cond t = Some x -> Nat.eqb (rowcount cond t) 0 = false.
Proof.
  intros H. destruct (Nat.eqb (rowcount cond t) 0) eqn:E; [|reflexivity].
  apply rowcount_zero in E. congruence.
Qed.

(** X5.  [PATCH /api/products/<id>/price] by an owner or a manager: an id
    with no product in the caller's organization is answered 404 and
    nothing changes; otherwise every product row with that id in the
    organization gets the price [max(0, price)], its name, stock and
    purchase price stay, and no other table changes. *)
Theorem update_price_effect (env : Env) (cookie : option string) (s : State)
  (auth : Auth) (product_id : string) (price : pyfloat) :
  fst (_get_current_auth (now env) cookie s) = Some auth ->
  a_role auth <> viewer ->
  let org_id := a_orgId auth in
  let request := PatchProductPrice product_id price in
  (select_product product_id org_id s = None ->
   _route_api env cookie request s = (error NOT_FOUND "Товар не найден", s)) /\
  (forall p,
     select_product product_id org_id s = Some p ->
     let s' :=
       with_products s
         (update_where (product_hit product_id org_id)
            (fun q => set_price q (max0 price)) (org_products s)) in
     _route_api env cookie request s = (state_response OK s' org_id, s') /\
     select_product product_id org_id s' = Some (set_price p (max0 price)) /\
     float_gt0 (p_price (set_price p (max0 price))) = float_gt0 price /\
     (float_gt0 price = false -> p_price (set_price p (max0 price)) = float_zero) /\
     map p_stock (org_products s') = map p_stock (org_products s) /\
     map p_name (org_products s') = map p_name (org_products s)).
Proof.
  intros Hauth Hrole org_id request.
  rewrite (route_api_authorized env cookie request s Hauth).
  simpl. unfold patch_product_price. rewrite (role_not_viewer _ Hrole). simpl.
  fold org_id. split.
  - intros Hnone. apply rowcount_zero in Hnone. rewrite Hnone. reflexivity.
  - intros p Hp. rewrite (rowcount_found _ _ Hp).
    split; [reflexivity|]. split; [|split; [|split; [|split]]].
    + unfold select_product. simpl.
      unfold select_product in Hp. rewrite find_update_where, Hp; [reflexivity|].
      intros q. reflexivity.
    + apply float_gt0_max0.
    + intros Hneg. unfold max0. rewrite Hneg. reflexivity.
    + unfold update_where. rewrite map_map. apply map_ext.
      intros q. destruct (product_hit product_id org_id q); reflexivity.
    + unfold update_where. rewrite map_map. apply map_ext.
      intros q. destruct (product_hit product_id org_id q); reflexivity.
Qed.


Lemma delete_where_ext (A : Type) (f g : A -> bool) (t : list A) :
  (forall x, f x = g x) -> delete_where f t = delete_where g t.
Proof.
  intros H. unfold delete_where. apply filter_ext. intros x. rewrite H. reflexivity.
Qed.

(** The rows that the cascade of a deletion by [id] and [org_id] reaches
    are those that name [id], once a row with that id and organization
    exists. *)
Lemma cascade_by_id (A : Type) (id org : A -> string) (key org_id k : string)
  (t : list A) (x : A) :
  find (fun y => String.eqb (id y) key && String.eqb (org y) org_id) t = Some x ->
  existsb (fun y => (String.eqb (id y) key && String.eqb (org y) org_id)
                    && String.eqb (id y) k) t
  = String.eqb k key.
Proof.
  intros Hx. apply find_some in Hx. destruct Hx as [Hin Hx].
  destruct (String.eqb k key) eqn:E.
  - apply String.eqb_eq in E. subst k. apply existsb_exists. exists x.
    split; [exact Hin|]. rewrite Hx. simpl.
    apply andb_prop in Hx. apply Hx.
  - apply existsb_none. intros y _.
    destruct (String.eqb (id y) key) eqn:Ey; [|reflexivity].
    apply String.eqb_eq in Ey. rewrite Ey, (String.eqb_sym key k), E.
    apply andb_false_r.
Qed.

Lemma delete_products_by_id (product_id org_id : string) (s : State) (p : Product) :
  select_product product_id org_id s = Some p ->
  delete_products (product_hit product_id org_id) s
  = with_ledger s
      (delete_where (product_hit product_id org_id) (org_products s))
      (delete_where (fun r => String.eqb (r_product_id r) product_id) (org_receipts s))
      (org_shipments s)
      (delete_where (fun i => String.eqb (i_product_id i) product_id)
         (org_shipment_items s)).
Proof.
  intros Hp. unfold delete_products, select_product, product_hit in *.
  f_equal; apply delete_where_ext; intros x;
    apply (cascade_by_id p_id p_org_id _ _ _ _ Hp).
Qed.

Lemma delete_shipments_by_id (shipment_id org_id : string) (s : State) (h : Shipment) :
  find (shipment_hit shipment_id org_id) (org_shipments s) = Some h ->
  delete_shipments (shipment_hit shipment_id org_id) s
  = with_ledger s (org_products s) (org_receipts s)
      (delete_where (shipment_hit shipment_id org_id) (org_shipments s))
      (delete_where (fun i => String.eqb (i_shipment_id i) shipment_id)
         (org_shipment_items s)).
Proof.
  intros Hh. unfold delete_shipments, shipment_hit in *.
  f_equal; apply delete_where_ext; intros x;
    apply (cascade_by_id sh_id sh_org_id _ _ _ _ Hh).
Qed.

(** The sweep of empty shipments removes no item. *)
Lemma sweep_items (org_id : string) (s : State) :
  org_shipment_items (delete_shipments (empty_shipment org_id s) s)
  = org_shipment_items s.
Proof.
  unfold delete_shipments, delete_where. simpl. apply filter_all.
  intros i Hi. apply negb_true_iff. apply existsb_none. intros h _.
  unfold empty_shipment.
  destruct (String.eqb (sh_id h) (i_shipment_id i)) eqn:E; [|apply andb_false_r].
  apply String.eqb_eq in E. rewrite andb_true_r.
  assert (Hex : existsb (fun j => String.eqb (i_shipment_id j) (sh_id h))
                  (org_shipment_items s) = true).
  { apply existsb_exists. exists i. split; [exact Hi|].
    rewrite E. apply String.eqb_refl. }
  rewrite Hex. apply andb_false_r.
Qed.

(** X7.  [DELETE /api/products/<id>] by an owner or a manager.  An id with
    no product in the caller's organization is answered 404 and nothing
    changes.  Otherwise the product row goes, and with it every receipt and
    every shipment item that names the product; then the shipments of the
    organization that are left with no item go too.  Receipts and items of
    other products stay, a shipment that keeps an item stays, and
    afterwards every shipment of the organization has an item and the same
    deletion is answered 404. *)
Theorem delete_product_effect (env env' : Env) (cookie : option string) (s : State)
  (auth : Auth) (product_id : string) :
  fst (_get_current_auth (now env) cookie s) = Some auth ->
  a_role auth <> viewer ->
  let org_id := a_orgId auth in
  let request := DeleteProduct product_id in
  (select_product product_id org_id s = None ->
   _route_api env cookie request s = (error NOT_FOUND "Товар не найден", s)) /\
  (forall p,
     select_product product_id org_id s = Some p ->
     let s1 :=
       with_ledger s
         (delete_where (product_hit product_id org_id) (org_products s))
         (delete_where (fun r => String.eqb (r_product_id r) product_id)
            (org_receipts s))
         (org_shipments s)
         (delete_where (fun i => String.eqb (i_product_id i) product_id)
            (org_shipment_items s)) in
     let s' := delete_shipments (empty_shipment org_id s1) s1 in
     _route_api env cookie request s = (state_response OK s' org_id, s') /\
     select_product product_id org_id s' = None /\
     (forall r, In r (org_receipts s') <->
                In r (org_receipts s) /\ r_product_id r <> product_id) /\
     (forall i, In i (org_shipment_items s') <->
                In i (org_shipment_items s) /\ i_product_id i <> product_id) /\
     (forall h, In h (org_shipments s') <->
                In h (org_shipments s) /\
                (sh_org_id h = org_id ->
                 exists i, In i (org_shipment_items s') /\
                           i_shipment_id i = sh_id h)) /\
     (fst (_get_current_auth (now env') cookie s') = Some auth ->
      _route_api env' cookie request s' = (error NOT_FOUND "Товар не найден", s'))).
Proof.
  intros Hauth Hrole org_id request.
  assert (Hroute : forall e st, fst (_get_current_auth (now e) cookie st) = Some auth ->
            select_product product_id org_id st = None ->
            _route_api e cookie request st = (error NOT_FOUND "Товар не найден", st)).
  { intros e st Ha Hnone. rewrite (route_api_authorized e cookie request st Ha).
    simpl. unfold delete_product. rewrite (role_not_viewer _ Hrole). simpl.
    fold org_id. apply rowcount_zero in Hnone. rewrite Hnone. reflexivity. }
  split; [exact (Hroute env s Hauth)|].
  intros p Hp s1 s'.
  assert (Hitems : forall i, In i (org_shipment_items s') <->
                     In i (org_shipment_items s) /\ i_product_id i <> product_id).
  { intros i. unfold s'. rewrite sweep_items. unfold s1, delete_where. simpl.
    rewrite filter_In, negb_true_iff, String.eqb_neq. tauto. }
  assert (Hgone : select_product product_id org_id s' = None).
  { unfold select_product, s', s1. simpl. apply find_delete_where_self. }
  split; [|split; [exact Hgone|split; [|split; [exact Hitems|split]]]].
  - rewrite (route_api_authorized env cookie request s Hauth).
    simpl. unfold delete_product. rewrite (role_not_viewer _ Hrole). simpl.
    fold org_id. rewrite (rowcount_found _ _ Hp).
    rewrite (delete_products_by_id _ _ _ Hp). reflexivity.
  - intros r. unfold s', s1, delete_where. simpl.
    rewrite filter_In, negb_true_iff, String.eqb_neq. tauto.
  - intros h. unfold s' at 1. unfold delete_shipments, delete_where. simpl org_shipments.
    rewrite filter_In, negb_true_iff. unfold empty_shipment.
    assert (Hsame : org_shipment_items s' = org_shipment_items s1)
      by apply sweep_items.
    rewrite Hsame.
    split; intros [Hin Hh]; (split; [exact Hin|]).
    + intros Horg. apply String.eqb_eq in Horg. rewrite Horg in Hh. simpl in Hh.
      apply negb_false_iff, existsb_exists in Hh. destruct Hh as (i & Hi & E).
      exists i. split; [exact Hi|]. apply String.eqb_eq, E.
    + destruct (String.eqb (sh_org_id h) org_id) eqn:Horg; [|reflexivity].
      apply String.eqb_eq in Horg. destruct (Hh Horg) as (i & Hi & E).
      simpl. apply negb_false_iff, existsb_exists. exists i.
      split; [exact Hi|]. rewrite E. apply String.eqb_refl.
  - intros Ha. exact (Hroute env' s' Ha Hgone).
Qed.


(** ** Role changes *)

Lemma get_current_auth_full (t : Z) (token : string) (s : State) (a : Auth) :
  fst (_get_current_auth t (Some token) s) = Some a ->
  exists se u o m,
    session_row token s = Some (se, u, o, m) /\
    (t < s_expires_at se)%Z /\
    a = {| a_token := s_token se; a_userId := s_user_id se;
           a_orgId := s_org_id se; a_name := u_name u; a_email := u_email u;
           a_orgName := o_name o;
           a_orgJoinCode := match o_join_code o with Some c => c | None => "" end;
           a_role := m_role m |}.
Proof.
  unfold _get_current_auth.
  destruct (String.eqb token ""); [discriminate|].
  destruct (session_row token s) as [[[[se u] o] m]|]; [|discriminate].
  destruct (s_expires_at se <=? t)%Z eqn:E; [discriminate|].
  simpl. intros H. inversion H. exists se, u, o, m.
  apply Z.leb_gt in E. auto.
Qed.

Lemma session_row_parts (token : string) (s : State) se u o m :
  session_row token s = Some (se, u, o, m) ->
  find (fun x => String.eqb (s_token x) token) (sessions s) = Some se /\
  find (fun x => String.eqb (u_id x) (s_user_id se)) (users s) = Some u /\
  find (fun x => String.eqb (o_id x) (s_org_id se)) (organizations s) = Some o /\
  find (fun x => String.eqb (m_user_id x) (s_user_id se)
                 && String.eqb (m_org_id x) (s_org_id se)) (memberships s) = Some m.
Proof.
  unfold session_row. intros H.
  destruct (find _ (sessions s)) as [se'|] eqn:Hse; [|discriminate].
  destruct (find _ (users s)) as [u'|] eqn:Hu; [|discriminate].
  destruct (find _ (organizations s)) as [o'|] eqn:Ho; [|discriminate].
  destruct (find _ (memberships s)) as [m'|] eqn:Hm; [|discriminate].
  inversion H; subst. auto.
Qed.

(** A resolved session seen through another membership table. *)
Lemma get_current_auth_with_memberships (t : Z) (token : string) (s : State)
  (a : Auth) (ms : list Membership) (m' : Membership) :
  fst (_get_current_auth t (Some token) s) = Some a ->
  find (fun x => String.eqb (m_user_id x) (a_userId a)
                 && String.eqb (m_org_id x) (a_orgId a)) ms = Some m' ->
  _get_current_auth t (Some token) (with_memberships s ms)
  = (Some {| a_token := a_token a; a_userId := a_userId a; a_orgId := a_orgId a;
             a_name := a_name a; a_email := a_email a; a_orgName := a_orgName a;
             a_orgJoinCode := a_orgJoinCode a; a_role := m_role m' |},
     with_memberships s ms).
Proof.
  intros Ha Hm'.
  destruct (get_current_auth_full _ _ _ Ha) as (se & u & o & m & Hrow & Ht & ->).
  simpl in Hm'.
  destruct (session_row_parts _ _ Hrow) as (Hse & Hu & Ho & _).
  unfold _get_current_auth in *.
  destruct (String.eqb token ""); [discriminate|].
  unfold session_row. simpl. rewrite Hse, Hu, Ho, Hm'.
  apply Z.leb_gt in Ht. rewrite Ht. reflexivity.
Qed.

(** X9.  [POST /api/memberships/role] by an owner.  A role other than
    owner, manager or viewer, or an email that is blank after trimming, is
    answered 400; an email of no user, or of a user who is not a member of
    the owner's organization, is answered 404; in these cases nothing
    changes.  Otherwise the membership of that user in the owner's
    organization gets the new role and nothing else changes: from then on
    the member's sessions in that organization resolve with the new role,
    without a new login, and every other session resolves as before. *)
Theorem role_change_effect (env : Env) (cookie : option string) (s : State)
  (auth : Auth) (email role : string) :
  fst (_get_current_auth (now env) cookie s) = Some auth ->
  a_role auth = owner ->
  let request := PostMembershipRole email role in
  let address := str_lower (str_strip email) in
  (role_of_string (str_strip role) = None \/ address = "" ->
   _route_api env cookie request s
   = (error BAD_REQUEST "Укажите корректные email и role", s)) /\
  (forall new_role,
     role_of_string (str_strip role) = Some new_role -> address <> "" ->
     (find (fun u => String.eqb (u_email u) address) (users s) = None ->
      _route_api env cookie request s
      = (error NOT_FOUND "Пользователь не найден", s)) /\
     (forall user,
        find (fun u => String.eqb (u_email u) address) (users s) = Some user ->
        let hit m := String.eqb (m_user_id m) (u_id user)
                     && String.eqb (m_org_id m) (a_orgId auth) in
        (find hit (memberships s) = None ->
         _route_api env cookie request s
         = (error NOT_FOUND "Пользователь не состоит в вашей организации", s)) /\
        (forall m,
           find hit (memberships s) = Some m ->
           let s' :=
             with_memberships s
               (update_where hit (fun x => set_role x new_role) (memberships s)) in
           _route_api env cookie request s = ({| status := OK; body := BOk |}, s') /\
           (forall t token a,
              fst (_get_current_auth t (Some token) s) = Some a ->
              (a_userId a = u_id user -> a_orgId a = a_orgId auth ->
               fst (_get_current_auth t (Some token) s')
               = Some {| a_token := a_token a; a_userId := a_userId a;
                         a_orgId := a_orgId a; a_name := a_name a;
                         a_email := a_email a; a_orgName := a_orgName a;
                         a_orgJoinCode := a_orgJoinCode a; a_role := new_role |}) /\
              (a_userId a <> u_id user \/ a_orgId a <> a_orgId auth ->
               fst (_get_current_auth t (Some token) s') = Some a))))).
Proof.
  intros Hauth Hrole request address.
  rewrite (route_api_authorized env cookie request s Hauth).
  simpl. unfold post_memberships_role, _require_role. rewrite Hrole. simpl.
  fold address. split.
  - intros [->| ->]; [reflexivity|].
    destruct (role_of_string (str_strip role)); reflexivity.
  - intros new_role -> Haddr. apply String.eqb_neq in Haddr. rewrite Haddr.
    split; [intros ->; reflexivity|].
    intros user ->. split; [intros ->; reflexivity|].
    intros m Hm. rewrite Hm. split; [reflexivity|].
    intros t token a Ha.
    destruct (get_current_auth_full _ _ _ Ha) as (se & u & o & m0 & Hrow & _ & Ea).
    destruct (session_row_parts _ _ Hrow) as (_ & _ & _ & Hm0).
    assert (Hsel : find (fun x => String.eqb (m_user_id x) (a_userId a)
                                  && String.eqb (m_org_id x) (a_orgId a))
                     (memberships s) = Some m0)
      by (rewrite Ea; exact Hm0).
    assert (Hsel0 := find_some _ _ Hsel). destruct Hsel0 as [_ Hsel0].
    apply andb_prop in Hsel0. destruct Hsel0 as [Eu Eo].
    apply String.eqb_eq in Eu, Eo.
    pose proof (find_update_where_any
                  (fun x => String.eqb (m_user_id x) (u_id user)
                            && String.eqb (m_org_id x) (a_orgId auth))
                  (fun x => String.eqb (m_user_id x) (a_userId a)
                            && String.eqb (m_org_id x) (a_orgId a))
                  (fun x => set_role x new_role) (memberships s)
                  (fun x => eq_refl)) as Hfind.
    rewrite Hsel in Hfind. simpl in Hfind.
    split.
    + intros Euser Eorg.
      assert (Hhit : String.eqb (m_user_id m0) (u_id user)
                     && String.eqb (m_org_id m0) (a_orgId auth) = true)
        by (rewrite Eu, Eo, Euser, Eorg, !String.eqb_refl; reflexivity).
      rewrite Hhit in Hfind.
      exact (f_equal fst (get_current_auth_with_memberships _ _ _ _ Ha Hfind)).
    + intros Hother.
      assert (Hmiss : String.eqb (m_user_id m0) (u_id user)
                      && String.eqb (m_org_id m0) (a_orgId auth) = false).
      { apply andb_false_iff. rewrite !String.eqb_neq, Eu, Eo. exact Hother. }
      rewrite Hmiss in Hfind.
      pose proof (f_equal fst (get_current_auth_with_memberships _ _ _ _ Ha Hfind))
        as Hget.
      subst a. exact Hget.
Qed.

(** ** Round trips *)

Lemma delete_where_app_fresh (A : Type) (cond : A -> bool) (t : list A) (x : A) :
  (forall y, In y t -> cond y = false) -> cond x = true ->
  delete_where cond (t ++ [x]) = t.
Proof.
  intros Hold Hx. unfold delete_where. rewrite filter_app. simpl. rewrite Hx. simpl.
  rewrite app_nil_r. apply filter_all. intros y Hy. rewrite (Hold y Hy). reflexivity.
Qed.

Lemma delete_where_none (A : Type) (cond : A -> bool) (t : list A) :
  (forall y, In y t -> cond y = false) -> delete_where cond t = t.
Proof.
  intros Hold. unfold delete_where. apply filter_all.
  intros y Hy. rewrite (Hold y Hy). reflexivity.
Qed.

Lemma update_where_twice (A : Type) (cond : A -> bool) (f g : A -> A) (t : list A) :
  (forall x, cond (f x) = cond x) ->
  update_where cond g (update_where cond f t)
  = update_where cond (fun x => g (f x)) t.
Proof.
  intros Hf. unfold update_where. rewrite map_map. apply map_ext.
  intros x. destruct (cond x) eqn:E; [rewrite Hf, E|rewrite E]; reflexivity.
Qed.

Lemma update_where_ext (A : Type) (cond : A -> bool) (f g : A -> A) (t : list A) :
  (forall x, In x t -> cond x = true -> f x = g x) ->
  update_where cond f t = update_where cond g t.
Proof.
  intros H. unfold update_where. apply map_ext_in.
  intros x Hx. destruct (cond x) eqn:E; [apply H; assumption|reflexivity].
Qed.

(** X10.  A receipt posted and then deleted.  When the receipt id is new,
    the quantity is below [2 ^ 63] and the credited product's stock was not
    negative and stays below [2 ^ 63] with the quantity added, deleting the
    receipt brings back the receipt table and every stock; the purchase
    price does not come back: it stays at the cost of the deleted receipt
    when that cost was positive.  With a cost that is not positive the
    store is the one before the receipt. *)
Theorem receipt_round_trip (env env' : Env) (cookie cookie' : option string)
  (s : State) (auth auth' : Auth) (productId : string) (quantity : Z)
  (cost : pyfloat) (product : Product) :
  fst (_get_current_auth (now env) cookie s) = Some auth ->
  a_role auth <> viewer ->
  str_strip productId <> "" ->
  (0 < quantity)%Z ->
  select_product (str_strip productId) (a_orgId auth) s = Some product ->
  existsb (fun q => String.eqb (r_id q) (gen_receipt_id env)) (org_receipts s) = false ->
  (quantity < 2 ^ 63)%Z ->
  (forall p, In p (org_products s) ->
             product_hit (str_strip productId) (a_orgId auth) p = true ->
             (0 <= p_stock p)%Z /\ (p_stock p + quantity < 2 ^ 63)%Z) ->
  let s1 := snd (_route_api env cookie (PostReceipt productId quantity cost) s) in
  fst (_get_current_auth (now env') cookie' s1) = Some auth' ->
  a_orgId auth' = a_orgId auth ->
  a_role auth' <> viewer ->
  let after := _route_api env' cookie' (DeleteReceipt (gen_receipt_id env)) s1 in
  let repriced p :=
    set_purchase_price p
      (if float_gt0 cost then cost else p_purchase_price p) in
  status (fst after) = OK /\
  snd after
  = with_products s
      (update_where (product_hit (str_strip productId) (a_orgId auth)) repriced
         (org_products s)) /\
  org_receipts (snd after) = org_receipts s /\
  map p_stock (org_products (snd after)) = map p_stock (org_products s) /\
  (float_gt0 cost = false -> snd after = s).
Proof.
  intros Hauth Hrole Hid Hq Hsel Hfresh Hbound Hstock s1 Hauth' Horg Hrole' after
    repriced.
  assert (Hfit : fits_int64 quantity = true) by (apply fits_int64_spec; lia).
  assert (Es1 : s1 = with_receipts
                  (with_products s
                     (update_where (product_hit (str_strip productId) (a_orgId auth))
                        (fun p =>
                           set_purchase_price
                             (set_stock p (sqlite_add (p_stock p) quantity))
                             (if float_gt0 (max0 cost) then max0 cost
                              else p_purchase_price p))
                        (org_products s)))
                  (org_receipts s ++
                   [{| r_id := gen_receipt_id env; r_org_id := a_orgId auth;
                       r_product_id := str_strip productId; r_quantity := quantity;
                       r_cost := max0 cost; r_created_at := now env |}])).
  { unfold s1. rewrite (route_api_authorized env cookie _ s Hauth).
    simpl. unfold post_receipts. rewrite (role_not_viewer _ Hrole). simpl.
    apply String.eqb_neq in Hid. rewrite Hid. simpl.
    assert (Hq' : (quantity <=? 0)%Z = false) by (apply Z.leb_gt; exact Hq).
    rewrite Hq', Hsel, Hfit. unfold insert_receipt. simpl. rewrite Hfresh.
    reflexivity. }
  assert (Eafter : snd after
                   = with_products s
                       (update_where (product_hit (str_strip productId) (a_orgId auth))
                          repriced (org_products s))).
  { unfold after. rewrite (route_api_authorized env' cookie' _ s1 Hauth').
    simpl. unfold delete_receipt. rewrite (role_not_viewer _ Hrole'). simpl.
    rewrite Horg, Es1. simpl.
    rewrite find_app_fresh.
    - simpl. unfold with_receipts, with_products, with_ledger. simpl. f_equal.
      + rewrite update_where_twice by reflexivity.
        apply update_where_ext. intros p Hin Hhit.
        destruct (Hstock p Hin Hhit) as [Hlow Hhigh]. unfold repriced.
        rewrite float_gt0_max0.
        assert (Esum : sqlite_add (p_stock p) quantity = (p_stock p + quantity)%Z)
          by (apply sqlite_add_exact; apply fits_int64_spec; lia).
        rewrite Esum.
        destruct p as [pid porg pname psku punit pprice pstock ppurchase pcreated].
        unfold set_stock, set_purchase_price, max0. simpl in *.
        assert (E : (pstock + quantity - quantity <? 0)%Z = false)
          by (apply Z.ltb_ge; lia).
        rewrite E. f_equal; [lia|].
        destruct (float_gt0 cost); reflexivity.
      + apply delete_where_app_fresh.
        * intros y Hy. unfold receipt_hit.
          rewrite (existsb_false_In _ _ y Hfresh Hy). reflexivity.
        * unfold receipt_hit. simpl. rewrite !String.eqb_refl. reflexivity.
    - intros y Hy. unfold receipt_hit.
      rewrite (existsb_false_In _ _ y Hfresh Hy). reflexivity.
    - unfold receipt_hit. simpl. rewrite !String.eqb_refl. reflexivity. }
  split; [|split; [exact Eafter|split; [|split]]].
  - unfold after. rewrite (route_api_authorized env' cookie' _ s1 Hauth').
    simpl. unfold delete_receipt. rewrite (role_not_viewer _ Hrole'). simpl.
    rewrite Horg, Es1. simpl.
    rewrite find_app_fresh; [reflexivity| |].
    + intros y Hy. unfold receipt_hit.
      rewrite (existsb_false_In _ _ y Hfresh Hy). reflexivity.
    + unfold receipt_hit. simpl. rewrite !String.eqb_refl. reflexivity.
  - rewrite Eafter. reflexivity.
  - rewrite Eafter. simpl. unfold update_where. rewrite map_map. apply map_ext.
    intros p. destruct (product_hit _ _ p); reflexivity.
  - intros Hcost. rewrite Eafter. unfold repriced. rewrite Hcost.
    transitivity (with_products s (org_products s)); [|apply with_ledger_same].
    f_equal. unfold update_where. rewrite <- (map_id (org_products s)) at 2.
    apply map_ext. intros p. destruct (product_hit _ _ p); [|reflexivity].
    destruct p; reflexivity.
Qed.

Lemma sweep_nothing (org_id : string) (s : State) :
  no_empty_shipment s = true ->
  delete_shipments (empty_shipment org_id s) s = s.
Proof.
  intros Hne. unfold no_empty_shipment in Hne. rewrite forallb_forall in Hne.
  transitivity (with_ledger s (org_products s) (org_receipts s) (org_shipments s)
                  (org_shipment_items s)); [|apply with_ledger_same].
  unfold delete_shipments. f_equal.
  - apply delete_where_none. intros h Hh. unfold empty_shipment.
    rewrite (Hne h Hh). apply andb_false_r.
  - apply (sweep_items org_id s).
Qed.

(** X11.  A product created and then deleted.  When the product id (and
    the receipt id, if an initial receipt is written) is new, the initial
    stock is below [2 ^ 63] and the store is consistent, deleting the
    product takes back the product row and its initial receipt, and leaves
    what the sweep of empty shipments leaves of the store before the
    creation: that store itself when none of its shipments is empty. *)
Theorem product_round_trip (env env' : Env) (cookie cookie' : option string)
  (s : State) (auth auth' : Auth) (name sku unit : string) (price : pyfloat)
  (stock : Z) (purchasePrice : pyfloat) :
  fst (_get_current_auth (now env) cookie s) = Some auth ->
  a_role auth <> viewer ->
  store_ok s = true ->
  str_strip name <> "" ->
  existsb (fun q => String.eqb (p_id q) (gen_product_id env)) (org_products s) = false ->
  existsb (fun q => String.eqb (r_id q) (gen_receipt_id env)) (org_receipts s) = false ->
  (stock < 2 ^ 63)%Z ->
  let s1 :=
    snd (_route_api env cookie (PostProduct name sku unit price stock purchasePrice) s) in
  fst (_get_current_auth (now env') cookie' s1) = Some auth' ->
  a_orgId auth' = a_orgId auth ->
  a_role auth' <> viewer ->
  let after := _route_api env' cookie' (DeleteProduct (gen_product_id env)) s1 in
  status (fst after) = OK /\
  snd after = delete_shipments (empty_shipment (a_orgId auth) s) s /\
  (no_empty_shipment s = true -> snd after = s).
Proof.
  intros Hauth Hrole Hok Hname Hpid Hrid Hbound s1 Hauth' Horg Hrole' after.
  assert (Hfit : fits_int64 (Z.max 0 stock) = true)
    by (apply fits_int64_spec; lia).
  apply store_ok_parts in Hok.
  destruct Hok as (_ & _ & _ & Hrp & Hip & _).
  assert (Hno_r : forall r, In r (org_receipts s) ->
                    String.eqb (r_product_id r) (gen_product_id env) = false).
  { intros r Hr. destruct (proj1 (refers_spec _ _ _ _ _ _) Hrp r Hr)
      as (p & Hp & Eid & _).
    rewrite <- Eid. apply (existsb_false_In _ _ p Hpid Hp). }
  assert (Hno_i : forall i, In i (org_shipment_items s) ->
                    String.eqb (i_product_id i) (gen_product_id env) = false).
  { intros i Hi. destruct (proj1 (refers_spec _ _ _ _ _ _) Hip i Hi)
      as (p & Hp & Eid & _).
    rewrite <- Eid. apply (existsb_false_In _ _ p Hpid Hp). }
  assert (Hno_p : forall p, In p (org_products s) ->
                    product_hit (gen_product_id env) (a_orgId auth) p = false).
  { intros p Hp. unfold product_hit.
    rewrite (existsb_false_In _ _ p Hpid Hp). reflexivity. }
  set (np := {| p_id := gen_product_id env; p_org_id := a_orgId auth;
                p_name := str_strip name;
                p_sku := if String.eqb (str_strip sku) "" then gen_sku env
                         else str_strip sku;
                p_unit := if String.eqb (str_strip unit) "" then "шт"
                          else str_strip unit;
                p_price := max0 price; p_stock := Z.max 0 stock;
                p_purchase_price := max0 purchasePrice;
                p_created_at := now env |}).
  set (nr := {| r_id := gen_receipt_id env; r_org_id := a_orgId auth;
                r_product_id := gen_product_id env; r_quantity := Z.max 0 stock;
                r_cost := max0 purchasePrice; r_created_at := now env |}).
  assert (Es1 : exists rs,
            s1 = with_ledger s (org_products s ++ [np]) rs (org_shipments s)
                   (org_shipment_items s) /\
            delete_where (fun r => String.eqb (r_product_id r) (gen_product_id env)) rs
            = org_receipts s).
  { unfold s1. rewrite (route_api_authorized env cookie _ s Hauth).
    simpl. unfold post_products. rewrite (role_not_viewer _ Hrole). simpl.
    apply String.eqb_neq in Hname. rewrite Hname, Hfit.
    unfold insert_product. simpl. rewrite Hpid.
    destruct (0 <? Z.max 0 stock)%Z.
    - unfold insert_receipt. simpl. rewrite Hrid. simpl.
      exists (org_receipts s ++ [nr])%list. split; [reflexivity|].
      apply delete_where_app_fresh; [exact Hno_r|]. simpl. apply String.eqb_refl.
    - simpl. exists (org_receipts s). split; [reflexivity|].
      apply delete_where_none, Hno_r. }
  destruct Es1 as (rs & Es1 & Hrs).
  assert (Hsel : select_product (gen_product_id env) (a_orgId auth) s1 = Some np).
  { rewrite Es1. unfold select_product. simpl. apply find_app_fresh; [exact Hno_p|].
    unfold product_hit. simpl. rewrite !String.eqb_refl. reflexivity. }
  assert (Eafter : after
                   = (state_response OK
                        (delete_shipments (empty_shipment (a_orgId auth) s) s)
                        (a_orgId auth),
                      delete_shipments (empty_shipment (a_orgId auth) s) s)).
  { unfold after. rewrite (route_api_authorized env' cookie' _ s1 Hauth').
    simpl. unfold delete_product. rewrite (role_not_viewer _ Hrole'). simpl.
    rewrite Horg. rewrite (rowcount_found _ _ Hsel).
    rewrite (delete_products_by_id _ _ _ Hsel).
    assert (Eback : with_ledger s1
                      (delete_where (product_hit (gen_product_id env) (a_orgId auth))
                         (org_products s1))
                      (delete_where
                         (fun r => String.eqb (r_product_id r) (gen_product_id env))
                         (org_receipts s1))
                      (org_shipments s1)
                      (delete_where
                         (fun i => String.eqb (i_product_id i) (gen_product_id env))
                         (org_shipment_items s1)) = s).
    { rewrite Es1. simpl. rewrite Hrs.
      rewrite delete_where_app_fresh; [|exact Hno_p|];
        [|unfold product_hit; simpl; rewrite !String.eqb_refl; reflexivity].
      rewrite (delete_where_none _ _ Hno_i).
      apply (with_ledger_same s). }
    rewrite Eback. reflexivity. }
  rewrite Eafter. simpl. split; [reflexivity|]. split; [reflexivity|].
  apply sweep_nothing.
Qed.

(** ** Invariants along a run *)

Lemma no_empty_shipment_spec (s : State) :
  no_empty_shipment s = true <->
  (forall h, In h (org_shipments s) ->
   exists i, In i (org_shipment_items s) /\ i_shipment_id i = sh_id h).
Proof.
  unfold no_empty_shipment. rewrite forallb_forall.
  split; intros H h Hh.
  - apply H, existsb_exists in Hh. destruct Hh as (i & Hi & E).
    exists i. split; [exact Hi|]. apply String.eqb_eq, E.
  - destruct (H h Hh) as (i & Hi & E). apply existsb_exists.
    exists i. split; [exact Hi|]. rewrite E. apply String.eqb_refl.
Qed.

Lemma post_shipments_nonempty (env : Env) (auth : Auth) (items : list ItemPayload)
  (s s1 : State) (r : Response) :
  post_shipments env auth items s = Return r s1 ->
  status r = CREATED -> items <> [].
Proof.
  intros H Hst ->. unfold post_shipments in H.
  destruct (negb (_require_role auth [owner; manager]));
    simpl in H; inversion H; subst; discriminate.
Qed.

Lemma dispatch_no_empty (env : Env) (auth : Auth) (req : Request)
  (s s' : State) (r : Response) :
  dispatch env auth req s = Return r s' ->
  store_ok s = true ->
  no_empty_shipment s = true -> no_empty_shipment s' = true.
Proof.
  intros H Hok Hne.
  destruct req; simpl in H.
  - unfold get_state in H. inversion H; subst; exact Hne.
  - unfold post_memberships_role in H.
    repeat (case_match_hyp; try discriminate); inversion H; subst; exact Hne.
  - unfold post_products, insert_product, insert_receipt in H.
    repeat (case_match_hyp; try discriminate); invert_some;
      inversion H; subst; exact Hne.
  - unfold patch_product_price in H.
    repeat (case_match_hyp; try discriminate); inversion H; subst; exact Hne.
  - unfold patch_product in H.
    repeat (case_match_hyp; try discriminate); inversion H; subst; exact Hne.
  - (* DELETE /api/products/<id> *)
    unfold delete_product in H.
    destruct (negb (_require_role auth [owner; manager]));
      [inversion H; subst; exact Hne|].
    destruct (find (product_hit product_id (a_orgId auth)) (org_products s))
      as [p|] eqn:Hp.
    2:{ apply rowcount_zero in Hp. rewrite Hp in H. inversion H; subst; exact Hne. }
    rewrite (rowcount_found _ _ Hp), (delete_products_by_id _ _ _ Hp) in H.
    inversion H; subst. clear H.
    apply no_empty_shipment_spec. intros h Hh.
    rewrite sweep_items. simpl.
    unfold delete_shipments, delete_where in Hh. simpl in Hh.
    apply filter_In in Hh. destruct Hh as [Hh Hkeep].
    apply negb_true_iff in Hkeep. unfold empty_shipment in Hkeep. simpl in Hkeep.
    destruct (String.eqb (sh_org_id h) (a_orgId auth)) eqn:Horg.
    + simpl in Hkeep. apply negb_false_iff, existsb_exists in Hkeep.
      destruct Hkeep as (i & Hi & E). exists i. split; [exact Hi|].
      apply String.eqb_eq, E.
    + destruct (proj1 (no_empty_shipment_spec s) Hne h Hh) as (i & Hi & E).
      exists i. split; [|exact E].
      unfold delete_where. apply filter_In. split; [exact Hi|].
      apply negb_true_iff.
      destruct (String.eqb (i_product_id i) product_id) eqn:Eid; [|reflexivity].
      exfalso. apply String.eqb_eq in Eid.
      apply select_product_in in Hp. destruct Hp as (Hpin & Epid & Eporg).
      pose proof (item_shipment_org s h i Hok Hh Hi E) as E1.
      assert (E2 : i_org_id i = p_org_id p)
        by (apply (item_product_org s p i Hok Hpin Hi); congruence).
      apply String.eqb_neq in Horg. congruence.
  - unfold post_receipts, insert_receipt in H.
    repeat (case_match_hyp; try discriminate); invert_some;
      inversion H; subst; exact Hne.
  - unfold delete_receipt in H.
    repeat (case_match_hyp; try discriminate); inversion H; subst; exact Hne.
  - (* POST /api/shipments *)
    destruct (post_shipments_cases _ _ _ _ H) as [->|Hst]; [exact Hne|].
    pose proof H as Hitems.
    apply post_shipments_nonempty in Hitems; [|exact Hst].
    destruct (post_shipments_created _ _ _ _ H Hst) as (_ & _ & _ & ->).
    apply no_empty_shipment_spec. simpl. intros h Hh.
    apply in_app_iff in Hh. destruct Hh as [Hh|[<-|[]]].
    + destruct (proj1 (no_empty_shipment_spec s) Hne h Hh) as (i & Hi & E).
      exists i. split; [|exact E]. apply in_app_iff. left. exact Hi.
    + destruct items as [|item rest]; [contradiction|].
      eexists. split; [apply in_app_iff; right; left; reflexivity|reflexivity].
  - (* DELETE /api/shipments/<id> *)
    unfold delete_shipment in H.
    destruct (negb (_require_role auth [owner; manager]));
      [inversion H; subst; exact Hne|].
    destruct (find (shipment_hit shipment_id (a_orgId auth)) (org_shipments s))
      as [h0|] eqn:Hh0; [|inversion H; subst; exact Hne].
    rewrite restore_items_closed in H.
    erewrite delete_shipments_by_id in H by exact Hh0.
    inversion H; subst. clear H.
    apply no_empty_shipment_spec. simpl. intros h Hh.
    unfold delete_where in Hh. apply filter_In in Hh. destruct Hh as [Hh Hkeep].
    destruct (proj1 (no_empty_shipment_spec s) Hne h Hh) as (i & Hi & E).
    exists i. split; [|exact E].
    unfold delete_where. apply filter_In. split; [exact Hi|].
    apply negb_true_iff.
    destruct (String.eqb (i_shipment_id i) shipment_id) eqn:Eid; [|reflexivity].
    exfalso. apply String.eqb_eq in Eid.
    apply find_some in Hh0. destruct Hh0 as [Hin0 Hhit0].
    unfold shipment_hit in Hhit0, Hkeep.
    apply andb_prop in Hhit0. destruct Hhit0 as [Eid0 Eorg0].
    apply String.eqb_eq in Eid0, Eorg0.
    apply store_ok_parts in Hok. destruct Hok as (_ & _ & Hu & _).
    pose proof (proj1 (unique_org_spec _ _ _) Hu h h0 Hh Hin0) as Hsame.
    assert (Eh : sh_id h = shipment_id) by congruence.
    rewrite Eh, String.eqb_refl, Hsame, Eorg0, String.eqb_refl in Hkeep
      by congruence.
    discriminate.
Qed.

(** X12.  No shipment is left without items.  On a consistent store in
    which every shipment has an item, every run of requests leaves a store
    in which every shipment has an item. *)
Theorem no_shipment_left_empty (reqs : list (Env * option string * Request))
  (s : State) :
  store_ok s = true ->
  no_empty_shipment s = true ->
  no_empty_shipment (run reqs s) = true /\
  forall h, In h (org_shipments (run reqs s)) ->
    exists i, In i (org_shipment_items (run reqs s)) /\ i_shipment_id i = sh_id h.
Proof.
  intros Hok Hne.
  assert (Hrun : no_empty_shipment (run reqs s) = true).
  { revert s Hok Hne. induction reqs as [|[[env cookie] req] rest IH];
      intros s Hok Hne; simpl; [exact Hne|].
    apply IH; [apply route_api_store_ok, Hok|].
    destruct (route_api_cases env cookie req s)
      as [[_ ->]|(auth & _ & [(e & _ & ->)|(r & s' & Hdis & ->)])]; simpl; auto.
    - destruct (get_current_auth_ledger (now env) cookie s)
        as (_ & _ & Eh & Ei & _).
      unfold no_empty_shipment. rewrite Eh, Ei. exact Hne.
    - exact (dispatch_no_empty _ _ _ _ Hdis Hok Hne). }
  split; [exact Hrun|]. apply no_empty_shipment_spec, Hrun.
Qed.

(** X13.  References stay valid.  On a consistent store, after any run
    of requests every receipt names a product of its own organization that
    exists, every shipment item names a product and a shipment of its own
    organization that exist, and rows that share an id share an
    organization. *)
Theorem references_stay_valid (reqs : list (Env * option string * Request))
  (s : State) :
  store_ok s = true ->
  let s' := run reqs s in
  store_ok s' = true /\
  (forall r, In r (org_receipts s') ->
     exists p, In p (org_products s') /\ p_id p = r_product_id r /\
               p_org_id p = r_org_id r) /\
  (forall i, In i (org_shipment_items s') ->
     (exists p, In p (org_products s') /\ p_id p = i_product_id i /\
                p_org_id p = i_org_id i) /\
     (exists h, In h (org_shipments s') /\ sh_id h = i_shipment_id i /\
                sh_org_id h = i_org_id i)) /\
  (forall p q, In p (org_products s') -> In q (org_products s') ->
     p_id p = p_id q -> p_org_id p = p_org_id q).
Proof.
  intros Hok s'.
  assert (Hok' : store_ok s' = true) by (apply run_store_ok, Hok).
  split; [exact Hok'|].
  apply store_ok_parts in Hok'.
  destruct Hok' as (Hu & _ & _ & Hrp & Hip & Hih).
  split; [|split].
  - exact (proj1 (refers_spec _ _ _ _ _ _) Hrp).
  - intros i Hi. split.
    + exact (proj1 (refers_spec _ _ _ _ _ _) Hip i Hi).
    + exact (proj1 (refers_spec _ _ _ _ _ _) Hih i Hi).
  - exact (proj1 (unique_org_spec _ _ _) Hu).
Qed.

(** ** What [fetch_state] lists *)

Lemma insert_desc_perm (A : Type) (key : A -> Z) (x : A) (l : list A) :
  Permutation (insert_desc key x l) (x :: l).
Proof.
  induction l as [|y l IH]; simpl; [apply Permutation_refl|].
  destruct (key y <=? key x)%Z; [apply Permutation_refl|].
  apply perm_trans with (y :: x :: l); [apply perm_skip, IH|apply perm_swap].
Qed.

Lemma order_by_desc_perm (A : Type) (key : A -> Z) (l : list A) :
  Permutation (order_by_desc key l) l.
Proof.
  induction l as [|x l IH]; simpl; [apply perm_nil|].
  apply perm_trans with (x :: order_by_desc key l);
    [apply insert_desc_perm|apply perm_skip, IH].
Qed.

Lemma insert_desc_sorted (A : Type) (key : A -> Z) (x : A) (l : list A) :
  StronglySorted (fun a b => (key b <= key a)%Z) l ->
  StronglySorted (fun a b => (key b <= key a)%Z) (insert_desc key x l).
Proof.
  induction 1 as [|y l Hs IH Hy]; simpl.
  - constructor; constructor.
  - destruct (key y <=? key x)%Z eqn:E.
    + apply Z.leb_le in E. constructor.
      * constructor; assumption.
      * constructor; [exact E|].
        rewrite Forall_forall in *. intros z Hz. specialize (Hy z Hz). lia.
    + apply Z.leb_gt in E. constructor; [exact IH|].
      rewrite Forall_forall in *. intros z Hz.
      apply in_insert_desc in Hz. destruct Hz as [<-|Hz]; [lia|apply Hy, Hz].
Qed.

Lemma order_by_desc_sorted (A : Type) (key : A -> Z) (l : list A) :
  StronglySorted (fun a b => (key b <= key a)%Z) (order_by_desc key l).
Proof.
  induction l as [|x l IH]; simpl; [constructor|apply insert_desc_sorted, IH].
Qed.

Lemma sorted_map (A V : Type) (f : A -> V) (R : V -> V -> Prop) (l : list A) :
  StronglySorted (fun a b => R (f a) (f b)) l -> StronglySorted R (map f l).
Proof.
  induction 1 as [|x l Hs IH Hx]; simpl; constructor; [exact IH|].
  rewrite Forall_forall in *. intros v Hv. apply in_map_iff in Hv.
  destruct Hv as (y & <- & Hy). apply Hx, Hy.
Qed.

(** X14.  What [GET /api/state] lists.  The products, receipts and
    shipments of the answer are the rows of the organization, each once
    and none of another organization; receipts and shipments come newest
    first, and so do the products; a shipment carries the items that name
    it, in the order they were inserted. *)
Theorem fetch_state_listing (s : State) (org_id : string) :
  let v := fetch_state s org_id in
  Permutation (st_products v)
    (map row_to_product
       (filter (fun p => String.eqb (p_org_id p) org_id) (org_products s))) /\
  Permutation (st_receipts v)
    (map receipt_view
       (filter (fun r => String.eqb (r_org_id r) org_id) (org_receipts s))) /\
  Permutation (st_shipments v)
    (map (shipment_view (org_shipment_items s))
       (filter (fun h => String.eqb (sh_org_id h) org_id) (org_shipments s))) /\
  (exists ps, st_products v = map row_to_product ps /\
              StronglySorted (fun a b => (p_created_at b <= p_created_at a)%Z) ps) /\
  StronglySorted (fun a b => (rv_createdAt b <= rv_createdAt a)%Z) (st_receipts v) /\
  StronglySorted (fun a b => (sv_createdAt b <= sv_createdAt a)%Z) (st_shipments v) /\
  (forall sv, In sv (st_shipments v) ->
     exists h, In h (org_shipments s) /\ sh_org_id h = org_id /\
               sv_id sv = sh_id h /\
               sv_items sv
               = map item_view
                   (filter (fun i => String.eqb (i_shipment_id i) (sh_id h))
                      (org_shipment_items s))).
Proof.
  simpl. repeat split.
  - apply Permutation_map, order_by_desc_perm.
  - apply Permutation_map, order_by_desc_perm.
  - apply Permutation_map, order_by_desc_perm.
  - eexists. split; [reflexivity|]. apply order_by_desc_sorted.
  - apply sorted_map. apply (order_by_desc_sorted r_created_at).
  - apply sorted_map. apply (order_by_desc_sorted sh_created_at).
  - intros sv Hsv. apply in_map_iff in Hsv. destruct Hsv as (h & <- & Hh).
    apply in_order_by_desc, filter_In in Hh. destruct Hh as [Hh Horg].
    exists h. apply String.eqb_eq in Horg. auto.
Qed.

Lemma find_ext_in (A : Type) (f g : A -> bool) (l : list A) :
  (forall x, In x l -> f x = g x) -> find f l = find g l.
Proof.
  induction l as [|x l IH]; intros H; simpl; [reflexivity|].
  rewrite (H x (or_introl eq_refl)). destruct (g x); [reflexivity|].
  apply IH. intros y Hy. apply H. right. exact Hy.
Qed.

(** On a consistent store a product found under an organization is the
    first row with its id. *)
Lemma find_by_id_selected (product_id org_id : string) (s : State) (p : Product) :
  store_ok s = true ->
  select_product product_id org_id s = Some p ->
  find (fun q => String.eqb (p_id q) product_id) (org_products s) = Some p.
Proof.
  intros Hok Hp. rewrite <- Hp. unfold select_product. apply find_ext_in.
  intros q Hq. unfold product_hit.
  destruct (String.eqb (p_id q) product_id) eqn:E; [|reflexivity].
  apply String.eqb_eq in E. apply select_product_in in Hp.
  destruct Hp as (Hin & Eid & Eorg).
  apply store_ok_parts in Hok. destruct Hok as (Hu & _).
  rewrite (proj1 (unique_org_spec _ _ _) Hu q p Hq Hin) by congruence.
  rewrite Eorg, String.eqb_refl. reflexivity.
Qed.

(** X15.  A shipment just created is listed and printable.  After a
    [POST /api/shipments] answered 201 on a consistent store, the state of
    the organization lists the shipment with one item per line of the
    payload, in the order of the payload, and any member of the
    organization (a viewer too) gets its printable receipt: one row per
    line, with the name of the product, the quantity, and the price and
    amount stored with the item. *)
Theorem shipment_listed_and_printable (env : Env) (t : Z)
  (cookie cookie' : option string) (s s1 : State) (auth auth' : Auth)
  (items : list ItemPayload) (r : Response) :
  fst (_get_current_auth (now env) cookie s) = Some auth ->
  store_ok s = true ->
  _route_api env cookie (PostShipment items) s = (r, s1) ->
  status r = CREATED ->
  fst (_get_current_auth t cookie' s1) = Some auth' ->
  a_orgId auth' = a_orgId auth ->
  let org_id := a_orgId auth in
  let shipment_id := gen_shipment_id env in
  let prepared := map line_of_item items in
  let new_items := map (line_item shipment_id org_id s) prepared in
  In {| sv_id := shipment_id; sv_createdAt := now env;
        sv_items := map item_view new_items |}
     (st_shipments (fetch_state s1 org_id)) /\
  map iv_productId (map item_view new_items)
  = map (fun item => str_strip (ip_productId item)) items /\
  map iv_quantity (map item_view new_items) = map ip_quantity items /\
  print_shipment t cookie' shipment_id s1
  = ({| status := OK;
        body :=
          BPrint
            {| pd_org_name := a_orgName auth'; pd_doc_no := shipment_id;
               pd_created := now env;
               pd_rows :=
                 map (fun line =>
                        {| pr_product_name :=
                             option_map p_name
                               (select_product (l_productId line) org_id s);
                           pr_quantity := l_qty line;
                           pr_price := i_price (line_item shipment_id org_id s line);
                           pr_amount :=
                             i_amount (line_item shipment_id org_id s line) |})
                   prepared |} |}, s1) /\
  (forall line, In line prepared ->
     select_product (l_productId line) org_id s <> None).
Proof.
  intros Hauth Hok Hroute Hst Hauth' Horg org_id shipment_id prepared new_items.
  rewrite (route_api_authorized env cookie _ s Hauth) in Hroute.
  simpl in Hroute.
  destruct (post_shipments env auth items s) as [r0 s0|e] eqn:Hpost;
    [|inversion Hroute; subst; discriminate].
  inversion Hroute; subst r0 s0. clear Hroute.
  destruct (post_shipments_created _ _ _ _ Hpost Hst) as (_ & Hpass & Hfresh & Es1).
  fold org_id shipment_id prepared new_items in Hpass, Hfresh, Es1.
  assert (Hold : forall i, In i (org_shipment_items s) ->
                   String.eqb (i_shipment_id i) shipment_id = false).
  { intros i Hi. pose proof Hok as Hparts. apply store_ok_parts in Hparts.
    destruct Hparts as (_ & _ & _ & _ & _ & Hih).
    destruct (proj1 (refers_spec _ _ _ _ _ _) Hih i Hi) as (h & Hh & Eid & _).
    rewrite <- Eid. apply (existsb_false_In _ _ h Hfresh Hh). }
  assert (Hnew : forall i, In i new_items ->
                   i_shipment_id i = shipment_id /\ i_org_id i = org_id).
  { intros i Hi. apply in_map_iff in Hi. destruct Hi as (line & <- & _).
    split; reflexivity. }
  assert (Hsel : forall line, In line prepared ->
                   select_product (l_productId line) org_id s <> None)
    by (apply passes_selected; exact Hpass).
  split; [|split; [|split; [|split; [|exact Hsel]]]].
  - (* listed *)
    simpl. apply in_map_iff.
    exists {| sh_id := shipment_id; sh_org_id := org_id; sh_created_at := now env |}.
    split.
    + unfold shipment_view. simpl. f_equal. f_equal.
      rewrite Es1. simpl. rewrite filter_app.
      rewrite (filter_none _ _ Hold). simpl. apply filter_all.
      intros i Hi. destruct (Hnew i Hi) as [-> _]. apply String.eqb_refl.
    + apply in_order_by_desc, filter_In. simpl. split.
      * rewrite Es1. simpl. apply in_app_iff. right. left. reflexivity.
      * apply String.eqb_refl.
  - unfold new_items, prepared. rewrite !map_map. reflexivity.
  - unfold new_items, prepared. rewrite !map_map. reflexivity.
  - (* printable *)
    unfold print_shipment, _require_auth.
    pose proof (get_current_auth_fst_some _ _ _ Hauth') as Hget.
    rewrite Hget. unfold render_shipment_print_html. rewrite Horg. fold org_id.
    assert (Hfind : find (fun h => String.eqb (sh_id h) shipment_id
                                   && String.eqb (sh_org_id h) org_id)
                      (org_shipments s1)
                    = Some {| sh_id := shipment_id; sh_org_id := org_id;
                              sh_created_at := now env |}).
    { rewrite Es1. simpl. apply find_app_fresh.
      - intros h Hh. rewrite (existsb_false_In _ _ h Hfresh Hh). reflexivity.
      - simpl. rewrite !String.eqb_refl. reflexivity. }
    rewrite Hfind. simpl. do 4 f_equal.
    assert (Hrows : filter (fun i => String.eqb (i_shipment_id i) shipment_id
                                     && String.eqb (i_org_id i) org_id)
                      (org_shipment_items s1) = new_items).
    { rewrite Es1. simpl. rewrite filter_app.
      rewrite filter_none by (intros i Hi; rewrite (Hold i Hi); reflexivity).
      simpl. apply filter_all. intros i Hi. destruct (Hnew i Hi) as [-> ->].
      rewrite !String.eqb_refl. reflexivity. }
    rewrite Hrows. unfold new_items. rewrite map_map. apply map_ext_in.
    intros line Hline. simpl. f_equal.
    rewrite Es1. simpl. rewrite apply_deltas_closed.
    rewrite find_map_same by reflexivity.
    destruct (select_product (l_productId line) org_id s) as [p|] eqn:Hp;
      [|exfalso; exact (Hsel line Hline Hp)].
    rewrite (find_by_id_selected _ _ _ Hok Hp). reflexivity.
Qed.

End Ledger.

(** * Properties of the session layer *)

Section Sessions.

Context {B : PyBuiltins}.

(** ** Splitting strings *)

Lemma str_split1_missing (sep : ascii) (s : string) :
  str_contains sep s = false -> str_split1 sep s = [s].
Proof.
  induction s as [|c s IH]; simpl; [reflexivity|].
  intros H. apply orb_false_elim in H. destruct H as [Hc Hs].
  rewrite Hc, (IH Hs). reflexivity.
Qed.

Lemma str_split1_found (sep : ascii) (s : string) :
  str_contains sep s = true ->
  exists a b, str_split1 sep s = [a; b] /\ s = a ++ String sep b /\
              str_contains sep a = false.
Proof.
  induction s as [|c s IH]; simpl; [discriminate|].
  destruct (Ascii.eqb c sep) eqn:Hc; simpl.
  - intros _. apply Ascii.eqb_eq in Hc. subst c.
    exists "", s. auto.
  - intros Hs. destruct (IH Hs) as (a & b & E & -> & Ha).
    rewrite E. exists (String c a), b. simpl. rewrite Hc, Ha. auto.
Qed.

Lemma str_split1_app (sep : ascii) (a b : string) :
  str_contains sep a = false -> str_split1 sep (a ++ String sep b) = [a; b].
Proof.
  induction a as [|c a IH]; simpl.
  - intros _. rewrite Ascii.eqb_refl. reflexivity.
  - intros H. apply orb_false_elim in H. destruct H as [Hc Ha].
    rewrite Hc, (IH Ha). reflexivity.
Qed.

Lemma str_contains_app (sep : ascii) (a b : string) :
  str_contains sep (a ++ b) = str_contains sep a || str_contains sep b.
Proof.
  induction a as [|c a IH]; simpl; [reflexivity|].
  rewrite IH, orb_assoc. reflexivity.
Qed.

Lemma str_split_app (sep : ascii) (a b : string) :
  str_contains sep a = false ->
  str_split sep (a ++ String sep b) = a :: str_split sep b.
Proof.
  induction a as [|c a IH]; simpl.
  - intros _. rewrite Ascii.eqb_refl. reflexivity.
  - intros H. apply orb_false_elim in H. destruct H as [Hc Ha].
    rewrite Hc, (IH Ha). reflexivity.
Qed.

(** ** [parse_cookie] *)

Lemma dict_get_set (d : dict) (k v key : string) :
  dict_get (dict_set d k v) key
  = if String.eqb k key then Some v else dict_get d key.
Proof.
  unfold dict_get. induction d as [|[k0 v0] d IH]; simpl.
  - destruct (String.eqb k key); reflexivity.
  - destruct (String.eqb k0 k) eqn:E; simpl.
    + apply String.eqb_eq in E. subst k0.
      destruct (String.eqb k key); reflexivity.
    + destruct (String.eqb k0 key) eqn:E0; simpl.
      * apply String.eqb_eq in E0. subst k0. rewrite String.eqb_sym, E.
        reflexivity.
      * exact IH.
Qed.

Lemma parse_cookie_part_pair (cookies : dict) (part : string) :
  exists cookies',
    parse_cookie_part (Some cookies) part = Some cookies' /\
    forall key,
      dict_get cookies' key
      = match find (fun kv => String.eqb (fst kv) key) (cookie_pair part) with
        | Some kv => Some (snd kv)
        | None => dict_get cookies key
        end.
Proof.
  unfold parse_cookie_part, cookie_pair.
  destruct (str_contains "=" (str_strip part)) eqn:E; simpl.
  - destruct (str_split1_found _ _ E) as (a & b & -> & _ & _).
    eexists. split; [reflexivity|]. intros key. rewrite dict_get_set. simpl.
    destruct (String.eqb a key); reflexivity.
  - rewrite (str_split1_missing _ _ E). eexists. split; [reflexivity|].
    intros key. reflexivity.
Qed.

Lemma parse_cookie_fold (parts : list string) (cookies : dict) :
  exists cookies',
    fold_left parse_cookie_part parts (Some cookies) = Some cookies' /\
    forall key,
      dict_get cookies' key
      = match find (fun kv => String.eqb (fst kv) key)
                (rev (flat_map cookie_pair parts)) with
        | Some kv => Some (snd kv)
        | None => dict_get cookies key
        end.
Proof.
  revert cookies. induction parts as [|part parts IH]; intros cookies.
  - exists cookies. auto.
  - cbn [fold_left flat_map].
    destruct (parse_cookie_part_pair cookies part) as (c1 & -> & H1).
    destruct (IH c1) as (c2 & -> & H2). exists c2. split; [reflexivity|].
    intros key. rewrite H2, H1, rev_app_distr.
    set (sel := fun kv : string * string => String.eqb (fst kv) key).
    assert (Happ : forall l1 l2, find sel (l1 ++ l2)%list
                                 = match find sel l1 with
                                   | Some x => Some x
                                   | None => find sel l2
                                   end).
    { intros l1 l2. induction l1 as [|x l1 IHl]; simpl; [reflexivity|].
      destruct (sel x); [reflexivity|exact IHl]. }
    rewrite Happ.
    destruct (find sel (rev (flat_map cookie_pair parts))); [reflexivity|].
    assert (Hrev : rev (cookie_pair part) = cookie_pair part).
    { unfold cookie_pair. destruct (str_split1 "=" (str_strip part)) as [|a [|b [|c l]]];
        reflexivity. }
    rewrite Hrev. reflexivity.
Qed.

Lemma str_split_missing (sep : ascii) (s : string) :
  str_contains sep s = false -> str_split sep s = [s].
Proof.
  induction s as [|c s IH]; simpl; [reflexivity|].
  intros H. apply orb_false_elim in H. destruct H as [Hc Hs].
  rewrite Hc, (IH Hs). reflexivity.
Qed.

Lemma append_assoc (a b c : string) : ((a ++ b) ++ c = a ++ (b ++ c))%string.
Proof. induction a as [|x a IH]; simpl; [reflexivity|rewrite IH; reflexivity]. Qed.

(** X16.  [parse_cookie] never raises, whatever the header: the
    unpacking of [chunk.split("=", 1)] is reached only for a chunk that
    holds an ["="].  A missing or empty header gives no cookie.  Otherwise
    each part between [";"] is trimmed; a part without ["="] is skipped, a
    part with one gives the key before its first ["="] and the value after
    it, and the value kept for a key is that of the last part that gives
    this key. *)
Theorem parse_cookie_lookup (header : string) :
  parse_cookie None = Some [] /\
  parse_cookie (Some "") = Some [] /\
  (forall part, str_contains "=" (str_strip part) = false -> cookie_pair part = []) /\
  (forall part key val,
     str_strip part = key ++ "=" ++ val -> str_contains "=" key = false ->
     cookie_pair part = [(key, val)]) /\
  (header <> "" ->
   exists cookies,
     parse_cookie (Some header) = Some cookies /\
     forall key,
       dict_get cookies key
       = option_map snd
           (find (fun kv => String.eqb (fst kv) key)
              (rev (flat_map cookie_pair (str_split ";" header))))).
Proof.
  split; [reflexivity|]. split; [reflexivity|]. split; [|split].
  - intros part H. unfold cookie_pair. rewrite (str_split1_missing _ _ H). reflexivity.
  - intros part key val E H. unfold cookie_pair. rewrite E.
    change (key ++ "=" ++ val) with (key ++ String "=" val).
    rewrite (str_split1_app _ _ val H). reflexivity.
  - intros Hne. unfold parse_cookie. apply String.eqb_neq in Hne. rewrite Hne.
    destruct (parse_cookie_fold (str_split ";" header) []) as (cookies & E & H).
    exists cookies. split; [exact E|]. intros key. rewrite H.
    destruct (find _ _); reflexivity.
Qed.

(** X17.  The session cookie round trip.  For a token without [";"]
    (and that trimming leaves alone, as it leaves any text with no blank at
    either end), the name and value that [_make_session_cookie] puts in
    front of the cookie attributes, sent back as the [Cookie] header, give
    back the token; an ["="] inside the token does no harm. *)
Theorem session_cookie_round_trip (token : string) :
  str_contains ";" token = false ->
  str_strip (SESSION_COOKIE ++ "=" ++ token) = SESSION_COOKIE ++ "=" ++ token ->
  let sent := hd "" (str_split ";" (_make_session_cookie token)) in
  sent = SESSION_COOKIE ++ "=" ++ token /\
  session_token (Some sent) = Some (Some token).
Proof.
  intros Htoken Hstrip sent.
  assert (Hsemi : str_contains ";" (SESSION_COOKIE ++ "=" ++ token) = false).
  { rewrite !str_contains_app, Htoken. reflexivity. }
  assert (Hsent : sent = SESSION_COOKIE ++ "=" ++ token).
  { unfold sent, _make_session_cookie.
    change (SESSION_COOKIE ++ "=" ++ token
            ++ "; Path=/; HttpOnly; SameSite=Lax; Max-Age="
            ++ str_of_int (SESSION_TTL_DAYS * 24 * 3600))
      with (SESSION_COOKIE ++ "=" ++ token
            ++ String ";" (" Path=/; HttpOnly; SameSite=Lax; Max-Age="
                           ++ str_of_int (SESSION_TTL_DAYS * 24 * 3600))).
    rewrite <- !append_assoc.
    rewrite str_split_app; [reflexivity|].
    rewrite !append_assoc. exact Hsemi. }
  split; [exact Hsent|].
  rewrite Hsent. unfold session_token, parse_cookie.
  change (String.eqb (SESSION_COOKIE ++ "=" ++ token) "") with false.
  rewrite (str_split_missing _ _ Hsemi). cbn [fold_left].
  unfold parse_cookie_part. rewrite Hstrip.
  assert (Heq : str_contains "=" (SESSION_COOKIE ++ "=" ++ token) = true)
    by (rewrite !str_contains_app; reflexivity).
  rewrite Heq.
  change (SESSION_COOKIE ++ "=" ++ token) with (SESSION_COOKIE ++ String "=" token).
  rewrite str_split1_app by reflexivity.
  simpl. unfold dict_get. simpl. reflexivity.
Qed.

(** ** Passwords *)

(** X18.  Hashing and verifying a password.  With a salt that holds no
    ["$"] (the source draws hexadecimal salts), a password verifies against
    its own hash, another password verifies exactly when its digest under
    the same salt is the same, and no exception is raised; a stored value
    with no ["$"] verifies no password. *)
Theorem password_round_trip (pbkdf2_hmac_hex : string -> string -> string)
  (password other salt stored : string) :
  (forall p s, is_ascii (pbkdf2_hmac_hex p s) = true) ->
  str_contains "$" salt = false ->
  verify_password pbkdf2_hmac_hex password
    (hash_password pbkdf2_hmac_hex password salt) = inr true /\
  verify_password pbkdf2_hmac_hex other
    (hash_password pbkdf2_hmac_hex password salt)
  = inr (String.eqb (pbkdf2_hmac_hex other salt) (pbkdf2_hmac_hex password salt)) /\
  (str_contains "$" stored = false ->
   verify_password pbkdf2_hmac_hex password stored = inr false).
Proof.
  intros Hhex Hsalt.
  assert (Hsplit : str_split1 "$" (hash_password pbkdf2_hmac_hex password salt)
                   = [salt; pbkdf2_hmac_hex password salt]).
  { unfold hash_password.
    change (salt ++ "$" ++ pbkdf2_hmac_hex password salt)
      with (salt ++ String "$" (pbkdf2_hmac_hex password salt)).
    apply str_split1_app, Hsalt. }
  unfold verify_password. rewrite Hsplit. unfold compare_digest.
  rewrite !Hhex. simpl. rewrite String.eqb_refl.
  split; [reflexivity|]. split; [reflexivity|].
  intros Hstored. rewrite (str_split1_missing _ _ Hstored). reflexivity.
Qed.

(** ** Login and logout *)

Lemma with_sessions_same (s : State) : with_sessions s (sessions s) = s.
Proof. destruct s; reflexivity. Qed.

Lemma find_by_key (A : Type) (f : A -> string) (l : list A) (x : A) :
  distinct (map f l) = true -> In x l ->
  find (fun y => String.eqb (f y) (f x)) l = Some x.
Proof.
  intros Hd Hx.
  destruct (find (fun y => String.eqb (f y) (f x)) l) as [y|] eqn:E.
  - apply find_some in E. destruct E as [Hy E]. apply String.eqb_eq in E.
    f_equal. exact (distinct_map_inj f l y x Hd Hy Hx E).
  - pose proof (find_none _ _ E x Hx) as H. simpl in H.
    rewrite String.eqb_refl in H. discriminate.
Qed.

Lemma find_by_pair (A : Type) (f g : A -> string) (l : list A) (x : A) :
  unique_pairs (map (fun y => (f y, g y)) l) = true -> In x l ->
  find (fun y => String.eqb (f y) (f x) && String.eqb (g y) (g x)) l = Some x.
Proof.
  induction l as [|a l IH]; simpl; intros Hu Hx; [contradiction|].
  apply andb_prop in Hu. destruct Hu as [Ha Hu]. apply negb_true_iff in Ha.
  destruct Hx as [->|Hx].
  - rewrite !String.eqb_refl. reflexivity.
  - assert (Hne : String.eqb (f a) (f x) && String.eqb (g a) (g x) = false).
    { pose proof (existsb_false_In _ _ (f x, g x) Ha
                    (in_map (fun y => (f y, g y)) l x Hx)) as H.
      exact H. }
    rewrite Hne. exact (IH Hu Hx).
Qed.

Lemma in_memberships_of (user_id : string) (s : State) (m : Membership)
  (o : Organization) :
  In (m, o) (memberships_of user_id s) <->
  In m (memberships s) /\ m_user_id m = user_id /\
  find (fun x => String.eqb (o_id x) (m_org_id m)) (organizations s) = Some o.
Proof.
  unfold memberships_of. rewrite in_flat_map. split.
  - intros (m' & Hm' & Hin).
    destruct (String.eqb (m_user_id m') user_id) eqn:E; [|contradiction].
    destruct (find _ (organizations s)) as [o'|] eqn:Ho; [|contradiction].
    destruct Hin as [Hin|[]]. inversion Hin; subst.
    apply String.eqb_eq in E. auto.
  - intros (Hm & <- & Ho). exists m. split; [exact Hm|].
    rewrite String.eqb_refl, Ho. left. reflexivity.
Qed.

Lemma insert_asc_hd (A : Type) (key : A -> Z) (a x : A) (l : list A) :
  hd_error (insert_asc key a l) = Some x ->
  (x = a /\ forall h, hd_error l = Some h -> (key a <= key h)%Z) \/
  (hd_error l = Some x /\ (key x <= key a)%Z).
Proof.
  destruct l as [|y l]; simpl.
  - intros H. inversion H. left. split; [reflexivity|discriminate].
  - destruct (key a <=? key y)%Z eqn:E; simpl; intros H; inversion H; subst.
    + left. split; [reflexivity|]. intros h Hh. inversion Hh; subst.
      apply Z.leb_le, E.
    + right. split; [reflexivity|]. apply Z.leb_gt in E. lia.
Qed.

Lemma insert_asc_nonempty (A : Type) (key : A -> Z) (a : A) (l : list A) :
  insert_asc key a l <> [].
Proof. destruct l as [|y l]; simpl; [|destruct (key a <=? key y)%Z]; discriminate. Qed.

(** [ORDER BY key ASC LIMIT 1] returns a row with the least key. *)
Lemma order_by_asc_first (A : Type) (key : A -> Z) (l : list A) (x : A) :
  hd_error (order_by_asc key l) = Some x ->
  In x l /\ forall y, In y l -> (key x <= key y)%Z.
Proof.
  revert x. induction l as [|a l IH]; simpl; intros x H; [discriminate|].
  apply insert_asc_hd in H. destruct H as [[-> Hmin]|[Hhd Hle]].
  - split; [left; reflexivity|]. intros y [<-|Hy]; [lia|].
    destruct (order_by_asc key l) as [|h r] eqn:E.
    + destruct l as [|b l']; [contradiction|]. simpl in E.
      exfalso. exact (insert_asc_nonempty _ _ _ E).
    + destruct (IH h eq_refl) as [_ Hh]. specialize (Hmin h eq_refl).
      specialize (Hh y Hy). lia.
  - destruct (IH x Hhd) as [Hin Hmin]. split; [right; exact Hin|].
    intros y [<-|Hy]; [exact Hle|exact (Hmin y Hy)].
Qed.

Section Login.

Variable pbkdf2_hmac_hex : string -> string -> string.
Variable password_hash : string -> string.
Variable membership_created_at : string -> string -> Z.

(** X19.  [POST /api/auth/login].  A name of no user and a wrong password
    get the same 401 answer, and a user with no membership gets 403; in
    these cases no session is created and no cookie is set.  Otherwise, with
    a token that is new, the session is bound to the membership the user
    joined first, expires [SESSION_TTL_DAYS] days after the login, and the
    answer describes the user under that membership.  Until it expires the
    token resolves to this user, organization and role, and
    [GET /api/auth/me] answers with the description that the login gave;
    at its expiry or later the first use of the token deletes the session,
    which leaves the store as it was before the login. *)
Theorem login_effect (now : Z) (token : string) (cookie : option string)
  (username password : string) (s : State) :
  let route :=
    auth_request pbkdf2_hmac_hex password_hash membership_created_at
      now token cookie (Login username password) s in
  let denied := auth_error UNAUTHORIZED "Неверное имя пользователя или пароль" in
  (find (fun u => String.eqb (u_name u) (str_strip username)) (users s) = None ->
   route = (denied, s)) /\
  (forall user,
     find (fun u => String.eqb (u_name u) (str_strip username)) (users s) = Some user ->
     (verify_password pbkdf2_hmac_hex password (password_hash (u_id user)) = inr false ->
      route = (denied, s)) /\
     (verify_password pbkdf2_hmac_hex password (password_hash (u_id user)) = inr true ->
      (memberships_of (u_id user) s = [] ->
       route = (auth_error FORBIDDEN "У пользователя нет организации", s)) /\
      (forall m o,
         hd_error
           (order_by_asc
              (fun mo => membership_created_at (m_user_id (fst mo)) (m_org_id (fst mo)))
              (memberships_of (u_id user) s)) = Some (m, o) ->
         existsb (fun x => String.eqb (s_token x) token) (sessions s) = false ->
         token <> "" ->
         users_keyed s = true ->
         memberships_keyed s = true ->
         let expires := (now + timedelta_days SESSION_TTL_DAYS)%Z in
         let s1 :=
           with_sessions s
             (sessions s ++
              [{| s_token := token; s_user_id := u_id user; s_org_id := m_org_id m;
                  s_expires_at := expires |}]) in
         let me :=
           {| me_name := u_name user; me_email := u_email user;
              me_orgName := o_name o;
              me_orgJoinCode := match o_join_code o with Some c => c | None => "" end;
              me_role := m_role m |} in
         route = ({| ar_status := OK; ar_body := ABOkMe me;
                     ar_set_cookie := Some (_make_session_cookie token) |}, s1) /\
         expires = (now + 1209600)%Z /\
         m_user_id m = u_id user /\
         (forall m' o', In (m', o') (memberships_of (u_id user) s) ->
            (membership_created_at (u_id user) (m_org_id m)
             <= membership_created_at (u_id user) (m_org_id m'))%Z) /\
         (forall t, (t < expires)%Z ->
            _get_current_auth t (Some token) s1
            = (Some {| a_token := token; a_userId := u_id user;
                       a_orgId := m_org_id m; a_name := u_name user;
                       a_email := u_email user; a_orgName := o_name o;
                       a_orgJoinCode :=
                         match o_join_code o with Some c => c | None => "" end;
                       a_role := m_role m |}, s1) /\
            forall token',
              auth_request pbkdf2_hmac_hex password_hash membership_created_at
                t token' (Some token) GetMe s1
              = ({| ar_status := OK; ar_body := ABMe me; ar_set_cookie := None |},
                 s1)) /\
         (forall t, (expires <= t)%Z ->
            _get_current_auth t (Some token) s1 = (None, s))))).
Proof.
  intros route denied. unfold route, auth_request, _route_auth, login.
  split; [intros ->; reflexivity|].
  intros user Hfind. rewrite Hfind. split; [intros ->; reflexivity|].
  intros ->. split.
  { intros ->. reflexivity. }
  intros m o Hfirst Hfresh Htoken Hukey Hmkey.
  set (expires := (now + timedelta_days SESSION_TTL_DAYS)%Z).
  set (s1 := with_sessions s
               (sessions s ++
                [{| s_token := token; s_user_id := u_id user; s_org_id := m_org_id m;
                    s_expires_at := expires |}])).
  rewrite Hfirst.
  apply order_by_asc_first in Hfirst. destruct Hfirst as [Hin Hmin].
  apply in_memberships_of in Hin. destruct Hin as (Hm & Huser & Ho).
  assert (Huin : In user (users s)) by (apply find_some in Hfind; apply Hfind).
  assert (Hcreate : _create_session now token (u_id user) (m_org_id m) s
                    = Some (token, s1)).
  { unfold _create_session. rewrite Hfresh.
    assert (Eu : existsb (fun u => String.eqb (u_id u) (u_id user)) (users s) = true)
      by (apply existsb_exists; exists user; split;
          [exact Huin|apply String.eqb_refl]).
    assert (Eo : existsb (fun x => String.eqb (o_id x) (m_org_id m))
                   (organizations s) = true)
      by (apply find_some in Ho; apply existsb_exists; exists o; exact Ho).
    rewrite Eu, Eo. reflexivity. }
  assert (Hrow : session_row token s1
                 = Some ({| s_token := token; s_user_id := u_id user;
                            s_org_id := m_org_id m; s_expires_at := expires |},
                         user, o, m)).
  { unfold session_row, s1. simpl.
    rewrite find_app_fresh;
      [|intros y Hy; apply (existsb_false_In _ _ y Hfresh Hy)
       |simpl; apply String.eqb_refl].
    simpl. rewrite (find_by_key u_id (users s) user Hukey Huin), Ho.
    rewrite <- Huser.
    rewrite (find_by_pair m_user_id m_org_id (memberships s) m Hmkey Hm).
    rewrite Huser. reflexivity. }
  assert (Hresolve : forall t, (t < expires)%Z ->
            _get_current_auth t (Some token) s1
            = (Some {| a_token := token; a_userId := u_id user;
                       a_orgId := m_org_id m; a_name := u_name user;
                       a_email := u_email user; a_orgName := o_name o;
                       a_orgJoinCode :=
                         match o_join_code o with Some c => c | None => "" end;
                       a_role := m_role m |}, s1)).
  { intros t Ht. unfold _get_current_auth.
    apply String.eqb_neq in Htoken. rewrite Htoken, Hrow. simpl.
    apply Z.leb_gt in Ht. rewrite Ht. reflexivity. }
  rewrite Hcreate.
  split; [reflexivity|]. split; [reflexivity|]. split; [exact Huser|].
  split; [|split].
  - intros m' o' Hin'. specialize (Hmin (m', o') Hin'). simpl in Hmin.
    apply in_memberships_of in Hin'. destruct Hin' as (_ & Huser' & _).
    rewrite Huser, Huser' in Hmin. exact Hmin.
  - intros t Ht. split; [exact (Hresolve t Ht)|].
    intros token'. rewrite (Hresolve t Ht). reflexivity.
  - intros t Ht. unfold _get_current_auth.
    apply String.eqb_neq in Htoken. rewrite Htoken, Hrow. simpl.
    apply Z.leb_le in Ht. rewrite Ht. f_equal.
    unfold delete_session, s1. simpl.
    rewrite delete_where_app_fresh;
      [exact (with_sessions_same s)
      |intros y Hy; apply (existsb_false_In _ _ y Hfresh Hy)
      |simpl; apply String.eqb_refl].
Qed.

End Login.

Lemma find_none_existsb (A : Type) (f : A -> bool) (l : list A) :
  find f l = None <-> existsb f l = false.
Proof.
  induction l as [|x l IH]; simpl; [tauto|].
  destruct (f x); simpl; [split; discriminate|exact IH].
Qed.

Lemma existsb_through_map (A K : Type) (k : A -> K) (p : K -> bool) (l : list A) :
  existsb (fun x => p (k x)) l = existsb p (map k l).
Proof. induction l as [|x l IH]; simpl; [reflexivity|rewrite IH; reflexivity]. Qed.

(** A token that resolves to no row of the join resolves to none after
    any request: requests create no session, and no user, organization or
    membership. *)
Lemma route_api_unresolved (env : Env) (cookie : option string) (req : Request)
  (token : string) (s : State) :
  session_row token s = None ->
  session_row token (snd (_route_api env cookie req s)) = None.
Proof.
  intros Hrow.
  destruct (route_api_accounts env cookie req s) as (Eu & Eo & Em & _ & _).
  assert (Hsess :
    find (fun x => String.eqb (s_token x) token)
      (sessions (snd (_route_api env cookie req s))) = None \/
    find (fun x => String.eqb (s_token x) token)
      (sessions (snd (_route_api env cookie req s)))
    = find (fun x => String.eqb (s_token x) token) (sessions s)).
  { destruct (route_api_sessions env cookie req s)
      as [->|(tok & se & u & o & m & _ & _ & _ & ->)]; [right; reflexivity|].
    destruct (String.eqb tok token) eqn:E.
    - apply String.eqb_eq in E. subst tok. left. apply find_delete_where_self.
    - right. unfold delete_where. apply find_filter_keep.
      intros x _ Hx. apply String.eqb_eq in Hx. rewrite Hx, String.eqb_sym, E.
      reflexivity. }
  unfold session_row in *. rewrite Eu, Eo.
  destruct Hsess as [->| ->]; [reflexivity|].
  destruct (find (fun x => String.eqb (s_token x) token) (sessions s)) as [se|];
    [|reflexivity].
  destruct (find _ (users s)) as [u|]; [|reflexivity].
  destruct (find _ (organizations s)) as [o|]; [|reflexivity].
  destruct (find _ (memberships s)) as [m|] eqn:Hm; [discriminate|].
  assert (Hm' : find (fun x => String.eqb (m_user_id x) (s_user_id se)
                               && String.eqb (m_org_id x) (s_org_id se))
                  (memberships (snd (_route_api env cookie req s))) = None).
  { apply find_none_existsb. apply find_none_existsb in Hm.
    rewrite (existsb_through_map (fun x => (m_user_id x, m_org_id x))
               (fun k => String.eqb (fst k) (s_user_id se)
                         && String.eqb (snd k) (s_org_id se))) in *.
    rewrite Em. exact Hm. }
  rewrite Hm'. reflexivity.
Qed.

Lemma run_unresolved (reqs : list (Env * option string * Request)) (token : string)
  (s : State) :
  session_row token s = None -> session_row token (run reqs s) = None.
Proof.
  revert s. induction reqs as [|[[env cookie] req] rest IH]; intros s H; simpl;
    [exact H|].
  apply IH, route_api_unresolved, H.
Qed.

Lemma session_row_deleted (token : string) (s : State) :
  session_row token (delete_session token s) = None.
Proof.
  unfold session_row, delete_session. simpl.
  rewrite find_delete_where_self. reflexivity.
Qed.

Lemma logout_unresolved (now : Z) (cookie : option string) (s : State) (token : string) :
  cookie = Some token -> token <> "" ->
  session_row token (snd (logout now cookie s)) = None.
Proof.
  intros -> Hne. unfold logout.
  destruct (_get_current_auth now (Some token) s) as [[auth|] s'] eqn:Hget; simpl.
  - destruct (get_current_auth_some _ _ _ Hget)
      as (-> & tok & se & u & o & m & Ec & Hrow & _ & Etok & _).
    inversion Ec; subst tok. apply session_row_find, find_some in Hrow.
    destruct Hrow as [_ Hrow]. apply String.eqb_eq in Hrow.
    rewrite Etok, Hrow. apply session_row_deleted.
  - destruct (get_current_auth_none _ _ _ Hget)
      as [[-> [Hc|[Hc|(tok & Ec & Hrow)]]]
         |(tok & se & u & o & m & Ec & _ & _ & ->)].
    + discriminate.
    + inversion Hc. contradiction.
    + inversion Ec; subst. exact Hrow.
    + inversion Ec; subst. apply session_row_deleted.
Qed.

Section Logout.

Variable pbkdf2_hmac_hex : string -> string -> string.
Variable password_hash : string -> string.
Variable membership_created_at : string -> string -> Z.

(** X20.  [POST /api/auth/logout] is final.  It always answers 200 and
    clears the cookie; it changes nothing but the session table, from which
    it removes at most the row of the cookie's token; and from then on the
    token of the cookie resolves to no session, at any time and after any
    run of requests. *)
Theorem logout_is_final (t0 : Z) (token' : string) (cookie : option string)
  (s : State) (reqs : list (Env * option string * Request)) :
  let out :=
    auth_request pbkdf2_hmac_hex password_hash membership_created_at
      t0 token' cookie Logout s in
  fst out = {| ar_status := OK; ar_body := ABOk;
               ar_set_cookie := Some _clear_session_cookie |} /\
  (snd out = s \/
   exists token, cookie = Some token /\ snd out = delete_session token s) /\
  (forall t,
     _get_current_auth t cookie (run reqs (snd out)) = (None, run reqs (snd out))) /\
  (forall env req,
     fst (_route_api env cookie req (run reqs (snd out)))
     = error UNAUTHORIZED "Требуется авторизация").
Proof.
  intros out. unfold out, auth_request, _route_auth. simpl.
  assert (Hdead : forall t,
            _get_current_auth t cookie (run reqs (snd (logout t0 cookie s)))
            = (None, run reqs (snd (logout t0 cookie s)))).
  { intros t. unfold _get_current_auth. destruct cookie as [token|]; [|reflexivity].
    destruct (String.eqb token "") eqn:Hne; [reflexivity|].
    apply String.eqb_neq in Hne.
    rewrite (run_unresolved reqs token _ (logout_unresolved t0 s eq_refl Hne)).
    reflexivity. }
  split; [reflexivity|]. split; [|split; [exact Hdead|]].
  - unfold logout.
    destruct (_get_current_auth t0 cookie s) as [[auth|] s'] eqn:Hget; simpl.
    + destruct (get_current_auth_some _ _ _ Hget)
        as (-> & tok & se & u & o & m & -> & Hrow & _ & Etok & _).
      apply session_row_find, find_some in Hrow.
      destruct Hrow as [_ Hrow]. apply String.eqb_eq in Hrow.
      right. exists tok. rewrite Etok, Hrow. auto.
    + destruct (get_current_auth_none _ _ _ Hget)
        as [[-> _]|(tok & se & u & o & m & -> & _ & _ & ->)]; [left; reflexivity|].
      right. exists tok. auto.
  - intros env req. rewrite route_api_unauthorized; [reflexivity|].
    rewrite Hdead. reflexivity.
Qed.

End Logout.

(** ** Routes *)

Lemma str_split_nonempty (sep : ascii) (s : string) : str_split sep s <> [].
Proof.
  destruct s as [|c s]; simpl; [discriminate|].
  destruct (Ascii.eqb c sep); [discriminate|].
  destruct (str_split sep s); discriminate.
Qed.

Lemma str_startswith_app (s prefix : string) :
  str_startswith s prefix = true -> exists rest, s = prefix ++ rest.
Proof.
  revert s. induction prefix as [|a prefix IH]; intros s H; simpl in *.
  - exists s. reflexivity.
  - destruct s as [|b s]; [discriminate|].
    apply andb_prop in H. destruct H as [Hb Hs]. apply Ascii.eqb_eq in Hb.
    destruct (IH s Hs) as (rest & ->). exists rest. subst. reflexivity.
Qed.

Lemma str_endswith_app (a b : string) : str_endswith (a ++ b) b = true.
Proof.
  induction a as [|c a IH]; simpl.
  - destruct b; simpl; rewrite ?String.eqb_refl, ?Ascii.eqb_refl; reflexivity.
  - rewrite IH. apply orb_true_r.
Qed.

Lemma hd_str_split_app (id rest : string) :
  str_contains "/" id = false ->
  hd_error (str_split "/" (id ++ "/" ++ rest)) = Some id /\
  hd_error (str_split "/" id) = Some id.
Proof.
  intros H. split.
  - change (id ++ "/" ++ rest) with (id ++ String "/" rest).
    rewrite (str_split_app _ _ rest H). reflexivity.
  - rewrite (str_split_missing _ _ H). reflexivity.
Qed.

Lemma path_segment_products (rest : string) :
  path_segment ("/api/products/" ++ rest) = hd_error (str_split "/" rest).
Proof.
  unfold path_segment. simpl.
  destruct (str_split "/" rest) eqn:E; [exfalso; exact (str_split_nonempty _ _ E)|].
  reflexivity.
Qed.

Lemma path_segment_receipts (rest : string) :
  path_segment ("/api/receipts/" ++ rest) = hd_error (str_split "/" rest).
Proof.
  unfold path_segment. simpl.
  destruct (str_split "/" rest) eqn:E; [exfalso; exact (str_split_nonempty _ _ E)|].
  reflexivity.
Qed.

Lemma path_segment_shipments (rest : string) :
  path_segment ("/api/shipments/" ++ rest) = hd_error (str_split "/" rest).
Proof.
  unfold path_segment. simpl.
  destruct (str_split "/" rest) eqn:E; [exfalso; exact (str_split_nonempty _ _ E)|].
  reflexivity.
Qed.

Lemma hd_str_split_some (rest : string) : hd_error (str_split "/" rest) <> None.
Proof.
  destruct (str_split "/" rest) eqn:E; [exfalso; exact (str_split_nonempty _ _ E)|].
  discriminate.
Qed.

(** X21.  Routing never fails, and an identifier in a path is its fourth
    segment.  Whatever the method and the path, reading [path.split("/")[3]]
    raises no [IndexError].  For an identifier without ["/"], the paths
    [/api/products/<id>], [/api/receipts/<id>] and [/api/shipments/<id>]
    under [DELETE] reach the deletion of that identifier, and so do these
    paths followed by ["/"] and any further text, which is ignored;
    [PATCH /api/products/<id>/price] reaches the price update of that
    identifier. *)
Theorem api_route_segments (command path id rest : string) :
  api_route command path <> None /\
  (str_contains "/" id = false ->
   api_route "DELETE" ("/api/products/" ++ id) = Some (RouteDeleteProduct id) /\
   api_route "DELETE" ("/api/products/" ++ id ++ "/" ++ rest)
   = Some (RouteDeleteProduct id) /\
   api_route "DELETE" ("/api/receipts/" ++ id) = Some (RouteDeleteReceipt id) /\
   api_route "DELETE" ("/api/receipts/" ++ id ++ "/" ++ rest)
   = Some (RouteDeleteReceipt id) /\
   api_route "DELETE" ("/api/shipments/" ++ id) = Some (RouteDeleteShipment id) /\
   api_route "DELETE" ("/api/shipments/" ++ id ++ "/" ++ rest)
   = Some (RouteDeleteShipment id) /\
   api_route "PATCH" ("/api/products/" ++ id ++ "/price") = Some (RoutePrice id)).
Proof.
  split.
  - assert (Hseg : forall R : string -> Route,
              str_startswith path "/api/products/" = true \/
              str_startswith path "/api/receipts/" = true \/
              str_startswith path "/api/shipments/" = true ->
              option_map R (path_segment path) <> None).
    { intros R H.
      assert (Hsome : path_segment path <> None).
      { destruct H as [H|[H|H]]; apply str_startswith_app in H;
          destruct H as (tail & ->);
          rewrite ?path_segment_products, ?path_segment_receipts,
            ?path_segment_shipments; apply hd_str_split_some. }
      destruct (path_segment path); [discriminate|contradiction]. }
    unfold api_route.
    repeat match goal with
           | |- (if ?c then _ else _) <> None => destruct c eqn:?
           end; try discriminate;
      repeat match goal with
             | H : _ && _ = true |- _ => apply andb_prop in H; destruct H
             end;
      apply Hseg; auto.
  - intros Hid. destruct (hd_str_split_app id rest Hid) as [Hrest Hplain].
    destruct (hd_str_split_app id "price" Hid) as [Hprice _].
    assert (Hend : str_endswith ("/api/products/" ++ id ++ "/price") "/price" = true)
      by apply (str_endswith_app ("/api/products/" ++ id) "/price").
    unfold api_route. rewrite Hend.
    split; [|split; [|split; [|split; [|split; [|split]]]]];
      cbn [str_startswith String.eqb Ascii.eqb Bool.eqb andb orb negb append].
    + change (path_segment _) with (path_segment ("/api/products/" ++ id)).
      rewrite path_segment_products, Hplain. reflexivity.
    + change (path_segment _)
        with (path_segment ("/api/products/" ++ id ++ "/" ++ rest)).
      rewrite path_segment_products, Hrest. reflexivity.
    + change (path_segment _) with (path_segment ("/api/receipts/" ++ id)).
      rewrite path_segment_receipts, Hplain. reflexivity.
    + change (path_segment _)
        with (path_segment ("/api/receipts/" ++ id ++ "/" ++ rest)).
      rewrite path_segment_receipts, Hrest. reflexivity.
    + change (path_segment _) with (path_segment ("/api/shipments/" ++ id)).
      rewrite path_segment_shipments, Hplain. reflexivity.
    + change (path_segment _)
        with (path_segment ("/api/shipments/" ++ id ++ "/" ++ rest)).
      rewrite path_segment_shipments, Hrest. reflexivity.
    + change (path_segment _)
        with (path_segment ("/api/products/" ++ id ++ "/" ++ "price")).
      rewrite path_segment_products, Hprice. reflexivity.
Qed.

End Sessions.

(** * Stock accounting *)

Section Books.

Context {B : PyBuiltins}.

Ltac case_match_in_hyp :=
  match goal with
  | H : context [match ?c with _ => _ end] |- _ => destruct c eqn:?
  end.

Ltac invert_options :=
  repeat match goal with
         | E : Some _ = Some _ |- _ => inversion E; subst; clear E
         end.

Lemma total_app (A : Type) (w : A -> Z) (l1 l2 : list A) :
  total w (l1 ++ l2) = (total w l1 + total w l2)%Z.
Proof.
  unfold total. induction l1 as [|x l1 IH]; simpl; [reflexivity|]. rewrite IH. lia.
Qed.

Lemma total_map (A C : Type) (f : A -> C) (w : C -> Z) (l : list A) :
  total w (map f l) = total (fun x => w (f x)) l.
Proof.
  unfold total. induction l as [|x l IH]; simpl; [reflexivity|].
  rewrite IH. reflexivity.
Qed.

Lemma total_ext_in (A : Type) (w1 w2 : A -> Z) (l : list A) :
  (forall x, In x l -> w1 x = w2 x) -> total w1 l = total w2 l.
Proof.
  unfold total. induction l as [|x l IH]; simpl; intros H; [reflexivity|].
  rewrite (H x (or_introl eq_refl)), IH; [reflexivity|].
  intros y Hy. apply H. right. exact Hy.
Qed.

Lemma total_zero (A : Type) (w : A -> Z) (l : list A) :
  (forall x, In x l -> w x = 0%Z) -> total w l = 0%Z.
Proof.
  unfold total. induction l as [|x l IH]; simpl; intros H; [reflexivity|].
  rewrite (H x (or_introl eq_refl)), IH; [reflexivity|].
  intros y Hy. apply H. right. exact Hy.
Qed.

Lemma total_filter (A : Type) (w : A -> Z) (c : A -> bool) (l : list A) :
  total w (filter c l) = total (fun x => if c x then w x else 0%Z) l.
Proof.
  unfold total. induction l as [|x l IH]; simpl; [reflexivity|].
  destruct (c x); simpl; rewrite IH; reflexivity.
Qed.

Lemma total_delete (A : Type) (w : A -> Z) (c : A -> bool) (l : list A) :
  total w (delete_where c l)
  = (total w l - total (fun x => if c x then w x else 0%Z) l)%Z.
Proof.
  unfold delete_where, total. induction l as [|x l IH]; simpl; [reflexivity|].
  destruct (c x); simpl; rewrite IH; lia.
Qed.

Lemma total_delete_miss (A : Type) (w : A -> Z) (c : A -> bool) (l : list A) :
  (forall x, In x l -> c x = true -> w x = 0%Z) ->
  total w (delete_where c l) = total w l.
Proof.
  intros H. rewrite total_delete, (total_zero (fun x => if c x then w x else 0%Z));
    [lia|].
  intros x Hx. destruct (c x) eqn:E; [exact (H x Hx E)|reflexivity].
Qed.

(** With a key on the table, the rows that a condition on the key selects
    are the one row that carries it. *)
Lemma total_keyed (A : Type) (f : A -> string) (sel : A -> bool) (w : A -> Z)
  (l : list A) (x : A) :
  distinct (map f l) = true -> In x l -> sel x = true ->
  (forall y, In y l -> sel y = true -> f y = f x) ->
  total (fun y => if sel y then w y else 0%Z) l = w x.
Proof.
  intros Hd Hx Hsel Hkey.
  rewrite (total_ext_in _ (fun y => if String.eqb (f y) (f x) then w x else 0%Z)).
  - clear Hsel Hkey. induction l as [|a l IH]; [contradiction|].
    simpl in Hd. apply andb_prop in Hd. destruct Hd as [Ha Hd].
    apply negb_true_iff in Ha. unfold total in *. simpl.
    destruct Hx as [->|Hx].
    + rewrite String.eqb_refl.
      fold (total (fun y => if String.eqb (f y) (f x) then w x else 0%Z) l).
      rewrite total_zero; [lia|].
      intros y Hy.
      pose proof (existsb_false_In _ _ (f y) Ha (in_map f l y Hy)) as E.
      rewrite String.eqb_sym, E. reflexivity.
    + pose proof (existsb_false_In _ _ (f x) Ha (in_map f l x Hx)) as E.
      rewrite E. rewrite (IH Hd Hx). lia.
  - intros y Hy. destruct (sel y) eqn:E.
    + rewrite (Hkey y Hy E), String.eqb_refl.
      f_equal. apply (distinct_map_inj f l y x Hd Hy Hx (Hkey y Hy E)).
    + destruct (String.eqb (f y) (f x)) eqn:E'; [|reflexivity].
      apply String.eqb_eq in E'.
      assert (y = x) by (apply (distinct_map_inj f l y x Hd Hy Hx E')).
      subst y. congruence.
Qed.

Lemma dispatch_receipts_keyed (env : Env) (auth : Auth) (req : Request)
  (s s' : State) (r : Response) :
  dispatch env auth req s = Return r s' ->
  receipts_keyed s = true -> receipts_keyed s' = true.
Proof.
  unfold receipts_keyed.
  destruct req; simpl; intros H Hkey.
  - unfold get_state in H. inversion H; subst; exact Hkey.
  - unfold post_memberships_role in H.
    repeat (case_match_in_hyp; try discriminate); inversion H; subst; exact Hkey.
  - unfold post_products, insert_product, insert_receipt in H.
    repeat (case_match_in_hyp; try discriminate); invert_options;
      inversion H; subst; simpl; try exact Hkey;
      apply distinct_map_app; auto.
  - unfold patch_product_price in H.
    repeat (case_match_in_hyp; try discriminate); inversion H; subst; exact Hkey.
  - unfold patch_product in H.
    repeat (case_match_in_hyp; try discriminate); inversion H; subst; exact Hkey.
  - unfold delete_product in H.
    repeat (case_match_in_hyp; try discriminate); inversion H; subst; try exact Hkey.
    simpl. apply distinct_map_filter, Hkey.
  - unfold post_receipts, insert_receipt in H.
    repeat (case_match_in_hyp; try discriminate); invert_options;
      inversion H; subst; try exact Hkey;
      simpl; apply distinct_map_app; auto.
  - unfold delete_receipt in H.
    repeat (case_match_in_hyp; try discriminate); inversion H; subst; try exact Hkey.
    simpl. apply distinct_map_filter, Hkey.
  - destruct (post_shipments_cases _ _ _ _ H) as [->|Hst]; [exact Hkey|].
    destruct (post_shipments_created _ _ _ _ H Hst) as (_ & _ & _ & ->).
    exact Hkey.
  - unfold delete_shipment in H.
    repeat (case_match_in_hyp; try discriminate); inversion H; subst; try exact Hkey.
    rewrite restore_items_closed. exact Hkey.
Qed.

Lemma product_hit_names (product_id org_id : string) (p : Product) :
  String.eqb product_id (p_id p) && String.eqb org_id (p_org_id p)
  = product_hit product_id org_id p.
Proof.
  unfold product_hit.
  rewrite (String.eqb_sym product_id), (String.eqb_sym org_id). reflexivity.
Qed.

Lemma total_snoc (A : Type) (w : A -> Z) (l : list A) (x : A) :
  total w (l ++ [x]) = (total w l + w x)%Z.
Proof. rewrite total_app. unfold total. simpl. lia. Qed.

Lemma fresh_id_unnamed (C : Type) (key corg : C -> string) (new : string)
  (ps : list Product) (cs : list C) :
  refers p_id p_org_id key corg ps cs = true ->
  existsb (fun q => String.eqb (p_id q) new) ps = false ->
  forall c, In c cs -> String.eqb (key c) new = false.
Proof.
  intros Href Hfresh c Hc.
  destruct (proj1 (refers_spec _ _ _ _ _ _) Href c Hc) as (p & Hp & Eid & _).
  rewrite <- Eid. apply (existsb_false_In _ _ p Hfresh Hp).
Qed.

Lemma delta_for_total (org_id : string) (A : Type) (pid : A -> string)
  (qty : A -> Z) (l : list A) (p : Product) :
  delta_for org_id (map (fun x => (pid x, qty x)) l) p
  = total (fun x => if product_hit (pid x) org_id p then qty x else 0%Z) l.
Proof.
  unfold delta_for, total. induction l as [|x l IH]; simpl; [reflexivity|].
  rewrite IH. reflexivity.
Qed.

(** What a branch does to the gap of each product it leaves: a product is
    new with gap 0, or it was there and its gap has not grown; only the
    deletion of a receipt can make it smaller. *)
Lemma dispatch_gap (env : Env) (auth : Auth) (req : Request)
  (s s' : State) (r : Response) :
  dispatch env auth req s = Return r s' ->
  store_ok s = true -> products_keyed s = true -> receipts_keyed s = true ->
  int64_ledger s = true -> sum_fits req s = true ->
  forall p', In p' (org_products s') ->
    gap s' p' = 0%Z \/
    exists p, In p (org_products s) /\ (gap s' p' <= gap s p)%Z /\
              (keeps_receipts req = true -> gap s' p' = gap s p).
Proof.
  intros H Hok Hpk Hrk Hrange Hfits p' Hp'.
  assert (Hsame : forall p, In p (org_products s) -> gap s' p' = gap s p ->
            gap s' p' = 0%Z \/
            exists p, In p (org_products s) /\ (gap s' p' <= gap s p)%Z /\
                      (keeps_receipts req = true -> gap s' p' = gap s p)).
  { intros p Hp E. right. exists p. split; [exact Hp|]. split; [lia|auto]. }
  pose proof Hok as Hparts. apply store_ok_parts in Hparts.
  destruct Hparts as (_ & _ & _ & Hrp & Hip & Hih).
  destruct req; simpl in H.
  - (* GET /api/state *)
    unfold get_state in H. inversion H; subst. apply (Hsame p' Hp' eq_refl).
  - (* POST /api/memberships/role *)
    unfold post_memberships_role in H.
    repeat (case_match_in_hyp; try discriminate); inversion H; subst;
      apply (Hsame p' Hp' eq_refl).
  - (* POST /api/products *)
    unfold post_products in H.
    destruct (negb (_require_role auth [owner; manager]));
      [inversion H; subst; apply (Hsame p' Hp' eq_refl)|].
    destruct (String.eqb (str_strip name) "");
      [inversion H; subst; apply (Hsame p' Hp' eq_refl)|].
    destruct (negb (fits_int64 (Z.max 0 stock))); [discriminate|].
    match type of H with
    | context [insert_product ?p s] => set (np := p) in *
    end.
    unfold insert_product in H.
    destruct (existsb (fun q => String.eqb (p_id q) (p_id np)) (org_products s))
      eqn:Hfresh; [discriminate|].
    change (p_id np) with (gen_product_id env) in Hfresh.
    pose proof (fresh_id_unnamed r_product_id r_org_id _ _ _ Hrp Hfresh) as Hno_r.
    pose proof (fresh_id_unnamed i_product_id i_org_id _ _ _ Hip Hfresh) as Hno_i.
    assert (Hzero_r : total (fun r0 => if String.eqb (r_product_id r0) (p_id np)
                                          && String.eqb (r_org_id r0) (p_org_id np)
                                       then r_quantity r0 else 0%Z) (org_receipts s)
                      = 0%Z).
    { apply total_zero. intros r0 Hr0. change (p_id np) with (gen_product_id env).
      rewrite (Hno_r r0 Hr0). reflexivity. }
    assert (Hzero_i : total (fun i => if String.eqb (i_product_id i) (p_id np)
                                         && String.eqb (i_org_id i) (p_org_id np)
                                      then i_quantity i else 0%Z)
                        (org_shipment_items s)
                      = 0%Z).
    { apply total_zero. intros i Hi. change (p_id np) with (gen_product_id env).
      rewrite (Hno_i i Hi). reflexivity. }
    destruct (0 <? Z.max 0 stock)%Z eqn:Hpos.
    + match type of H with
      | context [insert_receipt ?x ?st] =>
        set (nr := x) in *; unfold insert_receipt in H;
        destruct (existsb (fun q => String.eqb (r_id q) (r_id nr)) (org_receipts st));
        [discriminate|]
      end.
      inversion H; subst s'. clear H. simpl in Hp'.
      apply in_app_iff in Hp'. destruct Hp' as [Hp'|[<-|[]]].
      * apply (Hsame p' Hp'). unfold gap, received, shipped. simpl.
        rewrite total_snoc. simpl.
        assert (E : String.eqb (gen_product_id env) (p_id p') = false).
        { rewrite String.eqb_sym. apply (existsb_false_In _ _ p' Hfresh Hp'). }
        rewrite E. simpl. lia.
      * left. unfold gap, received, shipped. simpl org_receipts.
        simpl org_shipment_items. rewrite total_snoc, Hzero_r, Hzero_i.
        simpl. rewrite !String.eqb_refl. simpl. lia.
    + inversion H; subst s'. clear H. simpl in Hp'.
      apply in_app_iff in Hp'. destruct Hp' as [Hp'|[<-|[]]].
      * apply (Hsame p' Hp'). reflexivity.
      * left. unfold gap, received, shipped. simpl org_receipts.
        simpl org_shipment_items. rewrite Hzero_r, Hzero_i.
        apply Z.ltb_ge in Hpos. simpl. lia.
  - (* PATCH /api/products/<id>/price *)
    unfold patch_product_price in H.
    repeat (case_match_in_hyp; try discriminate); inversion H; subst;
      try apply (Hsame p' Hp' eq_refl).
    simpl in Hp'. apply in_map_iff in Hp'. destruct Hp' as (q & <- & Hq).
    apply (Hsame q Hq). destruct (product_hit product_id (a_orgId auth) q); reflexivity.
  - (* PATCH /api/products/<id> *)
    unfold patch_product in H.
    repeat (case_match_in_hyp; try discriminate); inversion H; subst;
      try apply (Hsame p' Hp' eq_refl).
    simpl in Hp'. apply in_map_iff in Hp'. destruct Hp' as (q & <- & Hq).
    apply (Hsame q Hq). destruct (product_hit product_id (a_orgId auth) q); reflexivity.
  - (* DELETE /api/products/<id> *)
    unfold delete_product in H.
    destruct (negb (_require_role auth [owner; manager]));
      [inversion H; subst; apply (Hsame p' Hp' eq_refl)|].
    destruct (find (product_hit product_id (a_orgId auth)) (org_products s))
      as [p0|] eqn:Hp0.
    2:{ apply rowcount_zero in Hp0. rewrite Hp0 in H. inversion H; subst.
        apply (Hsame p' Hp' eq_refl). }
    rewrite (rowcount_found _ _ Hp0), (delete_products_by_id _ _ _ Hp0) in H.
    inversion H; subst s'. clear H.
    simpl in Hp'. unfold delete_where in Hp'. apply filter_In in Hp'.
    destruct Hp' as [Hp' Hmiss]. apply negb_true_iff in Hmiss.
    assert (Hne : forall k, String.eqb k product_id = true ->
                    String.eqb k (p_id p') = false).
    { intros k Hk. apply String.eqb_eq in Hk. subst k.
      destruct (String.eqb product_id (p_id p')) eqn:E; [|reflexivity].
      apply String.eqb_eq in E.
      apply find_some in Hp0. destruct Hp0 as [Hin0 Hhit0].
      assert (p0 = p').
      { apply (distinct_map_inj p_id (org_products s)); auto.
        unfold product_hit in Hhit0. apply andb_prop in Hhit0.
        destruct Hhit0 as [E0 _]. apply String.eqb_eq in E0. congruence. }
      subst p0. congruence. }
    apply (Hsame p' Hp'). unfold gap, received, shipped.
    rewrite sweep_items. simpl org_receipts. simpl org_shipment_items.
    rewrite !total_delete_miss; [reflexivity| |].
    + intros i _ Hi. rewrite (Hne _ Hi). reflexivity.
    + intros r0 _ Hr0. rewrite (Hne _ Hr0). reflexivity.
  - (* POST /api/receipts *)
    unfold post_receipts in H.
    destruct (negb (_require_role auth [owner; manager]));
      [inversion H; subst; apply (Hsame p' Hp' eq_refl)|].
    destruct (String.eqb (str_strip productId) "" || (quantity <=? 0)%Z);
      [inversion H; subst; apply (Hsame p' Hp' eq_refl)|].
    destruct (select_product (str_strip productId) (a_orgId auth) s);
      [|inversion H; subst; apply (Hsame p' Hp' eq_refl)].
    destruct (negb (fits_int64 quantity)); [discriminate|].
    unfold insert_receipt in H.
    match type of H with
    | context [existsb ?f ?l] => destruct (existsb f l); [discriminate|]
    end.
    inversion H; subst s'. clear H.
    simpl in Hp'. apply in_map_iff in Hp'. destruct Hp' as (q & <- & Hq).
    apply (Hsame q Hq). unfold gap, received, shipped. simpl org_receipts.
    simpl org_shipment_items. rewrite total_snoc. simpl r_product_id.
    simpl r_org_id. simpl r_quantity.
    destruct (product_hit (str_strip productId) (a_orgId auth) q) eqn:Hhit.
    + simpl p_id. simpl p_org_id. simpl p_stock.
      rewrite product_hit_names, Hhit.
      assert (Esum : sqlite_add (p_stock q) quantity = (p_stock q + quantity)%Z).
      { simpl in Hfits. rewrite forallb_forall in Hfits.
        specialize (Hfits q Hq). unfold product_hit in Hhit.
        apply andb_prop in Hhit. destruct Hhit as [Eid _].
        rewrite Eid in Hfits. simpl in Hfits.
        unfold int64_ledger in Hrange. apply andb_prop in Hrange.
        destruct Hrange as [Hrange _]. apply andb_prop in Hrange.
        destruct Hrange as [Hstocks _]. rewrite forallb_forall in Hstocks.
        apply sqlite_add_exact; [exact (Hstocks q Hq)|exact Hfits]. }
      rewrite Esum. lia.
    + rewrite product_hit_names, Hhit. lia.
  - (* DELETE /api/receipts/<id> *)
    unfold delete_receipt in H.
    destruct (negb (_require_role auth [owner; manager]));
      [inversion H; subst; apply (Hsame p' Hp' eq_refl)|].
    destruct (find (receipt_hit receipt_id (a_orgId auth)) (org_receipts s))
      as [r0|] eqn:Hr0; [|inversion H; subst; apply (Hsame p' Hp' eq_refl)].
    inversion H; subst s'. clear H.
    simpl in Hp'. apply in_map_iff in Hp'. destruct Hp' as (q & <- & Hq).
    right. exists q. split; [exact Hq|]. split; [|discriminate].
    apply find_some in Hr0. destruct Hr0 as [Hin0 Hhit0].
    assert (Eorg0 : r_org_id r0 = a_orgId auth).
    { unfold receipt_hit in Hhit0. apply andb_prop in Hhit0.
      destruct Hhit0 as [_ E]. apply String.eqb_eq, E. }
    assert (Hremoved :
      total (fun r1 => if receipt_hit receipt_id (a_orgId auth) r1
                       then (if String.eqb (r_product_id r1) (p_id q)
                                && String.eqb (r_org_id r1) (p_org_id q)
                             then r_quantity r1 else 0%Z)
                       else 0%Z) (org_receipts s)
      = (if product_hit (r_product_id r0) (a_orgId auth) q
         then r_quantity r0 else 0%Z)).
    { rewrite (total_keyed r_id (receipt_hit receipt_id (a_orgId auth)) _
                 (org_receipts s) r0 Hrk Hin0 Hhit0).
      - rewrite Eorg0, product_hit_names. reflexivity.
      - intros y _ Hy. unfold receipt_hit in Hy, Hhit0.
        apply andb_prop in Hy. apply andb_prop in Hhit0.
        destruct Hy as [Hy _]. destruct Hhit0 as [H0 _].
        apply String.eqb_eq in Hy, H0. congruence. }
    unfold gap, received, shipped. simpl org_receipts. simpl org_shipment_items.
    rewrite total_delete.
    destruct (product_hit (r_product_id r0) (a_orgId auth) q) eqn:Hhit.
    + simpl p_id. simpl p_org_id. simpl p_stock. rewrite Hremoved.
      destruct (p_stock q - r_quantity r0 <? 0)%Z eqn:E;
        [apply Z.ltb_lt in E|apply Z.ltb_ge in E]; lia.
    + rewrite Hremoved. lia.
  - (* POST /api/shipments *)
    destruct (post_shipments_cases _ _ _ _ H) as [->|Hst];
      [apply (Hsame p' Hp' eq_refl)|].
    destruct (post_shipments_created _ _ _ _ H Hst) as (_ & _ & _ & ->).
    simpl in Hp'. rewrite apply_deltas_closed in Hp'. apply in_map_iff in Hp'.
    destruct Hp' as (q & <- & Hq).
    apply (Hsame q Hq). unfold gap, received, shipped. simpl org_receipts.
    simpl org_shipment_items. simpl p_id. simpl p_org_id. simpl p_stock.
    rewrite total_app, (delta_for_opp (a_orgId auth) l_productId l_qty),
      delta_for_total.
    assert (Enew :
      total (fun i => if String.eqb (i_product_id i) (p_id q)
                         && String.eqb (i_org_id i) (p_org_id q)
                      then i_quantity i else 0%Z)
        (map (line_item (gen_shipment_id env) (a_orgId auth) s)
           (map line_of_item items))
      = total (fun x => if product_hit (l_productId x) (a_orgId auth) q
                        then l_qty x else 0%Z) (map line_of_item items)).
    { rewrite total_map. apply total_ext_in. intros line _. simpl.
      rewrite product_hit_names. reflexivity. }
    rewrite Enew. lia.
  - (* DELETE /api/shipments/<id> *)
    unfold delete_shipment in H.
    destruct (negb (_require_role auth [owner; manager]));
      [inversion H; subst; apply (Hsame p' Hp' eq_refl)|].
    destruct (find (shipment_hit shipment_id (a_orgId auth)) (org_shipments s))
      as [h0|] eqn:Hh0; [|inversion H; subst; apply (Hsame p' Hp' eq_refl)].
    rewrite restore_items_closed in H.
    erewrite delete_shipments_by_id in H by exact Hh0.
    inversion H; subst s'. clear H.
    simpl in Hp'. rewrite apply_deltas_closed in Hp'. apply in_map_iff in Hp'.
    destruct Hp' as (q & <- & Hq).
    apply (Hsame q Hq). unfold gap, received, shipped. simpl org_receipts.
    simpl org_shipment_items. simpl p_id. simpl p_org_id. simpl p_stock.
    rewrite total_delete, delta_for_total, total_filter.
    apply find_some in Hh0. destruct Hh0 as [Hin0 Hhit0].
    unfold shipment_hit in Hhit0. apply andb_prop in Hhit0.
    destruct Hhit0 as [Eid0 Eorg0]. apply String.eqb_eq in Eid0, Eorg0.
    rewrite (total_ext_in
               (fun x => if String.eqb (i_shipment_id x) shipment_id
                            && String.eqb (i_org_id x) (a_orgId auth)
                         then (if product_hit (i_product_id x) (a_orgId auth) q
                               then i_quantity x else 0%Z)
                         else 0%Z)
               (fun x => if String.eqb (i_shipment_id x) shipment_id
                         then (if String.eqb (i_product_id x) (p_id q)
                                  && String.eqb (i_org_id x) (p_org_id q)
                               then i_quantity x else 0%Z)
                         else 0%Z)).
    + lia.
    + intros i Hi. destruct (String.eqb (i_shipment_id i) shipment_id) eqn:E;
        [|reflexivity].
      apply String.eqb_eq in E.
      assert (Eorg : i_org_id i = a_orgId auth).
      { rewrite <- Eorg0. apply (item_shipment_org s h0 i Hok Hin0 Hi). congruence. }
      rewrite Eorg, String.eqb_refl, product_hit_names. reflexivity.
Qed.
Lemma same_ledger_accounting (s s' : State) :
  org_products s' = org_products s -> org_receipts s' = org_receipts s ->
  org_shipment_items s' = org_shipment_items s ->
  products_keyed s' = products_keyed s /\ receipts_keyed s' = receipts_keyed s /\
  accounted s' = accounted s /\ balanced s' = balanced s.
Proof.
  intros Ep Er Ei.
  unfold products_keyed, receipts_keyed, accounted, balanced, gap, received, shipped.
  rewrite Ep, Er, Ei. auto.
Qed.

Lemma route_api_accounting (env : Env) (cookie : option string) (req : Request)
  (s : State) :
  store_ok s = true -> products_keyed s = true -> receipts_keyed s = true ->
  int64_ledger s = true -> sum_fits req s = true ->
  products_keyed (snd (_route_api env cookie req s)) = true /\
  receipts_keyed (snd (_route_api env cookie req s)) = true /\
  (accounted s = true -> accounted (snd (_route_api env cookie req s)) = true) /\
  (keeps_receipts req = true -> balanced s = true ->
   balanced (snd (_route_api env cookie req s)) = true).
Proof.
  intros Hok Hpk Hrk Hrange Hfits.
  destruct (route_api_cases env cookie req s)
    as [[_ ->]|(auth & _ & [(e & _ & ->)|(r & s' & Hdis & ->)])]; simpl.
  - destruct (get_current_auth_ledger (now env) cookie s) as (Ep & Er & _ & Ei & _).
    destruct (same_ledger_accounting _ _ Ep Er Ei) as (-> & -> & -> & ->). auto.
  - auto.
  - pose proof (dispatch_gap _ _ _ _ Hdis Hok Hpk Hrk Hrange Hfits) as Hgap.
    split; [exact (dispatch_keyed _ _ _ _ Hdis Hpk)|].
    split; [exact (dispatch_receipts_keyed _ _ _ _ Hdis Hrk)|].
    split.
    + intros Hacc. unfold accounted in *. rewrite forallb_forall in *.
      intros p' Hp'. apply Z.leb_le.
      destruct (Hgap p' Hp') as [->|(p & Hp & Hle & _)]; [lia|].
      specialize (Hacc p Hp). apply Z.leb_le in Hacc. lia.
    + intros Hkeep Hbal. unfold balanced in *. rewrite forallb_forall in *.
      intros p' Hp'. apply Z.eqb_eq.
      destruct (Hgap p' Hp') as [->|(p & Hp & _ & Heq)]; [reflexivity|].
      specialize (Hbal p Hp). apply Z.eqb_eq in Hbal. rewrite (Heq Hkeep). exact Hbal.
Qed.

(** X22.  Stock accounting.  On a consistent store with unique product
    and receipt ids, along any run of requests that stays within 64-bit
    integers (every stock and every recorded quantity on the way is one,
    and so is the stock plus the quantity at every receipt): if every stock
    was at least the received quantity less the shipped quantity on record,
    it still is; and if every stock was exactly that and the run deletes no
    receipt, it is still exactly that, also when a shipment names a product
    twice.  Only the deletion of a receipt, which stops at 0, can leave a
    stock above what the records account for. *)
Theorem stock_accounting (reqs : list (Env * option string * Request)) (s : State) :
  store_ok s = true ->
  products_keyed s = true ->
  receipts_keyed s = true ->
  sums_fit reqs s = true ->
  (accounted s = true ->
   accounted (run reqs s) = true /\
   forall p, In p (org_products (run reqs s)) ->
     (received (run reqs s) p - shipped (run reqs s) p <= p_stock p)%Z) /\
  (forallb (fun x => keeps_receipts (snd x)) reqs = true ->
   balanced s = true ->
   balanced (run reqs s) = true /\
   forall p, In p (org_products (run reqs s)) ->
     p_stock p = (received (run reqs s) p - shipped (run reqs s) p)%Z).
Proof.
  intros Hok Hpk Hrk Hfits.
  assert (Hrun : (accounted s = true -> accounted (run reqs s) = true) /\
                 (forallb (fun x => keeps_receipts (snd x)) reqs = true ->
                  balanced s = true -> balanced (run reqs s) = true)).
  { revert s Hok Hpk Hrk Hfits. induction reqs as [|[[env cookie] req] rest IH];
      intros s Hok Hpk Hrk Hfits; simpl; [auto|].
    simpl in Hfits. apply andb_prop in Hfits. destruct Hfits as [Hfit Hfits].
    apply andb_prop in Hfit. destruct Hfit as [Hrange Hfit].
    destruct (route_api_accounting env cookie req s Hok Hpk Hrk Hrange Hfit)
      as (Hpk' & Hrk' & Hacc' & Hbal').
    destruct (IH _ (route_api_store_ok env cookie req s Hok) Hpk' Hrk' Hfits)
      as [IHacc IHbal].
    split.
    - intros Hacc. apply IHacc, Hacc', Hacc.
    - intros Hkeep Hbal. apply andb_prop in Hkeep. destruct Hkeep as [Hk Hrest].
      apply IHbal; [exact Hrest|]. apply Hbal'; assumption. }
  destruct Hrun as [Hacc Hbal]. split.
  - intros H. specialize (Hacc H). split; [exact Hacc|].
    unfold accounted in Hacc. rewrite forallb_forall in Hacc.
    intros p Hp. specialize (Hacc p Hp). apply Z.leb_le in Hacc.
    unfold gap in Hacc. lia.
  - intros Hkeep H. specialize (Hbal Hkeep H). split; [exact Hbal|].
    unfold balanced in Hbal. rewrite forallb_forall in Hbal.
    intros p Hp. specialize (Hbal p Hp). apply Z.eqb_eq in Hbal.
    unfold gap in Hbal. lia.
Qed.

End Books.

(** * Join codes *)

Section JoinCodes.

Lemma in_join_codes (orgs : list Organization) (c : string) :
  In c (join_codes orgs) <-> exists o, In o orgs /\ o_join_code o = Some c.
Proof.
  unfold join_codes. rewrite in_flat_map. split.
  - intros (o & Ho & Hc). exists o. split; [exact Ho|].
    destruct (o_join_code o) as [c'|]; [|contradiction].
    destruct Hc as [->|[]]. reflexivity.
  - intros (o & Ho & E). exists o. split; [exact Ho|]. rewrite E. left. reflexivity.
Qed.

Lemma unused_code (orgs : list Organization) (code : string) :
  existsb (has_join_code code) orgs = false <-> ~ In code (join_codes orgs).
Proof.
  rewrite in_join_codes. split.
  - intros H (o & Ho & E). pose proof (existsb_false_In _ _ o H Ho) as Hf.
    unfold has_join_code in Hf. rewrite E, String.eqb_refl in Hf. discriminate.
  - intros H. apply existsb_none. intros o Ho. unfold has_join_code.
    destruct (o_join_code o) as [c|] eqn:E; [|reflexivity].
    destruct (String.eqb c code) eqn:Ec; [|reflexivity].
    apply String.eqb_eq in Ec. subst c. exfalso. apply H. exists o. auto.
Qed.

Lemma generate_unique_join_code_some (tape rest : list string)
  (orgs : list Organization) (code : string) :
  generate_unique_join_code tape orgs = Some (code, rest) ->
  In code tape /\ ~ In code (join_codes orgs) /\ (forall c, In c rest -> In c tape).
Proof.
  induction tape as [|c tape IH]; simpl; [discriminate|].
  destruct (existsb (has_join_code c) orgs) eqn:E.
  - intros H. destruct (IH H) as (H1 & H2 & H3). auto.
  - intros H. inversion H; subst. apply unused_code in E. auto.
Qed.

Lemma set_join_code_unused (code id : string) (orgs : list Organization) :
  ~ In code (join_codes orgs) ->
  set_join_code code id orgs
  = Some (update_where (fun o => String.eqb (o_id o) id)
            (fun o => {| o_id := o_id o; o_name := o_name o;
                         o_join_code := Some code |}) orgs).
Proof.
  intros H. apply unused_code in H. unfold set_join_code.
  rewrite existsb_none; [reflexivity|].
  intros o Ho. rewrite (existsb_false_In _ _ o H Ho). apply andb_false_r.
Qed.

Lemma join_codes_updated (code id : string) (orgs : list Organization) (c : string) :
  In c (join_codes
          (update_where (fun o => String.eqb (o_id o) id)
             (fun o => {| o_id := o_id o; o_name := o_name o;
                          o_join_code := Some code |}) orgs)) ->
  c = code \/ In c (join_codes orgs).
Proof.
  rewrite !in_join_codes. intros (o' & Ho' & E).
  unfold update_where in Ho'. apply in_map_iff in Ho'. destruct Ho' as (o & <- & Ho).
  destruct (String.eqb (o_id o) id).
  - simpl in E. inversion E. left. reflexivity.
  - right. exists o. auto.
Qed.

Lemma distinct_cons_iff (c : string) (l : list string) :
  distinct (c :: l) = true <-> ~ In c l /\ distinct l = true.
Proof.
  simpl. rewrite andb_true_iff, negb_true_iff. split; intros [H1 H2]; split; auto.
  - intros Hin. pose proof (existsb_false_In _ _ c H1 Hin) as E.
    rewrite String.eqb_refl in E. discriminate.
  - apply existsb_none. intros x Hx. destruct (String.eqb c x) eqn:E; [|reflexivity].
    apply String.eqb_eq in E. subst x. contradiction.
Qed.

Lemma join_codes_updated_distinct (code id : string) (orgs : list Organization) :
  distinct (map o_id orgs) = true ->
  distinct (join_codes orgs) = true ->
  ~ In code (join_codes orgs) ->
  distinct (join_codes
              (update_where (fun o => String.eqb (o_id o) id)
                 (fun o => {| o_id := o_id o; o_name := o_name o;
                              o_join_code := Some code |}) orgs)) = true.
Proof.
  induction orgs as [|o orgs IH]; intros Hid Hcodes Hnew; [reflexivity|].
  change (map o_id (o :: orgs)) with (o_id o :: map o_id orgs) in Hid.
  apply distinct_cons_iff in Hid. destruct Hid as [Hfirst Hid].
  assert (Hnew' : ~ In code (join_codes orgs)).
  { intros Hin. apply Hnew. unfold join_codes. simpl. apply in_app_iff. right.
    exact Hin. }
  assert (Hcodes' : distinct (join_codes orgs) = true).
  { unfold join_codes in Hcodes. simpl in Hcodes.
    destruct (o_join_code o); [|exact Hcodes].
    simpl in Hcodes. apply andb_prop in Hcodes. apply Hcodes. }
  unfold update_where, join_codes. simpl.
  fold (update_where (fun x => String.eqb (o_id x) id)
          (fun x => {| o_id := o_id x; o_name := o_name x;
                       o_join_code := Some code |}) orgs).
  fold (join_codes
          (update_where (fun x => String.eqb (o_id x) id)
             (fun x => {| o_id := o_id x; o_name := o_name x;
                          o_join_code := Some code |}) orgs)).
  destruct (String.eqb (o_id o) id) eqn:E.
  - apply String.eqb_eq in E. simpl.
    assert (Hrest : update_where (fun x => String.eqb (o_id x) id)
                      (fun x => {| o_id := o_id x; o_name := o_name x;
                                   o_join_code := Some code |}) orgs = orgs).
    { unfold update_where. rewrite <- (map_id orgs) at 2. apply map_ext_in.
      intros x Hx. destruct (String.eqb (o_id x) id) eqn:Ex; [|reflexivity].
      apply String.eqb_eq in Ex. exfalso. apply Hfirst. rewrite E, <- Ex.
      apply in_map, Hx. }
    rewrite Hrest. apply distinct_cons_iff. auto.
  - destruct (o_join_code o) as [c|] eqn:Ec; simpl; [|exact (IH Hid Hcodes' Hnew')].
    apply distinct_cons_iff. split; [|exact (IH Hid Hcodes' Hnew')].
    intros Hin. apply join_codes_updated in Hin. destruct Hin as [->|Hin].
    + apply Hnew. unfold join_codes. simpl. rewrite Ec. left. reflexivity.
    + unfold join_codes in Hcodes. simpl in Hcodes. rewrite Ec in Hcodes.
      apply distinct_cons_iff in Hcodes. apply Hcodes, Hin.
Qed.

Lemma migrate_never_violated (ids tape : list string) (orgs : list Organization) :
  migrate_join_codes ids tape orgs <> Violated.
Proof.
  revert tape orgs. induction ids as [|id ids IH]; intros tape orgs; simpl;
    [discriminate|].
  destruct (generate_unique_join_code tape orgs) as [[code rest]|] eqn:E;
    [|discriminate].
  apply generate_unique_join_code_some in E. destruct E as (_ & Hnew & _).
  rewrite (set_join_code_unused code id orgs Hnew). apply IH.
Qed.

Lemma migrate_join_codes_migrated (ids tape tape' : list string)
  (orgs orgs' : list Organization) :
  migrate_join_codes ids tape orgs = Migrated orgs' tape' ->
  map o_id orgs' = map o_id orgs /\
  map o_name orgs' = map o_name orgs /\
  (forall o', In o' orgs' ->
     In o' orgs \/ exists c, In c tape /\ o_join_code o' = Some c) /\
  (forall o', In o' orgs' -> In (o_id o') ids ->
     exists c, In c tape /\ o_join_code o' = Some c) /\
  (forall o, In o orgs -> ~ In (o_id o) ids -> In o orgs') /\
  (distinct (map o_id orgs) = true -> distinct (join_codes orgs) = true ->
   distinct (join_codes orgs') = true).
Proof.
  revert tape orgs. induction ids as [|id ids IH]; intros tape orgs; simpl.
  - intros H. inversion H; subst. repeat split; auto. intros o' _ [].
  - destruct (generate_unique_join_code tape orgs) as [[code rest]|] eqn:E;
      [|discriminate].
    apply generate_unique_join_code_some in E. destruct E as (Hcode & Hnew & Hrest).
    rewrite (set_join_code_unused code id orgs Hnew).
    set (orgs1 := update_where (fun o => String.eqb (o_id o) id)
                    (fun o => {| o_id := o_id o; o_name := o_name o;
                                 o_join_code := Some code |}) orgs).
    intros H. destruct (IH _ _ H) as (Hid & Hname & H1 & H2 & H3 & H4).
    assert (Hid1 : map o_id orgs1 = map o_id orgs).
    { unfold orgs1, update_where. rewrite map_map. apply map_ext.
      intros o. destruct (String.eqb (o_id o) id); reflexivity. }
    assert (Hname1 : map o_name orgs1 = map o_name orgs).
    { unfold orgs1, update_where. rewrite map_map. apply map_ext.
      intros o. destruct (String.eqb (o_id o) id); reflexivity. }
    assert (Hin1 : forall o', In o' orgs1 ->
              (In o' orgs /\ String.eqb (o_id o') id = false) \/
              (o_id o' = id /\ o_join_code o' = Some code)).
    { intros o' Ho'. unfold orgs1, update_where in Ho'. apply in_map_iff in Ho'.
      destruct Ho' as (o & <- & Ho).
      destruct (String.eqb (o_id o) id) eqn:Eo.
      - right. apply String.eqb_eq in Eo. auto.
      - left. auto. }
    split; [congruence|]. split; [congruence|]. split; [|split; [|split]].
    + intros o' Ho'. destruct (H1 o' Ho') as [Hin|(c & Hc & Ec)].
      * destruct (Hin1 o' Hin) as [[Hold _]|[_ Ec]]; [left; exact Hold|].
        right. exists code. auto.
      * right. exists c. auto.
    + intros o' Ho' [Eid|Hids].
      * destruct (H1 o' Ho') as [Hin|(c & Hc & Ec)].
        -- destruct (Hin1 o' Hin) as [[_ Hne]|[_ Ec]].
           ++ rewrite <- Eid, String.eqb_refl in Hne. discriminate.
           ++ exists code. auto.
        -- exists c. auto.
      * destruct (H2 o' Ho' Hids) as (c & Hc & Ec). exists c. auto.
    + intros o Ho Hnot. apply H3.
      * unfold orgs1, update_where. apply in_map_iff. exists o. split; [|exact Ho].
        destruct (String.eqb (o_id o) id) eqn:Eo; [|reflexivity].
        apply String.eqb_eq in Eo. exfalso. apply Hnot. left. auto.
      * intros Hin. apply Hnot. right. exact Hin.
    + intros Hd Hc. apply H4.
      * rewrite Hid1. exact Hd.
      * apply join_codes_updated_distinct; assumption.
Qed.

Lemma migrate_join_codes_ends (ids tape : list string) (orgs : list Organization) :
  distinct tape = true ->
  (forall c, In c tape -> ~ In c (join_codes orgs)) ->
  (List.length ids <= List.length tape)%nat ->
  exists orgs' tape', migrate_join_codes ids tape orgs = Migrated orgs' tape'.
Proof.
  revert tape orgs. induction ids as [|id ids IH]; intros tape orgs Hd Hnew Hlen.
  - simpl. eauto.
  - destruct tape as [|code rest]; [simpl in Hlen; lia|].
    apply distinct_cons_iff in Hd. destruct Hd as [Hfirst Hd].
    simpl.
    assert (Hcode : ~ In code (join_codes orgs)) by (apply Hnew; left; reflexivity).
    rewrite (proj2 (unused_code orgs code) Hcode).
    rewrite (set_join_code_unused code id orgs Hcode).
    apply IH; [exact Hd| |simpl in Hlen; lia].
    intros c Hc Hin. apply join_codes_updated in Hin. destruct Hin as [->|Hin].
    + contradiction.
    + apply (Hnew c); [right; exact Hc|exact Hin].
Qed.

(** X23.  The join-code migration of [init_db].  Whatever codes
    [make_join_code] draws, no [UPDATE] of the migration violates the
    [UNIQUE] constraint on [join_code].  When the loop ends, the
    organizations are the same rows with the same ids and names; every
    organization that had no code or an empty one has a code that was
    drawn, so with draws that are not empty every organization has a
    non-empty code; with unique ids an organization that had a non-empty
    code keeps it, and join codes that were pairwise distinct are still
    pairwise distinct.  The loop does end when the draws are pairwise
    distinct, unused, and at least as many as the organizations to
    migrate. *)
Theorem join_code_migration (tape : list string) (orgs : list Organization) :
  init_db_join_codes tape orgs <> Violated /\
  (forall orgs' tape',
     init_db_join_codes tape orgs = Migrated orgs' tape' ->
     map o_id orgs' = map o_id orgs /\
     map o_name orgs' = map o_name orgs /\
     ((forall c, In c tape -> c <> "") ->
      forall o', In o' orgs' -> exists c, o_join_code o' = Some c /\ c <> "") /\
     (distinct (map o_id orgs) = true ->
      (forall o c, In o orgs -> o_join_code o = Some c -> c <> "" -> In o orgs') /\
      (distinct (join_codes orgs) = true -> distinct (join_codes orgs') = true))) /\
  (distinct tape = true ->
   (forall c, In c tape -> ~ In c (join_codes orgs)) ->
   (List.length (orgs_without_code orgs) <= List.length tape)%nat ->
   exists orgs' tape', init_db_join_codes tape orgs = Migrated orgs' tape').
Proof.
  unfold init_db_join_codes. split; [apply migrate_never_violated|]. split.
  - intros orgs' tape' H.
    destruct (migrate_join_codes_migrated _ _ _ H) as (Hid & Hname & H1 & H2 & H3 & H4).
    split; [exact Hid|]. split; [exact Hname|]. split; [|intros Hd; split].
    + intros Htape o' Ho'.
      assert (Hdrawn : (exists c, In c tape /\ o_join_code o' = Some c) ->
                       exists c, o_join_code o' = Some c /\ c <> "").
      { intros (c & Hc & Ec). exists c. split; [exact Ec|exact (Htape c Hc)]. }
      destruct (H1 o' Ho') as [Hold|Hnew]; [|exact (Hdrawn Hnew)].
      assert (Hcoded : (match o_join_code o' with
                        | None => true
                        | Some c => String.eqb c ""
                        end) = true ->
                       exists c, o_join_code o' = Some c /\ c <> "").
      { intros Hempty. apply Hdrawn, (H2 o' Ho'). unfold orgs_without_code.
        apply in_map, filter_In. split; [exact Hold|exact Hempty]. }
      destruct (o_join_code o') as [c|] eqn:Ec; [|exact (Hcoded eq_refl)].
      destruct (String.eqb c "") eqn:Eempty; [exact (Hcoded eq_refl)|].
      exists c. split; [reflexivity|]. apply String.eqb_neq, Eempty.
    + intros o c Ho Ec Hne. apply (H3 o Ho).
      unfold orgs_without_code. intros Hin. apply in_map_iff in Hin.
      destruct Hin as (o2 & Eid & Ho2). apply filter_In in Ho2.
      destruct Ho2 as [Ho2 Hempty].
      assert (o2 = o) by (apply (distinct_map_inj o_id orgs); auto).
      subst o2. rewrite Ec in Hempty. apply String.eqb_eq in Hempty. contradiction.
    + apply H4, Hd.
  - apply migrate_join_codes_ends.
Qed.

End JoinCodes.

(** * The further properties on the sample store *)

Lemma sample_viewer_resolves :
  fst (_get_current_auth (now Sample.env) (Some Sample.tok_view) Sample.store)
  = Some Sample.viewer_auth.
Proof. vm_compute. reflexivity. Qed.

Lemma sample_owner_resolves :
  fst (_get_current_auth (now Sample.env) (Some Sample.tok_owner) Sample.store)
  = Some Sample.owner_auth.
Proof. vm_compute. reflexivity. Qed.

Lemma sample_b_resolves :
  fst (_get_current_auth (now Sample.env) (Some Sample.tok_b) Sample.store)
  = Some SampleAccounts.b_auth.
Proof. vm_compute. reflexivity. Qed.

(** X1 on the sample store: a shipment of two products, a receipt taken
    back and a shipment deleted leave every stock at 0 or more. *)
Lemma stock_never_negative_witness :
  let reqs :=
    [(Sample.env, Some Sample.tok_mgr,
      @PostShipment ieee [Sample.order Sample.p_1 5; Sample.order Sample.p_2 30]);
     (Sample.env, Some Sample.tok_mgr, @DeleteReceipt ieee Sample.r_1);
     (Sample.env, Some Sample.tok_b, @DeleteShipment ieee Sample.s_9)] in
  products_keyed (run reqs Sample.store) = true /\
  stocks_ok (run reqs Sample.store) = true /\
  map p_stock (org_products (run reqs Sample.store)) = [0; 0; 200]%Z.
Proof.
  intros reqs.
  assert (Hkey : products_keyed Sample.store = true) by (vm_compute; reflexivity).
  assert (Hok : stocks_ok Sample.store = true) by (vm_compute; reflexivity).
  assert (Hall : Forall (fun x => distinct (named_products (snd x)) = true) reqs)
    by (repeat constructor).
  destruct (@stock_never_negative ieee reqs Sample.store Hkey Hok Hall)
    as (Hk & Hs & _).
  split; [exact Hk|]. split; [exact Hs|]. vm_compute. reflexivity.
Defined.

(** X2 on the sample store: a shipment of more than the stock is answered
    400 and the store is the same. *)
Lemma failed_request_keeps_store_witness :
  let out :=
    @_route_api ieee Sample.env (Some Sample.tok_mgr)
      (PostShipment [Sample.order Sample.p_1 100]) Sample.store in
  status (fst out) = BAD_REQUEST /\ snd out = Sample.store.
Proof.
  intros out. split; [vm_compute; reflexivity|].
  assert (Hok : status (fst out) <> OK) by (vm_compute; discriminate).
  assert (Hcreated : status (fst out) <> CREATED) by (vm_compute; discriminate).
  destruct (@failed_request_keeps_store ieee Sample.env (Some Sample.tok_mgr)
              (PostShipment [Sample.order Sample.p_1 100]) Sample.store Hok Hcreated)
    as [H|(token & _ & H & _)]; [exact H|].
  vm_compute in H. discriminate.
Defined.

(** X3 on the sample store: the viewer may not delete a product. *)
Lemma role_gate_matrix_witness :
  let out :=
    @_route_api ieee Sample.env (Some Sample.tok_view)
      (DeleteProduct Sample.p_1) Sample.store in
  status (fst out) = FORBIDDEN /\ snd out = Sample.store.
Proof.
  intros out.
  destruct (@role_gate_matrix ieee Sample.env (Some Sample.tok_view)
              (DeleteProduct Sample.p_1) Sample.store Sample.viewer_auth
              sample_viewer_resolves) as [Hiff Hsame].
  split; [|apply Hsame; reflexivity].
  apply Hiff. left. split; [reflexivity|discriminate].
Defined.

(** X5 on the sample store: a negative price is stored as 0. *)
Lemma update_price_effect_witness :
  let out :=
    @_route_api ieee Sample.env (Some Sample.tok_mgr)
      (@PatchProductPrice ieee Sample.p_1 (-5)%float) Sample.store in
  status (fst out) = OK /\
  option_map p_price (select_product Sample.p_1 Sample.org_a (snd out))
  = Some 0%float /\
  option_map p_stock (select_product Sample.p_1 Sample.org_a (snd out)) = Some 5%Z.
Proof.
  intros out.
  assert (Hrole : a_role Sample.manager_auth <> viewer) by discriminate.
  destruct (@update_price_effect ieee Sample.env (Some Sample.tok_mgr) Sample.store
              Sample.manager_auth Sample.p_1 (-5)%float
              sample_manager_resolves Hrole) as [_ H].
  destruct (H (Sample.product Sample.p_1 Sample.org_a "Roller" 65000 5 50) eq_refl)
    as (Hroute & _).
  unfold out. rewrite Hroute. vm_compute. auto.
Defined.


(** X7 on the sample store: deleting the one product of [org_b] takes its
    receipt, its shipment item and the shipment that is left empty. *)
Lemma delete_product_effect_witness :
  let out :=
    @_route_api ieee Sample.env (Some Sample.tok_b)
      (DeleteProduct Sample.p_9) Sample.store in
  status (fst out) = OK /\
  org_shipments (snd out) = [] /\
  org_shipment_items (snd out) = [] /\
  map r_id (org_receipts (snd out)) = [Sample.r_1].
Proof.
  intros out.
  assert (Hrole : a_role SampleAccounts.b_auth <> viewer) by discriminate.
  destruct (@delete_product_effect ieee Sample.env Sample.env (Some Sample.tok_b)
              Sample.store SampleAccounts.b_auth Sample.p_9
              sample_b_resolves Hrole) as [_ H].
  destruct (H (Sample.product Sample.p_9 Sample.org_b "Needle" 600 190 300) eq_refl)
    as (Hroute & _).
  unfold out. rewrite Hroute. vm_compute. auto.
Defined.


(** X9 on the sample store: the owner makes the manager a viewer; the
    manager's session then resolves as a viewer. *)
Lemma role_change_effect_witness :
  let out :=
    @_route_api ieee Sample.env (Some Sample.tok_owner)
      (PostMembershipRole " Maria@Local " "viewer") Sample.store in
  status (fst out) = OK /\
  fst (_get_current_auth 100 (Some Sample.tok_mgr) (snd out))
  = Some (Sample.auth_of Sample.tok_mgr Sample.u_mgr "maria" viewer).
Proof.
  intros out.
  destruct (@role_change_effect ieee Sample.env (Some Sample.tok_owner) Sample.store
              Sample.owner_auth " Maria@Local " "viewer"
              sample_owner_resolves eq_refl) as [_ H].
  assert (Haddr : @str_lower ieee (@str_strip ieee " Maria@Local ") <> "")
    by (vm_compute; discriminate).
  destruct (H viewer eq_refl Haddr) as [_ Huser].
  destruct (Huser (Sample.user Sample.u_mgr "maria") eq_refl) as [_ Hm].
  destruct (Hm {| m_user_id := Sample.u_mgr; m_org_id := Sample.org_a;
                  m_role := manager |} eq_refl) as [Hroute Hresolve].
  unfold out. rewrite Hroute. split; [reflexivity|].
  destruct (Hresolve 100%Z Sample.tok_mgr Sample.manager_auth sample_manager_resolves)
    as [Hnew _].
  exact (Hnew eq_refl eq_refl).
Defined.

(** X10 on the sample store: a receipt of 7 units at cost 80 is posted and
    deleted; the stock is 5 again, the purchase price stays at 80. *)
Lemma receipt_round_trip_witness :
  let s1 :=
    snd (@_route_api ieee Sample.env (Some Sample.tok_mgr)
           (@PostReceipt ieee Sample.p_1 7 80%float) Sample.store) in
  let after :=
    @_route_api ieee Sample.env (Some Sample.tok_owner)
      (DeleteReceipt Sample.r_new) s1 in
  status (fst after) = OK /\
  org_receipts (snd after) = org_receipts Sample.store /\
  option_map p_stock (select_product Sample.p_1 Sample.org_a (snd after)) = Some 5%Z /\
  option_map p_purchase_price (select_product Sample.p_1 Sample.org_a (snd after))
  = Some 80%float.
Proof.
  intros s1 after.
  assert (Hrole : a_role Sample.manager_auth <> viewer) by discriminate.
  assert (Hrole' : a_role Sample.owner_auth <> viewer) by discriminate.
  assert (Hid : @str_strip ieee Sample.p_1 <> "") by (vm_compute; discriminate).
  assert (Hq : (0 < 7)%Z) by reflexivity.
  assert (Hbound : (7 < 2 ^ 63)%Z) by reflexivity.
  assert (Hstock : forall p, In p (org_products Sample.store) ->
                     product_hit (@str_strip ieee Sample.p_1)
                       (a_orgId Sample.manager_auth) p = true ->
                     (0 <= p_stock p)%Z /\ (p_stock p + 7 < 2 ^ 63)%Z).
  { intros p [<-|[<-|[<-|[]]]] _; split; vm_compute; (discriminate || reflexivity). }
  assert (Hauth' : fst (_get_current_auth (now Sample.env) (Some Sample.tok_owner) s1)
                   = Some Sample.owner_auth) by (vm_compute; reflexivity).
  destruct (@receipt_round_trip ieee Sample.env Sample.env (Some Sample.tok_mgr)
              (Some Sample.tok_owner) Sample.store Sample.manager_auth
              Sample.owner_auth Sample.p_1 7%Z 80%float
              (Sample.product Sample.p_1 Sample.org_a "Roller" 65000 5 50)
              sample_manager_resolves Hrole Hid Hq eq_refl eq_refl Hbound Hstock
              Hauth' eq_refl Hrole')
    as (Hst & _ & Hreceipts & _).
  split; [exact Hst|]. split; [exact Hreceipts|].
  vm_compute. auto.
Defined.

(** X11 on the sample store: a product is created with an initial stock
    and deleted; the store is the one before. *)
Lemma product_round_trip_witness :
  let s1 :=
    snd (@_route_api ieee Sample.env (Some Sample.tok_mgr)
           (@PostProduct ieee "Gauze" "" "" 40%float 12 25%float) Sample.store) in
  snd (@_route_api ieee Sample.env (Some Sample.tok_owner)
         (DeleteProduct Sample.p_new) s1)
  = Sample.store.
Proof.
  intros s1.
  assert (Hrole : a_role Sample.manager_auth <> viewer) by discriminate.
  assert (Hrole' : a_role Sample.owner_auth <> viewer) by discriminate.
  assert (Hname : @str_strip ieee "Gauze" <> "") by (vm_compute; discriminate).
  assert (Hauth' : fst (_get_current_auth (now Sample.env) (Some Sample.tok_owner) s1)
                   = Some Sample.owner_auth) by (vm_compute; reflexivity).
  destruct (@product_round_trip ieee Sample.env Sample.env (Some Sample.tok_mgr)
              (Some Sample.tok_owner) Sample.store Sample.manager_auth
              Sample.owner_auth "Gauze" "" "" 40%float 12%Z 25%float
              sample_manager_resolves Hrole sample_store_ok Hname eq_refl eq_refl
              eq_refl Hauth' eq_refl Hrole')
    as (_ & _ & Hsame).
  apply Hsame. vm_compute. reflexivity.
Defined.

(** X12 on the sample store: after the product of [org_b] is deleted no
    shipment is left without items. *)
Lemma no_shipment_left_empty_witness :
  no_empty_shipment
    (run [(Sample.env, Some Sample.tok_b, @DeleteProduct ieee Sample.p_9)]
       Sample.store) = true.
Proof.
  assert (Hne : no_empty_shipment Sample.store = true) by (vm_compute; reflexivity).
  exact (proj1 (@no_shipment_left_empty ieee
                  [(Sample.env, Some Sample.tok_b, @DeleteProduct ieee Sample.p_9)]
                  Sample.store sample_store_ok Hne)).
Defined.

(** X13 on the sample store: the store stays consistent along a run. *)
Lemma references_stay_valid_witness :
  store_ok
    (run [(Sample.env, Some Sample.tok_mgr,
           @PostShipment ieee [Sample.order Sample.p_1 2]);
          (Sample.env, Some Sample.tok_owner, @DeleteProduct ieee Sample.p_1)]
       Sample.store) = true.
Proof.
  exact (proj1 (@references_stay_valid ieee
                  [(Sample.env, Some Sample.tok_mgr,
                    @PostShipment ieee [Sample.order Sample.p_1 2]);
                   (Sample.env, Some Sample.tok_owner,
                    @DeleteProduct ieee Sample.p_1)]
                  Sample.store sample_store_ok)).
Defined.

(** X15 on the sample store: the manager ships 2 units of [p_1]; the
    viewer gets the printable receipt with the product's name. *)
Lemma shipment_listed_and_printable_witness :
  let out :=
    @_route_api ieee Sample.env (Some Sample.tok_mgr)
      (PostShipment [Sample.order (" " ++ Sample.p_1) 2]) Sample.store in
  match body (fst (print_shipment 200 (Some Sample.tok_view) Sample.s_new (snd out))) with
  | BPrint doc =>
    map (fun row => (pr_product_name row, pr_quantity row)) (pd_rows doc)
    = [(Some "Roller", 2%Z)]
  | _ => False
  end.
Proof.
  intros out.
  assert (Hroute : out = (fst out, snd out)) by (destruct out; reflexivity).
  assert (Hst : status (fst out) = CREATED) by (vm_compute; reflexivity).
  assert (Hauth' : fst (_get_current_auth 200 (Some Sample.tok_view) (snd out))
                   = Some Sample.viewer_auth) by (vm_compute; reflexivity).
  destruct (@shipment_listed_and_printable ieee Sample.env 200%Z
              (Some Sample.tok_mgr) (Some Sample.tok_view) Sample.store (snd out)
              Sample.manager_auth Sample.viewer_auth
              [Sample.order (" " ++ Sample.p_1) 2] (fst out)
              sample_manager_resolves sample_store_ok Hroute Hst Hauth' eq_refl)
    as (_ & _ & _ & Hprint & _).
  change Sample.s_new with (gen_shipment_id Sample.env).
  rewrite Hprint. vm_compute. reflexivity.
Defined.

(** X16 on a header with a repeated key, a part without ["="] and a value
    that holds an ["="]. *)
Lemma parse_cookie_lookup_witness :
  exists cookies,
    @parse_cookie ieee (Some "a=1; warehouse_session=tok; junk; a=3=4") = Some cookies /\
    dict_get cookies "a" = Some "3=4" /\
    dict_get cookies "warehouse_session" = Some "tok" /\
    dict_get cookies "junk" = None.
Proof.
  assert (Hne : "a=1; warehouse_session=tok; junk; a=3=4" <> "") by discriminate.
  destruct (@parse_cookie_lookup ieee "a=1; warehouse_session=tok; junk; a=3=4")
    as (_ & _ & _ & _ & H).
  destruct (H Hne) as (cookies & E & Hget).
  exists cookies. split; [exact E|]. rewrite !Hget. vm_compute. auto.
Defined.

(** X17 for the token of the sample manager. *)
Lemma session_cookie_round_trip_witness :
  @session_token ieee
    (Some (hd "" (str_split ";" (_make_session_cookie Sample.tok_mgr))))
  = Some (Some Sample.tok_mgr).
Proof.
  assert (Hsemi : str_contains ";" Sample.tok_mgr = false) by reflexivity.
  assert (Hstrip : @str_strip ieee (SESSION_COOKIE ++ "=" ++ Sample.tok_mgr)
                   = SESSION_COOKIE ++ "=" ++ Sample.tok_mgr)
    by (vm_compute; reflexivity).
  exact (proj2 (@session_cookie_round_trip ieee Sample.tok_mgr Hsemi Hstrip)).
Defined.

Lemma sample_digest_ascii (password salt : string) :
  is_ascii (SampleAccounts.digest password salt) = true.
Proof.
  unfold SampleAccounts.digest. generalize (salt ++ password). intros s.
  assert (Hd : forall n, Nat.ltb (nat_of_ascii (SampleAccounts.hex_digit n)) 128 = true).
  { intros n. unfold SampleAccounts.hex_digit.
    do 17 (destruct n as [|n]; [reflexivity|]). reflexivity. }
  induction s as [|c s IH]; simpl; [reflexivity|].
  rewrite !Hd, IH. reflexivity.
Qed.

(** X18 on the sample accounts: the administrator's password verifies
    against the stored hash, another one does not. *)
Lemma password_round_trip_witness :
  verify_password SampleAccounts.digest "admin123"
    (SampleAccounts.password_hash Sample.u_admin) = inr true /\
  verify_password SampleAccounts.digest "admin124"
    (SampleAccounts.password_hash Sample.u_admin) = inr false.
Proof.
  assert (Hsalt : str_contains "$" SampleAccounts.salt_admin = false) by reflexivity.
  destruct (@password_round_trip SampleAccounts.digest "admin123" "admin124"
              SampleAccounts.salt_admin "" sample_digest_ascii Hsalt)
    as (Hsame & Hother & _).
  split; [exact Hsame|].
  change (SampleAccounts.password_hash Sample.u_admin)
    with (hash_password SampleAccounts.digest "admin123" SampleAccounts.salt_admin).
  rewrite Hother. vm_compute. reflexivity.
Defined.

(** X19 on the sample accounts: the manager, a member of [org_a] and of
    [org_b], logs in; the session is bound to [org_b], which she joined
    first, and is gone 14 days later. *)
Lemma login_effect_witness :
  let out :=
    @auth_request ieee SampleAccounts.digest SampleAccounts.password_hash
      SampleAccounts.joined 100 SampleAccounts.tok_new None
      (Login " maria " "s3cret") SampleAccounts.store in
  ar_status (fst out) = OK /\
  option_map (fun a => (a_orgId a, a_role a))
    (fst (_get_current_auth 200 (Some SampleAccounts.tok_new) (snd out)))
  = Some (Sample.org_b, viewer) /\
  _get_current_auth (100 + 1209600) (Some SampleAccounts.tok_new) (snd out)
  = (None, SampleAccounts.store).
Proof.
  intros out.
  destruct (@login_effect ieee SampleAccounts.digest SampleAccounts.password_hash
              SampleAccounts.joined 100%Z SampleAccounts.tok_new None
              " maria " "s3cret" SampleAccounts.store) as [_ H].
  destruct (H (Sample.user Sample.u_mgr "maria") eq_refl) as [_ Hverified].
  assert (Hpass : verify_password SampleAccounts.digest "s3cret"
                    (SampleAccounts.password_hash
                       (u_id (Sample.user Sample.u_mgr "maria"))) = inr true)
    by (vm_compute; reflexivity).
  destruct (Hverified Hpass) as [_ Hmember].
  assert (Htoken : SampleAccounts.tok_new <> "") by discriminate.
  destruct (Hmember
              {| m_user_id := Sample.u_mgr; m_org_id := Sample.org_b;
                 m_role := viewer |}
              {| o_id := Sample.org_b; o_name := "B"; o_join_code := None |}
              eq_refl eq_refl Htoken eq_refl eq_refl)
    as (Hroute & _ & _ & _ & Hlive & Hdead).
  fold out in Hroute. rewrite Hroute. cbn [fst snd ar_status].
  split; [reflexivity|]. split.
  - assert (Ht : (200 < 100 + timedelta_days SESSION_TTL_DAYS)%Z) by reflexivity.
    rewrite (proj1 (Hlive 200%Z Ht)). reflexivity.
  - apply Hdead. vm_compute. discriminate.
Defined.

(** X22 on the sample store: the stocks stay above the records through a
    receipt and a receipt deletion; and from an empty ledger a product is
    created with 12 units and shipped twice by 8 in one payload: the stock
    is 12 - 16. *)
Lemma stock_accounting_witness :
  let reqs :=
    [(Sample.env, Some Sample.tok_mgr, @PostReceipt ieee Sample.p_1 7 80%float);
     (Sample.env, Some Sample.tok_mgr, @DeleteReceipt ieee Sample.r_1);
     (Sample.env, Some Sample.tok_mgr,
      @PostShipment ieee [Sample.order Sample.p_2 10])] in
  let fresh := with_ledger Sample.store [] [] [] [] in
  let reqs' :=
    [(Sample.env, Some Sample.tok_mgr,
      @PostProduct ieee "Gauze" "" "" 40%float 12 25%float);
     (Sample.env, Some Sample.tok_mgr,
      @PostShipment ieee [Sample.order Sample.p_new 8; Sample.order Sample.p_new 8])] in
  accounted (run reqs Sample.store) = true /\
  balanced (run reqs' fresh) = true /\
  map p_stock (org_products (run reqs' fresh)) = [(-4)%Z].
Proof.
  intros reqs fresh reqs'.
  assert (Hpk : products_keyed Sample.store = true) by (vm_compute; reflexivity).
  assert (Hrk : receipts_keyed Sample.store = true) by (vm_compute; reflexivity).
  assert (Hacc : accounted Sample.store = true) by (vm_compute; reflexivity).
  assert (Hfits : sums_fit reqs Sample.store = true) by (vm_compute; reflexivity).
  destruct (@stock_accounting ieee reqs Sample.store sample_store_ok Hpk Hrk Hfits)
    as [H1 _].
  assert (Hok' : store_ok fresh = true) by (vm_compute; reflexivity).
  assert (Hpk' : products_keyed fresh = true) by reflexivity.
  assert (Hrk' : receipts_keyed fresh = true) by reflexivity.
  assert (Hkeep : forallb (fun x => keeps_receipts (snd x)) reqs' = true)
    by reflexivity.
  assert (Hbal : balanced fresh = true) by reflexivity.
  assert (Hfits' : sums_fit reqs' fresh = true) by (vm_compute; reflexivity).
  destruct (@stock_accounting ieee reqs' fresh Hok' Hpk' Hrk' Hfits') as [_ H2].
  split; [exact (proj1 (H1 Hacc))|]. split; [exact (proj1 (H2 Hkeep Hbal))|].
  vm_compute. reflexivity.
Defined.

(** X21 on a path with a trailing segment. *)
Lemma api_route_segments_witness :
  api_route "DELETE" "/api/products/p_3f9a1c07de/history"
  = Some (RouteDeleteProduct "p_3f9a1c07de") /\
  api_route "PATCH" "/api/products/p_3f9a1c07de/price"
  = Some (RoutePrice "p_3f9a1c07de").
Proof.
  assert (Hid : str_contains "/" "p_3f9a1c07de" = false) by reflexivity.
  destruct (api_route_segments "DELETE" "/api/state" "p_3f9a1c07de" "history")
    as [_ H].
  destruct (H Hid) as (_ & Hdel & _ & _ & _ & _ & Hprice).
  split; [exact Hdel|exact Hprice].
Defined.

(** X23 on the organizations of the sample store: the first draw is the
    code of [org_a], the second becomes the code of [org_b]. *)
Lemma join_code_migration_witness :
  init_db_join_codes ["A1B2C3"; "7F00C2"] (organizations Sample.store)
  = Migrated
      [{| o_id := Sample.org_a; o_name := "A"; o_join_code := Some "A1B2C3" |};
       {| o_id := Sample.org_b; o_name := "B"; o_join_code := Some "7F00C2" |}]
      [] /\
  exists orgs' tape',
    init_db_join_codes ["7F00C2"] (organizations Sample.store)
    = Migrated orgs' tape'.
Proof.
  split; [vm_compute; reflexivity|].
  destruct (join_code_migration ["7F00C2"] (organizations Sample.store))
    as (_ & _ & Hends).
  apply Hends.
  - reflexivity.
  - intros c [<-|[]] Hin. vm_compute in Hin. destruct Hin as [E|[]]. discriminate.
  - vm_compute. apply le_n.
Defined.
